(** * Neuro PDF Comparator Agent: comparison and orchestration core

    A shallow embedding of the comparison-and-orchestration subsystem
    (processors, comparison engine, learning module, workflow executor
    and the agent's [compare_content] step), followed by the properties
    proved about it.

    Conventions of the embedding:
    - Python [int] is [Z]; a Python [float] is an IEEE 754 binary64
      number.  Font sizes and the font size tolerance are the kernel's
      binary64 [float], with its rounding subtraction and its comparisons,
      because the size records depend on the rounding (a difference next
      to the tolerance or to the 1.0 threshold, the ["difference"] field);
      timestamps, durations, scores and layout measures are exact
      rationals [Q], and what is proved about them relates the values
      through the comparisons of the source only;
    - a [dict] used as a keyed store is a [gmap]; a [dict] whose iteration
      order is observable is an insertion-ordered association list
      ([Py.odict]);
    - a dict with a fixed set of keys is a record; a key read through
      [.get] is an [option] field;
    - a raised exception is an [Err] result of the [res] monad;
    - [time.time()] reads an explicit clock threaded through the state. *)

From Stdlib Require Import Floats.
From Stdlib Require Import Ascii QArith Qabs Lqa.
From stdpp Require Import gmap strings list sorting pretty.

Open Scope Z_scope.

(** A decimal float literal denotes the nearest binary64 number, as it
    does in Python. *)
Set Warnings "-inexact-float".

(** ** Python runtime: exceptions, numbers, ordered dictionaries *)

Module Py.

(** Exceptions the modelled code can raise.  [OutOfFuel] is not a Python
    exception: it marks a bounded loop of the model that was cut short,
    and no [except] clause catches it. *)
Inductive exn :=
| KeyError (key : string)
| IndexError
| ValueError (msg : string)
| TypeError (msg : string)
| ZeroDivisionError
| OutOfFuel.

Inductive res (A : Type) :=
| Ok (a : A)
| Err (e : exn).
Arguments Ok {A} a.
Arguments Err {A} e.

Definition bind {A B} (m : res A) (f : A -> res B) : res B :=
  match m with
  | Ok a => f a
  | Err e => Err e
  end.

(** [str(e)] *)
Definition str_exn (e : exn) : string :=
  match e with
  | KeyError k => "'" +:+ k +:+ "'"
  | IndexError => "list index out of range"
  | ValueError m => m
  | TypeError m => m
  | ZeroDivisionError => "division by zero"
  | OutOfFuel => "out of fuel"
  end.

(** [d[key]] on an optional record field. *)
Definition getitem {A} (key : string) (o : option A) : res A :=
  match o with
  | Some a => Ok a
  | None => Err (KeyError key)
  end.

(** [l[i]] *)
Definition index {A} (l : list A) (i : nat) : res A :=
  match l !! i with
  | Some a => Ok a
  | None => Err IndexError
  end.

(** Comparisons and the [min]/[max] builtins on numbers: [max(a, b)]
    is [b] when [b > a] and [a] otherwise; [min(a, b)] is [b] when
    [b < a] and [a] otherwise. *)
Definition Qltb (x y : Q) : bool := negb (Qle_bool y x).
Definition Qgtb (x y : Q) : bool := Qltb y x.
Definition max (a b : Q) : Q := if Qgtb b a then b else a.
Definition min (a b : Q) : Q := if Qltb b a then b else a.

(** [x > y] on binary64 floats; it is false when an operand is NaN. *)
Definition fgtb (x y : float) : bool := (y <? x)%float.

(** [a / b] *)
Definition truediv (a b : Q) : res Q :=
  if Qeq_bool b 0 then Err ZeroDivisionError else Ok (a / b)%Q.

(** Insertion-ordered dictionary: assigning to a present key keeps its
    position, assigning to a new key appends it. *)
Definition odict (V : Type) := list (string * V).

Fixpoint od_get {V} (k : string) (d : odict V) : option V :=
  match d with
  | [] => None
  | (k', v) :: d' => if String.eqb k k' then Some v else od_get k d'
  end.

Fixpoint od_set {V} (k : string) (v : V) (d : odict V) : odict V :=
  match d with
  | [] => [(k, v)]
  | (k', v') :: d' =>
      if String.eqb k k' then (k, v) :: d' else (k', v') :: od_set k v d'
  end.

Definition od_contains {V} (k : string) (d : odict V) : bool :=
  match od_get k d with Some _ => true | None => false end.

(** [d.update(other)] *)
Definition od_update {V} (d other : odict V) : odict V :=
  fold_left (fun acc kv => od_set kv.1 kv.2 acc) other d.

(** [{key(x): val(x) for x in xs}] *)
Definition od_comprehension {X V} (key : X -> string) (val : X -> V)
    (xs : list X) : odict V :=
  fold_left (fun acc x => od_set (key x) (val x) acc) xs [].

(** A loop whose body may raise: the first exception ends it. *)
Fixpoint foldM {X S} (body : S -> X -> res S) (xs : list X) (s : S) : res S :=
  match xs with
  | [] => Ok s
  | x :: xs' => bind (body s x) (foldM body xs')
  end.

End Py.

#[global] Instance res_bind : MBind Py.res := fun _ _ f m => Py.bind m f.
#[global] Instance res_ret : MRet Py.res := fun _ a => Py.Ok a.

(** ** Difference records as the engine and the learning module read them *)

(** A difference record is a dict of which the scoring and learning code
    reads the keys ["type"], ["severity"] and ["operation"], each through
    [.get] with a default. *)
Record difference := {
  d_type : option string;
  d_severity : option string;
  d_operation : option string
}.

(** ** config/settings.py: sensitivity levels *)

Module Settings.

(** Keys the comparators read through [.get] are optional fields. *)
Record text_config := {
  strict : option bool;
  ignore_whitespace : option bool;
  ignore_case : option bool;
  ignore_punctuation : option bool;
  character_level : option bool
}.

Record font_config := {
  size_tolerance : option float;
  style_check : option bool;
  family_check : option bool;
  color_check : option bool;
  weight_check : option bool
}.

Record image_config := {
  method : option string;
  hash_algorithm : option string;
  pixel_perfect : option bool;
  compression_check : option bool
}.

Record layout_config := {
  position_tolerance : option Q;
  layout_size_tolerance : option Q;
  margin_check : option bool;
  spacing_check : option bool
}.

Record sensitivity := {
  text : text_config;
  font : font_config;
  image : image_config;
  layout : layout_config
}.

Definition high : sensitivity :=
  {| text := {| strict := Some true; ignore_whitespace := Some false;
                ignore_case := Some false; ignore_punctuation := Some false;
                character_level := Some true |};
     font := {| size_tolerance := Some 0.1%float; style_check := Some true;
                family_check := Some true; color_check := Some true;
                weight_check := Some true |};
     image := {| method := Some "binary"; hash_algorithm := Some "sha256";
                 pixel_perfect := Some true; compression_check := Some true |};
     layout := {| position_tolerance := Some 1%Q; layout_size_tolerance := Some 1%Q;
                  margin_check := Some true; spacing_check := Some true |} |}.

Definition medium : sensitivity :=
  {| text := {| strict := Some true; ignore_whitespace := Some true;
                ignore_case := Some false; ignore_punctuation := Some false;
                character_level := Some false |};
     font := {| size_tolerance := Some 0.5%float; style_check := Some true;
                family_check := Some true; color_check := Some false;
                weight_check := Some false |};
     image := {| method := Some "binary"; hash_algorithm := Some "md5";
                 pixel_perfect := Some false; compression_check := Some false |};
     layout := {| position_tolerance := Some 5%Q; layout_size_tolerance := Some 5%Q;
                  margin_check := Some false; spacing_check := Some false |} |}.

Definition low : sensitivity :=
  {| text := {| strict := Some false; ignore_whitespace := Some true;
                ignore_case := Some true; ignore_punctuation := Some true;
                character_level := Some false |};
     font := {| size_tolerance := Some 1.0%float; style_check := Some false;
                family_check := Some false; color_check := Some false;
                weight_check := Some false |};
     image := {| method := Some "binary"; hash_algorithm := Some "md5";
                 pixel_perfect := Some false; compression_check := Some false |};
     layout := {| position_tolerance := Some 10%Q; layout_size_tolerance := Some 10%Q;
                  margin_check := Some false; spacing_check := Some false |} |}.

Definition SENSITIVITY_LEVELS : gmap string sensitivity :=
  list_to_map [("high", high); ("medium", medium); ("low", low)].

Definition get_sensitivity_config (level : string) : sensitivity :=
  default medium (SENSITIVITY_LEVELS !! level).

End Settings.

(** ** Extracted document content *)

(** One element of the [text] list of a parsed document.  A Python [str]
    is a [string] whose characters are its code points. *)
Record page := {
  page_num : Z;
  page_text : string
}.

(** A font dict; each key may be missing.  The size is the float that
    the extractor reports for a span. *)
Record font := {
  f_name : option string;
  f_family : option string;
  f_size : option float;
  f_style : option string;
  f_color : option Z;
  f_flags : option Z
}.

(** An image dict. *)
Record image := {
  img_data : option (list Byte.byte);
  img_ext : option string;
  img_page : option Z
}.

(** The result of [PDFParser.parse_pdf].  Its [text] is the list of pages,
    or the initial empty string when parsing failed, which iterates like
    the empty list; an element of [images] that is [None] stands for a
    falsy entry. *)
Record document := {
  doc_text : list page;
  doc_images : list (option image);
  doc_fonts : list font;
  doc_error : option string
}.

(** The fonts and images [parse_pdf] builds carry every key the
    comparators index. *)
Definition extracted_font (f : font) : Prop :=
  is_Some (f_name f) /\ is_Some (f_size f).

Definition extracted_image (im : option image) : Prop :=
  match im with
  | Some i => is_Some (img_data i)
  | None => True
  end.

(** The iteration order of a Python [set] of strings is not fixed by the
    language; a comparator that iterates over a set takes this order as a
    parameter, which lists each member once. *)
Definition set_order (set_iter : gset string -> list string) : Prop :=
  forall s : gset string, set_iter s ≡ₚ elements s.

(** ** comparison_engine.py *)

Module ComparisonEngine.

Definition weights : gmap string Q :=
  list_to_map [("text", 1.0%Q); ("image", 0.8%Q); ("font", 0.3%Q); ("layout", 0.5%Q)].

Definition calculate_similarity_score (differences : list difference)
    (total_elements : Z) : Py.res Q :=
  if total_elements =? 0 then Py.Ok 1.0%Q
  else
    let weighted_changes :=
      fold_left
        (fun acc diff =>
           let change_type := default "text" (d_type diff) in
           let weight := default 1.0%Q (weights !! change_type) in
           (acc + weight)%Q)
        differences 0%Q in
    q ← Py.truediv weighted_changes (inject_Z total_elements);
    let similarity := (1 - q)%Q in
    Py.Ok (Py.max 0.0%Q (Py.min 1.0%Q similarity)).

(** A record [compare_fonts_detailed] appends; [severity] gives the value
    of its ["severity"] key. *)
Inductive font_difference :=
| AddedFamily (family : string)
| RemovedFamily (family : string)
| Size (font_name : string) (reference_size new_size difference : float)
    (size_severity : string)
| Style (font_name : string) (reference_style new_style : string)
| Color (font_name : string) (reference_color new_color : option Z).

Definition severity (d : font_difference) : string :=
  match d with
  | AddedFamily _ | RemovedFamily _ => "medium"
  | Size _ _ _ _ sev => sev
  | Style _ _ _ => "medium"
  | Color _ _ _ => "minor"
  end.

Definition change (d : font_difference) : string :=
  match d with
  | AddedFamily _ => "added_family"
  | RemovedFamily _ => "removed_family"
  | Size _ _ _ _ _ => "size"
  | Style _ _ _ => "style"
  | Color _ _ _ => "color"
  end.

(** The size records that name a given font. *)
Definition is_size_record (name : string) (d : font_difference) : bool :=
  match d with
  | Size n _ _ _ _ => String.eqb n name
  | _ => false
  end.

(** The size records for the fonts of [font_dict1] also in [font_dict2].
    [abs(size1 - size2)] is computed in binary64; a missing size reads as
    0. *)
Definition size_differences (size_tolerance : float)
    (font_dict1 font_dict2 : Py.odict font) : list font_difference :=
  flat_map
    (fun kv =>
       let font_name := kv.1 in
       let font1 := kv.2 in
       match Py.od_get font_name font_dict2 with
       | Some font2 =>
           let size1 := default 0%float (f_size font1) in
           let size2 := default 0%float (f_size font2) in
           if Py.fgtb (abs (size1 - size2)) size_tolerance then
             [ Size font_name size1 size2 (abs (size1 - size2))
                 (if (abs (size1 - size2) <=? 1.0)%float then "minor" else "medium") ]
           else []
       | None => []
       end)
    font_dict1.

Definition style_differences (font_dict1 font_dict2 : Py.odict font)
    : list font_difference :=
  flat_map
    (fun kv =>
       let font_name := kv.1 in
       let font1 := kv.2 in
       match Py.od_get font_name font_dict2 with
       | Some font2 =>
           let style1 := default "" (f_style font1) in
           let style2 := default "" (f_style font2) in
           if bool_decide (style1 <> style2) then [ Style font_name style1 style2 ]
           else []
       | None => []
       end)
    font_dict1.

(** A missing ["color"] reads as the empty string, which differs from
    every colour number and equals itself. *)
Definition color_differences (font_dict1 font_dict2 : Py.odict font)
    : list font_difference :=
  flat_map
    (fun kv =>
       let font_name := kv.1 in
       let font1 := kv.2 in
       match Py.od_get font_name font_dict2 with
       | Some font2 =>
           let color1 := f_color font1 in
           let color2 := f_color font2 in
           if bool_decide (color1 <> color2) then [ Color font_name color1 color2 ]
           else []
       | None => []
       end)
    font_dict1.

Definition compare_fonts_detailed (set_iter : gset string -> list string)
    (fonts1 fonts2 : list font) (config : Settings.font_config)
    : list font_difference :=
  let size_tolerance := default 0.5%float (Settings.size_tolerance config) in
  let font_dict1 := Py.od_comprehension (fun f => default "" (f_name f)) id fonts1 in
  let font_dict2 := Py.od_comprehension (fun f => default "" (f_name f)) id fonts2 in
  let differences :=
    if default true (Settings.family_check config) then
      let families1 : gset string :=
        list_to_set ((fun f => default "" (f_family f)) <$> fonts1) in
      let families2 : gset string :=
        list_to_set ((fun f => default "" (f_family f)) <$> fonts2) in
      let added_families := families2 ∖ families1 in
      let removed_families := families1 ∖ families2 in
      (AddedFamily <$> set_iter added_families)
      ++ (RemovedFamily <$> set_iter removed_families)
    else [] in
  let differences :=
    differences ++ size_differences size_tolerance font_dict1 font_dict2 in
  let differences :=
    if default true (Settings.style_check config)
    then differences ++ style_differences font_dict1 font_dict2
    else differences in
  let differences :=
    if default false (Settings.color_check config)
    then differences ++ color_differences font_dict1 font_dict2
    else differences in
  differences.

End ComparisonEngine.

(** ** Specification-side definitions *)

Module Spec.

(** The fixed category weights of the similarity score. *)
Definition category_weight (category : string) : option Q :=
  if String.eqb category "text" then Some 1.0%Q
  else if String.eqb category "image" then Some 0.8%Q
  else if String.eqb category "font" then Some 0.3%Q
  else if String.eqb category "layout" then Some 0.5%Q
  else None.

(** A record of the data model carries one of the four categories. *)
Definition categorised (d : difference) : Prop :=
  exists c, d_type d = Some c /\ is_Some (category_weight c).

Definition record_weight (d : difference) : Q :=
  default 0%Q (d_type d ≫= category_weight).

Fixpoint weight_sum (ds : list difference) : Q :=
  match ds with
  | [] => 0%Q
  | d :: ds' => (record_weight d + weight_sum ds')%Q
  end.

(** Clamping to the interval [0, 1]. *)
Definition clamp01 (x : Q) : Q :=
  if Qle_bool x 0 then 0%Q else if Qle_bool 1 x then 1%Q else x.

Definition similarity (ds : list difference) (total : Z) : Q :=
  clamp01 (1 - weight_sum ds / inject_Z total)%Q.

End Spec.

(** ** The process environment: wall clock and the learning-data file *)

Module Env.

(** [timeline i] is the value of the [i]-th call of [time.time()];
    [ticks] counts the calls made so far.  [file] is the content of the
    learning-data file, as last written. *)
Record env (F : Type) := {
  timeline : nat -> Q;
  ticks : nat;
  file : option F
}.
Arguments timeline {F} _.
Arguments ticks {F} _.
Arguments file {F} _.

(** [time.time()] *)
Definition time_time {F} (e : env F) : Q * env F :=
  (timeline e (ticks e),
   {| timeline := timeline e; ticks := S (ticks e); file := file e |}).

Definition write_file {F} (content : F) (e : env F) : env F :=
  {| timeline := timeline e; ticks := ticks e; file := Some content |}.

(** The wall clock never runs backwards. *)
Definition monotone (timeline : nat -> Q) : Prop :=
  forall i j : nat, (i <= j)%nat -> (timeline i <= timeline j)%Q.

End Env.

(** ** The data handed to the learning modules *)

(** An element of [comparison_data['differences']]: a dict, or anything
    else ([isinstance(diff, dict)] fails). *)
Inductive diff_item :=
| DictItem (d : difference)
| OtherItem.

(** [comparison_data], of which the code reads ['differences'] (guarded by
    [in]) and, in the mock module, ['type'] and ['severity']. *)
Record comparison_data := {
  cd_type : option string;
  cd_severity : option string;
  cd_differences : option (list diff_item)
}.

(** A stored statistic value. *)
Inductive value :=
| VInt (z : Z)
| VFloat (q : Q)
| VStr (s : string)
| VNone.

(** ** String helpers of the key derivation *)

Module Str.

(** [sep.join(parts)] *)
Fixpoint join (sep : string) (parts : list string) : string :=
  match parts with
  | [] => ""
  | [p] => p
  | p :: ps => p +:+ sep +:+ join sep ps
  end.

Definition le (x y : string) : Prop := String.leb x y = true.

#[global] Instance le_dec (x y : string) : Decision (le x y).
Proof. unfold le. apply _. Defined.

(** [sorted(set(xs))] *)
Definition sorted_set (xs : list string) : list string :=
  merge_sort le (remove_dups xs).

End Str.

(** ** learning_module.py *)

Module LearningModule.

Record example := {
  ex_timestamp : Q;
  ex_data : comparison_data
}.

Record pattern := {
  count : Z;
  first_seen : Q;
  last_seen : Q;
  examples : list example;
  metadata : comparison_data
}.

Record stat_entry := {
  se_value : value;
  se_timestamp : Q
}.

(** One entry of [performance_metrics]; [min_duration] is [None] while it
    is still [float('inf')]. *)
Record perf := {
  total_operations : Z;
  successful_operations : Z;
  failed_operations : Z;
  total_duration : Q;
  avg_duration : Q;
  min_duration : option Q;
  max_duration : Q
}.

(** The fields of a [LearningModule] object. *)
Record self := {
  patterns : gmap string pattern;
  statistics : gmap string (list stat_entry);
  frequent_changes : gmap string Z;
  performance_metrics : gmap string perf
}.

(** The document [_save_data] writes. *)
Record saved := {
  sv_patterns : gmap string pattern;
  sv_statistics : gmap string (list stat_entry);
  sv_frequent_changes : gmap string Z;
  sv_performance_metrics : gmap string perf;
  sv_last_updated : Q
}.

Definition state : Type := self * Env.env saved.

(** [__init__] with no learning-data file present. *)
Definition fresh : self :=
  {| patterns := ∅; statistics := ∅; frequent_changes := ∅;
     performance_metrics := ∅ |}.

(** The write is taken to succeed; a failing write is logged and leaves
    the object unchanged all the same. *)
Definition _save_data (st : state) : state :=
  let '(s, e) := st in
  let '(now, e) := Env.time_time e in
  (s, Env.write_file
        {| sv_patterns := patterns s; sv_statistics := statistics s;
           sv_frequent_changes := frequent_changes s;
           sv_performance_metrics := performance_metrics s;
           sv_last_updated := now |} e).

Definition _extract_pattern_key (data : comparison_data) : string :=
  let dicts :=
    match cd_differences data with
    | Some differences =>
        omap (fun diff => match diff with DictItem d => Some d | OtherItem => None end)
          differences
    | None => []
    end in
  let change_types := (fun d => default "unknown" (d_type d)) <$> dicts in
  let severities := (fun d => default "unknown" (d_severity d)) <$> dicts in
  let change_type_str :=
    match change_types with
    | [] => "no_changes"
    | _ => Str.join "_" (Str.sorted_set change_types)
    end in
  let severity_str :=
    match severities with
    | [] => "no_severity"
    | _ => Str.join "_" (Str.sorted_set severities)
    end in
  change_type_str +:+ "_" +:+ severity_str.

Definition _update_frequent_changes (data : comparison_data)
    (fc : gmap string Z) : gmap string Z :=
  match cd_differences data with
  | Some differences =>
      fold_left
        (fun fc diff =>
           match diff with
           | DictItem d =>
               let change_type := default "unknown" (d_type d) in
               let operation := default "unknown" (d_operation d) in
               let change_signature := change_type +:+ "_" +:+ operation in
               <[change_signature := default 0 (fc !! change_signature) + 1]> fc
           | OtherItem => fc
           end)
        differences fc
  | None => fc
  end.

Definition set_patterns (s : self) (ps : gmap string pattern) : self :=
  {| patterns := ps; statistics := statistics s;
     frequent_changes := frequent_changes s;
     performance_metrics := performance_metrics s |}.

Definition set_statistics (s : self) (ss : gmap string (list stat_entry)) : self :=
  {| patterns := patterns s; statistics := ss;
     frequent_changes := frequent_changes s;
     performance_metrics := performance_metrics s |}.

Definition set_frequent_changes (s : self) (fc : gmap string Z) : self :=
  {| patterns := patterns s; statistics := statistics s;
     frequent_changes := fc;
     performance_metrics := performance_metrics s |}.

(** [examples.append(x)] followed by [if len(examples) > 10: examples.pop(0)] *)
Definition append_bounded (examples : list example) (x : example) : list example :=
  let examples := examples ++ [x] in
  if (10 <? length examples)%nat then tail examples else examples.

Definition update_patterns (data : comparison_data) (st : state) : state :=
  let '(s, e) := st in
  let pattern_key := _extract_pattern_key data in
  (* update pattern frequency *)
  let '(p, e) :=
    match patterns s !! pattern_key with
    | None =>
        let '(t1, e) := Env.time_time e in
        let '(t2, e) := Env.time_time e in
        ({| count := 0; first_seen := t1; last_seen := t2; examples := [];
            metadata := data |}, e)
    | Some p =>
        let '(t, e) := Env.time_time e in
        ({| count := count p + 1; first_seen := first_seen p; last_seen := t;
            examples := examples p; metadata := metadata p |}, e)
    end in
  (* store example (limit to last 10) *)
  let '(t, e) := Env.time_time e in
  let p :=
    {| count := count p; first_seen := first_seen p; last_seen := last_seen p;
       examples := append_bounded (examples p) {| ex_timestamp := t; ex_data := data |};
       metadata := metadata p |} in
  let s := set_patterns s (<[pattern_key := p]> (patterns s)) in
  let s := set_frequent_changes s (_update_frequent_changes data (frequent_changes s)) in
  _save_data (s, e).

(** [lst[-1000:]] *)
Definition last_1000 {A} (l : list A) : list A :=
  drop (length l - 1000) l.

Definition update_statistics (metric : string) (v : value) (st : state) : state :=
  let '(s, e) := st in
  let entries := default [] (statistics s !! metric) in
  let '(t, e) := Env.time_time e in
  let entries := entries ++ [ {| se_value := v; se_timestamp := t |} ] in
  (* keep only last 1000 entries *)
  let entries :=
    if (1000 <? length entries)%nat then last_1000 entries else entries in
  _save_data (set_statistics s (<[metric := entries]> (statistics s)), e).

(** The two loops of [clear_old_data] visit every key once and rewrite or
    delete only the entry of that key, so each is a map over the
    entries that may drop them. *)
Definition clear_old_data (days_to_keep : Z) (st : state) : state :=
  let '(s, e) := st in
  let '(now, e) := Env.time_time e in
  let cutoff_time := (now - inject_Z (days_to_keep * 24 * 3600))%Q in
  (* clear old statistics *)
  let stats :=
    omap (fun entries =>
            let kept := filter (fun v => Py.Qgtb (se_timestamp v) cutoff_time = true) entries in
            match kept with
            | [] => None            (* remove empty metrics *)
            | _ => Some kept
            end)
         (statistics s) in
  (* clear old patterns (keep only recent examples) *)
  let pats :=
    omap (fun p =>
            let kept := filter (fun ex => Py.Qgtb (ex_timestamp ex) cutoff_time = true) (examples p) in
            let p :=
              {| count := count p; first_seen := first_seen p;
                 last_seen := last_seen p; examples := kept;
                 metadata := metadata p |} in
            match kept with
            | [] => if Py.Qltb (last_seen p) cutoff_time then None else Some p
            | _ => Some p
            end)
         (patterns s) in
  _save_data (set_patterns (set_statistics s stats) pats, e).

Definition get_frequent_patterns (min_frequency : Z) (s : self) : gmap string pattern :=
  filter (fun kv => min_frequency <= count kv.2) (patterns s).

(** [get_frequent_changes] *)
Definition get_frequent_changes (min_frequency : Z) (s : self) : gmap string Z :=
  filter (fun kv => min_frequency <= kv.2) (frequent_changes s).

Definition set_performance_metrics (s : self) (pm : gmap string perf) : self :=
  {| patterns := patterns s; statistics := statistics s;
     frequent_changes := frequent_changes s;
     performance_metrics := pm |}.

(** The entry [update_performance_metrics] creates for a new operation. *)
Definition initial_perf : perf :=
  {| total_operations := 0; successful_operations := 0; failed_operations := 0;
     total_duration := 0.0%Q; avg_duration := 0.0%Q; min_duration := None;
     max_duration := 0.0%Q |}.

(** [min(metrics['min_duration'], duration)]: a duration is below the
    initial [float('inf')]. *)
Definition min_with_inf (m : option Q) (duration : Q) : Q :=
  match m with
  | None => duration
  | Some m => Py.min m duration
  end.

(** The counters are updated in place before the average is computed, so
    they stay updated, unsaved, when the division raises. *)
Definition update_performance_metrics (operation : string) (duration : Q)
    (success : bool) (st : state) : Py.res unit * state :=
  let '(s, e) := st in
  let metrics := default initial_perf (performance_metrics s !! operation) in
  let metrics :=
    {| total_operations := total_operations metrics + 1;
       successful_operations :=
         if success then successful_operations metrics + 1
         else successful_operations metrics;
       failed_operations :=
         if success then failed_operations metrics
         else failed_operations metrics + 1;
       total_duration := (total_duration metrics + duration)%Q;
       avg_duration := avg_duration metrics;
       min_duration := min_duration metrics;
       max_duration := max_duration metrics |} in
  match Py.truediv (total_duration metrics) (inject_Z (total_operations metrics)) with
  | Py.Err err =>
      (Py.Err err,
       (set_performance_metrics s (<[operation := metrics]> (performance_metrics s)), e))
  | Py.Ok avg =>
      let metrics :=
        {| total_operations := total_operations metrics;
           successful_operations := successful_operations metrics;
           failed_operations := failed_operations metrics;
           total_duration := total_duration metrics;
           avg_duration := avg;
           min_duration := Some (min_with_inf (min_duration metrics) duration);
           max_duration := Py.max (max_duration metrics) duration |} in
      (Py.Ok tt,
       _save_data
         (set_performance_metrics s (<[operation := metrics]> (performance_metrics s)), e))
  end.

(** [isinstance(v, (int, float))], with the number. *)
Definition numeric (v : value) : option Q :=
  match v with
  | VInt z => Some (inject_Z z)
  | VFloat q => Some q
  | VStr _ | VNone => None
  end.

(** [sum(xs)] *)
Definition sum (xs : list Q) : Q := fold_left Qplus xs 0%Q.

Definition predict_comparison_time (file_count : Z) (avg_file_size_mb : Q)
    (s : self) : Py.res Q :=
  match statistics s !! "comparison_duration" with
  | None => Py.Ok 30.0%Q
  | Some entries =>
      let durations := omap (fun v => numeric (se_value v)) entries in
      match durations with
      | [] => Py.Ok 30.0%Q
      | _ =>
          avg_duration_per_file ←
            Py.truediv (sum durations) (inject_Z (Z.of_nat (length durations)));
          let estimated_time := (avg_duration_per_file * inject_Z file_count)%Q in
          ratio ← Py.truediv avg_file_size_mb 5.0%Q;
          let size_factor := Py.min 2.0%Q (Py.max 0.5%Q ratio) in
          Py.Ok (estimated_time * size_factor)%Q
      end
  end.

End LearningModule.

(** ** neuro_ai_mock.py: the learning module the agent instantiates *)

Module MockLearningModule.

Record pattern := {
  count : Z;
  first_seen : Q;
  last_seen : Q;
  data : comparison_data
}.

Record self := {
  patterns : gmap string pattern;
  statistics : gmap string (list value)
}.

Definition state : Type := self * Env.env self.

Definition fresh : self := {| patterns := ∅; statistics := ∅ |}.

Definition _save_data (st : state) : state :=
  let '(s, e) := st in (s, Env.write_file s e).

Definition _extract_pattern_key (data : comparison_data) : string :=
  default "unknown" (cd_type data) +:+ "_" +:+ default "unknown" (cd_severity data).

Definition update_patterns (cd : comparison_data) (st : state) : state :=
  let '(s, e) := st in
  let pattern_key := _extract_pattern_key cd in
  let '(p, e) :=
    match patterns s !! pattern_key with
    | None =>
        let '(t1, e) := Env.time_time e in
        let '(t2, e) := Env.time_time e in
        ({| count := 0; first_seen := t1; last_seen := t2; data := cd |}, e)
    | Some p =>
        let '(t, e) := Env.time_time e in
        ({| count := count p + 1; first_seen := first_seen p; last_seen := t;
            data := data p |}, e)
    end in
  _save_data
    ({| patterns := <[pattern_key := p]> (patterns s);
        statistics := statistics s |}, e).

Definition update_statistics (metric : string) (v : value) (st : state) : state :=
  let '(s, e) := st in
  let entries := default [] (statistics s !! metric) in
  _save_data
    ({| patterns := patterns s;
        statistics := <[metric := entries ++ [v]]> (statistics s) |}, e).

End MockLearningModule.


(** ** Runs of the learning module *)

Module Runs.
Import LearningModule.

(** A sequence of [update_statistics] calls, oldest first. *)
Definition run_updates (calls : list (string * value)) (st : state) : state :=
  fold_left (fun st c => update_statistics c.1 c.2 st) calls st.

(** Every entry the calls append for [metric], oldest first, when the
    first call reads the clock at [tick]: each call reads it once for the
    entry and once when saving. *)
Fixpoint appended (metric : string) (calls : list (string * value))
    (timeline : nat -> Q) (tick : nat) : list stat_entry :=
  match calls with
  | [] => []
  | (m, v) :: calls' =>
      (if String.eqb m metric
       then [ {| se_value := v; se_timestamp := timeline tick |} ]
       else [])
      ++ appended metric calls' timeline (S (S tick))
  end.

(** A clock that advances one second per reading. *)
Definition seconds_from (start : Z) : nat -> Q :=
  fun i => inject_Z (start + Z.of_nat i).

Definition env_at {F} (start : Z) : Env.env F :=
  {| Env.timeline := seconds_from start; Env.ticks := 0; Env.file := None |}.

End Runs.


(** ** Retention, as the specification words it *)

Module Retention.
Import LearningModule.

#[global] Instance Qlt_decision (x y : Q) : Decision (x < y)%Q.
Proof.
  destruct (Qle_bool y x) eqn:H; [right | left].
  - apply Qle_bool_iff in H. apply Qle_not_lt. exact H.
  - apply Qnot_le_lt. intros Hle. apply Qle_bool_iff in Hle. congruence.
Defined.

(** The cutoff [clear_old_data] computes when it reads the clock. *)
Definition cutoff_time (days_to_keep : Z) (e : Env.env saved) : Q :=
  (Env.timeline e (Env.ticks e) - inject_Z (days_to_keep * 24 * 3600))%Q.

(** A timestamp is older than the cutoff when it lies strictly before it. *)
Definition older_than (cutoff timestamp : Q) : Prop := (timestamp < cutoff)%Q.

(** The trim removes exactly the statistics entries older than the cutoff,
    and removes a pattern iff no example is left and its [last_seen] is
    older than the cutoff. *)
Definition trims_exactly_the_older (days_to_keep : Z) (s : self)
    (e : Env.env saved) : Prop :=
  let cutoff := cutoff_time days_to_keep e in
  let s' := (clear_old_data days_to_keep (s, e)).1 in
  (forall metric : string,
     default [] (statistics s' !! metric)
     = filter (fun v => ~ older_than cutoff (se_timestamp v))
         (default [] (statistics s !! metric)))
  /\ (forall (key : string) (p : pattern),
        patterns s !! key = Some p ->
        (patterns s' !! key = None
         <-> filter (fun ex => ~ older_than cutoff (ex_timestamp ex)) (examples p) = []
             /\ older_than cutoff (last_seen p))).

(** A store with one statistics entry, recorded at second 100. *)
Definition one_entry_store : self :=
  {| patterns := ∅;
     statistics := {[ "total_changes" := [ {| se_value := VInt 3; se_timestamp := 100%Q |} ] ]};
     frequent_changes := ∅;
     performance_metrics := ∅ |}.

(** A store with a pattern last seen at second 100 and no example. *)
Definition idle_pattern : pattern :=
  {| count := 4; first_seen := 40%Q; last_seen := 100%Q; examples := [];
     metadata := {| cd_type := None; cd_severity := None; cd_differences := None |} |}.

Definition idle_pattern_store : self :=
  {| patterns := {[ "text_minor" := idle_pattern ]};
     statistics := ∅; frequent_changes := ∅; performance_metrics := ∅ |}.

(** A clock that reads one day after second 100. *)
Definition one_day_later : Env.env saved :=
  {| Env.timeline := fun _ => inject_Z (100 + 24 * 3600); Env.ticks := 0;
     Env.file := None |}.

End Retention.


(** ** neuro_ai_mock.py: tasks, agent and workflow *)

Module Orchestrator.

Inductive TaskStatus := PENDING | RUNNING | COMPLETED | FAILED | CANCELLED.

Inductive TaskPriority := LOW | NORMAL | HIGH | CRITICAL.

Section Workflows.

(** The values a context maps its keys to. *)
Context {V : Type}.

(** What a task function returns: a dict, or any other value. *)
Inductive result :=
| RDict (d : Py.odict V)
| ROther (v : V).

(** A task function receives the context as keyword arguments and
    returns its result or raises. *)
Record Task := {
  t_name : string;
  func : Py.odict V -> Py.res result;
  t_description : string;
  t_timeout : Z;
  t_retry_attempts : Z;
  priority : TaskPriority;
  t_parallel : bool;
  t_max_workers : Z;
  t_dependencies : list string
}.

Record WorkflowStep := {
  name : string;
  task : string;
  description : string;
  timeout : Z;
  retry_attempts : Z;
  parallel : bool;
  max_workers : Z;
  dependencies : list string
}.

Record Agent := {
  a_name : string;
  tasks : gmap string Task
}.

Definition add_task (t : Task) (a : Agent) : Agent :=
  {| a_name := a_name a; tasks := <[t_name t := t]> (tasks a) |}.

Definition get_task (a : Agent) (task_name : string) : option Task :=
  tasks a !! task_name.

(** One invocation of a task function: the task's name and the keyword
    arguments it was called with. *)
Definition call : Type := string * Py.odict V.

(** The signature is [execute_task(self, task_name, **kwargs)], and the
    call [agent.execute_task(task_name, **kwargs)] fills [self] and
    [task_name] by position.  A keyword named after one of them is a
    second value for that parameter: the keywords are read in the order
    of the dict, and the first such name is the one the [TypeError]
    reports. *)
Definition multiple_values (kwargs : Py.odict V) : option string :=
  fst <$> List.find (fun kv => bool_decide (kv.1 ∈ ["self"; "task_name"])) kwargs.

(** The call [agent.execute_task(task_name, **kwargs)]; it returns the
    calls of task functions it made besides its outcome.  Binding the
    arguments comes first and may raise before the body runs (the
    message is that of CPython 3.10 and later). *)
Definition execute_task (a : Agent) (task_name : string)
    (kwargs : Py.odict V) : list call * Py.res result :=
  match multiple_values kwargs with
  | Some k =>
      ([], Py.Err (Py.TypeError
                     ("Agent.execute_task() got multiple values for argument '"
                      +:+ k +:+ "'")))
  | None =>
      match get_task a task_name with
      | None => ([], Py.Err (Py.ValueError ("Task '" +:+ task_name +:+ "' not found")))
      | Some t => ([(task_name, kwargs)], func t kwargs)
      end
  end.

Record Workflow := {
  w_name : string;
  steps : list WorkflowStep;
  agent : option Agent
}.

Definition add_step (step : WorkflowStep) (w : Workflow) : Workflow :=
  {| w_name := w_name w; steps := steps w ++ [step]; agent := agent w |}.

Definition set_agent (a : Agent) (w : Workflow) : Workflow :=
  {| w_name := w_name w; steps := steps w; agent := Some a |}.

Definition _topological_sort (w : Workflow) : list WorkflowStep := steps w.

Definition _check_dependencies (step : WorkflowStep)
    (results : Py.odict result) : bool :=
  forallb (fun dep => Py.od_contains dep results) (dependencies step).

(** The context of a step: a copy of the workflow context, updated with
    every dict among the results so far, in the order they were stored. *)
Definition step_context (context : Py.odict V) (results : Py.odict result)
    : Py.odict V :=
  fold_left
    (fun ctx kv => match kv.2 with
                   | RDict d => Py.od_update ctx d
                   | ROther _ => ctx
                   end)
    results context.

(** The step loop of [execute], from the results and the calls made so
    far. *)
Fixpoint run_steps (a : Agent) (context : Py.odict V)
    (sorted_steps : list WorkflowStep) (results : Py.odict result)
    (log : list call) : list call * Py.res (Py.odict result) :=
  match sorted_steps with
  | [] => (log, Py.Ok results)
  | step :: rest =>
      if negb (_check_dependencies step results) then
        (log, Py.Err (Py.ValueError ("Dependencies not met for step: " +:+ name step)))
      else
        match execute_task a (task step) (step_context context results) with
        | (calls, Py.Ok step_result) =>
            run_steps a context rest (Py.od_set (name step) step_result results)
              (log ++ calls)
        | (calls, Py.Err e) => (log ++ calls, Py.Err e)
        end
  end.

Definition execute (w : Workflow) (context : Py.odict V)
    : list call * Py.res (Py.odict result) :=
  match agent w with
  | None => ([], Py.Err (Py.ValueError "No agent set for workflow"))
  | Some a => run_steps a context (_topological_sort w) [] []
  end.

End Workflows.

Arguments result : clear implicits.
Arguments Task : clear implicits.
Arguments Agent : clear implicits.
Arguments Workflow : clear implicits.
Arguments WorkflowStep : clear implicits.
Arguments call : clear implicits.

End Orchestrator.


(** ** A workflow declared out of order *)

Module OutOfOrder.
Import Orchestrator.

Definition mk_task (n : string) (f : Py.odict string -> Py.res (result string))
    : Task string :=
  {| t_name := n; func := f; t_description := ""; t_timeout := 300;
     t_retry_attempts := 3; priority := NORMAL; t_parallel := false;
     t_max_workers := 1; t_dependencies := [] |}.

Definition mk_step (n t : string) (deps : list string) : WorkflowStep :=
  {| name := n; task := t; description := ""; timeout := 300;
     retry_attempts := 3; parallel := false; max_workers := 1;
     dependencies := deps |}.

Definition the_agent : Agent string :=
  add_task (mk_task "task_b" (fun _ => Py.Ok (RDict [("b_done", "yes")])))
    (add_task (mk_task "task_a" (fun _ => Py.Ok (RDict [("a_done", "yes")])))
       (add_task (mk_task "scan_folders" (fun _ => Py.Ok (RDict [("total_files", "2")])))
          {| a_name := "PDF_Comparison_Agent"; tasks := ∅ |})).

Definition scan : WorkflowStep := mk_step "scan" "scan_folders" [].
Definition step_A : WorkflowStep := mk_step "A" "task_a" ["scan"].
Definition step_B : WorkflowStep := mk_step "B" "task_b" ["A"].

(** Step B depends on step A, but A is declared after B. *)
Definition workflow : Workflow string :=
  set_agent the_agent
    (add_step step_A
       (add_step step_B
          (add_step scan {| w_name := "out_of_order"; steps := []; agent := None |}))).

Definition context : Py.odict string := [("ref_folder", "ref"); ("new_folder", "new")].

End OutOfOrder.


(** ** difflib.SequenceMatcher, as the text comparator uses it

    [TextComparator] calls [difflib.SequenceMatcher(None, a, b)] of the
    Python standard library and reads [get_opcodes()].  The model follows
    the library routine by routine with [isjunk = None] and
    [autojunk = True]. *)

Module Difflib.

Local Open Scope nat_scope.

Inductive tag := Replace | Delete | Insert | Equal.

(** A matching block [(i, j, k)]: [a[i:i+k] == b[j:j+k]]. *)
Definition Match : Type := nat * nat * nat.

(** An opcode [(tag, i1, i2, j1, j2)]. *)
Definition opcode : Type := tag * nat * nat * nat * nat.

(** Tuples compare lexicographically in [matching_blocks.sort()]. *)
Definition Match_le (x y : Match) : Prop :=
  let '(i1, j1, k1) := x in
  let '(i2, j2, k2) := y in
  i1 < i2 \/ (i1 = i2 /\ (j1 < j2 \/ (j1 = j2 /\ k1 <= k2))).

#[global] Instance Match_le_dec (x y : Match) : Decision (Match_le x y).
Proof. destruct x as [[i1 j1] k1], y as [[i2 j2] k2]. simpl. apply _. Defined.

Section SequenceMatcher.

Context {A : Type} `{EqDecision A}.

(** [__chain_b]: [b2j] maps each element of [b] to the ascending list of
    its positions; with 200 elements or more, an element occurring more
    than [n // 100 + 1] times is popular and loses its entry.  No element
    is junk. *)
Fixpoint indices_from (start : nat) (b : list A) (elt : A) : list nat :=
  match b with
  | [] => []
  | y :: b' =>
      if decide (y = elt) then start :: indices_from (S start) b' elt
      else indices_from (S start) b' elt
  end.

Definition popular (b : list A) (elt : A) : bool :=
  let n := length b in
  (200 <=? n) && (n / 100 + 1 <? length (indices_from 0 b elt)).

(** [b2j.get(elt, nothing)] *)
Definition b2j (b : list A) (elt : A) : list nat :=
  if popular b elt then [] else indices_from 0 b elt.

Definition isbjunk (elt : A) : bool := false.

(** The inner [for j in b2j.get(a[i], nothing)] loop of
    [find_longest_match]; [j < blo] continues, [j >= bhi] breaks. *)
Fixpoint scan_row (blo bhi i : nat) (js : list nat)
    (j2len newj2len : gmap nat nat) (best : Match) : gmap nat nat * Match :=
  match js with
  | [] => (newj2len, best)
  | j :: js' =>
      if j <? blo then scan_row blo bhi i js' j2len newj2len best
      else if bhi <=? j then (newj2len, best)
      else
        (* j2len.get(j-1, 0): the key -1 is never present *)
        let k := match j with
                 | 0 => 0
                 | S j' => default 0 (j2len !! j')
                 end + 1 in
        let newj2len := <[j := k]> newj2len in
        let best := if best.2 <? k then (i + 1 - k, j + 1 - k, k) else best in
        scan_row blo bhi i js' j2len newj2len best
  end.

(** The outer [for i in range(alo, ahi)] loop. *)
Fixpoint scan_rows (a b : list A) (blo bhi : nat) (rows : list nat)
    (j2len : gmap nat nat) (best : Match) : Py.res Match :=
  match rows with
  | [] => Py.Ok best
  | i :: rows' =>
      ai ← Py.index a i;
      let '(newj2len, best) := scan_row blo bhi i (b2j b ai) j2len ∅ best in
      scan_rows a b blo bhi rows' newj2len best
  end.

(** [while besti > alo and bestj > blo and test(b[bestj-1]) and
    a[besti-1] == b[bestj-1]], bounded by [fuel] iterations. *)
Fixpoint extend_left (test : A -> bool) (a b : list A) (alo blo : nat)
    (fuel : nat) (best : Match) : Py.res Match :=
  let '(besti, bestj, bestsize) := best in
  if (alo <? besti) && (blo <? bestj) then
    bj ← Py.index b (bestj - 1);
    if test bj then
      ai ← Py.index a (besti - 1);
      if decide (ai = bj) then
        match fuel with
        | 0 => Py.Err Py.OutOfFuel
        | S fuel' =>
            extend_left test a b alo blo fuel' (besti - 1, bestj - 1, bestsize + 1)
        end
      else Py.Ok best
    else Py.Ok best
  else Py.Ok best.

(** [while besti+bestsize < ahi and bestj+bestsize < bhi and
    test(b[bestj+bestsize]) and a[besti+bestsize] == b[bestj+bestsize]] *)
Fixpoint extend_right (test : A -> bool) (a b : list A) (ahi bhi : nat)
    (fuel : nat) (best : Match) : Py.res Match :=
  let '(besti, bestj, bestsize) := best in
  if (besti + bestsize <? ahi) && (bestj + bestsize <? bhi) then
    bj ← Py.index b (bestj + bestsize);
    if test bj then
      ai ← Py.index a (besti + bestsize);
      if decide (ai = bj) then
        match fuel with
        | 0 => Py.Err Py.OutOfFuel
        | S fuel' => extend_right test a b ahi bhi fuel' (besti, bestj, bestsize + 1)
        end
      else Py.Ok best
    else Py.Ok best
  else Py.Ok best.

(** The left loops run at most [besti - alo] times and the right loops at
    most [ahi - (besti + bestsize)] times. *)
Definition find_longest_match (a b : list A) (alo ahi blo bhi : nat)
    : Py.res Match :=
  best ← scan_rows a b blo bhi (seq alo (ahi - alo)) ∅ (alo, blo, 0);
  best ← extend_left (fun x => negb (isbjunk x)) a b alo blo best.1.1 best;
  best ← extend_right (fun x => negb (isbjunk x)) a b ahi bhi
           (ahi - (best.1.1 + best.2)) best;
  best ← extend_left isbjunk a b alo blo best.1.1 best;
  extend_right isbjunk a b ahi bhi (ahi - (best.1.1 + best.2)) best.

(** The [while queue] loop of [get_matching_blocks].  The head of the
    list is the end of the Python list: [pop()] takes it and [append]
    pushes onto it. *)
Fixpoint match_queue (a b : list A) (fuel : nat)
    (queue : list (nat * nat * nat * nat)) (matching_blocks : list Match)
    : Py.res (list Match) :=
  match queue with
  | [] => Py.Ok matching_blocks
  | (alo, ahi, blo, bhi) :: queue =>
      match fuel with
      | 0 => Py.Err Py.OutOfFuel
      | S fuel' =>
          x ← find_longest_match a b alo ahi blo bhi;
          let '(i, j, k) := x in
          if k =? 0 then match_queue a b fuel' queue matching_blocks
          else
            let matching_blocks := matching_blocks ++ [x] in
            let queue :=
              if (alo <? i) && (blo <? j) then (alo, i, blo, j) :: queue
              else queue in
            let queue :=
              if (i + k <? ahi) && (j + k <? bhi) then (i + k, ahi, j + k, bhi) :: queue
              else queue in
            match_queue a b fuel' queue matching_blocks
      end
  end.

(** The collapsing loop: [(i1, j1, k1)] is the block compared against. *)
Fixpoint collapse (blocks : list Match) (cur : Match) (non_adjacent : list Match)
    : list Match :=
  let '(i1, j1, k1) := cur in
  match blocks with
  | [] => if k1 =? 0 then non_adjacent else non_adjacent ++ [cur]
  | (i2, j2, k2) :: blocks' =>
      if (i1 + k1 =? i2) && (j1 + k1 =? j2) then
        collapse blocks' (i1, j1, k1 + k2) non_adjacent
      else
        collapse blocks' (i2, j2, k2)
          (if k1 =? 0 then non_adjacent else non_adjacent ++ [cur])
  end.

(** Every block found has at least one element and splits its range into
    strictly smaller ones, so [2 * len(a) + 1] iterations empty the
    queue. *)
Definition get_matching_blocks (a b : list A) : Py.res (list Match) :=
  let la := length a in
  let lb := length b in
  matching_blocks ← match_queue a b (2 * la + 1) [(0, la, 0, lb)] [];
  let matching_blocks := merge_sort Match_le matching_blocks in
  let non_adjacent := collapse matching_blocks (0, 0, 0) [] in
  Py.Ok (non_adjacent ++ [(la, lb, 0)]).

(** The loop of [get_opcodes] over the matching blocks. *)
Fixpoint opcodes_from (blocks : list Match) (i j : nat) (answer : list opcode)
    : list opcode :=
  match blocks with
  | [] => answer
  | (ai, bj, size) :: blocks' =>
      let tag :=
        if (i <? ai) && (j <? bj) then Some Replace
        else if i <? ai then Some Delete
        else if j <? bj then Some Insert
        else None in
      let answer :=
        match tag with
        | Some t => answer ++ [(t, i, ai, j, bj)]
        | None => answer
        end in
      let i := ai + size in
      let j := bj + size in
      let answer :=
        if size =? 0 then answer else answer ++ [(Equal, ai, i, bj, j)] in
      opcodes_from blocks' i j answer
  end.

Definition get_opcodes (a b : list A) : Py.res (list opcode) :=
  blocks ← get_matching_blocks a b;
  Py.Ok (opcodes_from blocks 0 0 []).

End SequenceMatcher.

End Difflib.


(** ** processors/text_comparator.py *)

Module TextComparator.

(** The double quote character and the line feed. *)
Definition dquote : string := String "034"%char EmptyString.
Definition LF : string := String "010"%char EmptyString.

(** Line boundaries of [str.splitlines()] among the code points below
    256: LF, VT, FF, CR, FS, GS, RS and NEL; CR LF counts once. *)
Definition is_line_boundary (c : ascii) : bool :=
  let n := nat_of_ascii c in
  ((10 <=? n) && (n <=? 13) || (28 <=? n) && (n <=? 30) || (n =? 133))%nat.

Fixpoint splitlines_from (s : string) (line : string) : list string :=
  match s with
  | EmptyString => if String.eqb line "" then [] else [line]
  | String c s' =>
      if is_line_boundary c then
        match c, s' with
        | "013"%char, String "010"%char s'' => line :: splitlines_from s'' ""
        | _, _ => line :: splitlines_from s' ""
        end
      else splitlines_from s' (line +:+ String c EmptyString)
  end.

(** [text.splitlines()] *)
Definition splitlines (s : string) : list string := splitlines_from s "".

Definition changed_message (page_num : Z) (line : nat) (old new : string) : string :=
  "On page " +:+ pretty page_num +:+ ", line " +:+ pretty line
  +:+ ", the text was changed from " +:+ dquote +:+ old +:+ dquote
  +:+ " to " +:+ dquote +:+ new +:+ dquote +:+ ".".

Definition removed_message (page_num : Z) (line : nat) (old : string) : string :=
  "On page " +:+ pretty page_num +:+ ", line " +:+ pretty line
  +:+ ", the text " +:+ dquote +:+ old +:+ dquote +:+ " was removed.".

Definition added_message (page_num : Z) (line : nat) (new : string) : string :=
  "On page " +:+ pretty page_num +:+ ", line " +:+ pretty line
  +:+ ", the text " +:+ dquote +:+ new +:+ dquote +:+ " was added.".

(** The body of the loop over the opcodes. *)
Definition report_opcode (ref_lines new_lines : list string) (page_num : Z)
    (differences : list string) (op : Difflib.opcode) : Py.res (list string) :=
  let '(tag, i1, i2, j1, j2) := op in
  match tag with
  | Difflib.Equal => Py.Ok differences
  | Difflib.Replace =>
      Py.foldM
        (fun differences i =>
           Py.foldM
             (fun differences j =>
                if ((i =? i1) && (j =? j1))%nat then
                  old ← Py.index ref_lines i;
                  new ← Py.index new_lines j;
                  Py.Ok (differences ++ [changed_message page_num (i + 1) old new])
                else Py.Ok differences)
             (seq j1 (j2 - j1)) differences)
        (seq i1 (i2 - i1)) differences
  | Difflib.Delete =>
      Py.foldM
        (fun differences i =>
           old ← Py.index ref_lines i;
           Py.Ok (differences ++ [removed_message page_num (i + 1) old]))
        (seq i1 (i2 - i1)) differences
  | Difflib.Insert =>
      Py.foldM
        (fun differences j =>
           new ← Py.index new_lines j;
           Py.Ok (differences ++ [added_message page_num (j + 1) new]))
        (seq j1 (j2 - j1)) differences
  end.

Definition _compare_page_text (ref_text new_text : string) (page_num : Z)
    : Py.res (list string) :=
  let ref_lines := splitlines ref_text in
  let new_lines := splitlines new_text in
  opcodes ← Difflib.get_opcodes ref_lines new_lines;
  Py.foldM (report_opcode ref_lines new_lines page_num) opcodes [].

(** [{page['page_num']: page['text'] for page in pages}] *)
Definition text_map (pages : list page) : gmap Z string :=
  fold_left (fun m p => <[page_num p := page_text p]> m) pages ∅.

Definition compare (doc1_pages doc2_pages : list page)
    (config : Settings.text_config) : Py.res (list string) :=
  let doc1_text_map := text_map doc1_pages in
  let doc2_text_map := text_map doc2_pages in
  let all_page_numbers :=
    merge_sort Z.le (elements (dom doc1_text_map ∪ dom doc2_text_map)) in
  Py.foldM
    (fun all_differences page_num =>
       match doc1_text_map !! page_num, doc2_text_map !! page_num with
       | None, _ =>
           Py.Ok (all_differences
                  ++ ["On page " +:+ pretty page_num +:+ ", a new page was added."])
       | Some _, None =>
           Py.Ok (all_differences
                  ++ ["On page " +:+ pretty page_num +:+ ", a page was removed."])
       | Some ref_text, Some new_text =>
           page_diffs ← _compare_page_text ref_text new_text page_num;
           Py.Ok (all_differences ++ page_diffs)
       end)
    all_page_numbers [].

End TextComparator.

(** ** processors/font_analyzer.py *)

Module FontAnalyzer.

(** A record [compare] appends; every one has ["type": "font"] and
    ["severity": "minor"]. *)
Inductive font_diff :=
| Added (font_name : string)
| Removed (font_name : string)
| Size (font_name : string) (reference_size new_size : float)
| Style (font_name : string) (reference_flags new_flags : option Z)
| Color (font_name : string) (reference_color new_color : option Z).

Definition severity (d : font_diff) : string := "minor".

Definition change (d : font_diff) : string :=
  match d with
  | Added _ => "added"
  | Removed _ => "removed"
  | Size _ _ _ => "size"
  | Style _ _ _ => "style"
  | Color _ _ _ => "color"
  end.

(** The size records that name a given font. *)
Definition is_size_record (name : string) (d : font_diff) : bool :=
  match d with
  | Size n _ _ => String.eqb n name
  | _ => false
  end.

(** [{f["name"]: f for f in fonts}] *)
Definition font_dict (fonts : list font) : Py.res (Py.odict font) :=
  Py.foldM
    (fun d f => n ← Py.getitem "name" (f_name f); Py.Ok (Py.od_set n f d))
    fonts [].

(** The records for one name of the union. *)
Definition compare_name (size_tolerance : float) (font_dict1 font_dict2 : Py.odict font)
    (name : string) : Py.res (list font_diff) :=
  match Py.od_get name font_dict1, Py.od_get name font_dict2 with
  | None, _ => Py.Ok [Added name]
  | Some _, None => Py.Ok [Removed name]
  | Some f1, Some f2 =>
      size1 ← Py.getitem "size" (f_size f1);
      size2 ← Py.getitem "size" (f_size f2);
      Py.Ok
        ((if Py.fgtb (abs (size1 - size2)) size_tolerance
          then [Size name size1 size2] else [])
         ++ (if bool_decide (f_flags f1 <> f_flags f2)
             then [Style name (f_flags f1) (f_flags f2)] else [])
         ++ (if bool_decide (f_color f1 <> f_color f2)
             then [Color name (f_color f1) (f_color f2)] else []))
  end.

Definition compare (set_iter : gset string -> list string)
    (fonts1 fonts2 : list font) (config : Settings.font_config)
    : Py.res (list font_diff) :=
  let size_tolerance := default 0.5%float (Settings.size_tolerance config) in
  font_dict1 ← font_dict fonts1;
  font_dict2 ← font_dict fonts2;
  let names : gset string :=
    list_to_set font_dict1.*1 ∪ list_to_set font_dict2.*1 in
  Py.foldM
    (fun diffs name =>
       new ← compare_name size_tolerance font_dict1 font_dict2 name;
       Py.Ok (diffs ++ new))
    (set_iter names) [].

End FontAnalyzer.

(** ** processors/image_comparator.py *)

Module ImageComparator.

Inductive image_diff :=
| Mismatch (index : nat) (reference_hash new_hash : option string)
    (reference_size new_size : nat)
| CountMismatch (reference_count new_count : nat).

Section Hashes.

(** [hashlib.sha256(data).hexdigest()] and [hashlib.md5(data).hexdigest()] *)
Variables sha256 md5 : list Byte.byte -> string.

(** [hash_func(img["data"]).hexdigest() if img else None] *)
Definition digest (hash_func : list Byte.byte -> string) (img : option image)
    : Py.res (option string) :=
  match img with
  | Some i => d ← Py.getitem "data" (img_data i); Py.Ok (Some (hash_func d))
  | None => Py.Ok None
  end.

(** [len(img["data"]) if img else 0] *)
Definition data_size (img : option image) : Py.res nat :=
  match img with
  | Some i => d ← Py.getitem "data" (img_data i); Py.Ok (length d)
  | None => Py.Ok 0%nat
  end.

(** The loop over [enumerate(zip(images1, images2))], from index [idx]. *)
Fixpoint compare_pairs (hash_func : list Byte.byte -> string) (idx : nat)
    (images1 images2 : list (option image)) (diffs : list image_diff)
    : Py.res (list image_diff) :=
  match images1, images2 with
  | img1 :: images1', img2 :: images2' =>
      hash1 ← digest hash_func img1;
      hash2 ← digest hash_func img2;
      if bool_decide (hash1 = hash2) then
        compare_pairs hash_func (S idx) images1' images2' diffs
      else
        size1 ← data_size img1;
        size2 ← data_size img2;
        compare_pairs hash_func (S idx) images1' images2'
          (diffs ++ [Mismatch idx hash1 hash2 size1 size2])
  | _, _ => Py.Ok diffs
  end.

Definition compare (images1 images2 : list (option image))
    (config : Settings.image_config) : Py.res (list image_diff) :=
  let hash_algorithm := default "sha256" (Settings.hash_algorithm config) in
  let hash_func := if String.eqb hash_algorithm "sha256" then sha256 else md5 in
  diffs ← compare_pairs hash_func 0 images1 images2 [];
  if bool_decide (length images1 <> length images2) then
    Py.Ok (diffs ++ [CountMismatch (length images1) (length images2)])
  else Py.Ok diffs.

End Hashes.

End ImageComparator.

(** ** agent/neuro_agent.py: the comparison step *)

Module NeuroAgent.

(** One value of [parsed_content]: the two parsed documents, or an
    ["error"] payload. *)
Record content := {
  c_error : option string;
  c_reference : option document;
  c_new : option document
}.

(** One value of [all_differences]. *)
Inductive file_differences :=
| ErrorPayload (error : string)
| Differences (text images fonts : list string).

Record change_summary := {
  total_files : Z;
  files_with_changes : Z;
  total_changes : Z
}.

Record comparison := {
  differences : Py.odict file_differences;
  summary : change_summary
}.

(** The statements of the [try] block up to [total_diffs]. *)
Definition compare_file (c : content) (sensitivity_config : Settings.sensitivity)
    : Py.res (list string * list string * list string) :=
  reference ← Py.getitem "reference" (c_reference c);
  new ← Py.getitem "new" (c_new c);
  text_diff ← TextComparator.compare (doc_text reference) (doc_text new)
                (Settings.text sensitivity_config);
  let image_diff_count :=
    Z.abs (Z.of_nat (length (doc_images reference)) - Z.of_nat (length (doc_images new))) in
  let image_diff :=
    if 0 <? image_diff_count then [pretty image_diff_count +:+ " image(s) changed."]
    else [] in
  let font_diff_count :=
    Z.abs (Z.of_nat (length (doc_fonts reference)) - Z.of_nat (length (doc_fonts new))) in
  let font_diff :=
    if 0 <? font_diff_count then [pretty font_diff_count +:+ " font(s) changed."]
    else [] in
  Py.Ok (text_diff, image_diff, font_diff).

(** The body of the loop over [parsed_content.items()]. *)
Definition compare_entry (sensitivity_config : Settings.sensitivity)
    (acc : comparison) (item : string * content) : Py.res comparison :=
  let '(filename, c) := item in
  let all_differences := differences acc in
  let s := summary acc in
  match c_error c with
  | Some err =>
      Py.Ok {| differences := Py.od_set filename (ErrorPayload err) all_differences;
               summary := s |}
  | None =>
      let s := {| total_files := total_files s + 1;
                  files_with_changes := files_with_changes s;
                  total_changes := total_changes s |} in
      match compare_file c sensitivity_config with
      | Py.Ok (text_diff, image_diff, font_diff) =>
          let total_diffs :=
            Z.of_nat (length text_diff + length image_diff + length font_diff) in
          if 0 <? total_diffs then
            Py.Ok {| differences :=
                       Py.od_set filename (Differences text_diff image_diff font_diff)
                         all_differences;
                     summary :=
                       {| total_files := total_files s;
                          files_with_changes := files_with_changes s + 1;
                          total_changes := total_changes s + total_diffs |} |}
          else Py.Ok {| differences := all_differences; summary := s |}
      | Py.Err Py.OutOfFuel => Py.Err Py.OutOfFuel
      | Py.Err e =>
          (* except Exception as e *)
          Py.Ok {| differences :=
                     Py.od_set filename (ErrorPayload (Py.str_exn e)) all_differences;
                   summary := s |}
      end
  end.

Definition compare_content (parsed_content : Py.odict content)
    (sensitivity_config : Settings.sensitivity) : Py.res comparison :=
  Py.foldM (compare_entry sensitivity_config) parsed_content
    {| differences := [];
       summary := {| total_files := 0; files_with_changes := 0; total_changes := 0 |} |}.

End NeuroAgent.


(** ** Invariants of the sequence matcher *)

Module MatcherInvariants.
Import Difflib.
Local Open Scope nat_scope.

Section Invariants.
Context {A : Type}.
Implicit Types (a b : list A) (best : Match) (j2len : gmap nat nat).
Implicit Types (queue : list (nat * nat * nat * nat)).

(** Every length recorded for the previous row fits in the part of the
    two ranges read so far. *)
Definition row_bounds (alo blo bhi i : nat) j2len : Prop :=
  forall j v, j2len !! j = Some v ->
    blo <= j /\ j < bhi /\ 1 <= v /\ v <= i - alo /\ v <= j + 1 - blo.

Definition best_bounds (alo blo bhi i : nat) best : Prop :=
  alo <= best.1.1 /\ best.1.1 + best.2 <= i
  /\ blo <= best.1.2 /\ best.1.2 + best.2 <= bhi.

(** A block inside [a[alo:ahi]] and [b[blo:bhi]]. *)
Definition in_ranges a b (alo ahi blo bhi : nat) best : Prop :=
  ahi <= length a /\ bhi <= length b /\ best_bounds alo blo bhi ahi best.

Definition range_ok a b (r : nat * nat * nat * nat) : Prop :=
  r.1.1.1 <= r.1.1.2 /\ r.1.1.2 <= length a
  /\ r.1.2 <= r.2 /\ r.2 <= length b.

(** Iterations a pending range can still cost: one for itself and two
    for each element of its part of [a]. *)
Definition range_cost (r : nat * nat * nat * nat) : nat :=
  2 * (r.1.1.2 - r.1.1.1) + 1.

Definition queue_cost queue : nat := sum_list (range_cost <$> queue).

Definition block_ok a b (m : Match) : Prop :=
  m.1.1 + m.2 <= length a /\ m.1.2 + m.2 <= length b.

(** A block that starts inside both sequences. *)
Definition start_ok a b (m : Match) : Prop :=
  m.1.1 <= length a /\ m.1.2 <= length b.

(** The lines an opcode other than [equal] names exist. *)
Definition opcode_ok a b (op : opcode) : Prop :=
  op.1.1.1.1 <> Equal -> op.1.1.2 <= length a /\ op.2 <= length b.

End Invariants.

(** Matching a sequence [l] against itself. *)
Section Diagonal.
Context {A : Type} `{EqDecision A}.
Implicit Types (l : list A) (best : Match) (j2len : gmap nat nat).

(** The number of consecutive elements of [l] ending at position [p]
    that are not popular. *)
Fixpoint run l (p : nat) : nat :=
  match l !! p with
  | Some x =>
      if popular l x then 0
      else S (match p with 0 => 0 | S p' => run l p' end)
  | None => 0
  end.

Definition prev_run l (p : nat) : nat :=
  match p with 0 => 0 | S p' => run l p' end.

(** Before row [i]: the lengths kept for row [i - 1] are bounded by the
    runs, the one on the diagonal is the run itself, the best block lies
    on the diagonal and is at least as long as every run seen. *)
Definition diag_rows l (i : nat) j2len best : Prop :=
  (forall j v, j2len !! j = Some v -> v <= run l j /\ v <= prev_run l i)
  /\ match i with 0 => 0 | S i' => default 0 (j2len !! i') end = prev_run l i
  /\ (forall p, p < i -> run l p <= best.2)
  /\ best.1.1 = best.1.2 /\ best.1.1 + best.2 <= i.

(** Inside row [i], with the columns below [lo] done. *)
Definition diag_row l (i lo : nat) (newj2len : gmap nat nat) best : Prop :=
  (forall j v, newj2len !! j = Some v -> v <= run l j /\ v <= run l i /\ j < lo)
  /\ (i < lo -> newj2len !! i = Some (run l i))
  /\ (forall p, p < i -> run l p <= best.2)
  /\ (i < lo -> run l i <= best.2)
  /\ best.1.1 = best.1.2 /\ best.1.1 + best.2 <= S i.

End Diagonal.

End MatcherInvariants.

(** ** The pages of the replaced-line example *)

Module ReplaceExample.
Import TextComparator.

Definition ref_text : string := "A" +:+ LF +:+ "B" +:+ LF +:+ "C".
Definition new_text : string := "A" +:+ LF +:+ "X" +:+ LF +:+ "C".

Definition ref_page (n : Z) : page := {| page_num := n; page_text := ref_text |}.
Definition new_page (n : Z) : page := {| page_num := n; page_text := new_text |}.

End ReplaceExample.


(** ** Sample inputs *)

Module Sample.

Definition arial (size : float) : font :=
  {| f_name := Some "Arial"; f_family := None; f_size := Some size;
     f_style := None; f_color := None; f_flags := None |}.

(** A profile that only sets the size tolerance. *)
Definition tolerance (t : float) : Settings.font_config :=
  {| Settings.size_tolerance := Some t; Settings.style_check := None;
     Settings.family_check := None; Settings.color_check := None;
     Settings.weight_check := None |}.

Definition a_document : document :=
  {| doc_text := [ {| page_num := 1; page_text := "Invoice" |};
                   {| page_num := 2; page_text := "Total" |} ];
     doc_images := [ Some {| img_data := Some [Byte.x89; Byte.x50];
                             img_ext := Some "png"; img_page := Some 1 |} ];
     doc_fonts := [ arial 10; arial 12 ];
     doc_error := None |}.

Definition other_document : document :=
  {| doc_text := [ {| page_num := 1; page_text := "Invoice" |};
                   {| page_num := 2; page_text := "Sum" |} ];
     doc_images := [];
     doc_fonts := [ arial 10 ];
     doc_error := None |}.

(** A digest that is good enough to tell the sample images apart. *)
Definition toy_digest (data : list Byte.byte) : string :=
  pretty (length data).

(** Parsed content of a run in which the first file carries an error
    payload and the second one was parsed. *)
Definition parsed_content : Py.odict NeuroAgent.content :=
  [ ("broken.pdf",
     {| NeuroAgent.c_error := Some "'reference'";
        NeuroAgent.c_reference := None; NeuroAgent.c_new := None |});
    ("report.pdf",
     {| NeuroAgent.c_error := None;
        NeuroAgent.c_reference := Some a_document;
        NeuroAgent.c_new := Some other_document |}) ].

End Sample.

(** ** What one file contributes to the comparison results *)

Module Entries.
Import NeuroAgent.

(** The entry [compare_content] stores for a file, if it stores one: the
    error payload of a file that carries one, the error of a comparison
    that raised, the difference lists when there is any difference. *)
Definition file_entry (sensitivity_config : Settings.sensitivity) (c : content)
    : option file_differences :=
  match c_error c with
  | Some err => Some (ErrorPayload err)
  | None =>
      match compare_file c sensitivity_config with
      | Py.Ok (text_diff, image_diff, font_diff) =>
          if 0 <? Z.of_nat (length text_diff + length image_diff + length font_diff)
          then Some (Differences text_diff image_diff font_diff)
          else None
      | Py.Err e => Some (ErrorPayload (Py.str_exn e))
      end
  end.

End Entries.


(** ** An extractor failure inside a parsed entry *)

Module NestedError.

(** What [parse_pdf] returns when opening the file fails: the initial
    result with the ["error"] key added. *)
Definition failed_document : document :=
  {| doc_text := []; doc_images := []; doc_fonts := [];
     doc_error := Some "cannot open broken file" |}.

End NestedError.


(** ** Workflows whose dependencies are declared in order *)

Module Ordering.
Import Orchestrator.

(** Every dependency of a step names a step declared before it; [seen]
    holds the names declared so far. *)
Fixpoint well_ordered (seen : list string) (steps : list WorkflowStep) : Prop :=
  match steps with
  | [] => True
  | step :: rest =>
      (forall dep, dep ∈ dependencies step -> dep ∈ seen)
      /\ well_ordered (name step :: seen) rest
  end.

(** A result that, merged into a step context, adds no keyword named
    after a parameter [execute_task] fills by position. *)
Definition free_result {V} (r : result V) : Prop :=
  match r with
  | RDict d => multiple_values d = None
  | ROther _ => True
  end.

(** The steps [setup_workflows] declares for the main workflow. *)
Definition scan_step : WorkflowStep :=
  {| name := "scan"; task := "scan_folders";
     description := "Scan folders for PDF files"; timeout := 300;
     retry_attempts := 3; parallel := false; max_workers := 1;
     dependencies := [] |}.

Definition validate_step : WorkflowStep :=
  {| name := "validate"; task := "validate_files";
     description := "Validate PDF files"; timeout := 300;
     retry_attempts := 3; parallel := false; max_workers := 1;
     dependencies := ["scan"] |}.

Definition main_steps : list WorkflowStep :=
  [ scan_step;
    validate_step;
    {| name := "parse"; task := "parse_pdfs";
       description := "Parse PDF content"; timeout := 300;
       retry_attempts := 3; parallel := true; max_workers := 4;
       dependencies := ["validate"] |};
    {| name := "compare"; task := "compare_content";
       description := "Compare PDF content"; timeout := 300;
       retry_attempts := 3; parallel := true; max_workers := 4;
       dependencies := ["parse"] |};
    {| name := "analyze"; task := "analyze_with_llm";
       description := "LLM analysis"; timeout := 300;
       retry_attempts := 3; parallel := false; max_workers := 1;
       dependencies := ["compare"] |};
    {| name := "report"; task := "generate_report";
       description := "Generate reports"; timeout := 300;
       retry_attempts := 3; parallel := false; max_workers := 1;
       dependencies := ["analyze"] |};
    {| name := "learn"; task := "update_learning";
       description := "Update learning module"; timeout := 300;
       retry_attempts := 3; parallel := false; max_workers := 1;
       dependencies := ["report"] |} ].

(** An agent that registers, under each task name of the main workflow,
    a function returning a dict that names the task. *)
Definition stub_task (n : string) : Task string :=
  {| t_name := n; func := fun _ => Py.Ok (RDict [("done", n)]);
     t_description := ""; t_timeout := 300; t_retry_attempts := 3;
     priority := NORMAL; t_parallel := false; t_max_workers := 1;
     t_dependencies := [] |}.

Definition stub_agent : Agent string :=
  fold_right (fun n a => add_task (stub_task n) a)
    {| a_name := "PDF_Comparison_Agent"; tasks := ∅ |}
    (task <$> main_steps).

Definition main_workflow : Workflow string :=
  {| w_name := "PDF_Comparison_Workflow"; steps := main_steps;
     agent := Some stub_agent |}.

(** A task that raises, and a workflow whose second step is bound to it. *)
Definition failing_task : Task string :=
  {| t_name := "validate_files";
     func := fun _ => Py.Err (Py.ValueError "Invalid file mapping");
     t_description := ""; t_timeout := 30; t_retry_attempts := 1;
     priority := HIGH; t_parallel := false; t_max_workers := 1;
     t_dependencies := [] |}.

Definition failing_agent : Agent string := add_task failing_task stub_agent.

Definition failing_workflow : Workflow string :=
  {| w_name := "PDF_Comparison_Workflow"; steps := main_steps;
     agent := Some failing_agent |}.

(** A scan task whose dict result names the task under the key
    ["task_name"], and the main workflow run by an agent that holds it. *)
Definition naming_task : Task string :=
  {| t_name := "scan_folders";
     func := fun _ => Py.Ok (RDict [("task_name", "scan_folders");
                                    ("total_files", "2")]);
     t_description := ""; t_timeout := 300; t_retry_attempts := 3;
     priority := NORMAL; t_parallel := false; t_max_workers := 1;
     t_dependencies := [] |}.

Definition naming_agent : Agent string := add_task naming_task stub_agent.

Definition naming_workflow : Workflow string :=
  {| w_name := "PDF_Comparison_Workflow"; steps := main_steps;
     agent := Some naming_agent |}.

(** A workflow whose second step is bound to a task nobody registered. *)
Definition export_step : WorkflowStep :=
  {| name := "export"; task := "export_results"; description := "";
     timeout := 300; retry_attempts := 3; parallel := false;
     max_workers := 1; dependencies := ["scan"] |}.

Definition unbound_workflow : Workflow string :=
  {| w_name := "unbound"; steps := [scan_step; export_step];
     agent := Some stub_agent |}.

End Ordering.


(** ** Histories of the learning modules *)

Module Histories.
Import LearningModule.

(** The same comparison data recorded [n] times in a row. *)
Definition record_times (n : nat) (data : comparison_data) (st : state) : state :=
  Nat.iter n (update_patterns data) st.

(** A sequence of [update_patterns] calls, oldest first. *)
Definition run_patterns (calls : list comparison_data) (st : state) : state :=
  fold_left (fun st data => update_patterns data st) calls st.

(** The dicts among [comparison_data['differences']]. *)
Definition dict_items (data : comparison_data) : list difference :=
  match cd_differences data with
  | Some differences =>
      omap (fun diff => match diff with DictItem d => Some d | OtherItem => None end)
        differences
  | None => []
  end.

Definition change_types (data : comparison_data) : list string :=
  (fun d => default "unknown" (d_type d)) <$> dict_items data.

Definition severities (data : comparison_data) : list string :=
  (fun d => default "unknown" (d_severity d)) <$> dict_items data.

(** The signature [_update_frequent_changes] counts a dict under. *)
Definition change_signature (d : difference) : string :=
  default "unknown" (d_type d) +:+ "_" +:+ default "unknown" (d_operation d).

(** A sequence of [update_performance_metrics] calls; the first one that
    raises ends it. *)
Fixpoint run_performance (calls : list (string * Q * bool)) (st : state)
    : Py.res unit * state :=
  match calls with
  | [] => (Py.Ok tt, st)
  | (operation, duration, success) :: calls' =>
      match update_performance_metrics operation duration success st with
      | (Py.Ok _, st') => run_performance calls' st'
      | (Py.Err err, st') => (Py.Err err, st')
      end
  end.

(** What holds of an entry of [performance_metrics] once
    [update_performance_metrics] has written it, durations being exact
    rationals: the counters add up, the average is the total over the
    count, and the total lies between count times the minimum and count
    times the maximum. *)
Definition perf_sound (p : perf) : Prop :=
  total_operations p = successful_operations p + failed_operations p
  /\ 0 <= successful_operations p /\ 0 <= failed_operations p
  /\ 0 < total_operations p
  /\ (avg_duration p * inject_Z (total_operations p) == total_duration p)%Q
  /\ exists m, min_duration p = Some m
       /\ (m * inject_Z (total_operations p) <= total_duration p)%Q
       /\ (total_duration p <= max_duration p * inject_Z (total_operations p))%Q.

Definition all_sound (s : self) : Prop :=
  forall operation p, performance_metrics s !! operation = Some p -> perf_sound p.

(** A sequence of [update_statistics] calls on the module of
    [neuro_ai_mock.py]. *)
Definition mock_run_updates (calls : list (string * value))
    (st : MockLearningModule.state) : MockLearningModule.state :=
  fold_left (fun st c => MockLearningModule.update_statistics c.1 c.2 st) calls st.

(** The values the calls append for [metric], oldest first. *)
Definition mock_appended (metric : string) (calls : list (string * value))
    : list value :=
  omap (fun c => if String.eqb c.1 metric then Some c.2 else None) calls.

(** Two comparisons that pair the same change types and severities
    differently. *)
Definition text_minor_font_major : comparison_data :=
  {| cd_type := None; cd_severity := None;
     cd_differences :=
       Some [ DictItem {| d_type := Some "text"; d_severity := Some "minor";
                          d_operation := Some "replace" |};
              DictItem {| d_type := Some "font"; d_severity := Some "major";
                          d_operation := None |} ] |}.

Definition font_minor_text_major : comparison_data :=
  {| cd_type := None; cd_severity := None;
     cd_differences :=
       Some [ DictItem {| d_type := Some "font"; d_severity := Some "minor";
                          d_operation := None |};
              OtherItem;
              DictItem {| d_type := Some "text"; d_severity := Some "major";
                          d_operation := Some "delete" |};
              DictItem {| d_type := Some "text"; d_severity := Some "major";
                          d_operation := Some "insert" |} ] |}.

(** A store that holds durations of earlier comparisons. *)
Definition timed_store : self :=
  {| patterns := ∅;
     statistics :=
       {[ "comparison_duration" :=
            [ {| se_value := VFloat 12.5%Q; se_timestamp := 100%Q |};
              {| se_value := VStr "n/a"; se_timestamp := 101%Q |};
              {| se_value := VInt 20; se_timestamp := 102%Q |} ] ]};
     frequent_changes := ∅; performance_metrics := ∅ |}.

End Histories.


(** ** The comparison summary and the learning step of the agent *)

Module Summary.
Import NeuroAgent.

(** The entries [compare_content] stores for the files of
    [parsed_content], in their order. *)
Definition entries (sensitivity_config : Settings.sensitivity)
    (parsed_content : Py.odict content) : Py.odict file_differences :=
  omap (fun item => (fun e => (item.1, e)) <$> Entries.file_entry sensitivity_config item.2)
    parsed_content.

(** [len(text_diff) + len(image_diff) + len(font_diff)] of a stored entry. *)
Definition changes_of (fd : file_differences) : Z :=
  match fd with
  | Differences text images fonts =>
      Z.of_nat (length text + length images + length fonts)
  | ErrorPayload _ => 0
  end.

(** ["error" in file_diff] *)
Definition has_error (fd : file_differences) : bool :=
  match fd with
  | ErrorPayload _ => true
  | Differences _ _ _ => false
  end.

(** [sum(xs)] over integers *)
Definition sum (xs : list Z) : Z := fold_left Z.add xs 0.

(** Two documents with the same text and as many images and fonts,
    all of them different. *)
Definition restyled_document : document :=
  {| doc_text := doc_text Sample.a_document;
     doc_images := [ Some {| img_data := Some [Byte.xff; Byte.xd8; Byte.xff];
                             img_ext := Some "jpeg"; img_page := Some 2 |} ];
     doc_fonts := [ Sample.arial 18;
                    {| f_name := Some "Courier"; f_family := None;
                       f_size := Some 9%float; f_style := Some "bold";
                       f_color := Some 255; f_flags := None |} ];
     doc_error := None |}.

End Summary.

Module Learning.
Import NeuroAgent.

Record learning_result := {
  patterns_updated : Z;
  statistics_updated : bool
}.

(** The dict [update_learning] hands to [update_patterns]: its keys are
    ["filename"], ["differences"] and ["timestamp"], so it has no
    ["type"] and no ["severity"]; the value of ["differences"] is the
    file's dict of difference lists, which iterates over its three keys,
    all strings. *)
Definition learning_data : comparison_data :=
  {| cd_type := None; cd_severity := None;
     cd_differences := Some [OtherItem; OtherItem; OtherItem] |}.

(** [diff.get("total_changes", 0)] on an entry without an ["error"] key:
    such an entry has the keys ["text"], ["images"] and ["fonts"]. *)
Definition get_total_changes (fd : file_differences) : Z :=
  match fd with
  | Differences _ _ _ => 0
  | ErrorPayload _ => 0
  end.

(** The loop over [differences.items()]: the clock is read for the
    ["timestamp"] of the dict before [update_patterns] runs. *)
Definition record_files (differences : Py.odict file_differences)
    (st : MockLearningModule.state) : MockLearningModule.state :=
  fold_left
    (fun st item =>
       if Summary.has_error item.2 then st
       else
         let '(s, e) := st in
         let '(_, e) := Env.time_time e in
         MockLearningModule.update_patterns learning_data (s, e))
    differences st.

Definition update_learning (differences : Py.odict file_differences)
    (st : MockLearningModule.state) : learning_result * MockLearningModule.state :=
  let st := record_files differences st in
  let total_changes :=
    Summary.sum
      (get_total_changes
         <$> filter (fun fd => Summary.has_error fd = false) differences.*2) in
  let st := MockLearningModule.update_statistics "total_changes" (VInt total_changes) st in
  let st :=
    MockLearningModule.update_statistics "files_processed"
      (VInt (Z.of_nat (length differences))) st in
  ({| patterns_updated := Z.of_nat (length differences);
      statistics_updated := true |}, st).

(** The files [update_learning] records a pattern for. *)
Definition recorded (differences : Py.odict file_differences) : nat :=
  length (filter (fun fd => Summary.has_error fd = false) differences.*2).

End Learning.


(** ** Documents that differ in their pages, fonts or images *)

Module Pages.
Import TextComparator.

(** The line [compare] writes for a page that only one document has. *)
Definition page_notice (doc1_pages : list page) (number : Z) : string :=
  if bool_decide (number ∈ page_num <$> doc1_pages)
  then "On page " +:+ pretty number +:+ ", a page was removed."
  else "On page " +:+ pretty number +:+ ", a new page was added.".

Definition front_matter : list page :=
  [ {| page_num := 3; page_text := "Index" |};
    {| page_num := 1; page_text := "Title" |} ].

Definition appendix : list page :=
  [ {| page_num := 4; page_text := "Notes" |};
    {| page_num := 2; page_text := "Errata" |} ].

End Pages.

Module Fonts.

(** [f["name"]] of the fonts that have the key. *)
Definition names (fonts : list font) : list string :=
  omap f_name fonts.

Definition nameless : font :=
  {| f_name := None; f_family := Some "Helvetica"; f_size := Some 11%float;
     f_style := None; f_color := None; f_flags := None |}.

Definition courier : font :=
  {| f_name := Some "Courier"; f_family := None; f_size := Some 9%float;
     f_style := None; f_color := None; f_flags := None |}.

End Fonts.

Module Images.

Definition png : option image :=
  Some {| img_data := Some [Byte.x89; Byte.x50]; img_ext := Some "png";
          img_page := Some 1 |}.

(** An image dict without its ["data"] key. *)
Definition stripped : option image :=
  Some {| img_data := None; img_ext := Some "png"; img_page := Some 2 |}.

End Images.


(** ** comparison_engine.py: categories and layout *)

Module EngineReports.

Record categories := {
  critical : list difference;
  major : list difference;
  minor : list difference
}.

Record type_counts := {
  count_text : Z;
  count_image : Z;
  count_font : Z;
  count_layout : Z
}.

Record categorization := {
  by_severity : categories;
  by_type : type_counts;
  total_changes : Z
}.

(** [categories[severity].append(diff)] *)
Definition file_under (severity : string) (diff : difference) (c : categories)
    : Py.res categories :=
  if String.eqb severity "critical" then
    Py.Ok {| critical := critical c ++ [diff]; major := major c; minor := minor c |}
  else if String.eqb severity "major" then
    Py.Ok {| critical := critical c; major := major c ++ [diff]; minor := minor c |}
  else if String.eqb severity "minor" then
    Py.Ok {| critical := critical c; major := major c; minor := minor c ++ [diff] |}
  else Py.Err (Py.KeyError severity).

(** [if change_type in change_types: change_types[change_type] += 1] *)
Definition count_type (change_type : string) (t : type_counts) : type_counts :=
  if String.eqb change_type "text" then
    {| count_text := count_text t + 1; count_image := count_image t;
       count_font := count_font t; count_layout := count_layout t |}
  else if String.eqb change_type "image" then
    {| count_text := count_text t; count_image := count_image t + 1;
       count_font := count_font t; count_layout := count_layout t |}
  else if String.eqb change_type "font" then
    {| count_text := count_text t; count_image := count_image t;
       count_font := count_font t + 1; count_layout := count_layout t |}
  else if String.eqb change_type "layout" then
    {| count_text := count_text t; count_image := count_image t;
       count_font := count_font t; count_layout := count_layout t + 1 |}
  else t.

(** The body of the loop over [differences]. *)
Definition categorize_one (st : categories * type_counts) (diff : difference)
    : Py.res (categories * type_counts) :=
  let severity := default "minor" (d_severity diff) in
  c ← file_under severity diff st.1;
  let change_type := default "text" (d_type diff) in
  Py.Ok (c, count_type change_type st.2).

Definition categorize_changes (differences : list difference) : Py.res categorization :=
  st ← Py.foldM categorize_one differences
         ({| critical := []; major := []; minor := [] |},
          {| count_text := 0; count_image := 0; count_font := 0; count_layout := 0 |});
  Py.Ok {| by_severity := st.1; by_type := st.2;
           total_changes := Z.of_nat (length differences) |}.

(** The severities [categorize_changes] has a list for. *)
Definition known_severity (diff : difference) : Prop :=
  default "minor" (d_severity diff) ∈ ["critical"; "major"; "minor"].

Definition with_severity (severity : string) (differences : list difference)
    : list difference :=
  filter (fun d => default "minor" (d_severity d) = severity) differences.

Definition with_type (change_type : string) (differences : list difference)
    : list difference :=
  filter (fun d => default "text" (d_type d) = change_type) differences.

(** The state of the loop after the records [seen]. *)
Definition categorized (seen : list difference) (st : categories * type_counts) : Prop :=
  critical st.1 = with_severity "critical" seen
  /\ major st.1 = with_severity "major" seen
  /\ minor st.1 = with_severity "minor" seen
  /\ count_text st.2 = Z.of_nat (length (with_type "text" seen))
  /\ count_image st.2 = Z.of_nat (length (with_type "image" seen))
  /\ count_font st.2 = Z.of_nat (length (with_type "font" seen))
  /\ count_layout st.2 = Z.of_nat (length (with_type "layout" seen)).

(** A record of [compare_fonts_detailed], as the dict
    [categorize_changes] reads. *)
Definition as_difference (d : ComparisonEngine.font_difference) : difference :=
  {| d_type := Some "font"; d_severity := Some (ComparisonEngine.severity d);
     d_operation := None |}.

(** [layout["page_size"]] *)
Record page_size := {
  width : option Q;
  height : option Q
}.

Record layout_elements := {
  l_page_size : option page_size;
  l_margins : option (gmap string Q)
}.

Inductive layout_difference :=
| PageWidth (reference_width new_width : Q)
| PageHeight (reference_height new_height : Q)
| Margin (margin_type : string) (reference_margin new_margin : Q).

Definition layout_severity (d : layout_difference) : string :=
  match d with
  | PageWidth _ _ | PageHeight _ _ => "major"
  | Margin _ _ _ => "minor"
  end.

Definition compare_layout_elements (layout1 layout2 : layout_elements)
    (config : Settings.layout_config) : list layout_difference :=
  let position_tolerance := default 5%Q (Settings.position_tolerance config) in
  let size_tolerance := default 5%Q (Settings.layout_size_tolerance config) in
  (* compare page dimensions *)
  let differences :=
    match l_page_size layout1, l_page_size layout2 with
    | Some page1, Some page2 =>
        (if Py.Qgtb (Qabs (default 0%Q (width page1) - default 0%Q (width page2)))
              size_tolerance
         then [PageWidth (default 0%Q (width page1)) (default 0%Q (width page2))]
         else [])
        ++ (if Py.Qgtb (Qabs (default 0%Q (height page1) - default 0%Q (height page2)))
                 size_tolerance
            then [PageHeight (default 0%Q (height page1)) (default 0%Q (height page2))]
            else [])
    | _, _ => []
    end in
  (* compare margins *)
  if default false (Settings.margin_check config) then
    let margins1 := default ∅ (l_margins layout1) in
    let margins2 := default ∅ (l_margins layout2) in
    differences
    ++ flat_map
         (fun margin_type =>
            let margin1 := default 0%Q (margins1 !! margin_type) in
            let margin2 := default 0%Q (margins2 !! margin_type) in
            if Py.Qgtb (Qabs (margin1 - margin2)) position_tolerance
            then [Margin margin_type margin1 margin2]
            else [])
         ["top"; "bottom"; "left"; "right"]
  else differences.

(** The record with the two documents exchanged. *)
Definition swapped (d : layout_difference) : layout_difference :=
  match d with
  | PageWidth r n => PageWidth n r
  | PageHeight r n => PageHeight n r
  | Margin t r n => Margin t n r
  end.

Definition a4_portrait : layout_elements :=
  {| l_page_size := Some {| width := Some 595%Q; height := Some 842%Q |};
     l_margins := Some {[ "top" := 72%Q; "left" := 54%Q ]} |}.

End EngineReports.


(** ** What the matching blocks of [SequenceMatcher] say *)

Module MatcherSoundness.
Import Difflib.
Local Open Scope nat_scope.

Section Blocks.
Context {A : Type}.
Implicit Types (a b : list A).

(** [a[i:i+k] == b[j:j+k]], the two slices lying inside the sequences. *)
Definition matches a b (m : Match) : Prop :=
  forall t, t < m.2 ->
    exists x, a !! (m.1.1 + t) = Some x /\ b !! (m.1.2 + t) = Some x.

Definition sound a b (m : Match) : Prop :=
  matches a b m /\ m.1.1 + m.2 <= length a /\ m.1.2 + m.2 <= length b.

(** [j2len] once the rows below [i] are done: the length kept for column
    [j] is that of a match ending at row [i - 1] and column [j]. *)
Definition row_matches a b (i : nat) (j2len : gmap nat nat) : Prop :=
  forall j v, j2len !! j = Some v ->
    v <= i /\ v <= S j /\ matches a b (i - v, S j - v, v).

End Blocks.

(** A range [(alo, ahi, blo, bhi)] of the queue, or the range a block
    covers. *)
Definition region : Type := nat * nat * nat * nat.

Definition block_region (m : Match) : region :=
  (m.1.1, m.1.1 + m.2, m.1.2, m.1.2 + m.2).

(** One region ends, in both sequences, where the other starts or
    earlier. *)
Definition apart (r s : region) : Prop :=
  (r.1.1.2 <= s.1.1.1 /\ r.2 <= s.1.2) \/ (s.1.1.2 <= r.1.1.1 /\ s.2 <= r.1.2).

Fixpoint all_apart (queue : list region) : Prop :=
  match queue with
  | [] => True
  | r :: rest => Forall (apart r) rest /\ all_apart rest
  end.

(** The blocks found so far: none is empty, each is a match, and no two
    of them overlap or cross. *)
Definition found_ok {A} (a b : list A) (blocks : list Match) : Prop :=
  Forall (fun m => 1 <= m.2 /\ sound a b m) blocks
  /\ NoDup blocks
  /\ forall x y, x ∈ blocks -> y ∈ blocks -> x <> y ->
       apart (block_region x) (block_region y).

(** The ranges still to search lie apart from each other and from the
    blocks found. *)
Definition pending_ok (queue : list region) (blocks : list Match) : Prop :=
  all_apart queue
  /\ forall r x, r ∈ queue -> x ∈ blocks -> apart r (block_region x).

(** [x] ends, in both sequences, where [y] starts or earlier. *)
Definition before (x y : Match) : Prop :=
  x.1.1 + x.2 <= y.1.1 /\ x.1.2 + x.2 <= y.1.2.

(** Blocks that start, one after the other, at or after the position
    reached. *)
Fixpoint ordered_from (i j : nat) (blocks : list Match) : Prop :=
  match blocks with
  | [] => True
  | (ai, bj, size) :: rest =>
      i <= ai /\ j <= bj /\ ordered_from (ai + size) (bj + size) rest
  end.

(** Blocks that start, one after the other, exactly at the position
    reached. *)
Fixpoint chained (i j : nat) (blocks : list Match) : Prop :=
  match blocks with
  | [] => True
  | (ai, bj, size) :: rest =>
      i = ai /\ j = bj /\ chained (ai + size) (bj + size) rest
  end.

Definition tag_of (op : opcode) : tag := op.1.1.1.1.

(** The ranges of an opcode other than [equal] are not both empty. *)
Definition opcode_shape (op : opcode) : Prop :=
  match tag_of op with
  | Replace => op.1.1.1.2 < op.1.1.2 /\ op.1.2 < op.2
  | Delete => op.1.1.1.2 < op.1.1.2
  | Insert => op.1.2 < op.2
  | Equal => True
  end.

End MatcherSoundness.


(** ** comparison_engine.py: exact text comparison *)

Module EngineText.

Inductive text_difference :=
| Changed (operation : Difflib.tag) (reference_text new_text : string)
    (reference_position new_position : nat * nat)
    (context_before context_after : string)
| Fuzzy (similarity : Q) (reference_text new_text : string).

(** [text[i:j]] for [i <= j] *)
Definition slice (text : string) (i j : nat) : string :=
  String.string_of_list_ascii (take (j - i) (drop i (String.list_ascii_of_string text))).

(** [_calculate_ratio(matches, length)] *)
Definition calculate_ratio (matches length : nat) : Q :=
  match length with
  | O => 1.0%Q
  | S _ => (2.0 * inject_Z (Z.of_nat matches) / inject_Z (Z.of_nat length))%Q
  end.

(** [SequenceMatcher(None, a, b).ratio()] *)
Definition ratio (a b : list ascii) : Py.res Q :=
  blocks ← Difflib.get_matching_blocks a b;
  let matches := sum_list ((fun m : Difflib.Match => m.2) <$> blocks) in
  Py.Ok (calculate_ratio matches (length a + length b)).

(** The record of an opcode other than [equal]. *)
Definition text_record (text1 text2 : string) (op : Difflib.opcode)
    : list text_difference :=
  let '(tag, i1, i2, j1, j2) := op in
  match tag with
  | Difflib.Equal => []
  | _ =>
      [ Changed tag (slice text1 i1 i2) (slice text2 j1 j2) (i1, i2) (j1, j2)
          (slice text1 (i1 - 50) i1)
          (slice text1 i2 (Nat.min (String.length text1) (i2 + 50))) ]
  end.

Definition compare_text_exact (text1 text2 : string) (config : Settings.text_config)
    : Py.res (list text_difference) :=
  if default true (Settings.strict config) then
    (* exact character-by-character comparison *)
    opcodes ← Difflib.get_opcodes (String.list_ascii_of_string text1)
                (String.list_ascii_of_string text2);
    Py.Ok (flat_map (text_record text1 text2) opcodes)
  else
    (* fuzzy comparison *)
    similarity ← ratio (String.list_ascii_of_string text1) (String.list_ascii_of_string text2);
    if Py.Qltb similarity 0.95%Q
    then Py.Ok [Fuzzy similarity text1 text2]
    else Py.Ok [].

End EngineText.


(** ** neuro_agent.py: validating and parsing the mapped files *)

Module Pipeline.
Import NeuroAgent.

(** One value of [file_mapping]. *)
Record paths := {
  reference : option string;
  new : option string
}.

Inductive validation_error :=
| InvalidPDF (filename : string) (ref_valid new_valid : bool)
| ValidationFailed (filename error : string).

Record validation := {
  validated_files : Py.odict paths;
  validation_errors : list validation_error;
  valid_count : Z
}.

Record parsed := {
  parsed_content : Py.odict content;
  success_count : Z
}.

Section Parser.

(** [PDFParser.validate_pdf] and [PDFParser.parse_pdf]: both catch every
    exception, the second returning what it has with an ["error"] key
    added. *)
Variable validate_pdf : string -> bool.
Variable parse_pdf : string -> document.

(** The body of the loop of [validate_files]. *)
Definition validate_entry (acc : Py.odict paths * list validation_error)
    (item : string * paths) : Py.odict paths * list validation_error :=
  let '(filename, ps) := item in
  match Py.getitem "reference" (reference ps) with
  | Py.Err e => (acc.1, acc.2 ++ [ValidationFailed filename (Py.str_exn e)])
  | Py.Ok r =>
      let ref_valid := validate_pdf r in
      match Py.getitem "new" (new ps) with
      | Py.Err e => (acc.1, acc.2 ++ [ValidationFailed filename (Py.str_exn e)])
      | Py.Ok n =>
          let new_valid := validate_pdf n in
          if ref_valid && new_valid then (Py.od_set filename ps acc.1, acc.2)
          else (acc.1, acc.2 ++ [InvalidPDF filename ref_valid new_valid])
      end
  end.

Definition validate_files (file_mapping : Py.odict paths) : validation :=
  let st := fold_left validate_entry file_mapping ([], []) in
  {| validated_files := st.1; validation_errors := st.2;
     valid_count := Z.of_nat (length st.1) |}.

(** The body of the loop of [parse_pdfs]. *)
Definition parse_entry (acc : Py.odict content) (item : string * paths)
    : Py.odict content :=
  let '(filename, ps) := item in
  match Py.getitem "reference" (reference ps) with
  | Py.Err e =>
      Py.od_set filename
        {| c_error := Some (Py.str_exn e); c_reference := None; c_new := None |} acc
  | Py.Ok r =>
      let ref_content := parse_pdf r in
      match Py.getitem "new" (new ps) with
      | Py.Err e =>
          Py.od_set filename
            {| c_error := Some (Py.str_exn e); c_reference := None; c_new := None |} acc
      | Py.Ok n =>
          let new_content := parse_pdf n in
          Py.od_set filename
            {| c_error := None; c_reference := Some ref_content;
               c_new := Some new_content |} acc
      end
  end.

Definition parse_pdfs (validated : Py.odict paths) : parsed :=
  let pc := fold_left parse_entry validated [] in
  {| parsed_content := pc;
     success_count :=
       Z.of_nat (length (filter (fun item => c_error item.2 = None) pc)) |}.

(** Both paths are there. *)
Definition complete (ps : paths) : Prop :=
  is_Some (reference ps) /\ is_Some (new ps).

(** What [parse_pdfs] stores for a file: the two documents, or the
    payload of its [except] branch when a path is missing. *)
Definition parsed_file (ps : paths) : content :=
  match reference ps, new ps with
  | Some r, Some n =>
      {| c_error := None; c_reference := Some (parse_pdf r);
         c_new := Some (parse_pdf n) |}
  | None, _ =>
      {| c_error := Some "'reference'"; c_reference := None; c_new := None |}
  | Some _, None =>
      {| c_error := Some "'new'"; c_reference := None; c_new := None |}
  end.

(** The parsed entry of a file that has both paths. *)
Definition parsed_entry (item : string * paths) : string * content :=
  (item.1,
   {| c_error := None;
      c_reference := parse_pdf <$> reference item.2;
      c_new := parse_pdf <$> new item.2 |}).

End Parser.

(** A parser that fails on every file. *)
Definition failing_parser (file_path : string) : document :=
  {| doc_text := []; doc_images := []; doc_fonts := [];
     doc_error := Some ("cannot open " +:+ file_path) |}.

Definition two_files : Py.odict paths :=
  [ ("a.pdf", {| reference := Some "ref/a.pdf"; new := Some "new/a.pdf" |});
    ("b.pdf", {| reference := Some "ref/b.pdf"; new := None |}) ].

(** A parser that fails on the reference file of [report.pdf], returning
    its initial result with the ["error"] key added, and reads the new
    file. *)
Definition half_failing_parser (file_path : string) : document :=
  if String.eqb file_path "ref/report.pdf" then NestedError.failed_document
  else Sample.other_document.

Definition one_file : Py.odict paths :=
  [ ("report.pdf",
     {| reference := Some "ref/report.pdf"; new := Some "new/report.pdf" |}) ].

End Pipeline.


(** ** The lines one opcode contributes to the report *)

Module Report.
Import TextComparator.

(** [lines[i]], for an index inside the list. *)
Definition line (lines : list string) (i : nat) : string :=
  default "" (lines !! i).

Definition opcode_lines (ref_lines new_lines : list string) (page_num : Z)
    (op : Difflib.opcode) : list string :=
  let '(tag, i1, i2, j1, j2) := op in
  match tag with
  | Difflib.Equal => []
  | Difflib.Replace =>
      if ((i1 <? i2) && (j1 <? j2))%nat
      then [changed_message page_num (i1 + 1) (line ref_lines i1) (line new_lines j1)]
      else []
  | Difflib.Delete =>
      (fun i => removed_message page_num (i + 1) (line ref_lines i))
        <$> seq i1 (i2 - i1)
  | Difflib.Insert =>
      (fun j => added_message page_num (j + 1) (line new_lines j))
        <$> seq j1 (j2 - j1)
  end.

End Report.


(** ** What the records of [compare_fonts_detailed] name *)

Module EngineFonts.

(** [f.get("name", "")] and [f.get("family", "")] over a list of fonts. *)
Definition names (fonts : list font) : list string :=
  (fun f => default "" (f_name f)) <$> fonts.

Definition families (fonts : list font) : list string :=
  (fun f => default "" (f_family f)) <$> fonts.

(** What a record says about the two lists. *)
Definition grounded (fonts1 fonts2 : list font)
    (d : ComparisonEngine.font_difference) : Prop :=
  match d with
  | ComparisonEngine.AddedFamily family =>
      family ∈ families fonts2 /\ family ∉ families fonts1
  | ComparisonEngine.RemovedFamily family =>
      family ∈ families fonts1 /\ family ∉ families fonts2
  | ComparisonEngine.Size font_name _ _ _ _
  | ComparisonEngine.Style font_name _ _
  | ComparisonEngine.Color font_name _ _ =>
      font_name ∈ names fonts1 /\ font_name ∈ names fonts2
  end.

Definition times : font :=
  {| f_name := Some "Times"; f_family := Some "serif"; f_size := Some 11%float;
     f_style := Some "italic"; f_color := None; f_flags := None |}.

End EngineFonts.


(* ===================================================================== *)
(** * Properties *)
(* ===================================================================== *)

(** Turns every boolean rational comparison among the hypotheses into
    the order it decides. *)
Lemma Qle_bool_false (x y : Q) : Qle_bool x y = false -> (y < x)%Q.
Proof.
  intros H. apply Qnot_le_lt. intros Hle. apply Qle_bool_iff in Hle. congruence.
Qed.

Ltac Qle_bool_props :=
  repeat match goal with
    | H : Qle_bool _ _ = true |- _ => apply Qle_bool_iff in H
    | H : Qle_bool _ _ = false |- _ => apply Qle_bool_false in H
    end.

(** Runs the binds of the [res] monad whose argument is a result. *)
Ltac res_step := cbn [mbind res_bind Py.bind mret res_ret].

(** ** Similarity score *)

Section Similarity.
Import ComparisonEngine.

Lemma weights_lookup_categorised (d : difference) :
  Spec.categorised d ->
  default 1.0%Q (weights !! default "text" (d_type d)) = Spec.record_weight d.
Proof.
  intros (c & Hc & Hw). unfold Spec.record_weight. rewrite Hc. simpl.
  unfold Spec.category_weight in *.
  destruct (String.eqb_spec c "text") as [->|_]; [reflexivity|].
  destruct (String.eqb_spec c "image") as [->|_]; [reflexivity|].
  destruct (String.eqb_spec c "font") as [->|_]; [reflexivity|].
  destruct (String.eqb_spec c "layout") as [->|_]; [reflexivity|].
  destruct Hw as [w Hw]; discriminate.
Qed.

Lemma weighted_changes_sum (ds : list difference) (acc : Q) :
  Forall Spec.categorised ds ->
  (fold_left
     (fun acc diff =>
        (acc + default 1.0 (weights !! default "text" (d_type diff))))
     ds acc == acc + Spec.weight_sum ds)%Q.
Proof.
  intros H. revert acc. induction H as [|d ds Hd _ IH]; intros acc; simpl.
  - ring.
  - rewrite IH, (weights_lookup_categorised d Hd). ring.
Qed.

Lemma clamp_agrees (x y : Q) :
  (x == y)%Q -> (Py.max 0.0 (Py.min 1.0 x) == Spec.clamp01 y)%Q.
Proof.
  intros Hxy. unfold Py.max, Py.min, Py.Qgtb, Py.Qltb, Spec.clamp01.
  destruct (Qle_bool 1.0 x) eqn:H1; simpl;
    [destruct (Qle_bool 1.0 0.0) eqn:H2; [discriminate H2|]
    |destruct (Qle_bool x 0.0) eqn:H2]; simpl;
    destruct (Qle_bool y 0) eqn:H3; try destruct (Qle_bool 1 y) eqn:H4;
    Qle_bool_props; lra.
Qed.

Lemma clamp01_bounds (x : Q) : (0 <= Spec.clamp01 x <= 1)%Q.
Proof.
  unfold Spec.clamp01.
  destruct (Qle_bool x 0) eqn:H0; [split; discriminate|].
  destruct (Qle_bool 1 x) eqn:H1; [split; discriminate|].
  Qle_bool_props. lra.
Qed.

End Similarity.

(** C6. For every list of difference records of the data model (each
    carrying one of the categories text, image, font, layout) and every
    positive [total_elements], [calculate_similarity_score] returns
    1 minus the sum of the per-record category weights (text 1.0,
    image 0.8, font 0.3, layout 0.5) divided by [total_elements], clamped
    to the interval [0, 1]. *)
Theorem similarity_score_formula (differences : list difference)
    (total_elements : Z) :
  0 < total_elements ->
  Forall Spec.categorised differences ->
  exists s : Q,
    ComparisonEngine.calculate_similarity_score differences total_elements
      = Py.Ok s
    /\ (s == Spec.similarity differences total_elements)%Q
    /\ (0 <= s <= 1)%Q.
Proof.
  intros Hpos Hcat. unfold ComparisonEngine.calculate_similarity_score.
  destruct (Z.eqb_spec total_elements 0) as [->|Hne]; [lia|].
  unfold Py.truediv.
  destruct (Qeq_bool (inject_Z total_elements) 0) eqn:Hz.
  { apply Qeq_bool_eq in Hz. unfold Qeq in Hz. simpl in Hz. lia. }
  simpl. eexists. split; [reflexivity|].
  assert (Heq : (Py.max 0.0 (Py.min 1.0
            (1 - fold_left
                   (fun acc diff =>
                      acc + default 1.0
                        (ComparisonEngine.weights !! default "text" (d_type diff)))
                   differences 0 / inject_Z total_elements))
          == Spec.similarity differences total_elements)%Q).
  { apply clamp_agrees. rewrite (weighted_changes_sum differences 0 Hcat).
    unfold Qminus. apply Qplus_comp; [reflexivity|]. apply Qopp_comp.
    apply Qmult_comp; [ring|reflexivity]. }
  split; [exact Heq|]. rewrite Heq. apply clamp01_bounds.
Qed.

Lemma similarity_score_formula_witness :
  exists s : Q,
    ComparisonEngine.calculate_similarity_score
      [ {| d_type := Some "text"; d_severity := None; d_operation := None |};
        {| d_type := Some "font"; d_severity := Some "minor"; d_operation := None |} ] 4
      = Py.Ok s
    /\ (s == Spec.similarity
              [ {| d_type := Some "text"; d_severity := None; d_operation := None |};
                {| d_type := Some "font"; d_severity := Some "minor"; d_operation := None |} ] 4)%Q
    /\ (0 <= s <= 1)%Q.
Proof.
  apply similarity_score_formula; [lia|].
  repeat constructor; eexists; (split; [reflexivity|]); eexists; reflexivity.
Defined.

(** C9. With [total_elements] equal to 0, [calculate_similarity_score]
    returns exactly 1.0 for every list of difference records, and for no
    input at all does the division raise [ZeroDivisionError]: the call
    always returns a score. *)
Theorem similarity_score_empty_corpus (differences : list difference) :
  ComparisonEngine.calculate_similarity_score differences 0 = Py.Ok 1.0%Q
  /\ forall total_elements : Z,
       exists s : Q,
         ComparisonEngine.calculate_similarity_score differences total_elements
           = Py.Ok s.
Proof.
  split; [reflexivity|]. intros total.
  unfold ComparisonEngine.calculate_similarity_score.
  destruct (Z.eqb_spec total 0) as [->|Hne]; [eexists; reflexivity|].
  unfold Py.truediv.
  destruct (Qeq_bool (inject_Z total) 0) eqn:Hz.
  { apply Qeq_bool_eq in Hz. unfold Qeq in Hz. simpl in Hz. lia. }
  simpl. eexists. reflexivity.
Qed.

(** ** Pattern store: recording an occurrence *)

Section RecordingTwice.
Import LearningModule.

Lemma update_patterns_new (data : comparison_data) (s : self) (e : Env.env saved) :
  patterns s !! _extract_pattern_key data = None ->
  let st := update_patterns data (s, e) in
  patterns st.1 !! _extract_pattern_key data
    = Some {| count := 0;
              first_seen := Env.timeline e (Env.ticks e);
              last_seen := Env.timeline e (S (Env.ticks e));
              examples := [ {| ex_timestamp := Env.timeline e (S (S (Env.ticks e)));
                               ex_data := data |} ];
              metadata := data |}
  /\ Env.timeline st.2 = Env.timeline e
  /\ Env.ticks st.2 = (Env.ticks e + 4)%nat.
Proof.
  intros Hnew. unfold update_patterns. rewrite Hnew. simpl.
  rewrite lookup_insert_eq. repeat split. lia.
Qed.

Lemma update_patterns_known (data : comparison_data) (s : self) (e : Env.env saved)
    (p : pattern) :
  patterns s !! _extract_pattern_key data = Some p ->
  let st := update_patterns data (s, e) in
  patterns st.1 !! _extract_pattern_key data
    = Some {| count := count p + 1;
              first_seen := first_seen p;
              last_seen := Env.timeline e (Env.ticks e);
              examples :=
                append_bounded (examples p)
                  {| ex_timestamp := Env.timeline e (S (Env.ticks e));
                     ex_data := data |};
              metadata := metadata p |}.
Proof.
  intros Hold. unfold update_patterns. rewrite Hold. simpl.
  rewrite lookup_insert_eq. reflexivity.
Qed.

End RecordingTwice.

Section MockRecordingTwice.
Import MockLearningModule.

Lemma mock_update_patterns_new (cd : comparison_data) (s : self) (e : Env.env self) :
  patterns s !! _extract_pattern_key cd = None ->
  let st := update_patterns cd (s, e) in
  patterns st.1 !! _extract_pattern_key cd
    = Some {| count := 0;
              first_seen := Env.timeline e (Env.ticks e);
              last_seen := Env.timeline e (S (Env.ticks e));
              data := cd |}
  /\ Env.timeline st.2 = Env.timeline e
  /\ Env.ticks st.2 = (Env.ticks e + 2)%nat.
Proof.
  intros Hnew. unfold update_patterns. rewrite Hnew. simpl.
  rewrite lookup_insert_eq. repeat split. lia.
Qed.

Lemma mock_update_patterns_known (cd : comparison_data) (s : self) (e : Env.env self)
    (p : pattern) :
  patterns s !! _extract_pattern_key cd = Some p ->
  let st := update_patterns cd (s, e) in
  patterns st.1 !! _extract_pattern_key cd
    = Some {| count := count p + 1;
              first_seen := first_seen p;
              last_seen := Env.timeline e (Env.ticks e);
              data := data p |}.
Proof.
  intros Hold. unfold update_patterns. rewrite Hold. simpl.
  rewrite lookup_insert_eq. reflexivity.
Qed.

End MockRecordingTwice.

(** C1, as the code has it.  Recording the same comparison data twice,
    starting from a store without that pattern key, leaves the stored
    pattern with [count] 1 (the first recording stores 0, only the second
    increments), the [first_seen] timestamp of the first recording and
    the [last_seen] timestamp read by the second recording, which is not
    earlier; the module of [learning_module.py] holds two examples by
    then.  Both learning modules behave alike. *)
Theorem update_patterns_twice (data : comparison_data)
    (s : LearningModule.self) (e : Env.env LearningModule.saved)
    (ms : MockLearningModule.self) (me : Env.env MockLearningModule.self) :
  LearningModule.patterns s !! LearningModule._extract_pattern_key data = None ->
  MockLearningModule.patterns ms !! MockLearningModule._extract_pattern_key data = None ->
  Env.monotone (Env.timeline e) ->
  Env.monotone (Env.timeline me) ->
  (exists p : LearningModule.pattern,
     LearningModule.patterns
       (LearningModule.update_patterns data
          (LearningModule.update_patterns data (s, e))).1
       !! LearningModule._extract_pattern_key data = Some p
     /\ LearningModule.count p = 1
     /\ LearningModule.first_seen p = Env.timeline e (Env.ticks e)
     /\ LearningModule.last_seen p = Env.timeline e (Env.ticks e + 4)
     /\ (LearningModule.first_seen p <= LearningModule.last_seen p)%Q
     /\ length (LearningModule.examples p) = 2%nat)
  /\ (exists p : MockLearningModule.pattern,
        MockLearningModule.patterns
          (MockLearningModule.update_patterns data
             (MockLearningModule.update_patterns data (ms, me))).1
          !! MockLearningModule._extract_pattern_key data = Some p
        /\ MockLearningModule.count p = 1
        /\ MockLearningModule.first_seen p = Env.timeline me (Env.ticks me)
        /\ MockLearningModule.last_seen p = Env.timeline me (Env.ticks me + 2)
        /\ (MockLearningModule.first_seen p <= MockLearningModule.last_seen p)%Q).
Proof.
  intros Hnew Hmnew Hmono Hmmono. split.
  - destruct (update_patterns_new data s e Hnew) as (H1 & Htl & Htk).
    destruct (LearningModule.update_patterns data (s, e)) as [s1 e1] eqn:Hst.
    simpl in H1, Htl, Htk.
    pose proof (update_patterns_known data s1 e1 _ H1) as H2. simpl in H2.
    eexists. split; [exact H2|]. simpl. rewrite Htl, Htk.
    repeat split. apply Hmono. lia.
  - destruct (mock_update_patterns_new data ms me Hmnew) as (H1 & Htl & Htk).
    destruct (MockLearningModule.update_patterns data (ms, me)) as [s1 e1] eqn:Hst.
    simpl in H1, Htl, Htk.
    pose proof (mock_update_patterns_known data s1 e1 _ H1) as H2. simpl in H2.
    eexists. split; [exact H2|]. simpl. rewrite Htl, Htk.
    repeat split. apply Hmmono. lia.
Qed.

Lemma seconds_from_monotone (start : Z) : Env.monotone (Runs.seconds_from start).
Proof.
  intros i j Hij. unfold Runs.seconds_from.
  rewrite <- Zle_Qle. lia.
Qed.

Lemma update_patterns_twice_witness :
  let data :=
    {| cd_type := Some "text"; cd_severity := Some "minor";
       cd_differences :=
         Some [ DictItem {| d_type := Some "text"; d_severity := Some "minor";
                            d_operation := Some "replace" |} ] |} in
  (exists p : LearningModule.pattern,
     LearningModule.patterns
       (LearningModule.update_patterns data
          (LearningModule.update_patterns data
             (LearningModule.fresh, Runs.env_at 1700000000))).1
       !! LearningModule._extract_pattern_key data = Some p
     /\ LearningModule.count p = 1
     /\ LearningModule.first_seen p = Runs.seconds_from 1700000000 0
     /\ LearningModule.last_seen p = Runs.seconds_from 1700000000 (0 + 4)
     /\ (LearningModule.first_seen p <= LearningModule.last_seen p)%Q
     /\ length (LearningModule.examples p) = 2%nat)
  /\ (exists p : MockLearningModule.pattern,
        MockLearningModule.patterns
          (MockLearningModule.update_patterns data
             (MockLearningModule.update_patterns data
                (MockLearningModule.fresh, Runs.env_at 1700000000))).1
          !! MockLearningModule._extract_pattern_key data = Some p
        /\ MockLearningModule.count p = 1
        /\ MockLearningModule.first_seen p = Runs.seconds_from 1700000000 0
        /\ MockLearningModule.last_seen p = Runs.seconds_from 1700000000 (0 + 2)
        /\ (MockLearningModule.first_seen p <= MockLearningModule.last_seen p)%Q).
Proof.
  intros data.
  apply (update_patterns_twice data LearningModule.fresh (Runs.env_at 1700000000)
           MockLearningModule.fresh (Runs.env_at 1700000000)).
  - reflexivity.
  - reflexivity.
  - apply seconds_from_monotone.
  - apply seconds_from_monotone.
Defined.

(** ** Statistics: the bound of 1000 entries per metric *)

Section StatisticsBound.
Import LearningModule Runs.

Lemma last_1000_length {A} (l : list A) : (length (last_1000 l) <= 1000)%nat.
Proof. unfold last_1000. rewrite length_drop. lia. Qed.

Lemma last_1000_short {A} (l : list A) : (length l <= 1000)%nat -> last_1000 l = l.
Proof.
  intros H. unfold last_1000.
  replace (length l - 1000)%nat with 0%nat by lia. reflexivity.
Qed.

Lemma last_1000_app {A} (l h : list A) :
  last_1000 (last_1000 l ++ h) = last_1000 (l ++ h).
Proof.
  destruct (decide (length l <= 1000)%nat) as [Hle|Hgt].
  - rewrite (last_1000_short l Hle). reflexivity.
  - unfold last_1000 at 1 3. rewrite !length_app.
    unfold last_1000. rewrite length_drop.
    replace (length l - (length l - 1000) + length h - 1000)%nat
      with (length h) by lia.
    replace (length l + length h - 1000)%nat
      with ((length l - 1000) + length h)%nat by lia.
    rewrite <- drop_drop. f_equal.
    rewrite drop_app_le by lia. reflexivity.
Qed.

(** One call: the metric's list becomes the last 1000 of the old list
    with the new entry appended; the clock is read twice. *)
Lemma update_statistics_step (metric : string) (v : value) (s : self)
    (e : Env.env saved) :
  let st := update_statistics metric v (s, e) in
  statistics st.1
    = <[metric := last_1000 (default [] (statistics s !! metric)
                             ++ [ {| se_value := v;
                                     se_timestamp := Env.timeline e (Env.ticks e) |} ])]>
        (statistics s)
  /\ Env.timeline st.2 = Env.timeline e
  /\ Env.ticks st.2 = S (S (Env.ticks e)).
Proof.
  unfold update_statistics. simpl.
  match goal with |- context [(1000 <? ?n)%nat] =>
    destruct (Nat.ltb_spec 1000 n) as [Hlt|Hle] end; simpl.
  - repeat split.
  - rewrite last_1000_short by exact Hle. repeat split.
Qed.

Lemma run_updates_statistics (calls : list (string * value)) (s : self)
    (e : Env.env saved) (metric : string) :
  (length (default [] (statistics s !! metric)) <= 1000)%nat ->
  default [] (statistics (run_updates calls (s, e)).1 !! metric)
    = last_1000 (default [] (statistics s !! metric)
                 ++ appended metric calls (Env.timeline e) (Env.ticks e)).
Proof.
  revert s e. induction calls as [|[m v] calls IH]; intros s e Hlen.
  - simpl. rewrite app_nil_r, last_1000_short by exact Hlen. reflexivity.
  - change (run_updates ((m, v) :: calls) (s, e))
      with (run_updates calls (update_statistics m v (s, e))).
    destruct (update_statistics_step m v s e) as (Hst & Htl & Htk).
    destruct (update_statistics m v (s, e)) as [s1 e1].
    simpl in Hst, Htl, Htk. simpl appended.
    destruct (String.eqb_spec m metric) as [->|Hne].
    + rewrite IH; rewrite Hst, lookup_insert_eq; simpl.
      * rewrite Htl, Htk, last_1000_app, <- app_assoc. reflexivity.
      * apply last_1000_length.
    + rewrite IH; rewrite Hst, lookup_insert_ne by exact Hne.
      * rewrite Htl, Htk. reflexivity.
      * exact Hlen.
Qed.

End StatisticsBound.

(** C10. For every metric name and every sequence of [update_statistics]
    calls, made on a store whose list for that metric holds at most 1000
    entries (the fresh store in particular): the stored list never holds
    more than 1000 entries, and it is the last 1000 of all the entries
    recorded for the metric, the oldest ones being discarded. *)
Theorem statistics_keep_last_1000 (calls : list (string * value))
    (s : LearningModule.self) (e : Env.env LearningModule.saved)
    (metric : string) :
  (length (default [] (LearningModule.statistics s !! metric)) <= 1000)%nat ->
  let stored :=
    default [] (LearningModule.statistics (Runs.run_updates calls (s, e)).1 !! metric) in
  let recorded :=
    default [] (LearningModule.statistics s !! metric)
    ++ Runs.appended metric calls (Env.timeline e) (Env.ticks e) in
  (length stored <= 1000)%nat
  /\ stored = drop (length recorded - 1000) recorded.
Proof.
  intros Hlen stored recorded. subst stored recorded.
  rewrite run_updates_statistics by exact Hlen.
  split; [apply last_1000_length | reflexivity].
Qed.

Lemma statistics_keep_last_1000_witness :
  let calls :=
    (fun i => ("total_changes", VInt (Z.of_nat i))) <$> seq 0 1002 in
  let stored :=
    default []
      (LearningModule.statistics
         (Runs.run_updates calls (LearningModule.fresh, Runs.env_at 1700000000)).1
       !! "total_changes") in
  let recorded :=
    default [] (LearningModule.statistics LearningModule.fresh !! "total_changes")
    ++ Runs.appended "total_changes" calls (Runs.seconds_from 1700000000) 0 in
  length recorded = 1002%nat
  /\ LearningModule.se_value <$> stored !! 0%nat = Some (VInt 2)
  /\ (length stored <= 1000)%nat
  /\ stored = drop (length recorded - 1000) recorded.
Proof.
  intros calls stored recorded. split; [|split].
  - vm_compute. reflexivity.
  - vm_compute. reflexivity.
  - apply (statistics_keep_last_1000 calls LearningModule.fresh
             (Runs.env_at 1700000000) "total_changes").
    change (0 <= 1000)%nat. lia.
Defined.

(** ** Retention trim *)

Section RetentionTrim.
Import LearningModule Retention.

Lemma Qgtb_lt (x y : Q) : Py.Qgtb x y = true <-> (y < x)%Q.
Proof.
  unfold Py.Qgtb, Py.Qltb. split.
  - intros H. apply negb_true_iff in H. apply Qle_bool_false. exact H.
  - intros H. apply negb_true_iff. destruct (Qle_bool x y) eqn:Hb; [|reflexivity].
    apply Qle_bool_iff in Hb. exfalso. apply (Qle_not_lt _ _ Hb H).
Qed.

Lemma Qltb_lt (x y : Q) : Py.Qltb x y = true <-> (x < y)%Q.
Proof. apply (Qgtb_lt y x). Qed.

Lemma clear_old_data_statistics (days : Z) (s : self) (e : Env.env saved)
    (metric : string) :
  statistics (clear_old_data days (s, e)).1 !! metric
  = match filter (fun v => (cutoff_time days e < se_timestamp v)%Q)
            (default [] (statistics s !! metric)) with
    | [] => None
    | kept => Some kept
    end.
Proof.
  unfold clear_old_data. simpl. rewrite lookup_omap.
  fold (cutoff_time days e).
  destruct (statistics s !! metric) as [entries|]; simpl; [|reflexivity].
  rewrite (list_filter_iff _ (fun v => (cutoff_time days e < se_timestamp v)%Q))
    by (intros v; apply Qgtb_lt).
  destruct (filter _ entries); reflexivity.
Qed.

Lemma clear_old_data_patterns (days : Z) (s : self) (e : Env.env saved)
    (key : string) :
  patterns (clear_old_data days (s, e)).1 !! key
  = p ← patterns s !! key;
    let kept := filter (fun ex => (cutoff_time days e < ex_timestamp ex)%Q)
                  (examples p) in
    let p' := {| count := count p; first_seen := first_seen p;
                 last_seen := last_seen p; examples := kept;
                 metadata := metadata p |} in
    match kept with
    | [] => if Py.Qltb (last_seen p) (cutoff_time days e) then None else Some p'
    | _ => Some p'
    end.
Proof.
  unfold clear_old_data. simpl. rewrite lookup_omap.
  fold (cutoff_time days e).
  destruct (patterns s !! key) as [p|]; simpl; [|reflexivity].
  rewrite (list_filter_iff _ (fun ex => (cutoff_time days e < ex_timestamp ex)%Q))
    by (intros v; apply Qgtb_lt).
  reflexivity.
Qed.

End RetentionTrim.

(** C8, amended.  For every Pattern Store state and every cutoff age the
    trim keeps exactly the statistics entries whose timestamp is strictly
    newer than the cutoff (an entry at or before the cutoff is removed,
    and a metric left without entries is dropped), and it removes a
    pattern iff its example list, trimmed the same way, is empty and its
    [last_seen] is older than the cutoff; a pattern with no remaining
    examples but [last_seen] at or after the cutoff is kept, with its
    trimmed example list. *)
Theorem clear_old_data_retention (days_to_keep : Z) (s : LearningModule.self)
    (e : Env.env LearningModule.saved) :
  let cutoff := Retention.cutoff_time days_to_keep e in
  let s' := (LearningModule.clear_old_data days_to_keep (s, e)).1 in
  let recent_entries := fun metric : string =>
    filter (fun v => (cutoff < LearningModule.se_timestamp v)%Q)
      (default [] (LearningModule.statistics s !! metric)) in
  let recent_examples := fun p : LearningModule.pattern =>
    filter (fun ex => (cutoff < LearningModule.ex_timestamp ex)%Q)
      (LearningModule.examples p) in
  (forall metric : string,
     default [] (LearningModule.statistics s' !! metric) = recent_entries metric
     /\ (LearningModule.statistics s' !! metric = None <-> recent_entries metric = []))
  /\ (forall (key : string) (p : LearningModule.pattern),
        LearningModule.patterns s !! key = Some p ->
        (LearningModule.patterns s' !! key = None
         <-> recent_examples p = [] /\ (LearningModule.last_seen p < cutoff)%Q)
        /\ (recent_examples p = [] ->
            (cutoff <= LearningModule.last_seen p)%Q ->
            LearningModule.patterns s' !! key
            = Some {| LearningModule.count := LearningModule.count p;
                      LearningModule.first_seen := LearningModule.first_seen p;
                      LearningModule.last_seen := LearningModule.last_seen p;
                      LearningModule.examples := [];
                      LearningModule.metadata := LearningModule.metadata p |}))
  /\ (forall key : string,
        LearningModule.patterns s !! key = None ->
        LearningModule.patterns s' !! key = None).
Proof.
  intros cutoff s' recent_entries recent_examples.
  subst s' recent_entries recent_examples cutoff. split; [|split].
  - intros metric. rewrite clear_old_data_statistics.
    destruct (filter _ _) as [|v kept] eqn:Hf; simpl.
    + split; [reflexivity | split; reflexivity].
    + split; [reflexivity | split; discriminate].
  - intros key p Hp. rewrite clear_old_data_patterns, Hp. simpl.
    destruct (filter _ (LearningModule.examples p)) as [|ex kept] eqn:Hf.
    + destruct (Py.Qltb (LearningModule.last_seen p)
                  (Retention.cutoff_time days_to_keep e)) eqn:Hb.
      * apply Qltb_lt in Hb. split.
        -- split; [intros _; split; [reflexivity | exact Hb] | reflexivity].
        -- intros _ Hle. exfalso. apply (Qle_not_lt _ _ Hle Hb).
      * split.
        -- split; [discriminate|]. intros [_ Hlt].
           apply Qltb_lt in Hlt. congruence.
        -- intros _ _. reflexivity.
    + split.
      * split; [discriminate | intros [Hnil _]; discriminate].
      * intros Hnil. discriminate.
  - intros key Hnone. rewrite clear_old_data_patterns, Hnone. reflexivity.
Qed.

(** C8, as stated, fails on the boundary: a statistics entry whose
    timestamp equals the cutoff is not older than the cutoff, yet the trim
    removes it. *)
Lemma clear_old_data_boundary_counterexample :
  ~ Retention.trims_exactly_the_older 1 Retention.one_entry_store
      Retention.one_day_later.
Proof.
  intros [Hstats _]. specialize (Hstats "total_changes").
  vm_compute in Hstats. discriminate Hstats.
Qed.

(** ** Workflow execution *)

Section WorkflowExecution.
Import Orchestrator.
Context {V : Type}.
Implicit Types (a : Agent V) (context : Py.odict V) (step : WorkflowStep).
Implicit Types (results : Py.odict (result V)) (log : list (call V)).

Lemma run_steps_app a context (pre rest : list WorkflowStep) results log :
  run_steps a context (pre ++ rest) results log
  = match run_steps a context pre results log with
    | (log', Py.Ok results') => run_steps a context rest results' log'
    | (log', Py.Err e) => (log', Py.Err e)
    end.
Proof.
  revert results log. induction pre as [|step pre IH]; intros results log.
  - reflexivity.
  - simpl. destruct (negb (_check_dependencies step results)); [reflexivity|].
    destruct (execute_task a (task step) (step_context context results))
      as [calls [step_result|e]]; [apply IH | reflexivity].
Qed.

Lemma execute_task_calls a task_name (kwargs : Py.odict V) calls out :
  execute_task a task_name kwargs = (calls, out) ->
  calls = [] \/ calls = [(task_name, kwargs)].
Proof.
  unfold execute_task.
  destruct (multiple_values kwargs); [intros [= <- <-]; auto|].
  destruct (get_task a task_name); intros [= <- <-]; auto.
Qed.

Lemma execute_task_ok_calls a task_name (kwargs : Py.odict V) calls r :
  execute_task a task_name kwargs = (calls, Py.Ok r) ->
  calls = [(task_name, kwargs)].
Proof.
  unfold execute_task.
  destruct (multiple_values kwargs); [discriminate|].
  destruct (get_task a task_name); intros [= <- Hr].
  - reflexivity.
Qed.

(** A run that completes has called the task of every step, in the
    order of the steps. *)
Lemma run_steps_ok_log a context (sorted_steps : list WorkflowStep) results log
    log' results' :
  run_steps a context sorted_steps results log = (log', Py.Ok results') ->
  log'.*1 = log.*1 ++ (task <$> sorted_steps).
Proof.
  revert results log. induction sorted_steps as [|step rest IH]; intros results log.
  - simpl. intros [= <- <-]. rewrite app_nil_r. reflexivity.
  - simpl. destruct (negb (_check_dependencies step results)); [discriminate|].
    destruct (execute_task a (task step) (step_context context results))
      as [calls [step_result|e]] eqn:Hex; [|discriminate].
    intros Hrun. apply IH in Hrun. rewrite Hrun.
    apply execute_task_ok_calls in Hex. subst calls.
    rewrite fmap_app, <- app_assoc. reflexivity.
Qed.

(** Whatever the outcome, the tasks called are those of a prefix of the
    steps, in the order of the steps. *)
Lemma run_steps_log_prefix a context (sorted_steps : list WorkflowStep) results log :
  exists called : list string,
    (run_steps a context sorted_steps results log).1.*1 = log.*1 ++ called
    /\ called `prefix_of` (task <$> sorted_steps).
Proof.
  revert results log. induction sorted_steps as [|step rest IH]; intros results log.
  - exists []. simpl. rewrite app_nil_r. split; [reflexivity | apply prefix_nil].
  - simpl. destruct (negb (_check_dependencies step results)).
    { exists []. simpl. rewrite app_nil_r. split; [reflexivity | apply prefix_nil]. }
    destruct (execute_task a (task step) (step_context context results))
      as [calls [step_result|e]] eqn:Hex.
    + apply execute_task_ok_calls in Hex. subst calls.
      destruct (IH (Py.od_set (name step) step_result results)
                  (log ++ [(task step, step_context context results)]))
        as (called & Hlog & Hpre).
      exists (task step :: called). split.
      * rewrite Hlog, fmap_app, <- app_assoc. reflexivity.
      * apply prefix_cons. exact Hpre.
    + apply execute_task_calls in Hex. destruct Hex as [-> | ->]; simpl.
      * exists []. rewrite !app_nil_r. split; [reflexivity | apply prefix_nil].
      * exists [task step]. rewrite fmap_app. split; [reflexivity|].
        apply prefix_cons, prefix_nil.
Qed.

Lemma missing_dependency_fails step results (dep : string) :
  dep ∈ dependencies step ->
  Py.od_get dep results = None ->
  _check_dependencies step results = false.
Proof.
  intros Hin Hmiss. unfold _check_dependencies.
  apply not_true_iff_false. intros Hall.
  rewrite forallb_forall in Hall.
  specialize (Hall dep (proj1 (list_elem_of_In _ _) Hin)).
  unfold Py.od_contains in Hall. rewrite Hmiss in Hall. discriminate.
Qed.

End WorkflowExecution.

(** C2. For every workflow and every step in it: steps run in declaration
    order (the tasks called by any execution are those of a prefix of the
    declared steps, in that order), and when a step is reached (all steps
    declared before it have completed) while one of its declared
    dependencies is not a key of the completed-results map, the execution
    aborts with the "Dependencies not met" failure; the tasks called are
    exactly those of the steps declared before it, so neither the step's
    own task nor any later step runs. *)
Theorem dependency_not_met_aborts {V : Type} (w : Orchestrator.Workflow V)
    (a : Orchestrator.Agent V) (context : Py.odict V)
    (pre post : list Orchestrator.WorkflowStep) (step : Orchestrator.WorkflowStep)
    (dep : string) (results : Py.odict (Orchestrator.result V))
    (log : list (Orchestrator.call V)) :
  Orchestrator.agent w = Some a ->
  Orchestrator.steps w = pre ++ step :: post ->
  Orchestrator.run_steps a context pre [] [] = (log, Py.Ok results) ->
  dep ∈ Orchestrator.dependencies step ->
  Py.od_get dep results = None ->
  Orchestrator.execute w context
    = (log, Py.Err (Py.ValueError
                      ("Dependencies not met for step: " +:+ Orchestrator.name step)))
  /\ log.*1 = (Orchestrator.task <$> pre)
  /\ forall context' : Py.odict V,
       (Orchestrator.execute w context').1.*1
         `prefix_of` (Orchestrator.task <$> Orchestrator.steps w).
Proof.
  intros Hagent Hsteps Hpre Hdep Hmiss. split; [|split].
  - unfold Orchestrator.execute, Orchestrator._topological_sort.
    rewrite Hagent, Hsteps, run_steps_app, Hpre. simpl.
    rewrite (missing_dependency_fails step results dep Hdep Hmiss). reflexivity.
  - apply run_steps_ok_log in Hpre. exact Hpre.
  - intros context'. unfold Orchestrator.execute, Orchestrator._topological_sort.
    rewrite Hagent.
    destruct (run_steps_log_prefix a context' (Orchestrator.steps w) [] [])
      as (called & Hlog & Hprefix).
    rewrite Hlog. exact Hprefix.
Qed.

Lemma dependency_not_met_aborts_witness :
  Orchestrator.execute OutOfOrder.workflow OutOfOrder.context
    = ([("scan_folders", OutOfOrder.context)],
       Py.Err (Py.ValueError
                 ("Dependencies not met for step: "
                  +:+ Orchestrator.name OutOfOrder.step_B)))
  /\ [("scan_folders", OutOfOrder.context)].*1
     = (Orchestrator.task <$> [OutOfOrder.scan])
  /\ forall context' : Py.odict string,
       (Orchestrator.execute OutOfOrder.workflow context').1.*1
         `prefix_of` (Orchestrator.task <$> Orchestrator.steps OutOfOrder.workflow).
Proof.
  apply (dependency_not_met_aborts OutOfOrder.workflow OutOfOrder.the_agent
           OutOfOrder.context [OutOfOrder.scan] [OutOfOrder.step_A]
           OutOfOrder.step_B "A" [("scan", Orchestrator.RDict [("total_files", "2")])]).
  - reflexivity.
  - reflexivity.
  - vm_compute. reflexivity.
  - constructor.
  - reflexivity.
Defined.

(** ** The sequence matcher always answers, within its ranges *)

Section MatcherBounds.
Import Difflib MatcherInvariants.
Local Open Scope nat_scope.
Context {A : Type} `{EqDecision A}.
Implicit Types (a b : list A) (best : Match) (j2len : gmap nat nat).

Lemma index_lt (l : list A) (i : nat) :
  i < length l -> exists x, Py.index l i = Py.Ok x /\ l !! i = Some x.
Proof.
  intros Hi. destruct (lookup_lt_is_Some_2 l i Hi) as [x Hx].
  exists x. unfold Py.index. rewrite Hx. split; reflexivity.
Qed.

Lemma scan_row_bounds (alo blo bhi i : nat) (js : list nat) j2len newj2len best :
  alo <= i ->
  row_bounds alo blo bhi i j2len ->
  row_bounds alo blo bhi (S i) newj2len ->
  best_bounds alo blo bhi (S i) best ->
  row_bounds alo blo bhi (S i) (scan_row blo bhi i js j2len newj2len best).1
  /\ best_bounds alo blo bhi (S i) (scan_row blo bhi i js j2len newj2len best).2.
Proof.
  intros Hi Hrow. revert newj2len best.
  induction js as [|j js IH]; intros newj2len best Hnew Hbest; simpl.
  - split; assumption.
  - destruct (Nat.ltb_spec j blo) as [Hlo|Hlo]; [apply IH; assumption|].
    destruct (Nat.leb_spec bhi j) as [Hhi|Hhi]; [split; assumption|].
    set (prev := match j with 0 => 0 | S j' => default 0 (j2len !! j') end).
    assert (Hprev : prev <= i - alo /\ prev <= j - blo).
    { subst prev. destruct j as [|j']; [lia|].
      destruct (j2len !! j') as [v|] eqn:Hv; simpl; [|lia].
      destruct (Hrow j' v Hv) as (? & ? & ? & ? & ?). lia. }
    apply IH.
    + intros j0 v Hv. destruct (decide (j0 = j)) as [->|Hne].
      * rewrite lookup_insert_eq in Hv. injection Hv as <-. lia.
      * rewrite lookup_insert_ne in Hv by congruence. apply Hnew. exact Hv.
    + destruct (Nat.ltb_spec best.2 (prev + 1)) as [Hk|Hk]; [|exact Hbest].
      unfold best_bounds. simpl. lia.
Qed.

Lemma best_bounds_mono (alo blo bhi i i' : nat) best :
  i <= i' -> best_bounds alo blo bhi i best -> best_bounds alo blo bhi i' best.
Proof. unfold best_bounds. intros ? (? & ? & ? & ?). lia. Qed.

Lemma scan_rows_bounds a b (alo blo bhi m i : nat) j2len best :
  alo <= i -> i + m <= length a ->
  row_bounds alo blo bhi i j2len ->
  best_bounds alo blo bhi i best ->
  exists best',
    scan_rows a b blo bhi (seq i m) j2len best = Py.Ok best'
    /\ best_bounds alo blo bhi (i + m) best'.
Proof.
  revert i j2len best. induction m as [|m IH]; intros i j2len best Hi Hlen Hrow Hbest.
  - exists best. rewrite Nat.add_0_r. split; [reflexivity | exact Hbest].
  - simpl. destruct (index_lt a i) as (x & -> & _); [lia|]. simpl.
    pose proof (scan_row_bounds alo blo bhi i (b2j b x) j2len ∅ best Hi Hrow) as Hstep.
    destruct (scan_row blo bhi i (b2j b x) j2len ∅ best) as [newj2len best1].
    destruct Hstep as [Hrow1 Hbest1].
    { intros j v Hv. rewrite lookup_empty in Hv. discriminate. }
    { apply (best_bounds_mono alo blo bhi i); [lia | exact Hbest]. }
    destruct (IH (S i) newj2len best1) as (best' & Hrun & Hb'); try assumption; try lia.
    exists best'. split; [exact Hrun|].
    replace (i + S m) with (S i + m) by lia. exact Hb'.
Qed.

Lemma extend_left_bounds (test : A -> bool) a b (alo ahi blo bhi fuel : nat) best :
  best.1.1 - alo <= fuel ->
  in_ranges a b alo ahi blo bhi best ->
  exists best',
    extend_left test a b alo blo fuel best = Py.Ok best'
    /\ in_ranges a b alo ahi blo bhi best'.
Proof.
  revert best. induction fuel as [|fuel IH]; intros [[bi bj] bs] Hfuel Hin;
    pose proof Hin as (Ha & Hb & Hi & Hsz & Hj & Hsj); simpl in *.
  - destruct (Nat.ltb_spec alo bi) as [Hlt|Hge]; [lia|]. simpl.
    eexists. split; [reflexivity | exact Hin].
  - destruct (Nat.ltb_spec alo bi) as [Hlt|Hge]; simpl;
      [|eexists; split; [reflexivity | exact Hin]].
    destruct (Nat.ltb_spec blo bj) as [Hltj|Hgej]; simpl;
      [|eexists; split; [reflexivity | exact Hin]].
    destruct (index_lt b (bj - 1)) as (y & -> & _); [lia|]. simpl.
    destruct (test y); [|eexists; split; [reflexivity | exact Hin]].
    destruct (index_lt a (bi - 1)) as (x & -> & _); [lia|]. simpl.
    destruct (decide (x = y)); [|eexists; split; [reflexivity | exact Hin]].
    apply IH; simpl; [lia|].
    unfold in_ranges, best_bounds. simpl. lia.
Qed.

Lemma extend_right_bounds (test : A -> bool) a b (alo ahi blo bhi fuel : nat) best :
  ahi - (best.1.1 + best.2) <= fuel ->
  in_ranges a b alo ahi blo bhi best ->
  exists best',
    extend_right test a b ahi bhi fuel best = Py.Ok best'
    /\ in_ranges a b alo ahi blo bhi best'.
Proof.
  revert best. induction fuel as [|fuel IH]; intros [[bi bj] bs] Hfuel Hin;
    pose proof Hin as (Ha & Hb & Hi & Hsz & Hj & Hsj); simpl in *.
  - destruct (Nat.ltb_spec (bi + bs) ahi) as [Hlt|Hge]; [lia|]. simpl.
    eexists. split; [reflexivity | exact Hin].
  - destruct (Nat.ltb_spec (bi + bs) ahi) as [Hlt|Hge]; simpl;
      [|eexists; split; [reflexivity | exact Hin]].
    destruct (Nat.ltb_spec (bj + bs) bhi) as [Hltj|Hgej]; simpl;
      [|eexists; split; [reflexivity | exact Hin]].
    destruct (index_lt b (bj + bs)) as (y & -> & _); [lia|]. simpl.
    destruct (test y); [|eexists; split; [reflexivity | exact Hin]].
    destruct (index_lt a (bi + bs)) as (x & -> & _); [lia|]. simpl.
    destruct (decide (x = y)); [|eexists; split; [reflexivity | exact Hin]].
    apply IH; simpl; [lia|].
    unfold in_ranges, best_bounds. simpl. lia.
Qed.

(** [find_longest_match] returns, and its block lies in the two ranges. *)
Lemma find_longest_match_bounds a b (alo ahi blo bhi : nat) :
  alo <= ahi -> ahi <= length a -> blo <= bhi -> bhi <= length b ->
  exists best,
    find_longest_match a b alo ahi blo bhi = Py.Ok best
    /\ in_ranges a b alo ahi blo bhi best.
Proof.
  intros Ha1 Ha2 Hb1 Hb2. unfold find_longest_match.
  destruct (scan_rows_bounds a b alo blo bhi (ahi - alo) alo ∅ (alo, blo, 0))
    as (best0 & -> & Hb0); try lia.
  { intros j v Hv. rewrite lookup_empty in Hv. discriminate. }
  { unfold best_bounds. simpl. lia. }
  replace (alo + (ahi - alo)) with ahi in Hb0 by lia. res_step.
  assert (Hin0 : in_ranges a b alo ahi blo bhi best0)
    by (split; [lia | split; [lia | exact Hb0]]).
  destruct (extend_left_bounds (fun x => negb (isbjunk x)) a b alo ahi blo bhi
              best0.1.1 best0) as (best1 & -> & Hin1); [lia | exact Hin0 |]. res_step.
  destruct (extend_right_bounds (fun x => negb (isbjunk x)) a b alo ahi blo bhi
              (ahi - (best1.1.1 + best1.2)) best1) as (best2 & -> & Hin2);
    [lia | exact Hin1 |]. res_step.
  destruct (extend_left_bounds isbjunk a b alo ahi blo bhi
              best2.1.1 best2) as (best3 & -> & Hin3); [lia | exact Hin2 |]. res_step.
  apply extend_right_bounds; [lia | exact Hin3].
Qed.

End MatcherBounds.

Section MatcherTotal.
Import Difflib MatcherInvariants.
Local Open Scope nat_scope.
Context {A : Type} `{EqDecision A}.
Implicit Types (a b : list A) (queue : list (nat * nat * nat * nat)).
Implicit Types (blocks : list Match).

Lemma queue_cost_cons (r : nat * nat * nat * nat) queue :
  queue_cost (r :: queue) = range_cost r + queue_cost queue.
Proof. reflexivity. Qed.

Lemma match_queue_total a b (fuel : nat) queue blocks :
  Forall (range_ok a b) queue ->
  queue_cost queue <= fuel ->
  Forall (block_ok a b) blocks ->
  exists found,
    match_queue a b fuel queue blocks = Py.Ok found
    /\ Forall (block_ok a b) found.
Proof.
  revert queue blocks. induction fuel as [|fuel IH]; intros queue blocks Hq Hcost Hbl.
  - destruct queue as [|r queue].
    + exists blocks. split; [reflexivity | exact Hbl].
    + rewrite queue_cost_cons in Hcost. unfold range_cost in Hcost. lia.
  - destruct queue as [|[[[alo ahi] blo] bhi] queue].
    + exists blocks. split; [reflexivity | exact Hbl].
    + apply Forall_cons in Hq as [(Ha1 & Ha2 & Hb1 & Hb2) Hq].
      rewrite queue_cost_cons in Hcost. unfold range_cost in Hcost.
      cbn [fst snd] in Ha1, Ha2, Hb1, Hb2, Hcost.
      cbn [match_queue].
      destruct (find_longest_match_bounds a b alo ahi blo bhi)
        as ([[i j] k] & -> & (_ & _ & Hi & Hik & Hj & Hjk)); try assumption.
      cbn [fst snd] in Hi, Hik, Hj, Hjk. res_step.
      destruct (Nat.eqb_spec k 0) as [->|Hk]; [apply IH; [assumption | lia | assumption]|].
      apply IH.
      * destruct ((alo <? i) && (blo <? j)), ((i + k <? ahi) && (j + k <? bhi));
          repeat (apply Forall_cons_2; [unfold range_ok; cbn [fst snd]; lia|]);
          exact Hq.
      * destruct ((alo <? i) && (blo <? j)), ((i + k <? ahi) && (j + k <? bhi));
          rewrite ?queue_cost_cons; unfold range_cost; cbn [fst snd]; lia.
      * apply Forall_app. split; [exact Hbl|]. apply Forall_singleton.
        unfold block_ok. cbn [fst snd]. lia.
Qed.

Lemma collapse_start_ok a b blocks (cur : Match) (non_adjacent : list Match) :
  Forall (start_ok a b) blocks -> start_ok a b cur ->
  Forall (start_ok a b) non_adjacent ->
  Forall (start_ok a b) (collapse blocks cur non_adjacent).
Proof.
  revert cur non_adjacent.
  induction blocks as [|[[i2 j2] k2] blocks IH];
    intros [[i1 j1] k1] non_adjacent Hbl Hcur Hacc; simpl.
  - destruct (k1 =? 0); [exact Hacc|].
    apply Forall_app. split; [exact Hacc | apply Forall_singleton; exact Hcur].
  - apply Forall_cons in Hbl as [Hb2 Hbl].
    destruct ((i1 + k1 =? i2) && (j1 + k1 =? j2)).
    + apply IH; [exact Hbl | exact Hcur | exact Hacc].
    + apply IH; [exact Hbl | exact Hb2 |].
      destruct (k1 =? 0); [exact Hacc|].
      apply Forall_app. split; [exact Hacc | apply Forall_singleton; exact Hcur].
Qed.

Lemma get_matching_blocks_total a b :
  exists blocks,
    get_matching_blocks a b = Py.Ok blocks /\ Forall (start_ok a b) blocks.
Proof.
  unfold get_matching_blocks.
  destruct (match_queue_total a b (2 * length a + 1) [(0, length a, 0, length b)] [])
    as (found & -> & Hfound).
  - apply Forall_singleton. unfold range_ok. simpl. lia.
  - unfold queue_cost, range_cost. simpl. lia.
  - constructor.
  - res_step. eexists. split; [reflexivity|].
    apply Forall_app. split.
    + apply collapse_start_ok.
      * rewrite merge_sort_Permutation.
        eapply Forall_impl; [exact Hfound|].
        intros [[i j] k] [Hi Hj]. unfold start_ok. simpl in *. lia.
      * unfold start_ok. simpl. lia.
      * constructor.
    + apply Forall_singleton. unfold start_ok. simpl. lia.
Qed.

Lemma opcodes_from_ok a b blocks (i j : nat) (answer : list opcode) :
  Forall (start_ok a b) blocks ->
  Forall (opcode_ok a b) answer ->
  Forall (opcode_ok a b) (opcodes_from blocks i j answer).
Proof.
  revert i j answer. induction blocks as [|[[ai bj] size] blocks IH];
    intros i j answer Hbl Hans; simpl; [exact Hans|].
  apply Forall_cons in Hbl as [[Hai Hbj] Hbl]. simpl in Hai, Hbj.
  apply IH; [exact Hbl|].
  assert (Htag : forall t, Forall (opcode_ok a b) (answer ++ [(t, i, ai, j, bj)])).
  { intros t. apply Forall_app. split; [exact Hans|]. apply Forall_singleton.
    intros _. simpl. lia. }
  assert (Hmid : Forall (opcode_ok a b)
            match (if (i <? ai) && (j <? bj) then Some Replace
                   else if i <? ai then Some Delete
                   else if j <? bj then Some Insert else None) with
            | Some t => answer ++ [(t, i, ai, j, bj)]
            | None => answer
            end).
  { destruct ((i <? ai) && (j <? bj)); [apply Htag|].
    destruct (i <? ai); [apply Htag|]. destruct (j <? bj); [apply Htag | exact Hans]. }
  destruct (size =? 0); [exact Hmid|].
  apply Forall_app. split; [exact Hmid|]. apply Forall_singleton.
  intros Hne. simpl in Hne. congruence.
Qed.

(** [get_opcodes] always returns, for every pair of sequences. *)
Lemma get_opcodes_total a b :
  exists ops, get_opcodes a b = Py.Ok ops /\ Forall (opcode_ok a b) ops.
Proof.
  unfold get_opcodes. destruct (get_matching_blocks_total a b) as (blocks & -> & Hbl).
  res_step. eexists. split; [reflexivity|].
  apply opcodes_from_ok; [exact Hbl | constructor].
Qed.

End MatcherTotal.

(** ** The text comparator always returns *)

Section TextTotal.
Import TextComparator MatcherInvariants.

Lemma foldM_total {X S} (body : S -> X -> Py.res S) (xs : list X) (s : S) :
  (forall s x, x ∈ xs -> exists s', body s x = Py.Ok s') ->
  exists s', Py.foldM body xs s = Py.Ok s'.
Proof.
  revert s. induction xs as [|x xs IH]; intros s Hbody; simpl.
  - exists s. reflexivity.
  - destruct (Hbody s x) as [s1 ->]; [constructor|]. simpl.
    apply IH. intros s0 x0 Hin. apply Hbody. constructor. exact Hin.
Qed.

Lemma foldM_app {X S} (body : S -> X -> Py.res S) (xs ys : list X) (s : S) :
  Py.foldM body (xs ++ ys) s = Py.bind (Py.foldM body xs s) (Py.foldM body ys).
Proof.
  revert s. induction xs as [|x xs IH]; intros s; simpl; [reflexivity|].
  destruct (body s x); simpl; [apply IH | reflexivity].
Qed.

Lemma index_in_range (l : list string) (i : nat) :
  (i < length l)%nat -> exists x, Py.index l i = Py.Ok x.
Proof.
  intros Hi. destruct (lookup_lt_is_Some_2 l i Hi) as [x Hx].
  exists x. unfold Py.index. rewrite Hx. reflexivity.
Qed.

Lemma report_opcode_total (ref_lines new_lines : list string) (page_num : Z)
    (differences : list string) (op : Difflib.opcode) :
  opcode_ok ref_lines new_lines op ->
  exists differences',
    report_opcode ref_lines new_lines page_num differences op = Py.Ok differences'.
Proof.
  destruct op as [[[[tag i1] i2] j1] j2]. unfold opcode_ok. cbn [fst snd].
  intros Hok. unfold report_opcode.
  destruct tag.
  - destruct Hok as [Hi Hj]; [discriminate|].
    apply foldM_total. intros s i Hin%elem_of_seq.
    apply foldM_total. intros s' j Hjn%elem_of_seq.
    destruct ((i =? i1)%nat && (j =? j1)%nat); [|eexists; reflexivity].
    destruct (index_in_range ref_lines i) as [x ->]; [lia|].
    destruct (index_in_range new_lines j) as [y ->]; [lia|].
    eexists. reflexivity.
  - destruct Hok as [Hi Hj]; [discriminate|].
    apply foldM_total. intros s i Hin%elem_of_seq.
    destruct (index_in_range ref_lines i) as [x ->]; [lia|].
    eexists. reflexivity.
  - destruct Hok as [Hi Hj]; [discriminate|].
    apply foldM_total. intros s j Hjn%elem_of_seq.
    destruct (index_in_range new_lines j) as [y ->]; [lia|].
    eexists. reflexivity.
  - eexists. reflexivity.
Qed.

Lemma compare_page_text_total (ref_text new_text : string) (page_num : Z) :
  exists differences, _compare_page_text ref_text new_text page_num = Py.Ok differences.
Proof.
  unfold _compare_page_text.
  destruct (get_opcodes_total (splitlines ref_text) (splitlines new_text))
    as (ops & -> & Hops). res_step.
  apply foldM_total. intros s op Hin. apply report_opcode_total.
  rewrite Forall_forall in Hops. apply Hops. exact Hin.
Qed.

Lemma compare_total (doc1_pages doc2_pages : list page) (config : Settings.text_config) :
  exists all_differences, compare doc1_pages doc2_pages config = Py.Ok all_differences.
Proof.
  unfold compare. apply foldM_total. intros s n _.
  destruct (text_map doc1_pages !! n) as [ref_text|]; [|eexists; reflexivity].
  destruct (text_map doc2_pages !! n) as [new_text|]; [|eexists; reflexivity].
  destruct (compare_page_text_total ref_text new_text n) as [d ->].
  eexists. reflexivity.
Qed.

End TextTotal.

(** ** A sequence matched against itself is one [equal] block *)

Section MatcherReflexive.
Import Difflib MatcherInvariants.
Local Open Scope nat_scope.
Context {A : Type} `{EqDecision A}.
Implicit Types (l : list A) (best : Match) (j2len newj2len : gmap nat nat).

Lemma indices_from_Forall (s : nat) l (x : A) :
  Forall (fun j => s <= j /\ l !! (j - s) = Some x) (indices_from s l x).
Proof.
  revert s. induction l as [|y l IH]; intros s; simpl; [constructor|].
  assert (Hrest : Forall (fun j => s <= j /\ (y :: l) !! (j - s) = Some x)
                    (indices_from (S s) l x)).
  { eapply Forall_impl; [apply IH|]. intros j [Hj Hl]. split; [lia|].
    replace (j - s) with (S (j - S s)) by lia. exact Hl. }
  destruct (decide (y = x)) as [->|Hne]; [|exact Hrest].
  constructor; [|exact Hrest]. split; [lia|].
  rewrite Nat.sub_diag. reflexivity.
Qed.

Lemma indices_from_sorted (s : nat) l (x : A) :
  StronglySorted lt (indices_from s l x).
Proof.
  revert s. induction l as [|y l IH]; intros s; simpl; [constructor|].
  destruct (decide (y = x)); [|apply IH].
  constructor; [apply IH|].
  eapply Forall_impl; [apply (indices_from_Forall (S s) l x)|].
  intros j [Hj _]. lia.
Qed.

Lemma indices_from_elem (s : nat) l (x : A) (p : nat) :
  l !! p = Some x -> s + p ∈ indices_from s l x.
Proof.
  revert s p. induction l as [|y l IH]; intros s p Hp; [discriminate|].
  destruct p as [|p]; simpl in *.
  - injection Hp as ->. rewrite decide_True by reflexivity.
    rewrite Nat.add_0_r. constructor.
  - replace (s + S p) with (S s + p) by lia.
    destruct (decide (y = x)); [constructor|]; apply IH; exact Hp.
Qed.

Lemma run_unpopular l (p : nat) (x : A) :
  l !! p = Some x -> popular l x = false -> run l p = S (prev_run l p).
Proof. intros Hp Hx. destruct p; simpl; rewrite Hp, Hx; reflexivity. Qed.

Lemma run_popular l (p : nat) (x : A) :
  l !! p = Some x -> popular l x = true -> run l p = 0.
Proof. intros Hp Hx. destruct p; simpl; rewrite Hp, Hx; reflexivity. Qed.

Lemma run_le l (p : nat) : run l p <= S p.
Proof.
  induction p as [|p IH]; simpl.
  - destruct (l !! 0); [destruct (popular l a)|]; lia.
  - destruct (l !! S p); [destruct (popular l a)|]; lia.
Qed.

(** The columns of row [i], for an element that is not popular. *)
Lemma scan_row_diag l (i : nat) (x : A) j2len :
  l !! i = Some x -> popular l x = false ->
  (forall j v, j2len !! j = Some v -> v <= run l j /\ v <= prev_run l i) ->
  match i with 0 => 0 | S i' => default 0 (j2len !! i') end = prev_run l i ->
  forall (js : list nat) (lo : nat) newj2len best,
    Forall (fun j => lo <= j /\ l !! j = Some x) js ->
    StronglySorted lt js ->
    (lo <= i -> i ∈ js) ->
    diag_row l i lo newj2len best ->
    diag_rows l (S i) (scan_row 0 (length l) i js j2len newj2len best).1
      (scan_row 0 (length l) i js j2len newj2len best).2.
Proof.
  intros Hi Hx Hprev Hdiag. pose proof (run_unpopular l i x Hi Hx) as Hruni.
  induction js as [|j js IH]; intros lo newj2len best Hjs Hsorted Hmem
    (Hnew & Hnewi & Hseen & Hseeni & Heq & Hsz).
  - assert (Hlo : i < lo).
    { destruct (decide (i < lo)) as [?|Hn]; [assumption|].
      exfalso. assert (Hin : i ∈ @nil nat) by (apply Hmem; lia).
      inversion Hin. }
    cbn [scan_row fst snd]. unfold diag_rows. cbn [prev_run].
    split; [|split; [|split; [|split]]].
    + intros j v Hv. destruct (Hnew j v Hv) as (? & ? & ?). split; assumption.
    + rewrite (Hnewi Hlo). reflexivity.
    + intros p Hp. destruct (decide (p = i)) as [->|Hne]; [apply Hseeni, Hlo|].
      apply Hseen. lia.
    + exact Heq.
    + exact Hsz.
  - apply Forall_cons in Hjs as [[Hloj Hj] Hjs].
    apply StronglySorted_inv in Hsorted as [Hsorted Hgt].
    pose proof (lookup_lt_Some _ _ _ Hj) as Hjlen.
    pose proof (run_unpopular l j x Hj Hx) as Hrunj.
    cbn [scan_row].
    destruct (Nat.ltb_spec j 0) as [?|_]; [lia|].
    destruct (Nat.leb_spec (length l) j) as [?|_]; [lia|].
    set (prev := match j with 0 => 0 | S j' => default 0 (j2len !! j') end).
    assert (Hp1 : prev <= prev_run l j).
    { subst prev. destruct j as [|j']; simpl; [lia|].
      destruct (j2len !! j') as [v|] eqn:Hv; simpl; [|lia].
      apply (Hprev j' v Hv). }
    assert (Hp2 : prev <= prev_run l i).
    { subst prev. destruct j as [|j']; simpl; [lia|].
      destruct (j2len !! j') as [v|] eqn:Hv; simpl; [|lia].
      apply (Hprev j' v Hv). }
    assert (Hp3 : j = i -> prev = prev_run l i).
    { intros ->. exact Hdiag. }
    assert (Hbefore : j <> i -> i < S j -> i < lo).
    { intros Hne Hlt. destruct (decide (i < lo)) as [?|Hn]; [assumption|].
      exfalso. assert (Hin : i ∈ j :: js) by (apply Hmem; lia).
      apply elem_of_cons in Hin as [?|Hin]; [congruence|].
      rewrite Forall_forall in Hgt. specialize (Hgt i Hin). lia. }
    apply (IH (S j)).
    + rewrite Forall_forall in Hgt, Hjs. apply Forall_forall.
      intros j0 Hj0. split; [apply (Hgt j0 Hj0) | apply (Hjs j0 Hj0)].
    + exact Hsorted.
    + intros Hle. assert (Hin : i ∈ j :: js) by (apply Hmem; lia).
      apply elem_of_cons in Hin as [?|Hin]; [lia | exact Hin].
    + unfold diag_row. split; [|split; [|split; [|split; [|split]]]].
      * intros j0 v Hv. destruct (decide (j0 = j)) as [->|Hne].
        -- rewrite lookup_insert_eq in Hv. injection Hv as <-. lia.
        -- rewrite lookup_insert_ne in Hv by congruence.
           destruct (Hnew j0 v Hv) as (? & ? & ?). lia.
      * intros Hlt. destruct (decide (j = i)) as [->|Hne].
        -- rewrite lookup_insert_eq, (Hp3 eq_refl). f_equal. lia.
        -- rewrite lookup_insert_ne by exact Hne. apply Hnewi, Hbefore; assumption.
      * intros p Hp. specialize (Hseen p Hp).
        destruct (best.2 <? prev + 1) eqn:Hk; cbn [snd]; [|exact Hseen].
        apply Nat.ltb_lt in Hk. lia.
      * intros Hlt. destruct (decide (j = i)) as [->|Hne].
        -- rewrite (Hp3 eq_refl).
           destruct (Nat.ltb_spec best.2 (prev_run l i + 1)); cbn [snd]; lia.
        -- specialize (Hseeni (Hbefore Hne Hlt)).
           destruct (best.2 <? prev + 1) eqn:Hk; cbn [snd]; [|exact Hseeni].
           apply Nat.ltb_lt in Hk. lia.
      * destruct (Nat.ltb_spec best.2 (prev + 1)) as [Hk|Hk]; [|exact Heq].
        cbn [fst snd]. destruct (decide (j = i)) as [->|Hne]; [reflexivity|].
        exfalso. destruct (decide (j < i)) as [Hlt|Hge].
        -- specialize (Hseen j Hlt). lia.
        -- assert (Hilo : i < lo) by (apply Hbefore; [exact Hne | lia]).
           specialize (Hseeni Hilo). lia.
      * destruct (Nat.ltb_spec best.2 (prev + 1)) as [Hk|Hk]; [|exact Hsz].
        cbn [fst snd]. pose proof (run_le l i). lia.
Qed.

(** The rows from [i] on. *)
Lemma scan_rows_diag l (m i : nat) j2len best :
  i + m <= length l ->
  diag_rows l i j2len best ->
  exists best',
    scan_rows l l 0 (length l) (seq i m) j2len best = Py.Ok best'
    /\ best'.1.1 = best'.1.2 /\ best'.1.1 + best'.2 <= i + m.
Proof.
  revert i j2len best. induction m as [|m IH]; intros i j2len best Hlen Hinv.
  - exists best. destruct Hinv as (_ & _ & _ & Heq & Hsz).
    split; [reflexivity|]. split; [exact Heq | lia].
  - cbn [seq scan_rows].
    destruct (lookup_lt_is_Some_2 l i) as [x Hx]; [lia|].
    unfold Py.index. rewrite Hx. res_step.
    destruct Hinv as (Hprev & Hdiag & Hseen & Heq & Hsz).
    assert (Hnext : diag_rows l (S i)
              (scan_row 0 (length l) i (b2j l x) j2len ∅ best).1
              (scan_row 0 (length l) i (b2j l x) j2len ∅ best).2).
    { unfold b2j. destruct (popular l x) eqn:Hpop.
      - cbn [scan_row fst snd]. unfold diag_rows. cbn [prev_run].
        rewrite lookup_empty, (run_popular l i x Hx Hpop).
        split; [|split; [|split; [|split]]].
        + intros j v Hv. rewrite lookup_empty in Hv. discriminate.
        + reflexivity.
        + intros p Hp. destruct (decide (p = i)) as [->|Hne].
          * rewrite (run_popular l i x Hx Hpop). lia.
          * apply Hseen. lia.
        + exact Heq.
        + lia.
      - apply (scan_row_diag l i x j2len Hx Hpop Hprev Hdiag _ 0).
        + eapply Forall_impl; [apply (indices_from_Forall 0 l x)|].
          intros j [_ Hj]. rewrite Nat.sub_0_r in Hj. split; [lia | exact Hj].
        + apply indices_from_sorted.
        + intros _. apply (indices_from_elem 0 l x i Hx).
        + unfold diag_row. split; [|split; [|split; [|split; [|split]]]].
          * intros j v Hv. rewrite lookup_empty in Hv. discriminate.
          * lia.
          * exact Hseen.
          * lia.
          * exact Heq.
          * lia. }
    destruct (scan_row 0 (length l) i (b2j l x) j2len ∅ best) as [newj2len best1].
    cbn [fst snd] in Hnext.
    destruct (IH (S i) newj2len best1) as (best' & Hrun & Heq' & Hsz');
      [lia | exact Hnext |].
    exists best'. split; [exact Hrun|]. split; [exact Heq' | lia].
Qed.

Lemma extend_left_diag (test : A -> bool) l (d : nat) :
  (forall x, test x = true) ->
  forall (fuel s : nat), d <= fuel -> d <= length l ->
    extend_left test l l 0 0 fuel (d, d, s) = Py.Ok (0, 0, s + d).
Proof.
  intros Htest. induction d as [|d IH]; intros fuel s Hfuel Hlen.
  - destruct fuel; cbn [extend_left]; rewrite Nat.add_0_r; reflexivity.
  - destruct fuel as [|fuel]; [lia|]. cbn [extend_left].
    destruct (Nat.ltb_spec 0 (S d)) as [_|?]; [|lia]. cbn [andb].
    replace (S d - 1) with d by lia.
    destruct (lookup_lt_is_Some_2 l d) as [x Hx]; [lia|].
    unfold Py.index. rewrite Hx. res_step. rewrite Htest.
    rewrite decide_True by reflexivity.
    rewrite (IH fuel (s + 1)) by lia. f_equal. f_equal. lia.
Qed.

Lemma extend_right_diag (test : A -> bool) l :
  (forall x, test x = true) ->
  forall (fuel s : nat), length l - s <= fuel -> s <= length l ->
    extend_right test l l (length l) (length l) fuel (0, 0, s)
    = Py.Ok (0, 0, length l).
Proof.
  intros Htest. induction fuel as [|fuel IH]; intros s Hfuel Hlen.
  - assert (s = length l) as -> by lia. cbn [extend_right].
    rewrite Nat.add_0_l.
    destruct (Nat.ltb_spec (length l) (length l)) as [?|_]; [lia|]. reflexivity.
  - cbn [extend_right]. rewrite Nat.add_0_l.
    destruct (Nat.ltb_spec s (length l)) as [Hlt|Hge]; cbn [andb].
    + destruct (lookup_lt_is_Some_2 l s Hlt) as [x Hx].
      unfold Py.index. rewrite Hx. res_step. rewrite Htest.
      rewrite decide_True by reflexivity. apply IH; lia.
    + assert (s = length l) as -> by lia. reflexivity.
Qed.

Lemma find_longest_match_diag l :
  find_longest_match l l 0 (length l) 0 (length l) = Py.Ok (0, 0, length l).
Proof.
  unfold find_longest_match. rewrite Nat.sub_0_r.
  destruct (scan_rows_diag l (length l) 0 ∅ (0, 0, 0))
    as ([[d d'] s] & -> & Heq & Hsz); [lia | |].
  { unfold diag_rows. cbn [fst snd prev_run].
    split; [|split; [|split; [|split]]]; try reflexivity; try lia.
    intros j v Hv. rewrite lookup_empty in Hv. discriminate. }
  cbn [fst snd] in Heq, Hsz. subst d'. res_step. cbn [fst snd].
  rewrite (extend_left_diag _ l d) by (reflexivity || lia). res_step. cbn [fst snd].
  rewrite (extend_right_diag _ l) by (reflexivity || lia). res_step. cbn [fst snd].
  destruct (length l) as [|n] eqn:Hn.
  - reflexivity.
  - cbn [extend_left Nat.ltb Nat.leb andb]. res_step.
    rewrite Nat.sub_diag. cbn [extend_right]. rewrite Nat.add_0_l.
    destruct (Nat.ltb_spec (S n) (S n)) as [?|_]; [lia|]. reflexivity.
Qed.

Lemma match_queue_diag l (fuel : nat) :
  match_queue l l (S fuel) [(0, length l, 0, length l)] []
  = Py.Ok (if length l =? 0 then [] else [(0, 0, length l)]).
Proof.
  cbn [match_queue]. rewrite find_longest_match_diag. res_step.
  destruct (length l =? 0).
  - destruct fuel; reflexivity.
  - rewrite Nat.ltb_irrefl, Nat.add_0_l, Nat.ltb_irrefl. cbn [andb app].
    destruct fuel; reflexivity.
Qed.

Lemma collapse_single (n : nat) :
  n <> 0 -> collapse [(0, 0, n)] (0, 0, 0) [] = [(0, 0, n)].
Proof.
  intros Hn. cbn [collapse]. change (0 + 0) with 0. rewrite Nat.eqb_refl.
  cbn [andb]. rewrite Nat.add_0_l.
  destruct (Nat.eqb_spec n 0); [contradiction | reflexivity].
Qed.

Lemma opcodes_from_single (n : nat) :
  n <> 0 ->
  opcodes_from [(0, 0, n); (n, n, 0)] 0 0 [] = [(Equal, 0, n, 0, n)].
Proof.
  intros Hn. cbn [opcodes_from]. rewrite Nat.ltb_irrefl. cbn [andb].
  destruct (Nat.eqb_spec n 0); [contradiction|].
  rewrite !Nat.add_0_l, Nat.ltb_irrefl. cbn [andb app]. rewrite Nat.eqb_refl.
  reflexivity.
Qed.

(** [get_opcodes] on two equal sequences: nothing for the empty
    sequence, one [equal] opcode otherwise. *)
Lemma get_opcodes_diag l :
  get_opcodes l l
  = Py.Ok (if length l =? 0 then [] else [(Equal, 0, length l, 0, length l)]).
Proof.
  unfold get_opcodes, get_matching_blocks.
  replace (2 * length l + 1) with (S (2 * length l)) by lia.
  rewrite match_queue_diag. res_step.
  destruct (Nat.eqb_spec (length l) 0) as [Hz|Hnz].
  - rewrite Hz. reflexivity.
  - change (merge_sort Match_le [(0, 0, length l)]) with [(0, 0, length l)].
    rewrite (collapse_single _ Hnz). cbn [app]. res_step.
    f_equal. apply opcodes_from_single, Hnz.
Qed.

End MatcherReflexive.

(** ** Text comparison *)

Section TextComparison.
Import TextComparator.

Lemma text_map_singleton (p : page) :
  text_map [p] = {[ page_num p := page_text p ]}.
Proof. unfold text_map. simpl. apply insert_empty. Qed.

Lemma foldM_unchanged {X S} (body : S -> X -> Py.res S) (xs : list X) (s : S) :
  (forall x, x ∈ xs -> body s x = Py.Ok s) ->
  Py.foldM body xs s = Py.Ok s.
Proof.
  induction xs as [|x xs IH]; intros Hbody; simpl; [reflexivity|].
  rewrite Hbody by constructor. simpl. apply IH.
  intros x0 Hin. apply Hbody. constructor. exact Hin.
Qed.

(** A page compared with itself yields no record. *)
Lemma compare_page_text_same (t : string) (page_num : Z) :
  _compare_page_text t t page_num = Py.Ok [].
Proof.
  unfold _compare_page_text. rewrite get_opcodes_diag. res_step.
  destruct (length (splitlines t) =? 0)%nat; reflexivity.
Qed.

Lemma compare_same (pages : list page) (config : Settings.text_config) :
  compare pages pages config = Py.Ok [].
Proof.
  unfold compare. apply foldM_unchanged. intros n Hn.
  rewrite merge_sort_Permutation in Hn.
  apply elem_of_elements in Hn. rewrite union_idemp_L in Hn.
  apply elem_of_dom in Hn as [t Ht]. rewrite Ht.
  rewrite compare_page_text_same. reflexivity.
Qed.

End TextComparison.

(** C5. For a reference page with text "A\nB\nC" and a new page with
    text "A\nX\nC" under the same page number, the text comparator
    returns exactly one record: the replace record of line 2, reporting
    the change from "B" to "X"; lines 1 and 3 are matched as equal and
    yield no record. *)
Theorem text_replace_one_line (number : Z) (config : Settings.text_config) :
  Difflib.get_opcodes (TextComparator.splitlines ReplaceExample.ref_text)
    (TextComparator.splitlines ReplaceExample.new_text)
  = Py.Ok [ (Difflib.Equal, 0, 1, 0, 1); (Difflib.Replace, 1, 2, 1, 2);
            (Difflib.Equal, 2, 3, 2, 3) ]%nat
  /\ TextComparator._compare_page_text ReplaceExample.ref_text
       ReplaceExample.new_text number
     = Py.Ok [ TextComparator.changed_message number 2 "B" "X" ]
  /\ TextComparator.compare [ReplaceExample.ref_page number]
       [ReplaceExample.new_page number] config
     = Py.Ok [ TextComparator.changed_message number 2 "B" "X" ]
  /\ TextComparator.changed_message 1 2 "B" "X"
     = "On page 1, line 2, the text was changed from " +:+ TextComparator.dquote
       +:+ "B" +:+ TextComparator.dquote +:+ " to " +:+ TextComparator.dquote
       +:+ "X" +:+ TextComparator.dquote +:+ ".".
Proof.
  assert (Hops :
    Difflib.get_opcodes (TextComparator.splitlines ReplaceExample.ref_text)
      (TextComparator.splitlines ReplaceExample.new_text)
    = Py.Ok [ (Difflib.Equal, 0, 1, 0, 1); (Difflib.Replace, 1, 2, 1, 2);
              (Difflib.Equal, 2, 3, 2, 3) ]%nat)
    by (vm_compute; reflexivity).
  assert (Hpage :
    TextComparator._compare_page_text ReplaceExample.ref_text
      ReplaceExample.new_text number
    = Py.Ok [ TextComparator.changed_message number 2 "B" "X" ]).
  { unfold TextComparator._compare_page_text. rewrite Hops. reflexivity. }
  split; [exact Hops|]. split; [exact Hpage|]. split; [|reflexivity].
  unfold TextComparator.compare. rewrite !text_map_singleton.
  cbn [ReplaceExample.ref_page ReplaceExample.new_page page_num page_text].
  rewrite !dom_singleton_L, union_idemp_L, elements_singleton.
  change (merge_sort Z.le [number]) with [number].
  cbn [Py.foldM]. rewrite !lookup_singleton_eq. rewrite Hpage. reflexivity.
Qed.

(** ** Ordered dictionaries *)

Section OrderedDicts.
Context {V : Type}.
Implicit Types (d : Py.odict V) (k : string) (v : V).

Lemma od_get_set_eq d k v : Py.od_get k (Py.od_set k v d) = Some v.
Proof.
  induction d as [|[k' v'] d IH]; simpl.
  - rewrite String.eqb_refl. reflexivity.
  - destruct (String.eqb_spec k k') as [->|Hne]; simpl.
    + rewrite String.eqb_refl. reflexivity.
    + rewrite (proj2 (String.eqb_neq k k') Hne). exact IH.
Qed.

Lemma od_get_set_ne d k k' v :
  k <> k' -> Py.od_get k' (Py.od_set k v d) = Py.od_get k' d.
Proof.
  intros Hne. induction d as [|[k0 v0] d IH]; simpl.
  - rewrite (proj2 (String.eqb_neq k' k)) by congruence. reflexivity.
  - destruct (String.eqb_spec k k0) as [->|Hne0]; simpl.
    + rewrite (proj2 (String.eqb_neq k' k0)) by congruence. reflexivity.
    + destruct (String.eqb k' k0); [reflexivity | exact IH].
Qed.

Lemma od_set_keys d k v :
  (k ∈ d.*1 /\ (Py.od_set k v d).*1 = d.*1)
  \/ ((k ∉ d.*1) /\ (Py.od_set k v d).*1 = d.*1 ++ [k]).
Proof.
  induction d as [|[k' v'] d IH].
  - right. split; [apply not_elem_of_nil | reflexivity].
  - cbn [Py.od_set]. destruct (String.eqb_spec k k') as [->|Hne].
    + left. rewrite !fmap_cons. split; [constructor | reflexivity].
    + rewrite !fmap_cons. cbn [fst].
      destruct IH as [[Hin Heq]|[Hnin Heq]]; rewrite Heq.
      * left. split; [constructor; exact Hin | reflexivity].
      * right. split; [|reflexivity].
        intros Hin. apply elem_of_cons in Hin as [?|?]; contradiction.
Qed.


Lemma od_set_Forall (P : string * V -> Prop) d k v :
  P (k, v) -> Forall P d -> Forall P (Py.od_set k v d).
Proof.
  intros Hkv Hd. induction Hd as [|[k' v'] d Hx Hd IH]; simpl.
  - constructor; [exact Hkv | constructor].
  - destruct (String.eqb k k'); constructor; assumption.
Qed.

Lemma od_get_Some_elem d k v : Py.od_get k d = Some v -> (k, v) ∈ d.
Proof.
  induction d as [|[k' v'] d IH]; simpl; [discriminate|].
  destruct (String.eqb_spec k k') as [->|Hne].
  - intros [= ->]. constructor.
  - intros Hget. constructor. apply IH, Hget.
Qed.

Lemma od_get_key d k : k ∈ d.*1 -> is_Some (Py.od_get k d).
Proof.
  induction d as [|[k' v'] d IH]; simpl; intros Hin.
  - inversion Hin.
  - destruct (String.eqb_spec k k') as [->|Hne]; [eexists; reflexivity|].
    apply IH. apply elem_of_cons in Hin as [?|?]; [contradiction | assumption].
Qed.

Lemma od_get_not_key d k : k ∉ d.*1 -> Py.od_get k d = None.
Proof.
  intros Hnin. destruct (Py.od_get k d) as [v|] eqn:Hget; [|reflexivity].
  exfalso. apply Hnin. apply od_get_Some_elem in Hget.
  apply list_elem_of_fmap. exists (k, v). split; [reflexivity | exact Hget].
Qed.

End OrderedDicts.

(** ** Identical documents *)

(** ** Binary64 comparisons *)

Section Floats.

Lemma SFcompare_antisym (x y : spec_float) :
  SFcompare y x = CompOpp <$> SFcompare x y.
Proof.
  destruct x as [sx|sx| |sx mx ex], y as [sy|sy| |sy my ey];
    try reflexivity; try (destruct sx; reflexivity); try (destruct sy; reflexivity);
    try (destruct sx, sy; reflexivity).
  cbn [SFcompare fmap option_fmap option_map].
  assert (Hm : Pos.compare_cont Eq my mx = CompOpp (Pos.compare_cont Eq mx my))
    by (symmetry; apply (Pos.compare_cont_antisym mx my Eq)).
  rewrite (Z.compare_antisym ex ey), Hm.
  destruct sx, sy; try reflexivity;
    destruct (ex ?= ey); cbn [CompOpp]; try reflexivity;
    destruct (Pos.compare_cont Eq mx my); reflexivity.
Qed.


Lemma float_leb_ltb (x y : float) :
  (x <=? y)%float = true -> (y <? x)%float = false.
Proof.
  rewrite ltb_spec, leb_spec. unfold SFltb, SFleb.
  rewrite (SFcompare_antisym (Prim2SF x) (Prim2SF y)).
  destruct (SFcompare (Prim2SF x) (Prim2SF y)) as [[]|]; cbn; congruence.
Qed.

(** [abs(s - s)] is zero, or NaN when [s] is infinite or NaN. *)
Lemma float_sub_same (s : float) :
  Prim2SF (abs (s - s)) = S754_zero false \/ Prim2SF (abs (s - s)) = S754_nan.
Proof.
  rewrite abs_spec, sub_spec.
  destruct (Prim2SF s) as [sg|sg| |sg m e].
  - left. destruct sg; reflexivity.
  - right. destruct sg; reflexivity.
  - right. reflexivity.
  - left. unfold SF64sub, SFsub.
    rewrite Z.min_id. unfold shl_align. rewrite Z.sub_diag. cbn [fst].
    replace (cond_Zopp sg (Z.pos m) - cond_Zopp sg (Z.pos m)) with 0 by lia.
    reflexivity.
Qed.

(** A size does not differ from itself by more than a tolerance that is
    not negative. *)
Lemma fgtb_abs_same (s tol : float) :
  (tol <? 0)%float = false -> Py.fgtb (abs (s - s)) tol = false.
Proof.
  unfold Py.fgtb. rewrite !ltb_spec. intros Htol.
  destruct (float_sub_same s) as [-> | ->].
  - exact Htol.
  - unfold SFltb. destruct (Prim2SF tol); reflexivity.
Qed.

End Floats.

Section IdenticalDocuments.

Lemma sensitivity_tolerance_nonneg (level : string) :
  (default 0.5 (Settings.size_tolerance
                  (Settings.font (Settings.get_sensitivity_config level)))
   <? 0)%float = false.
Proof.
  unfold Settings.get_sensitivity_config.
  destruct (Settings.SENSITIVITY_LEVELS !! level) as [s|] eqn:Hs; simpl.
  - apply elem_of_list_to_map_2 in Hs.
    repeat (apply elem_of_cons in Hs as [[= _ ->]|Hs]; [reflexivity|]).
    inversion Hs.
  - reflexivity.
Qed.

Lemma font_dict_from (fonts : list font) (acc : Py.odict font) :
  Forall extracted_font fonts ->
  Forall (fun kv => extracted_font kv.2) acc ->
  exists d,
    Py.foldM
      (fun d f => n ← Py.getitem "name" (f_name f); Py.Ok (Py.od_set n f d))
      fonts acc = Py.Ok d
    /\ Forall (fun kv => extracted_font kv.2) d.
Proof.
  intros Hfonts. revert acc.
  induction Hfonts as [|f fonts Hf _ IH]; intros acc Hacc; simpl.
  - exists acc. split; [reflexivity | exact Hacc].
  - destruct Hf as [[n Hn] Hsize]. rewrite Hn. simpl.
    apply IH. apply od_set_Forall; [|exact Hacc].
    split; [eexists; exact Hn | exact Hsize].
Qed.

Lemma font_dict_extracted (fonts : list font) :
  Forall extracted_font fonts ->
  exists d,
    FontAnalyzer.font_dict fonts = Py.Ok d
    /\ Forall (fun kv => extracted_font kv.2) d.
Proof. intros Hfonts. apply font_dict_from; [exact Hfonts | constructor]. Qed.

Lemma Qgtb_abs_same (s tol : Q) :
  (0 <= tol)%Q -> Py.Qgtb (Qabs (s - s)) tol = false.
Proof.
  intros Htol. apply not_true_iff_false. intros Hgt. apply Qgtb_lt in Hgt.
  assert (Hz : (Qabs (s - s) == 0)%Q).
  { rewrite (Qabs_wd (s - s) 0) by ring. reflexivity. }
  rewrite Hz in Hgt. lra.
Qed.

Lemma compare_name_same (tol : float) (d : Py.odict font) (name : string) :
  (tol <? 0)%float = false ->
  Forall (fun kv => extracted_font kv.2) d ->
  name ∈ d.*1 ->
  FontAnalyzer.compare_name tol d d name = Py.Ok [].
Proof.
  intros Htol Hd Hin. unfold FontAnalyzer.compare_name.
  destruct (od_get_key d name Hin) as [f Hf]. rewrite Hf.
  apply od_get_Some_elem in Hf. rewrite Forall_forall in Hd.
  destruct (Hd _ Hf) as [_ [s Hs]]. simpl in Hs. rewrite Hs. res_step.
  cbn [Py.getitem]. res_step.
  rewrite (fgtb_abs_same s tol Htol).
  rewrite !bool_decide_eq_false_2 by (intros Hne; apply Hne; reflexivity).
  reflexivity.
Qed.

Lemma font_compare_same (set_iter : gset string -> list string)
    (fonts : list font) (config : Settings.font_config) :
  set_order set_iter ->
  Forall extracted_font fonts ->
  (default 0.5 (Settings.size_tolerance config) <? 0)%float = false ->
  FontAnalyzer.compare set_iter fonts fonts config = Py.Ok [].
Proof.
  intros Hiter Hfonts Htol. unfold FontAnalyzer.compare.
  destruct (font_dict_extracted fonts Hfonts) as (d & -> & Hd). res_step.
  apply foldM_unchanged. intros name Hin.
  rewrite (Hiter _) in Hin. apply elem_of_elements in Hin.
  rewrite union_idemp_L in Hin. apply elem_of_list_to_set in Hin.
  rewrite (compare_name_same _ d name Htol Hd Hin). reflexivity.
Qed.

Lemma compare_pairs_same (hash_func : list Byte.byte -> string)
    (images : list (option image)) (idx : nat)
    (diffs : list ImageComparator.image_diff) :
  Forall extracted_image images ->
  ImageComparator.compare_pairs hash_func idx images images diffs = Py.Ok diffs.
Proof.
  intros Himgs. revert idx.
  induction Himgs as [|img images Himg _ IH]; intros idx; simpl; [reflexivity|].
  assert (Hd : exists h, ImageComparator.digest hash_func img = Py.Ok h).
  { destruct img as [i|]; simpl; [|eexists; reflexivity].
    destruct Himg as [data Hdata]. rewrite Hdata. eexists. reflexivity. }
  destruct Hd as [h ->]. res_step.
  rewrite bool_decide_eq_true_2 by reflexivity. apply IH.
Qed.

Lemma image_compare_same (sha256 md5 : list Byte.byte -> string)
    (images : list (option image)) (config : Settings.image_config) :
  Forall extracted_image images ->
  ImageComparator.compare sha256 md5 images images config = Py.Ok [].
Proof.
  intros Himgs. unfold ImageComparator.compare.
  rewrite (compare_pairs_same _ images 0 [] Himgs). res_step.
  rewrite bool_decide_eq_false_2 by (intros Hne; apply Hne; reflexivity).
  reflexivity.
Qed.

End IdenticalDocuments.

(** C4. For every extracted document compared with an identical copy of
    itself, the text comparator, the font comparator and the image
    comparator each return the empty difference list, under the
    sensitivity profile of every level name. *)
Theorem identical_documents_no_differences
    (set_iter : gset string -> list string)
    (sha256 md5 : list Byte.byte -> string)
    (d : document) (level : string) :
  set_order set_iter ->
  Forall extracted_font (doc_fonts d) ->
  Forall extracted_image (doc_images d) ->
  let profile := Settings.get_sensitivity_config level in
  TextComparator.compare (doc_text d) (doc_text d) (Settings.text profile)
    = Py.Ok []
  /\ FontAnalyzer.compare set_iter (doc_fonts d) (doc_fonts d) (Settings.font profile)
     = Py.Ok []
  /\ ImageComparator.compare sha256 md5 (doc_images d) (doc_images d)
       (Settings.image profile)
     = Py.Ok [].
Proof.
  intros Hiter Hfonts Himgs profile. split; [|split].
  - apply compare_same.
  - apply font_compare_same; [exact Hiter | exact Hfonts |].
    apply sensitivity_tolerance_nonneg.
  - apply image_compare_same. exact Himgs.
Qed.

Lemma identical_documents_no_differences_witness :
  let profile := Settings.get_sensitivity_config "high" in
  TextComparator.compare (doc_text Sample.a_document) (doc_text Sample.a_document)
    (Settings.text profile) = Py.Ok []
  /\ FontAnalyzer.compare elements (doc_fonts Sample.a_document)
       (doc_fonts Sample.a_document) (Settings.font profile) = Py.Ok []
  /\ ImageComparator.compare Sample.toy_digest Sample.toy_digest
       (doc_images Sample.a_document) (doc_images Sample.a_document)
       (Settings.image profile) = Py.Ok [].
Proof.
  apply (identical_documents_no_differences elements Sample.toy_digest
           Sample.toy_digest Sample.a_document "high").
  - intros s. reflexivity.
  - repeat constructor; eexists; reflexivity.
  - repeat constructor; eexists; reflexivity.
Defined.

(** ** The comparison step of the agent *)

Section CompareContent.
Import NeuroAgent Entries.

Lemma compare_file_outcome (c : content) (sens : Settings.sensitivity) :
  (exists r, compare_file c sens = Py.Ok r)
  \/ (exists key, compare_file c sens = Py.Err (Py.KeyError key)).
Proof.
  unfold compare_file.
  destruct (c_reference c) as [reference|]; [|right; eexists; reflexivity].
  destruct (c_new c) as [new|]; [|right; eexists; reflexivity].
  cbn [Py.getitem]. res_step.
  destruct (compare_total (doc_text reference) (doc_text new) (Settings.text sens))
    as [text_diff ->].
  left. eexists. reflexivity.
Qed.

(** One turn of the loop stores the entry of its file and touches no
    other. *)
Lemma compare_entry_differences (sens : Settings.sensitivity) (acc : comparison)
    (filename : string) (c : content) :
  exists acc',
    compare_entry sens acc (filename, c) = Py.Ok acc'
    /\ differences acc'
       = match file_entry sens c with
         | Some e => Py.od_set filename e (differences acc)
         | None => differences acc
         end.
Proof.
  unfold compare_entry, file_entry.
  destruct (c_error c) as [err|]; [eexists; split; reflexivity|].
  destruct (compare_file_outcome c sens) as [[[[t i] f] ->]|[key ->]].
  - destruct (0 <? Z.of_nat (length t + length i + length f));
      eexists; split; reflexivity.
  - eexists. split; reflexivity.
Qed.

Lemma compare_entries (sens : Settings.sensitivity)
    (parsed_content : Py.odict content) (acc : comparison) :
  NoDup parsed_content.*1 ->
  exists result,
    Py.foldM (compare_entry sens) parsed_content acc = Py.Ok result
    /\ (forall k, k ∉ parsed_content.*1 ->
          Py.od_get k (differences result) = Py.od_get k (differences acc))
    /\ (forall k c, (k, c) ∈ parsed_content ->
          Py.od_get k (differences result)
          = match file_entry sens c with
            | Some e => Some e
            | None => Py.od_get k (differences acc)
            end).
Proof.
  revert acc. induction parsed_content as [|[k0 c0] pc IH]; intros acc Hnd.
  - exists acc. split; [reflexivity|]. split; [reflexivity|].
    intros k c Hin. inversion Hin.
  - rewrite fmap_cons in Hnd. apply NoDup_cons in Hnd as [Hk0 Hnd]. cbn [fst] in Hk0.
    cbn [Py.foldM].
    destruct (compare_entry_differences sens acc k0 c0) as (acc1 & -> & Hacc1).
    cbn [Py.bind].
    destruct (IH acc1 Hnd) as (result & Hrun & Hother & Hmine).
    exists result. split; [exact Hrun|]. split.
    + intros k Hk. rewrite fmap_cons in Hk. cbn [fst] in Hk.
      apply not_elem_of_cons in Hk as [Hne Hk].
      rewrite (Hother k Hk), Hacc1.
      destruct (file_entry sens c0); [|reflexivity].
      apply od_get_set_ne. congruence.
    + intros k c Hin. apply elem_of_cons in Hin as [[= -> ->]|Hin].
      * rewrite (Hother k0 Hk0), Hacc1.
        destruct (file_entry sens c0); [apply od_get_set_eq | reflexivity].
      * rewrite (Hmine k c Hin).
        destruct (file_entry sens c); [reflexivity|].
        rewrite Hacc1. destruct (file_entry sens c0); [|reflexivity].
        apply od_get_set_ne. intros ->. apply Hk0.
        apply list_elem_of_fmap. exists (k, c). split; [reflexivity | exact Hin].
Qed.

Lemma compare_content_entries (sens : Settings.sensitivity)
    (parsed_content : Py.odict content) :
  NoDup parsed_content.*1 ->
  exists result,
    compare_content parsed_content sens = Py.Ok result
    /\ forall k c, (k, c) ∈ parsed_content ->
         Py.od_get k (differences result) = file_entry sens c.
Proof.
  intros Hnd. unfold compare_content.
  destruct (compare_entries sens parsed_content
              {| differences := [];
                 summary := {| total_files := 0; files_with_changes := 0;
                               total_changes := 0 |} |} Hnd)
    as (result & Hrun & _ & Hmine).
  exists result. split; [exact Hrun|]. intros k c Hin.
  rewrite (Hmine k c Hin). destruct (file_entry sens c); reflexivity.
Qed.

End CompareContent.

Lemma clear_old_data_retention_witness :
  LearningModule.patterns
    (LearningModule.clear_old_data 1
       (Retention.idle_pattern_store, Retention.one_day_later)).1 !! "text_minor"
  = Some Retention.idle_pattern.
Proof.
  destruct (clear_old_data_retention 1 Retention.idle_pattern_store
              Retention.one_day_later) as (_ & Hpatterns & _).
  destruct (Hpatterns "text_minor" Retention.idle_pattern) as [_ Hkept].
  - reflexivity.
  - apply Hkept.
    + reflexivity.
    + vm_compute. discriminate.
Defined.

(** ** Font size records *)

Section EngineFontSizes.
Import ComparisonEngine.








End EngineFontSizes.

Section AnalyzerFontSizes.
Import FontAnalyzer.

Lemma foldM_collect {X R} (g : X -> Py.res (list R)) (r : X -> list R)
    (xs : list X) (acc : list R) :
  (forall x, x ∈ xs -> g x = Py.Ok (r x)) ->
  Py.foldM (fun diffs x => new ← g x; Py.Ok (diffs ++ new)) xs acc
  = Py.Ok (acc ++ flat_map r xs).
Proof.
  revert acc. induction xs as [|x xs IH]; intros acc Hg; simpl.
  - rewrite app_nil_r. reflexivity.
  - rewrite (Hg x) by constructor. res_step. cbn [Py.bind].
    rewrite IH, app_assoc; [reflexivity|].
    intros x0 Hin. apply Hg. constructor. exact Hin.
Qed.


(** The records [compare_name] yields, for fonts that carry sizes. *)
Lemma compare_name_total (tol : float) (d1 d2 : Py.odict font) (name : string) :
  Forall (fun kv => extracted_font kv.2) d1 ->
  Forall (fun kv => extracted_font kv.2) d2 ->
  exists records,
    compare_name tol d1 d2 name = Py.Ok records
    /\ forall other, other <> name ->
         List.filter (is_size_record other) records = [].
Proof.
  intros Hd1 Hd2. unfold compare_name.
  destruct (Py.od_get name d1) as [f1|] eqn:H1.
  2:{ eexists. split; [reflexivity|]. reflexivity. }
  destruct (Py.od_get name d2) as [f2|] eqn:H2.
  2:{ eexists. split; [reflexivity|]. reflexivity. }
  apply od_get_Some_elem in H1, H2. rewrite Forall_forall in Hd1, Hd2.
  destruct (Hd1 _ H1) as [_ [s1 Hs1]]. destruct (Hd2 _ H2) as [_ [s2 Hs2]].
  cbn [snd] in Hs1, Hs2. rewrite Hs1, Hs2. cbn [Py.getitem]. res_step.
  eexists. split; [reflexivity|]. intros other Hne.
  rewrite !List.filter_app.
  destruct (Py.fgtb _ _), (bool_decide (f_flags f1 <> f_flags f2)),
    (bool_decide (f_color f1 <> f_color f2));
    cbn [List.filter is_size_record app];
    rewrite ?(proj2 (String.eqb_neq name other)) by congruence; reflexivity.
Qed.


End AnalyzerFontSizes.

Section FontExample.





End FontExample.




(** The rounding of the subtraction decides two outcomes that the exact
    difference would not give: under [size_tolerance = 0.4], sizes 10 and
    10.4 yield a record, their difference being above 0.4; sizes 1.2 and
    2.2 differ by 1.0000000000000002 and their record is medium. *)
Example rounded_difference_decides :
  ComparisonEngine.compare_fonts_detailed elements [Sample.arial 10]
    [Sample.arial 10.4] (Sample.tolerance 0.4)
  = [ComparisonEngine.Size "Arial" 10 10.4 0.40000000000000036 "minor"]
  /\ FontAnalyzer.compare elements [Sample.arial 10] [Sample.arial 10.4]
       (Sample.tolerance 0.4)
     = Py.Ok [FontAnalyzer.Size "Arial" 10 10.4]
  /\ ComparisonEngine.compare_fonts_detailed elements [Sample.arial 1.2]
       [Sample.arial 2.2] (Sample.tolerance 0.5)
     = [ComparisonEngine.Size "Arial" 1.2 2.2 1.0000000000000002 "medium"].
Proof. repeat split; vm_compute; reflexivity. Qed.

(* ===================================================================== *)
(** * Further properties of the orchestrator *)
(* ===================================================================== *)

Section WorkflowOutcomes.
Import Orchestrator Ordering.
Context {V : Type}.
Implicit Types (a : Agent V) (context : Py.odict V) (step : WorkflowStep).
Implicit Types (results : Py.odict (result V)) (log : list (call V)).

Lemma od_update_get (d other : Py.odict V) (k : string) :
  NoDup other.*1 ->
  Py.od_get k (Py.od_update d other)
  = match Py.od_get k other with
    | Some v => Some v
    | None => Py.od_get k d
    end.
Proof.
  unfold Py.od_update. revert d.
  induction other as [|[k0 v0] other IH]; intros d Hnd; [reflexivity|].
  rewrite fmap_cons in Hnd. apply NoDup_cons in Hnd as [Hk0 Hnd]. cbn [fst] in Hk0.
  cbn [fold_left fst snd Py.od_get]. rewrite (IH _ Hnd).
  destruct (String.eqb_spec k k0) as [->|Hne].
  - rewrite (od_get_not_key other k0 Hk0). apply od_get_set_eq.
  - destruct (Py.od_get k other); [reflexivity|].
    apply od_get_set_ne. congruence.
Qed.

Lemma step_context_app context (rs1 rs2 : Py.odict (result V)) :
  step_context context (rs1 ++ rs2)
  = step_context (step_context context rs1) rs2.
Proof. unfold step_context. apply fold_left_app. Qed.

Lemma multiple_values_None (d : Py.odict V) :
  multiple_values d = None
  <-> Forall (fun kv => kv.1 <> "self" /\ kv.1 <> "task_name") d.
Proof.
  unfold multiple_values. induction d as [|[k v] d IH]; cbn [List.find fst].
  - split; [constructor | reflexivity].
  - rewrite Forall_cons. cbn [fst]. case_bool_decide as Hk.
    + split; [discriminate|]. intros [[Hself Htask] _]. exfalso.
      apply elem_of_cons in Hk as [->|Hk]; [congruence|].
      apply elem_of_cons in Hk as [->|Hk]; [congruence|]. inversion Hk.
    + rewrite IH. split; [|intros [_ H]; exact H].
      intros H. split; [|exact H].
      split; intros ->; apply Hk; repeat constructor.
Qed.

Lemma od_update_free (d other : Py.odict V) :
  multiple_values d = None -> multiple_values other = None ->
  multiple_values (Py.od_update d other) = None.
Proof.
  rewrite !multiple_values_None. unfold Py.od_update. intros Hd Hother.
  revert d Hd. induction Hother as [|[k v] other Hkv Hother IH]; intros d Hd.
  - exact Hd.
  - cbn [fold_left fst snd]. apply IH, od_set_Forall; [exact Hkv | exact Hd].
Qed.

(** A context without such a keyword stays so when results without one
    are merged into it. *)
Lemma step_context_free context results :
  multiple_values context = None ->
  Forall (fun kv => free_result kv.2) results ->
  multiple_values (step_context context results) = None.
Proof.
  unfold step_context. intros Hctx Hres. revert context Hctx.
  induction Hres as [|[n r] results Hr Hres IH]; intros context Hctx.
  - exact Hctx.
  - cbn [fold_left snd]. apply IH. destruct r as [d|v]; [|exact Hctx].
    apply od_update_free; [exact Hctx | exact Hr].
Qed.

Lemma multiple_values_first (before after : Py.odict V) (k : string) (v : V) :
  Forall (fun kv => kv.1 <> "self" /\ kv.1 <> "task_name") before ->
  k = "self" \/ k = "task_name" ->
  multiple_values (before ++ (k, v) :: after) = Some k.
Proof.
  intros Hbefore Hk. unfold multiple_values.
  induction Hbefore as [|[k0 v0] before [Hself Htask] Hbefore IH];
    cbn [app List.find fst].
  - rewrite bool_decide_eq_true_2; [reflexivity|].
    destruct Hk as [-> | ->]; repeat constructor.
  - rewrite bool_decide_eq_false_2; [exact IH|].
    cbn [fst] in Hself, Htask. intros Hin.
    apply elem_of_cons in Hin as [->|Hin]; [congruence|].
    apply elem_of_cons in Hin as [->|Hin]; [congruence|]. inversion Hin.
Qed.

(** Keys of [results] are exactly the names stored so far. *)
Lemma run_steps_complete a context :
  forall (sorted_steps : list WorkflowStep) results log (seen : list string),
    multiple_values context = None ->
    Forall (fun kv => free_result kv.2) results ->
    (forall step, step ∈ sorted_steps ->
       exists t, get_task a (task step) = Some t
                 /\ forall kwargs, exists r, func t kwargs = Py.Ok r /\ free_result r) ->
    well_ordered seen sorted_steps ->
    (forall n, n ∈ seen -> is_Some (Py.od_get n results)) ->
    exists log' results',
      run_steps a context sorted_steps results log = (log', Py.Ok results')
      /\ log'.*1 = log.*1 ++ (task <$> sorted_steps)
      /\ (forall n, n ∈ seen -> is_Some (Py.od_get n results'))
      /\ (forall step, step ∈ sorted_steps ->
            is_Some (Py.od_get (name step) results')).
Proof.
  induction sorted_steps as [|step rest IH];
    intros results log seen Hctx Hfree Htasks Hord Hseen.
  - exists log, results. cbn [run_steps]. rewrite app_nil_r.
    repeat split; [exact Hseen|]. intros step Hin. inversion Hin.
  - destruct Hord as [Hdeps Hord]. cbn [run_steps].
    assert (Hcheck : _check_dependencies step results = true).
    { unfold _check_dependencies. apply forallb_forall. intros dep Hdep.
      apply list_elem_of_In in Hdep. unfold Py.od_contains.
      destruct (Hseen dep (Hdeps dep Hdep)) as [r ->]. reflexivity. }
    rewrite Hcheck. cbn [negb].
    destruct (Htasks step) as (t & Ht & Hfun); [constructor|].
    unfold execute_task.
    rewrite (step_context_free context results Hctx Hfree), Ht.
    destruct (Hfun (step_context context results)) as (r & -> & Hr).
    destruct (IH (Py.od_set (name step) r results)
                (log ++ [(task step, step_context context results)])
                (name step :: seen)) as (log' & results' & Hrun & Hlog & Hkeep & Hrest).
    + exact Hctx.
    + apply od_set_Forall; [exact Hr | exact Hfree].
    + intros s Hs. apply Htasks. constructor. exact Hs.
    + exact Hord.
    + intros n Hn. apply elem_of_cons in Hn as [->|Hn].
      * rewrite od_get_set_eq. eexists. reflexivity.
      * destruct (decide (name step = n)) as [<-|Hne].
        -- rewrite od_get_set_eq. eexists. reflexivity.
        -- rewrite od_get_set_ne by exact Hne. apply Hseen, Hn.
    + exists log', results'. split; [exact Hrun|]. split; [|split].
      * rewrite Hlog, fmap_app, fmap_cons, <- app_assoc. reflexivity.
      * intros n Hn. apply Hkeep. constructor. exact Hn.
      * intros s Hs. apply elem_of_cons in Hs as [->|Hs].
        -- apply Hkeep. constructor.
        -- apply Hrest, Hs.
Qed.

End WorkflowOutcomes.

(** X1. When the task bound to a step raises, the workflow stops there:
    [execute] propagates the exception unchanged, the failing task has
    been called once, with the context threaded from the earlier results,
    after the tasks of the earlier steps, and no task of a later step is
    called.  The task is reached when the step context holds no key
    ["self"] or ["task_name"], the two parameters that the call
    [execute_task(step.task, **step_context)] fills by position. *)
Theorem task_failure_aborts {V : Type} (w : Orchestrator.Workflow V)
    (a : Orchestrator.Agent V) (context : Py.odict V)
    (pre post : list Orchestrator.WorkflowStep) (step : Orchestrator.WorkflowStep)
    (t : Orchestrator.Task V) (e : Py.exn)
    (results : Py.odict (Orchestrator.result V))
    (log : list (Orchestrator.call V)) :
  Orchestrator.agent w = Some a ->
  Orchestrator.steps w = pre ++ step :: post ->
  Orchestrator.run_steps a context pre [] [] = (log, Py.Ok results) ->
  Orchestrator._check_dependencies step results = true ->
  Orchestrator.multiple_values (Orchestrator.step_context context results) = None ->
  Orchestrator.get_task a (Orchestrator.task step) = Some t ->
  Orchestrator.func t (Orchestrator.step_context context results) = Py.Err e ->
  Orchestrator.execute w context
  = (log ++ [(Orchestrator.task step, Orchestrator.step_context context results)],
     Py.Err e)
  /\ log.*1 = (Orchestrator.task <$> pre).
Proof.
  intros Hagent Hsteps Hpre Hcheck Hbind Ht Hraise. split.
  - unfold Orchestrator.execute, Orchestrator._topological_sort.
    rewrite Hagent, Hsteps, run_steps_app, Hpre. cbn [Orchestrator.run_steps].
    rewrite Hcheck. cbn [negb]. unfold Orchestrator.execute_task.
    rewrite Hbind, Ht, Hraise. reflexivity.
  - apply run_steps_ok_log in Hpre. exact Hpre.
Qed.

Lemma task_failure_aborts_witness :
  Orchestrator.execute Ordering.failing_workflow OutOfOrder.context
  = ([("scan_folders", OutOfOrder.context)]
     ++ [(Orchestrator.task Ordering.validate_step,
          Orchestrator.step_context OutOfOrder.context
            [("scan", Orchestrator.RDict [("done", "scan_folders")])])],
     Py.Err (Py.ValueError "Invalid file mapping"))
  /\ [("scan_folders", OutOfOrder.context)].*1
     = (Orchestrator.task <$> [Ordering.scan_step]).
Proof.
  apply (task_failure_aborts Ordering.failing_workflow Ordering.failing_agent
           OutOfOrder.context [Ordering.scan_step] (drop 2 Ordering.main_steps)
           Ordering.validate_step Ordering.failing_task
           (Py.ValueError "Invalid file mapping")
           [("scan", Orchestrator.RDict [("done", "scan_folders")])]
           [("scan_folders", OutOfOrder.context)]).
  - reflexivity.
  - reflexivity.
  - vm_compute. reflexivity.
  - reflexivity.
  - vm_compute. reflexivity.
  - vm_compute. reflexivity.
  - reflexivity.
Defined.

(** X2. When a step is bound to a task name the agent does not hold, and
    its step context holds no key ["self"] or ["task_name"] (so that the
    call binds its arguments and the body of [execute_task] runs), the
    workflow stops with "Task '<name>' not found": the tasks of the
    earlier steps have run and nothing else is called. *)
Theorem unknown_task_aborts {V : Type} (w : Orchestrator.Workflow V)
    (a : Orchestrator.Agent V) (context : Py.odict V)
    (pre post : list Orchestrator.WorkflowStep) (step : Orchestrator.WorkflowStep)
    (results : Py.odict (Orchestrator.result V))
    (log : list (Orchestrator.call V)) :
  Orchestrator.agent w = Some a ->
  Orchestrator.steps w = pre ++ step :: post ->
  Orchestrator.run_steps a context pre [] [] = (log, Py.Ok results) ->
  Orchestrator._check_dependencies step results = true ->
  Orchestrator.multiple_values (Orchestrator.step_context context results) = None ->
  Orchestrator.get_task a (Orchestrator.task step) = None ->
  Orchestrator.execute w context
  = (log, Py.Err (Py.ValueError
                    ("Task '" +:+ Orchestrator.task step +:+ "' not found")))
  /\ log.*1 = (Orchestrator.task <$> pre).
Proof.
  intros Hagent Hsteps Hpre Hcheck Hbind Ht. split.
  - unfold Orchestrator.execute, Orchestrator._topological_sort.
    rewrite Hagent, Hsteps, run_steps_app, Hpre. cbn [Orchestrator.run_steps].
    rewrite Hcheck. cbn [negb]. unfold Orchestrator.execute_task.
    rewrite Hbind, Ht, app_nil_r. reflexivity.
  - apply run_steps_ok_log in Hpre. exact Hpre.
Qed.

Lemma unknown_task_aborts_witness :
  Orchestrator.execute Ordering.unbound_workflow OutOfOrder.context
  = ([("scan_folders", OutOfOrder.context)],
     Py.Err (Py.ValueError
               ("Task '" +:+ Orchestrator.task Ordering.export_step +:+ "' not found")))
  /\ [("scan_folders", OutOfOrder.context)].*1
     = (Orchestrator.task <$> [Ordering.scan_step]).
Proof.
  apply (unknown_task_aborts Ordering.unbound_workflow Ordering.stub_agent
           OutOfOrder.context [Ordering.scan_step] [] Ordering.export_step
           [("scan", Orchestrator.RDict [("done", "scan_folders")])]
           [("scan_folders", OutOfOrder.context)]).
  - reflexivity.
  - reflexivity.
  - vm_compute. reflexivity.
  - reflexivity.
  - vm_compute. reflexivity.
  - vm_compute. reflexivity.
Defined.

(** X3. A workflow whose steps only depend on steps declared before them,
    bound to tasks that the agent holds and that return, runs to
    completion: every task is called once, in declaration order, and the
    results hold an entry for the name of every step.  This is so when
    neither the workflow context nor a dict a task returns holds a key
    ["self"] or ["task_name"], which the call
    [execute_task(step.task, **step_context)] would refuse. *)
Theorem ordered_workflow_completes {V : Type} (w : Orchestrator.Workflow V)
    (a : Orchestrator.Agent V) (context : Py.odict V) :
  Orchestrator.agent w = Some a ->
  Orchestrator.multiple_values context = None ->
  (forall step, step ∈ Orchestrator.steps w ->
     exists t, Orchestrator.get_task a (Orchestrator.task step) = Some t
               /\ forall kwargs, exists r,
                    Orchestrator.func t kwargs = Py.Ok r /\ Ordering.free_result r) ->
  Ordering.well_ordered [] (Orchestrator.steps w) ->
  exists log results,
    Orchestrator.execute w context = (log, Py.Ok results)
    /\ log.*1 = (Orchestrator.task <$> Orchestrator.steps w)
    /\ forall step, step ∈ Orchestrator.steps w ->
         is_Some (Py.od_get (Orchestrator.name step) results).
Proof.
  intros Hagent Hctx Htasks Hord.
  destruct (run_steps_complete a context (Orchestrator.steps w) [] [] []
              Hctx (Forall_nil_2 _) Htasks Hord)
    as (log & results & Hrun & Hlog & _ & Hall).
  { intros n Hn. inversion Hn. }
  exists log, results. split; [|split; [exact Hlog | exact Hall]].
  unfold Orchestrator.execute, Orchestrator._topological_sort.
  rewrite Hagent. exact Hrun.
Qed.

Lemma ordered_workflow_completes_witness :
  exists log results,
    Orchestrator.execute Ordering.main_workflow OutOfOrder.context
      = (log, Py.Ok results)
    /\ log.*1 = (Orchestrator.task <$> Orchestrator.steps Ordering.main_workflow)
    /\ forall step, step ∈ Orchestrator.steps Ordering.main_workflow ->
         is_Some (Py.od_get (Orchestrator.name step) results).
Proof.
  apply (ordered_workflow_completes Ordering.main_workflow Ordering.stub_agent).
  - reflexivity.
  - reflexivity.
  - intros step Hstep.
    repeat (apply elem_of_cons in Hstep as [->|Hstep];
            [eexists; split;
               [vm_compute; reflexivity
               | intros; eexists; split; reflexivity]|]).
    inversion Hstep.
  - cbn [Ordering.well_ordered Ordering.main_steps Orchestrator.steps
         Ordering.main_workflow Orchestrator.dependencies Orchestrator.name].
    repeat split; intros dep Hdep;
      repeat (apply elem_of_cons in Hdep as [->|Hdep]; [constructor|]);
      inversion Hdep.
Defined.

(** X4. Context threading: a step receives the workflow context updated
    with the dict results stored so far, in the order they were stored; a
    key of a later dict result overrides the same key of an earlier one
    and of the workflow context, and a result that is not a dict
    contributes nothing. *)
Theorem step_context_threading {V : Type} (context : Py.odict V)
    (results : Py.odict (Orchestrator.result V)) (n : string) :
  Orchestrator.step_context context [] = context
  /\ (forall (d : Py.odict V) (k : string),
        NoDup d.*1 ->
        Py.od_get k (Orchestrator.step_context context
                       (results ++ [(n, Orchestrator.RDict d)]))
        = match Py.od_get k d with
          | Some v => Some v
          | None => Py.od_get k (Orchestrator.step_context context results)
          end)
  /\ (forall v : V,
        Orchestrator.step_context context (results ++ [(n, Orchestrator.ROther v)])
        = Orchestrator.step_context context results).
Proof.
  split; [reflexivity|]. split.
  - intros d k Hnd. rewrite step_context_app.
    cbn [Orchestrator.step_context fold_left snd].
    apply od_update_get, Hnd.
  - intros v. rewrite step_context_app. reflexivity.
Qed.

(** X29. When the context of a step holds the key ["self"] or
    ["task_name"], from the workflow context or from the dict result of
    an earlier step, the call [execute_task(step.task, **step_context)]
    raises [TypeError] for the first such key before the body of
    [execute_task] runs: the workflow stops with that error, the task of
    the step is not called (whether or not the agent holds it), and only
    the tasks of the earlier steps have run. *)
Theorem keyword_collision_aborts {V : Type} (w : Orchestrator.Workflow V)
    (a : Orchestrator.Agent V) (context : Py.odict V)
    (pre post : list Orchestrator.WorkflowStep) (step : Orchestrator.WorkflowStep)
    (results : Py.odict (Orchestrator.result V))
    (log : list (Orchestrator.call V))
    (before after : Py.odict V) (k : string) (v : V) :
  Orchestrator.agent w = Some a ->
  Orchestrator.steps w = pre ++ step :: post ->
  Orchestrator.run_steps a context pre [] [] = (log, Py.Ok results) ->
  Orchestrator._check_dependencies step results = true ->
  Orchestrator.step_context context results = before ++ (k, v) :: after ->
  Forall (fun kv => kv.1 <> "self" /\ kv.1 <> "task_name") before ->
  k = "self" \/ k = "task_name" ->
  Orchestrator.execute w context
  = (log,
     Py.Err (Py.TypeError
               ("Agent.execute_task() got multiple values for argument '"
                +:+ k +:+ "'")))
  /\ log.*1 = (Orchestrator.task <$> pre).
Proof.
  intros Hagent Hsteps Hpre Hcheck Hctx Hbefore Hk. split.
  - unfold Orchestrator.execute, Orchestrator._topological_sort.
    rewrite Hagent, Hsteps, run_steps_app, Hpre. cbn [Orchestrator.run_steps].
    rewrite Hcheck. cbn [negb]. unfold Orchestrator.execute_task.
    rewrite Hctx, (multiple_values_first before after k v Hbefore Hk), app_nil_r.
    reflexivity.
  - apply run_steps_ok_log in Hpre. exact Hpre.
Qed.

Lemma keyword_collision_aborts_witness :
  Orchestrator.execute Ordering.naming_workflow OutOfOrder.context
  = ([("scan_folders", OutOfOrder.context)],
     Py.Err (Py.TypeError
               ("Agent.execute_task() got multiple values for argument '"
                +:+ "task_name" +:+ "'")))
  /\ [("scan_folders", OutOfOrder.context)].*1
     = (Orchestrator.task <$> [Ordering.scan_step]).
Proof.
  apply (keyword_collision_aborts Ordering.naming_workflow Ordering.naming_agent
           OutOfOrder.context [Ordering.scan_step] (drop 2 Ordering.main_steps)
           Ordering.validate_step
           [("scan", Orchestrator.RDict [("task_name", "scan_folders");
                                         ("total_files", "2")])]
           [("scan_folders", OutOfOrder.context)]
           OutOfOrder.context [("total_files", "2")] "task_name" "scan_folders").
  - reflexivity.
  - reflexivity.
  - vm_compute. reflexivity.
  - reflexivity.
  - reflexivity.
  - repeat constructor; discriminate.
  - right. reflexivity.
Defined.

(** * Further properties of the learning module *)

Section PatternHistories.
Import LearningModule Histories.

Lemma append_bounded_length (l : list example) (x : example) :
  (length l <= 10)%nat ->
  length (append_bounded l x) = Nat.min (S (length l)) 10.
Proof.
  intros Hl. unfold append_bounded. rewrite length_app. cbn [length].
  destruct (Nat.ltb_spec 10 (length l + 1)) as [Hlt|Hge].
  - rewrite length_tl, length_app. cbn [length]. lia.
  - rewrite length_app. cbn [length]. lia.
Qed.

Lemma update_patterns_store (data : comparison_data) (s : self) (e : Env.env saved) :
  exists p x,
    patterns (update_patterns data (s, e)).1
      = <[_extract_pattern_key data := p]> (patterns s)
    /\ examples p
       = append_bounded
           (default [] (examples <$> patterns s !! _extract_pattern_key data)) x.
Proof.
  unfold update_patterns.
  destruct (patterns s !! _extract_pattern_key data) as [p|] eqn:Hp;
    simpl; eexists _, _; split; reflexivity.
Qed.

Lemma record_times_S (n : nat) (data : comparison_data) (st : state) :
  record_times (S n) data st = update_patterns data (record_times n data st).
Proof. reflexivity. Qed.

Lemma record_times_pattern (data : comparison_data) (n : nat) (s : self)
    (e : Env.env saved) :
  patterns s !! _extract_pattern_key data = None ->
  exists p,
    patterns (record_times (S n) data (s, e)).1 !! _extract_pattern_key data = Some p
    /\ count p = Z.of_nat n
    /\ first_seen p = Env.timeline e (Env.ticks e)
    /\ length (examples p) = Nat.min (S n) 10.
Proof.
  intros Hnew. induction n as [|n IH].
  - destruct (update_patterns_new data s e Hnew) as (Hp & _).
    eexists. split; [exact Hp|]. repeat split.
  - destruct IH as (p & Hp & Hc & Hf & Hl).
    rewrite record_times_S.
    destruct (record_times (S n) data (s, e)) as [s' e'] eqn:Hst.
    pose proof (update_patterns_known data s' e' p Hp) as Hk.
    eexists. split; [exact Hk|]. cbn [count first_seen examples].
    split; [lia|]. split; [exact Hf|].
    rewrite append_bounded_length by lia. lia.
Qed.

End PatternHistories.

(** X5. Recording the same comparison data [n + 1] times, starting from a
    store that does not hold its key, leaves the pattern with a count of
    [n], the time of the first recording as [first_seen] and
    [min (n + 1) 10] examples; [get_frequent_patterns min_frequency]
    reports it exactly when [min_frequency <= n], that is from the
    [min_frequency + 1]-th recording on. *)
Theorem recorded_occurrences (data : comparison_data) (n : nat)
    (s : LearningModule.self) (e : Env.env LearningModule.saved) :
  LearningModule.patterns s !! LearningModule._extract_pattern_key data = None ->
  let s' := (Histories.record_times (S n) data (s, e)).1 in
  (exists p,
     LearningModule.patterns s' !! LearningModule._extract_pattern_key data = Some p
     /\ LearningModule.count p = Z.of_nat n
     /\ LearningModule.first_seen p = Env.timeline e (Env.ticks e)
     /\ length (LearningModule.examples p) = Nat.min (S n) 10)
  /\ forall min_frequency : Z,
       is_Some (LearningModule.get_frequent_patterns min_frequency s'
                  !! LearningModule._extract_pattern_key data)
       <-> min_frequency <= Z.of_nat n.
Proof.
  intros Hnew s'.
  destruct (record_times_pattern data n s e Hnew) as (p & Hp & Hc & Hf & Hl).
  fold s' in Hp. split; [exists p; auto|].
  intros m. unfold LearningModule.get_frequent_patterns. split.
  - intros [q Hq]. apply map_lookup_filter_Some in Hq as [Hq Hm].
    rewrite Hp in Hq. injection Hq as <-. cbn in Hm. lia.
  - intros Hm. exists p. apply map_lookup_filter_Some. split; [exact Hp|].
    cbn. lia.
Qed.

Lemma recorded_occurrences_witness :
  let s' := (Histories.record_times 3 Histories.text_minor_font_major
               (LearningModule.fresh, Runs.env_at 0)).1 in
  (exists p,
     LearningModule.patterns s'
       !! LearningModule._extract_pattern_key Histories.text_minor_font_major = Some p
     /\ LearningModule.count p = Z.of_nat 2
     /\ LearningModule.first_seen p
        = Env.timeline (Runs.env_at (F := LearningModule.saved) 0)
            (Env.ticks (Runs.env_at (F := LearningModule.saved) 0))
     /\ length (LearningModule.examples p) = Nat.min 3 10)
  /\ forall min_frequency : Z,
       is_Some (LearningModule.get_frequent_patterns min_frequency s'
                  !! LearningModule._extract_pattern_key Histories.text_minor_font_major)
       <-> min_frequency <= Z.of_nat 2.
Proof.
  apply (recorded_occurrences Histories.text_minor_font_major 2 LearningModule.fresh
           (Runs.env_at 0)).
  reflexivity.
Defined.

Section PatternStore.
Import LearningModule Histories.

Lemma update_patterns_entry (data : comparison_data) (s : self) (e : Env.env saved) :
  exists p' x,
    patterns (update_patterns data (s, e)).1
      = <[_extract_pattern_key data := p']> (patterns s)
    /\ examples p'
       = append_bounded
           (default [] (examples <$> patterns s !! _extract_pattern_key data)) x
    /\ forall p, patterns s !! _extract_pattern_key data = Some p ->
         count p' = count p + 1 /\ first_seen p' = first_seen p.
Proof.
  unfold update_patterns.
  destruct (patterns s !! _extract_pattern_key data) as [p|] eqn:Hp;
    simpl; eexists _, _; (split; [reflexivity|]); (split; [reflexivity|]).
  - intros q [= <-]. split; reflexivity.
  - intros q [=].
Qed.

Lemma append_bounded_le (l : list example) (x : example) :
  (length l <= 10)%nat -> (length (append_bounded l x) <= 10)%nat.
Proof. intros Hl. rewrite append_bounded_length by exact Hl. lia. Qed.

Lemma update_frequent_changes_count (differences : list diff_item)
    (fc : gmap string Z) (signature : string) :
  default 0
    (_update_frequent_changes
       {| cd_type := None; cd_severity := None; cd_differences := Some differences |}
       fc !! signature)
  = default 0 (fc !! signature)
    + Z.of_nat
        (length
           (filter (fun d => change_signature d = signature)
              (omap (fun diff => match diff with
                                 | DictItem d => Some d
                                 | OtherItem => None
                                 end) differences))).
Proof.
  unfold _update_frequent_changes. cbn [cd_differences].
  revert fc. induction differences as [|diff differences IH]; intros fc.
  - cbn. lia.
  - cbn [fold_left omap list_omap]. rewrite IH. destruct diff as [d|].
    + fold (change_signature d). rewrite filter_cons.
      destruct (decide (change_signature d = signature)) as [->|Hne].
      * rewrite lookup_insert_eq. cbn [default from_option id length]. lia.
      * rewrite lookup_insert_ne by exact Hne. lia.
    + reflexivity.
Qed.

End PatternStore.

(** X6. Over any sequence of [update_patterns] calls a pattern is never
    dropped, its count never decreases and its [first_seen] never
    changes; and when no pattern of the store holds more than 10 examples
    before the calls, none does after them. *)
Theorem pattern_store_grows (calls : list comparison_data)
    (s : LearningModule.self) (e : Env.env LearningModule.saved) :
  let s' := (Histories.run_patterns calls (s, e)).1 in
  (forall key p,
     LearningModule.patterns s !! key = Some p ->
     exists p', LearningModule.patterns s' !! key = Some p'
       /\ LearningModule.count p <= LearningModule.count p'
       /\ LearningModule.first_seen p' = LearningModule.first_seen p)
  /\ ((forall key p,
         LearningModule.patterns s !! key = Some p ->
         (length (LearningModule.examples p) <= 10)%nat) ->
      forall key p,
        LearningModule.patterns s' !! key = Some p ->
        (length (LearningModule.examples p) <= 10)%nat).
Proof.
  revert s e. induction calls as [|data calls IH]; intros s e.
  - cbn. split; [|auto]. intros key p Hp. exists p. split; [exact Hp|]. split; [lia|reflexivity].
  - cbn [Histories.run_patterns fold_left].
    destruct (LearningModule.update_patterns data (s, e)) as [s1 e1] eqn:Hst.
    destruct (update_patterns_entry data s e) as (p1 & x & Hmap & Hex & Hold).
    rewrite Hst in Hmap. cbn [fst] in Hmap.
    specialize (IH s1 e1). unfold Histories.run_patterns in IH. cbn zeta in IH.
    destruct IH as [IHkeep IHbound]. split.
    + intros key p Hp.
      destruct (decide (key = LearningModule._extract_pattern_key data)) as [->|Hne].
      * destruct (Hold p Hp) as [Hc Hf].
        destruct (IHkeep (LearningModule._extract_pattern_key data) p1)
          as (p' & Hp' & Hc' & Hf').
        { rewrite Hmap. apply lookup_insert_eq. }
        exists p'. split; [exact Hp'|]. split; [lia|congruence].
      * apply IHkeep. rewrite Hmap. rewrite lookup_insert_ne by congruence. exact Hp.
    + intros Hbound. apply IHbound. intros key p Hp. rewrite Hmap in Hp.
      destruct (decide (LearningModule._extract_pattern_key data = key)) as [<-|Hne].
      * rewrite lookup_insert_eq in Hp. injection Hp as <-. rewrite Hex.
        apply append_bounded_le.
        destruct (LearningModule.patterns s !! LearningModule._extract_pattern_key data)
          as [p0|] eqn:Hp0; cbn; [|lia].
        apply (Hbound _ _ Hp0).
      * rewrite lookup_insert_ne in Hp by exact Hne. apply (Hbound _ _ Hp).
Qed.

(** X7. [update_patterns] raises the counter of every change signature
    ([type_operation], each part [unknown] when the key is missing) by
    the number of dicts among the differences that carry it, and leaves
    the other counters as they are; [get_frequent_changes] then reports a
    signature exactly when its counter has reached the (positive)
    threshold. *)
Theorem frequent_changes_counted (data : comparison_data)
    (s : LearningModule.self) (e : Env.env LearningModule.saved)
    (signature : string) :
  let s' := (LearningModule.update_patterns data (s, e)).1 in
  let occurrences :=
    Z.of_nat (length (filter (fun d => Histories.change_signature d = signature)
                        (Histories.dict_items data))) in
  default 0 (LearningModule.frequent_changes s' !! signature)
    = default 0 (LearningModule.frequent_changes s !! signature) + occurrences
  /\ forall min_frequency : Z,
       0 < min_frequency ->
       (is_Some (LearningModule.get_frequent_changes min_frequency s' !! signature)
        <-> min_frequency
            <= default 0 (LearningModule.frequent_changes s !! signature) + occurrences).
Proof.
  intros s' occurrences.
  assert (Hfc : LearningModule.frequent_changes s'
                = LearningModule._update_frequent_changes data
                    (LearningModule.frequent_changes s)).
  { unfold s', LearningModule.update_patterns.
    destruct (LearningModule.patterns s !! LearningModule._extract_pattern_key data);
      reflexivity. }
  assert (Hcount : default 0 (LearningModule.frequent_changes s' !! signature)
                   = default 0 (LearningModule.frequent_changes s !! signature)
                     + occurrences).
  { rewrite Hfc. unfold occurrences, Histories.dict_items.
    destruct data as [ty sev [differences|]].
    - apply update_frequent_changes_count.
    - cbn. lia. }
  split; [exact Hcount|]. intros m Hm. rewrite <- Hcount.
  unfold LearningModule.get_frequent_changes. split.
  - intros [v Hv]. apply map_lookup_filter_Some in Hv as [Hv Hle].
    rewrite Hv. cbn in *. lia.
  - intros Hle.
    destruct (LearningModule.frequent_changes s' !! signature) as [v|] eqn:Hv;
      cbn in Hle; [|lia].
    exists v. apply map_lookup_filter_Some. split; [exact Hv|]. cbn. lia.
Qed.

(** ** The pattern key *)

Section PatternKey.
Import LearningModule Histories.

Lemma ascii_compare_trans (x y z : ascii) (c : comparison) :
  Ascii.compare x y = c -> Ascii.compare y z = c -> Ascii.compare x z = c.
Proof.
  unfold Ascii.compare. intros Hxy Hyz. destruct c.
  - apply N.compare_eq_iff in Hxy. apply N.compare_eq_iff in Hyz.
    apply N.compare_eq_iff. congruence.
  - apply N.compare_lt_iff in Hxy. apply N.compare_lt_iff in Hyz.
    apply N.compare_lt_iff. exact (N.lt_trans _ _ _ Hxy Hyz).
  - apply N.compare_gt_iff in Hxy. apply N.compare_gt_iff in Hyz.
    apply N.compare_gt_iff. exact (N.lt_trans _ _ _ Hyz Hxy).
Qed.

Lemma string_compare_lt_trans (a b c : string) :
  String.compare a b = Lt -> String.compare b c = Lt -> String.compare a c = Lt.
Proof.
  revert b c. induction a as [|x a IH]; intros [|y b] [|z c]; cbn;
    try discriminate; try reflexivity.
  destruct (Ascii.compare x y) eqn:Hxy; try discriminate;
    destruct (Ascii.compare y z) eqn:Hyz; try discriminate; intros Hab Hbc.
  - rewrite (ascii_compare_trans x y z Eq Hxy Hyz). eauto.
  - apply Ascii.compare_eq_iff in Hxy. subst y. rewrite Hyz. reflexivity.
  - apply Ascii.compare_eq_iff in Hyz. subst z. rewrite Hxy. reflexivity.
  - rewrite (ascii_compare_trans x y z Lt Hxy Hyz). reflexivity.
Qed.

Lemma str_le_trans (a b c : string) : Str.le a b -> Str.le b c -> Str.le a c.
Proof.
  unfold Str.le, String.leb. intros Hab Hbc.
  destruct (String.compare a b) eqn:Eab; try discriminate;
    destruct (String.compare b c) eqn:Ebc; try discriminate.
  - apply String.compare_eq_iff in Eab. subst b. rewrite Ebc. reflexivity.
  - apply String.compare_eq_iff in Eab. subst b. rewrite Ebc. reflexivity.
  - apply String.compare_eq_iff in Ebc. subst c. rewrite Eab. reflexivity.
  - rewrite (string_compare_lt_trans a b c Eab Ebc). reflexivity.
Qed.

Lemma str_le_total (a b : string) : Str.le a b \/ Str.le b a.
Proof. unfold Str.le. apply String.leb_total. Qed.

Lemma str_le_antisym (a b : string) : Str.le a b -> Str.le b a -> a = b.
Proof. unfold Str.le. apply String.leb_antisym. Qed.

(** [sorted(set(xs))] depends on the set alone. *)
Lemma sorted_set_ext (xs ys : list string) :
  (list_to_set xs : gset string) = list_to_set ys ->
  Str.sorted_set xs = Str.sorted_set ys.
Proof.
  intros Hset. unfold Str.sorted_set.
  assert (Htrans : Transitive Str.le) by (intros a b c; apply str_le_trans).
  assert (Htotal : Total Str.le) by (intros a b; apply str_le_total).
  assert (Hanti : AntiSymm eq Str.le) by (intros a b; apply str_le_antisym).
  apply (Sorted_unique_strong Str.le).
  - intros a b _ _. apply str_le_antisym.
  - apply (Sorted_merge_sort Str.le).
  - apply (Sorted_merge_sort Str.le).
  - rewrite !merge_sort_Permutation. apply NoDup_Permutation.
    + apply NoDup_remove_dups.
    + apply NoDup_remove_dups.
    + intros x. rewrite !elem_of_remove_dups.
      rewrite <- !(elem_of_list_to_set (C := gset string)). rewrite Hset. reflexivity.
Qed.

Lemma list_to_set_nil_inv (xs : list string) :
  (list_to_set xs : gset string) = ∅ -> xs = [].
Proof.
  destruct xs as [|x xs]; [reflexivity|]. intros H. exfalso.
  assert (Hx : x ∈ (list_to_set (x :: xs) : gset string))
    by (apply elem_of_list_to_set; left).
  rewrite H in Hx. set_solver.
Qed.

Lemma key_part_ext (xs ys : list string) (empty : string) :
  (list_to_set xs : gset string) = list_to_set ys ->
  match xs with [] => empty | _ => Str.join "_" (Str.sorted_set xs) end
  = match ys with [] => empty | _ => Str.join "_" (Str.sorted_set ys) end.
Proof.
  intros Hset. destruct xs as [|x xs], ys as [|y ys].
  - reflexivity.
  - symmetry in Hset. apply list_to_set_nil_inv in Hset. discriminate.
  - apply list_to_set_nil_inv in Hset. discriminate.
  - rewrite (sorted_set_ext _ _ Hset). reflexivity.
Qed.

End PatternKey.

(** X8. The pattern key depends only on the set of change types and,
    separately, on the set of severities of the dicts among the
    differences: two comparisons with the same two sets get the same key,
    whatever the order and number of their differences and however types
    and severities are paired. *)
Theorem pattern_key_of_sets (data1 data2 : comparison_data) :
  (list_to_set (Histories.change_types data1) : gset string)
    = list_to_set (Histories.change_types data2) ->
  (list_to_set (Histories.severities data1) : gset string)
    = list_to_set (Histories.severities data2) ->
  LearningModule._extract_pattern_key data1
    = LearningModule._extract_pattern_key data2.
Proof.
  intros Htypes Hsevs.
  change (LearningModule._extract_pattern_key data1)
    with (match Histories.change_types data1 with
          | [] => "no_changes"
          | _ => Str.join "_" (Str.sorted_set (Histories.change_types data1))
          end +:+ "_" +:+
          match Histories.severities data1 with
          | [] => "no_severity"
          | _ => Str.join "_" (Str.sorted_set (Histories.severities data1))
          end).
  change (LearningModule._extract_pattern_key data2)
    with (match Histories.change_types data2 with
          | [] => "no_changes"
          | _ => Str.join "_" (Str.sorted_set (Histories.change_types data2))
          end +:+ "_" +:+
          match Histories.severities data2 with
          | [] => "no_severity"
          | _ => Str.join "_" (Str.sorted_set (Histories.severities data2))
          end).
  rewrite (key_part_ext _ _ "no_changes" Htypes).
  rewrite (key_part_ext _ _ "no_severity" Hsevs).
  reflexivity.
Qed.

Lemma pattern_key_of_sets_witness :
  LearningModule._extract_pattern_key Histories.text_minor_font_major
    = LearningModule._extract_pattern_key Histories.font_minor_text_major.
Proof.
  apply (pattern_key_of_sets Histories.text_minor_font_major
           Histories.font_minor_text_major).
  - apply (bool_decide_unpack _). vm_compute. exact I.
  - apply (bool_decide_unpack _). vm_compute. exact I.
Defined.

(** ** Performance metrics *)

Section PerformanceMetrics.
Import LearningModule Histories.

Lemma inject_Z_succ (z : Z) : (inject_Z (z + 1) == inject_Z z + 1)%Q.
Proof. rewrite inject_Z_plus. reflexivity. Qed.

Lemma inject_Z_pos (z : Z) : 0 < z -> (0 < inject_Z z)%Q.
Proof. intros H. change 0%Q with (inject_Z 0). rewrite <- Zlt_Qlt. exact H. Qed.

Lemma truediv_pos (a : Q) (z : Z) :
  0 < z -> Py.truediv a (inject_Z z) = Py.Ok (a / inject_Z z)%Q.
Proof.
  intros Hz. unfold Py.truediv.
  destruct (Qeq_bool (inject_Z z) 0) eqn:E; [|reflexivity].
  apply Qeq_bool_eq in E. unfold Qeq in E. simpl in E. lia.
Qed.

Lemma py_min_le (a b : Q) : (Py.min a b <= a)%Q /\ (Py.min a b <= b)%Q.
Proof.
  unfold Py.min, Py.Qltb. destruct (Qle_bool a b) eqn:E; cbn [negb];
    Qle_bool_props; split; lra.
Qed.

Lemma py_max_ge (a b : Q) : (a <= Py.max a b)%Q /\ (b <= Py.max a b)%Q.
Proof.
  unfold Py.max, Py.Qgtb, Py.Qltb. destruct (Qle_bool b a) eqn:E; cbn [negb];
    Qle_bool_props; split; lra.
Qed.

(** The entry one more recording yields, from the entry read ([None]
    when the operation is new). *)
Lemma recorded_sound (old : option perf) (duration : Q) (success : bool) :
  (forall p, old = Some p -> perf_sound p) ->
  let p := default initial_perf old in
  let total := total_operations p + 1 in
  perf_sound
    {| total_operations := total;
       successful_operations :=
         if success then successful_operations p + 1 else successful_operations p;
       failed_operations :=
         if success then failed_operations p else failed_operations p + 1;
       total_duration := (total_duration p + duration)%Q;
       avg_duration := ((total_duration p + duration) / inject_Z total)%Q;
       min_duration := Some (min_with_inf (min_duration p) duration);
       max_duration := Py.max (max_duration p) duration |}.
Proof.
  intros Hold p total. unfold perf_sound.
  cbn [total_operations successful_operations failed_operations total_duration
       avg_duration min_duration max_duration].
  destruct (py_max_ge (max_duration p) duration) as [Hmax1 Hmax2].
  destruct old as [q|].
  - destruct (Hold q eq_refl) as (Hsum & Hs & Hf & Hpos & Havg & m & Hm & Hlo & Hhi).
    subst p total. cbn [default from_option id] in *.
    assert (HT : (0 < inject_Z (total_operations q))%Q) by (apply inject_Z_pos; exact Hpos).
    split; [destruct success; lia|]. split; [destruct success; lia|].
    split; [destruct success; lia|]. split; [lia|]. split.
    { field. intros E. unfold Qeq in E. simpl in E. lia. }
    eexists. split; [reflexivity|]. rewrite Hm. cbn [min_with_inf].
    destruct (py_min_le m duration) as [Hmin1 Hmin2].
    rewrite !inject_Z_succ.
    set (T := inject_Z (total_operations q)) in *.
    set (lo := Py.min m duration) in *. set (hi := Py.max (max_duration q) duration) in *.
    assert (Hlo' : (lo * T <= m * T)%Q) by (apply Qmult_le_compat_r; lra).
    assert (Hhi' : (max_duration q * T <= hi * T)%Q) by (apply Qmult_le_compat_r; lra).
    split.
    + assert (E : (lo * (T + 1) == lo * T + lo)%Q) by ring. rewrite E. lra.
    + assert (E : (hi * (T + 1) == hi * T + hi)%Q) by ring. rewrite E. lra.
  - subst p total. cbn [default from_option id initial_perf total_operations
      successful_operations failed_operations total_duration min_duration
      max_duration min_with_inf] in *.
    split; [destruct success; lia|]. split; [destruct success; lia|].
    split; [destruct success; lia|]. split; [lia|]. split.
    { field. intros E. unfold Qeq in E. simpl in E. lia. }
    eexists. split; [reflexivity|].
    change (inject_Z (0 + 1)) with 1%Q. split; lra.
Qed.

Lemma update_performance_metrics_step (operation : string) (duration : Q)
    (success : bool) (s : self) (e : Env.env saved) :
  all_sound s ->
  exists p',
    (update_performance_metrics operation duration success (s, e)).1 = Py.Ok tt
    /\ performance_metrics (update_performance_metrics operation duration success (s, e)).2.1
       = <[operation := p']> (performance_metrics s)
    /\ perf_sound p'
    /\ total_operations p'
       = total_operations (default initial_perf (performance_metrics s !! operation)) + 1
    /\ successful_operations p'
       = successful_operations (default initial_perf (performance_metrics s !! operation))
         + (if success then 1 else 0)
    /\ (total_duration p'
        == total_duration (default initial_perf (performance_metrics s !! operation))
           + duration)%Q.
Proof.
  intros Hsound.
  pose proof (recorded_sound (performance_metrics s !! operation) duration success
                (Hsound operation)) as Hnew.
  cbn zeta in Hnew.
  assert (Hpos : 0 < total_operations
                       (default initial_perf (performance_metrics s !! operation)) + 1).
  { destruct (performance_metrics s !! operation) as [q|] eqn:Hq.
    - destruct (Hsound operation q Hq) as (_ & _ & _ & Hp & _). cbn. lia.
    - cbn. lia. }
  unfold update_performance_metrics.
  cbn [total_operations total_duration successful_operations failed_operations
       avg_duration min_duration max_duration].
  rewrite (truediv_pos _ _ Hpos).
  eexists. split; [reflexivity|]. split; [reflexivity|]. split; [exact Hnew|].
  cbn [total_operations successful_operations total_duration].
  split; [reflexivity|]. split; [destruct success; lia|]. reflexivity.
Qed.

Lemma run_performance_sound (calls : list (string * Q * bool)) (s : self)
    (e : Env.env saved) :
  all_sound s ->
  (run_performance calls (s, e)).1 = Py.Ok tt
  /\ all_sound (run_performance calls (s, e)).2.1
  /\ forall operation,
       total_operations
         (default initial_perf
            (performance_metrics (run_performance calls (s, e)).2.1 !! operation))
       = total_operations (default initial_perf (performance_metrics s !! operation))
         + Z.of_nat (length (filter (fun c => c.1.1 = operation) calls))
       /\ successful_operations
            (default initial_perf
               (performance_metrics (run_performance calls (s, e)).2.1 !! operation))
          = successful_operations
              (default initial_perf (performance_metrics s !! operation))
            + Z.of_nat (length (filter (fun c => c.1.1 = operation /\ c.2 = true) calls)).
Proof.
  revert s e. induction calls as [|[[op d] ok] calls IH]; intros s e Hsound.
  - cbn. split; [reflexivity|]. split; [exact Hsound|]. intros operation. lia.
  - cbn [run_performance].
    destruct (update_performance_metrics_step op d ok s e Hsound)
      as (p' & Hres & Hmap & Hp' & Htot & Hsucc & _).
    destruct (update_performance_metrics op d ok (s, e)) as [r [s1 e1]] eqn:Hstep.
    cbn [fst snd] in Hres, Hmap. subst r.
    assert (Hsound1 : all_sound s1).
    { intros o q. rewrite Hmap. destruct (decide (op = o)) as [<-|Hne].
      - rewrite lookup_insert_eq. intros [= <-]. exact Hp'.
      - rewrite lookup_insert_ne by exact Hne. apply Hsound. }
    destruct (IH s1 e1 Hsound1) as (Hok & Hall & Hcount).
    split; [exact Hok|]. split; [exact Hall|]. intros operation.
    destruct (Hcount operation) as [Ht Hs]. rewrite Ht, Hs, Hmap.
    rewrite !filter_cons. cbn [fst snd].
    destruct (decide (op = operation)) as [<-|Hne].
    + rewrite lookup_insert_eq. cbn [default from_option id]. rewrite Htot, Hsucc.
      destruct ok.
      * rewrite decide_True by (split; reflexivity). cbn [length]. lia.
      * rewrite decide_False by (intros [_ [=]]). cbn [length]. lia.
    + rewrite lookup_insert_ne by exact Hne.
      rewrite decide_False by (intros [? _]; contradiction). lia.
Qed.

End PerformanceMetrics.

(** X9. From a store whose performance entries are sound (the empty
    store of a fresh module is), no sequence of
    [update_performance_metrics] calls raises, and afterwards every
    recorded operation has a positive count that is the sum of its
    successes and failures, an average that is its total duration
    divided by its count, and a finite minimum that does not exceed its
    maximum. *)
Theorem performance_metrics_consistent (calls : list (string * Q * bool))
    (s : LearningModule.self) (e : Env.env LearningModule.saved) :
  Histories.all_sound s ->
  (Histories.run_performance calls (s, e)).1 = Py.Ok tt
  /\ forall operation p,
       LearningModule.performance_metrics
         (Histories.run_performance calls (s, e)).2.1 !! operation = Some p ->
       0 < LearningModule.total_operations p
       /\ LearningModule.total_operations p
          = LearningModule.successful_operations p
            + LearningModule.failed_operations p
       /\ (LearningModule.avg_duration p
           == LearningModule.total_duration p
              / inject_Z (LearningModule.total_operations p))%Q
       /\ exists m, LearningModule.min_duration p = Some m
            /\ (m <= LearningModule.max_duration p)%Q.
Proof.
  intros Hsound.
  destruct (run_performance_sound calls s e Hsound) as (Hok & Hall & _).
  split; [exact Hok|]. intros operation p Hp.
  destruct (Hall operation p Hp) as (Hsum & Hs & Hf & Hpos & Havg & m & Hm & Hlo & Hhi).
  pose proof (inject_Z_pos _ Hpos) as HT.
  split; [exact Hpos|]. split; [exact Hsum|]. split.
  { rewrite <- Havg. field. lra. }
  exists m. split; [exact Hm|].
  apply (Qmult_le_r _ _ _ HT). apply (Qle_trans _ _ _ Hlo Hhi).
Qed.

Lemma performance_metrics_consistent_witness :
  (Histories.run_performance
     [("parse", 2.5%Q, true); ("compare", 4%Q, false); ("parse", 1.5%Q, true)]
     (LearningModule.fresh, Runs.env_at 0)).1 = Py.Ok tt
  /\ forall operation p,
       LearningModule.performance_metrics
         (Histories.run_performance
            [("parse", 2.5%Q, true); ("compare", 4%Q, false); ("parse", 1.5%Q, true)]
            (LearningModule.fresh, Runs.env_at 0)).2.1 !! operation = Some p ->
       0 < LearningModule.total_operations p
       /\ LearningModule.total_operations p
          = LearningModule.successful_operations p
            + LearningModule.failed_operations p
       /\ (LearningModule.avg_duration p
           == LearningModule.total_duration p
              / inject_Z (LearningModule.total_operations p))%Q
       /\ exists m, LearningModule.min_duration p = Some m
            /\ (m <= LearningModule.max_duration p)%Q.
Proof.
  apply (performance_metrics_consistent
           [("parse", 2.5%Q, true); ("compare", 4%Q, false); ("parse", 1.5%Q, true)]
           LearningModule.fresh (Runs.env_at 0)).
  intros operation p Hp.
  cbn [LearningModule.performance_metrics LearningModule.fresh] in Hp.
  rewrite lookup_empty in Hp. discriminate Hp.
Defined.

(** X10. Starting from a fresh module, after any sequence of
    [update_performance_metrics] calls the entry of an operation counts
    the calls made for it in [total_operations] and the successful ones
    among them in [successful_operations]; an operation never recorded
    has no entry. *)
Theorem performance_metrics_count (calls : list (string * Q * bool))
    (e : Env.env LearningModule.saved) (operation : string) :
  let s' := (Histories.run_performance calls (LearningModule.fresh, e)).2.1 in
  let recorded := filter (fun c => c.1.1 = operation) calls in
  match LearningModule.performance_metrics s' !! operation with
  | Some p =>
      LearningModule.total_operations p = Z.of_nat (length recorded)
      /\ LearningModule.successful_operations p
         = Z.of_nat (length (filter (fun c => c.2 = true) recorded))
      /\ recorded <> []
  | None => recorded = []
  end.
Proof.
  intros s' recorded.
  assert (Hfresh : Histories.all_sound LearningModule.fresh).
  { intros o p Hp.
    cbn [LearningModule.performance_metrics LearningModule.fresh] in Hp.
    rewrite lookup_empty in Hp. discriminate Hp. }
  destruct (run_performance_sound calls LearningModule.fresh e Hfresh)
    as (_ & Hall & Hcount).
  destruct (Hcount operation) as [Ht Hs]. fold s' in Ht, Hs, Hall.
  change (LearningModule.performance_metrics LearningModule.fresh !! operation)
    with ((∅ : gmap string LearningModule.perf) !! operation) in Ht, Hs.
  rewrite lookup_empty in Ht, Hs. cbn [default from_option id] in Ht, Hs.
  fold recorded in Ht.
  assert (Hfilter : filter (fun c : string * Q * bool => c.2 = true) recorded
                    = filter (fun c => c.1.1 = operation /\ c.2 = true) calls).
  { unfold recorded. rewrite list_filter_filter. apply list_filter_iff.
    intros c. tauto. }
  destruct (LearningModule.performance_metrics s' !! operation) as [p|] eqn:Hp.
  - cbn [default from_option id] in Ht, Hs. split; [exact Ht|].
    split; [rewrite Hfilter; exact Hs|].
    destruct (Hall operation p Hp) as (_ & _ & _ & Hpos & _).
    intros Hnil. rewrite Hnil in Ht. cbn in Ht. lia.
  - cbn in Ht. destruct recorded; [reflexivity|]. cbn [length] in Ht. lia.
Qed.

(** * Further properties of the agent *)

Section ComparisonSummary.
Import NeuroAgent Entries Summary.

Lemma od_set_fresh {V} (d : Py.odict V) (k : string) (v : V) :
  k ∉ d.*1 -> Py.od_set k v d = d ++ [(k, v)].
Proof.
  induction d as [|[k' v'] d IH]; intros Hk; [reflexivity|].
  rewrite fmap_cons in Hk. cbn [fst] in Hk. apply not_elem_of_cons in Hk as [Hne Hk].
  cbn [Py.od_set]. destruct (String.eqb_spec k k') as [->|_]; [contradiction|].
  rewrite (IH Hk). reflexivity.
Qed.

Lemma sum_from (xs : list Z) (z : Z) : fold_left Z.add xs z = z + sum xs.
Proof.
  unfold sum. revert z. induction xs as [|x xs IH]; intros z; cbn [fold_left]; [lia|].
  rewrite (IH (z + x)), (IH (0 + x)). lia.
Qed.

Lemma sum_app (xs ys : list Z) : sum (xs ++ ys) = sum xs + sum ys.
Proof. unfold sum at 1. rewrite fold_left_app. fold (sum xs). apply sum_from. Qed.

Lemma sum_cons (x : Z) (xs : list Z) : sum (x :: xs) = x + sum xs.
Proof. apply (sum_app [x] xs). Qed.

(** One turn of the loop of [compare_content], with its effect on the
    summary. *)
Lemma compare_entry_summary (sens : Settings.sensitivity) (acc : comparison)
    (filename : string) (c : content) :
  exists acc',
    compare_entry sens acc (filename, c) = Py.Ok acc'
    /\ differences acc'
       = match file_entry sens c with
         | Some e => Py.od_set filename e (differences acc)
         | None => differences acc
         end
    /\ total_files (summary acc')
       = total_files (summary acc)
         + match c_error c with Some _ => 0 | None => 1 end
    /\ files_with_changes (summary acc')
       = files_with_changes (summary acc)
         + match file_entry sens c with
           | Some e => if has_error e then 0 else 1
           | None => 0
           end
    /\ total_changes (summary acc')
       = total_changes (summary acc)
         + match file_entry sens c with
           | Some e => changes_of e
           | None => 0
           end
    /\ match file_entry sens c with
       | Some e => has_error e = false -> 0 < changes_of e
       | None => True
       end.
Proof.
  unfold compare_entry, file_entry.
  destruct (c_error c) as [err|].
  { eexists. split; [reflexivity|]. cbn. repeat split; first [lia | discriminate]. }
  destruct (compare_file_outcome c sens) as [[[[t i] f] ->]|[key ->]].
  - destruct (Z.ltb_spec 0 (Z.of_nat (length t + length i + length f))) as [Hpos|Hle].
    + eexists. split; [reflexivity|]. cbn. repeat split; lia.
    + eexists. split; [reflexivity|]. cbn. repeat split; lia.
  - eexists. split; [reflexivity|]. cbn. repeat split; first [lia | discriminate].
Qed.

Lemma entries_keys (sens : Settings.sensitivity) (pc : Py.odict content) (k : string) :
  k ∈ (entries sens pc).*1 -> k ∈ pc.*1.
Proof.
  unfold entries. intros Hk. apply list_elem_of_fmap in Hk as ([k' e] & -> & Hin).
  apply list_elem_of_omap in Hin as ([k0 c] & Hin & Hsome). cbn [fst snd] in Hsome.
  destruct (file_entry sens c); [|discriminate]. injection Hsome as -> ->.
  apply list_elem_of_fmap. exists (k', c). split; [reflexivity|exact Hin].
Qed.

Lemma compare_entries_summary (sens : Settings.sensitivity)
    (pc : Py.odict content) (acc : comparison) :
  NoDup pc.*1 ->
  (forall k, k ∈ pc.*1 -> k ∉ (differences acc).*1) ->
  exists result,
    Py.foldM (compare_entry sens) pc acc = Py.Ok result
    /\ differences result = differences acc ++ entries sens pc
    /\ total_files (summary result)
       = total_files (summary acc)
         + Z.of_nat (length (filter (fun item => c_error item.2 = None) pc))
    /\ files_with_changes (summary result)
       = files_with_changes (summary acc)
         + Z.of_nat (length (filter (fun fd => has_error fd = false) (entries sens pc).*2))
    /\ total_changes (summary result)
       = total_changes (summary acc) + sum (changes_of <$> (entries sens pc).*2)
    /\ Forall (fun fd => has_error fd = false -> 0 < changes_of fd) (entries sens pc).*2.
Proof.
  unfold Py.odict in *.
  revert acc. induction pc as [|[k0 c0] pc IH]; intros acc Hnd Hfresh.
  - exists acc. split; [reflexivity|]. cbn. rewrite app_nil_r.
    repeat split; try lia. constructor.
  - rewrite fmap_cons in Hnd. apply NoDup_cons in Hnd as [Hk0 Hnd]. cbn [fst] in Hk0.
    cbn [Py.foldM].
    destruct (compare_entry_summary sens acc k0 c0)
      as (acc1 & -> & Hd1 & Htf1 & Hfc1 & Htc1 & Hpos1).
    cbn [Py.bind].
    assert (Hk0acc : k0 ∉ (differences acc).*1).
    { apply Hfresh. rewrite fmap_cons. left. }
    assert (Hfresh1 : forall k, k ∈ pc.*1 -> k ∉ (differences acc1).*1).
    { intros k Hk. rewrite Hd1. destruct (file_entry sens c0) as [e0|].
      - rewrite (od_set_fresh _ _ _ Hk0acc), fmap_app. intros Hin.
        apply elem_of_app in Hin as [Hin|Hin].
        + revert Hin. apply Hfresh. rewrite fmap_cons. right. exact Hk.
        + cbn in Hin. apply list_elem_of_singleton in Hin. subst k. contradiction.
      - apply Hfresh. rewrite fmap_cons. right. exact Hk. }
    destruct (IH acc1 Hnd Hfresh1) as (result & Hrun & Hd & Htf & Hfc & Htc & Hpos).
    exists result. split; [exact Hrun|].
    rewrite (filter_cons (fun item : string * content => c_error item.2 = None)).
    unfold entries in *. cbn [omap list_omap fst snd].
    rewrite Hd, Htf, Hfc, Htc, Hd1, Htf1, Hfc1, Htc1.
    destruct (file_entry sens c0) as [e0|] eqn:He0; cbn [fmap option_fmap option_map].
    + rewrite (od_set_fresh _ _ _ Hk0acc), <- app_assoc. split; [reflexivity|].
      rewrite !fmap_cons. cbn [snd]. rewrite filter_cons, sum_cons.
      split.
      { destruct (c_error c0) as [err|];
          [rewrite decide_False by discriminate
          |rewrite decide_True by reflexivity; cbn [length]]; lia. }
      split.
      { destruct (has_error e0);
          [rewrite decide_False by discriminate
          |rewrite decide_True by reflexivity; cbn [length]]; lia. }
      split; [lia|]. constructor; [exact Hpos1|exact Hpos].
    + split; [reflexivity|]. split.
      { destruct (c_error c0) as [err|];
          [rewrite decide_False by discriminate
          |rewrite decide_True by reflexivity; cbn [length]]; lia. }
      split; [lia|]. split; [lia|exact Hpos].
Qed.

End ComparisonSummary.

(** X11. For parsed content with distinct file names, [compare_content]
    returns; its per-file results hold, in the order of the files, exactly
    the entries of the files that have one (an error payload, or
    difference lists that are not all empty), and its summary counts the
    files without an ["error"] key in [total_files], the entries with
    difference lists in [files_with_changes] and the lengths of their
    lists in [total_changes]. *)
Theorem compare_content_summary (parsed_content : Py.odict NeuroAgent.content)
    (sensitivity_config : Settings.sensitivity) :
  NoDup parsed_content.*1 ->
  exists result,
    NeuroAgent.compare_content parsed_content sensitivity_config = Py.Ok result
    /\ NeuroAgent.differences result = Summary.entries sensitivity_config parsed_content
    /\ NeuroAgent.total_files (NeuroAgent.summary result)
       = Z.of_nat (length (filter (fun item => NeuroAgent.c_error item.2 = None)
                             parsed_content))
    /\ NeuroAgent.files_with_changes (NeuroAgent.summary result)
       = Z.of_nat (length (filter (fun fd => Summary.has_error fd = false)
                             (NeuroAgent.differences result).*2))
    /\ NeuroAgent.total_changes (NeuroAgent.summary result)
       = Summary.sum (Summary.changes_of <$> (NeuroAgent.differences result).*2)
    /\ Forall (fun fd => Summary.has_error fd = false -> 0 < Summary.changes_of fd)
         (NeuroAgent.differences result).*2
    /\ NeuroAgent.files_with_changes (NeuroAgent.summary result)
       <= NeuroAgent.total_files (NeuroAgent.summary result).
Proof.
  intros Hnd. unfold NeuroAgent.compare_content.
  destruct (compare_entries_summary sensitivity_config parsed_content
              {| NeuroAgent.differences := [];
                 NeuroAgent.summary :=
                   {| NeuroAgent.total_files := 0; NeuroAgent.files_with_changes := 0;
                      NeuroAgent.total_changes := 0 |} |} Hnd)
    as (result & Hrun & Hd & Htf & Hfc & Htc & Hpos).
  { intros k _. cbn. apply not_elem_of_nil. }
  cbn [NeuroAgent.differences NeuroAgent.summary NeuroAgent.total_files
       NeuroAgent.files_with_changes NeuroAgent.total_changes app] in Hd, Htf, Hfc, Htc.
  exists result. split; [exact Hrun|]. rewrite Hd.
  split; [reflexivity|]. split; [lia|]. split; [lia|]. split; [lia|].
  split; [exact Hpos|]. rewrite Htf, Hfc.
  clear. unfold Py.odict in *.
  induction parsed_content as [|[k c] pc IH]; [cbn; lia|].
  unfold Summary.entries in *. cbn [omap list_omap fst snd].
  rewrite filter_cons. cbn [snd]. unfold Entries.file_entry at 1.
  destruct (NeuroAgent.c_error c) as [err|].
  - cbn [fmap option_fmap option_map]. rewrite fmap_cons, filter_cons. cbn [snd].
    rewrite decide_False by discriminate. cbn [Summary.has_error].
    rewrite decide_False by discriminate. exact IH.
  - rewrite decide_True by reflexivity. cbn [length].
    destruct (NeuroAgent.compare_file c sensitivity_config) as [[[t i] f]|e].
    + destruct (0 <? Z.of_nat (length t + length i + length f)).
      * cbn [fmap option_fmap option_map]. rewrite fmap_cons, filter_cons. cbn [snd].
        cbn [Summary.has_error]. rewrite decide_True by reflexivity. cbn [length]. lia.
      * cbn [fmap option_fmap option_map]. lia.
    + cbn [fmap option_fmap option_map]. rewrite fmap_cons, filter_cons. cbn [snd].
      cbn [Summary.has_error]. rewrite decide_False by discriminate. lia.
Qed.

Lemma compare_content_summary_witness :
  exists result,
    NeuroAgent.compare_content Sample.parsed_content Settings.medium = Py.Ok result
    /\ NeuroAgent.differences result = Summary.entries Settings.medium Sample.parsed_content
    /\ NeuroAgent.total_files (NeuroAgent.summary result)
       = Z.of_nat (length (filter (fun item => NeuroAgent.c_error item.2 = None)
                             Sample.parsed_content))
    /\ NeuroAgent.files_with_changes (NeuroAgent.summary result)
       = Z.of_nat (length (filter (fun fd => Summary.has_error fd = false)
                             (NeuroAgent.differences result).*2))
    /\ NeuroAgent.total_changes (NeuroAgent.summary result)
       = Summary.sum (Summary.changes_of <$> (NeuroAgent.differences result).*2)
    /\ Forall (fun fd => Summary.has_error fd = false -> 0 < Summary.changes_of fd)
         (NeuroAgent.differences result).*2
    /\ NeuroAgent.files_with_changes (NeuroAgent.summary result)
       <= NeuroAgent.total_files (NeuroAgent.summary result).
Proof.
  apply (compare_content_summary Sample.parsed_content Settings.medium).
  apply (bool_decide_unpack _). vm_compute. exact I.
Defined.

(** X12. [compare_content] looks at the text of a file and at the number
    of its images and fonts only: two parsed documents with the same
    pages, as many images and as many fonts get no entry and count as a
    file without changes, whatever the images and the fonts are. *)
Theorem same_text_and_counts_no_entry (filename : string)
    (reference new : document) (sensitivity_config : Settings.sensitivity) :
  doc_text reference = doc_text new ->
  length (doc_images reference) = length (doc_images new) ->
  length (doc_fonts reference) = length (doc_fonts new) ->
  NeuroAgent.compare_content
    [ (filename,
       {| NeuroAgent.c_error := None;
          NeuroAgent.c_reference := Some reference;
          NeuroAgent.c_new := Some new |}) ]
    sensitivity_config
  = Py.Ok {| NeuroAgent.differences := [];
             NeuroAgent.summary :=
               {| NeuroAgent.total_files := 1;
                  NeuroAgent.files_with_changes := 0;
                  NeuroAgent.total_changes := 0 |} |}.
Proof.
  intros Htext Himages Hfonts.
  unfold NeuroAgent.compare_content. cbn [Py.foldM].
  unfold NeuroAgent.compare_entry, NeuroAgent.compare_file.
  cbn [NeuroAgent.c_error NeuroAgent.c_reference NeuroAgent.c_new Py.getitem].
  res_step. rewrite Htext, compare_same. res_step.
  rewrite Himages, Hfonts, !Z.sub_diag. reflexivity.
Qed.

Lemma same_text_and_counts_no_entry_witness :
  NeuroAgent.compare_content
    [ ("report.pdf",
       {| NeuroAgent.c_error := None;
          NeuroAgent.c_reference := Some Sample.a_document;
          NeuroAgent.c_new := Some Summary.restyled_document |}) ]
    Settings.high
  = Py.Ok {| NeuroAgent.differences := [];
             NeuroAgent.summary :=
               {| NeuroAgent.total_files := 1;
                  NeuroAgent.files_with_changes := 0;
                  NeuroAgent.total_changes := 0 |} |}.
Proof.
  apply (same_text_and_counts_no_entry "report.pdf" Sample.a_document
           Summary.restyled_document Settings.high); reflexivity.
Defined.

Section LearningStep.
Import NeuroAgent Learning.

Lemma learning_key :
  MockLearningModule._extract_pattern_key learning_data = "unknown_unknown".
Proof. reflexivity. Qed.

Lemma mock_update_patterns_rest (cd : comparison_data) (s : MockLearningModule.self)
    (e : Env.env MockLearningModule.self) :
  MockLearningModule.statistics (MockLearningModule.update_patterns cd (s, e)).1
    = MockLearningModule.statistics s
  /\ forall k, k <> MockLearningModule._extract_pattern_key cd ->
       MockLearningModule.patterns (MockLearningModule.update_patterns cd (s, e)).1 !! k
       = MockLearningModule.patterns s !! k.
Proof.
  unfold MockLearningModule.update_patterns.
  destruct (MockLearningModule.patterns s !! MockLearningModule._extract_pattern_key cd);
    simpl; (split; [reflexivity|]); intros k Hk; apply lookup_insert_ne; congruence.
Qed.

Lemma mock_update_patterns_count (cd : comparison_data) (s : MockLearningModule.self)
    (e : Env.env MockLearningModule.self) :
  MockLearningModule.count
    <$> MockLearningModule.patterns (MockLearningModule.update_patterns cd (s, e)).1
          !! MockLearningModule._extract_pattern_key cd
  = Some match MockLearningModule.patterns s !! MockLearningModule._extract_pattern_key cd with
         | Some p => MockLearningModule.count p + 1
         | None => 0
         end.
Proof.
  destruct (MockLearningModule.patterns s !! MockLearningModule._extract_pattern_key cd)
    as [p|] eqn:Hp.
  - rewrite (mock_update_patterns_known cd s e p Hp). reflexivity.
  - destruct (mock_update_patterns_new cd s e Hp) as [-> _]. reflexivity.
Qed.

Lemma record_files_spec (differences : Py.odict file_differences)
    (s : MockLearningModule.self) (e : Env.env MockLearningModule.self) :
  MockLearningModule.statistics (record_files differences (s, e)).1
    = MockLearningModule.statistics s
  /\ (forall k, k <> "unknown_unknown" ->
        MockLearningModule.patterns (record_files differences (s, e)).1 !! k
        = MockLearningModule.patterns s !! k)
  /\ MockLearningModule.count
       <$> MockLearningModule.patterns (record_files differences (s, e)).1
             !! "unknown_unknown"
     = match recorded differences with
       | O => MockLearningModule.count
                <$> MockLearningModule.patterns s !! "unknown_unknown"
       | S n =>
           Some match MockLearningModule.patterns s !! "unknown_unknown" with
                | Some p => MockLearningModule.count p + Z.of_nat (S n)
                | None => Z.of_nat n
                end
       end.
Proof.
  unfold Py.odict in *. revert s e.
  induction differences as [|[k fd] differences IH]; intros s e.
  - cbn. auto.
  - set (e1 := {| Env.timeline := Env.timeline e; Env.ticks := S (Env.ticks e);
                  Env.file := Env.file e |}).
    assert (Hcons : record_files ((k, fd) :: differences) (s, e)
                    = if Summary.has_error fd then record_files differences (s, e)
                      else record_files differences
                             (MockLearningModule.update_patterns learning_data (s, e1))).
    { unfold record_files. cbn [fold_left snd]. destruct (Summary.has_error fd); reflexivity. }
    rewrite Hcons. clear Hcons. unfold recorded in *.
    rewrite fmap_cons, filter_cons. cbn [snd].
    destruct (Summary.has_error fd) eqn:Herr.
    + rewrite decide_False by discriminate. apply IH.
    + rewrite decide_True by reflexivity. cbn [length].
      destruct (mock_update_patterns_rest learning_data s e1) as [Hstats Hrest].
      pose proof (mock_update_patterns_count learning_data s e1) as Hcount.
      rewrite learning_key in Hrest, Hcount.
      destruct (MockLearningModule.update_patterns learning_data (s, e1)) as [s1 e2].
      cbn [fst] in Hstats, Hrest, Hcount.
      destruct (IH s1 e2) as (IHstats & IHrest & IHcount).
      split; [congruence|]. split.
      { intros k' Hk'. rewrite (IHrest k' Hk'). apply Hrest, Hk'. }
      rewrite IHcount.
      destruct (MockLearningModule.patterns s1 !! "unknown_unknown") as [p1|];
        [|discriminate Hcount].
      cbn [fmap option_fmap option_map] in Hcount. injection Hcount as Hcount.
      destruct (length (filter (fun fd0 => Summary.has_error fd0 = false) differences.*2))
        as [|n];
        destruct (MockLearningModule.patterns s !! "unknown_unknown") as [p|];
        cbn [fmap option_fmap option_map]; f_equal; lia.
Qed.

Lemma sum_zeros (fds : list file_differences) :
  Summary.sum (get_total_changes <$> fds) = 0.
Proof.
  induction fds as [|fd fds IH]; [reflexivity|].
  rewrite fmap_cons, sum_cons, IH. destruct fd; reflexivity.
Qed.

End LearningStep.

(** X13. [update_learning] records every file without an ["error"] key
    under the one pattern key [unknown_unknown] (so with [n > 0] such
    files and no such pattern before, its count ends at [n - 1]) and
    leaves the other patterns alone; it appends 0 to the
    ["total_changes"] statistic, whatever the differences are, and the
    number of all files, those with an error included, to
    ["files_processed"], and reports that number as [patterns_updated]. *)
Theorem update_learning_records
    (differences : Py.odict NeuroAgent.file_differences)
    (s : MockLearningModule.self) (e : Env.env MockLearningModule.self) :
  let out := Learning.update_learning differences (s, e) in
  let s' := out.2.1 in
  Learning.patterns_updated out.1 = Z.of_nat (length differences)
  /\ default [] (MockLearningModule.statistics s' !! "total_changes")
     = default [] (MockLearningModule.statistics s !! "total_changes") ++ [VInt 0]
  /\ default [] (MockLearningModule.statistics s' !! "files_processed")
     = default [] (MockLearningModule.statistics s !! "files_processed")
       ++ [VInt (Z.of_nat (length differences))]
  /\ (forall metric,
        metric <> "total_changes" -> metric <> "files_processed" ->
        MockLearningModule.statistics s' !! metric
        = MockLearningModule.statistics s !! metric)
  /\ (forall key,
        key <> "unknown_unknown" ->
        MockLearningModule.patterns s' !! key = MockLearningModule.patterns s !! key)
  /\ MockLearningModule.count <$> MockLearningModule.patterns s' !! "unknown_unknown"
     = match Learning.recorded differences with
       | O => MockLearningModule.count
                <$> MockLearningModule.patterns s !! "unknown_unknown"
       | S n =>
           Some match MockLearningModule.patterns s !! "unknown_unknown" with
                | Some p => MockLearningModule.count p + Z.of_nat (S n)
                | None => Z.of_nat n
                end
       end.
Proof.
  intros out s'. subst out s'. unfold Learning.update_learning.
  rewrite sum_zeros.
  destruct (record_files_spec differences s e) as (Hstats & Hrest & Hcount).
  destruct (Learning.record_files differences (s, e)) as [s1 e1].
  cbn [fst] in Hstats, Hrest, Hcount.
  unfold MockLearningModule.update_statistics, MockLearningModule._save_data.
  cbn [fst snd Learning.patterns_updated MockLearningModule.statistics
       MockLearningModule.patterns].
  rewrite Hstats. split; [reflexivity|]. split.
  { rewrite lookup_insert_ne by discriminate. rewrite lookup_insert_eq. reflexivity. }
  split.
  { rewrite lookup_insert_eq. rewrite lookup_insert_ne by discriminate. reflexivity. }
  split.
  { intros metric H1 H2. rewrite !lookup_insert_ne by congruence. reflexivity. }
  split; [exact Hrest | exact Hcount].
Qed.

(** * Further properties of the statistics *)

(** X14. [predict_comparison_time] never raises.  Without a numeric
    ["comparison_duration"] entry it returns the default 30.0; otherwise
    it returns the mean of the numeric durations times the file count
    times a size factor.  The size factor is the average file size over
    5 MB clamped to [0.5, 2.0]: it is 0.5 when that ratio is below 0.5,
    2.0 when the ratio is above 2.0, and the ratio itself in between. *)
Theorem predict_comparison_time_estimate (file_count : Z) (avg_file_size_mb : Q)
    (s : LearningModule.self) :
  let durations :=
    omap (fun v => LearningModule.numeric (LearningModule.se_value v))
      (default [] (LearningModule.statistics s !! "comparison_duration")) in
  exists t,
    LearningModule.predict_comparison_time file_count avg_file_size_mb s = Py.Ok t
    /\ (durations = [] -> t = 30.0%Q)
    /\ (durations <> [] ->
        exists size_factor,
          (t == LearningModule.sum durations / inject_Z (Z.of_nat (length durations))
                * inject_Z file_count * size_factor)%Q
          /\ (0.5 <= size_factor <= 2)%Q
          /\ ((avg_file_size_mb / 5 < 0.5)%Q -> (size_factor == 0.5)%Q)
          /\ ((0.5 <= avg_file_size_mb / 5 <= 2)%Q ->
              (size_factor == avg_file_size_mb / 5)%Q)
          /\ ((2 < avg_file_size_mb / 5)%Q -> (size_factor == 2)%Q)).
Proof.
  intros durations. unfold LearningModule.predict_comparison_time.
  destruct (LearningModule.statistics s !! "comparison_duration") as [entries|];
    cbn [default from_option id] in durations.
  2:{ exists 30.0%Q. split; [reflexivity|]. split; [reflexivity|].
      intros H. contradiction H. reflexivity. }
  fold durations. destruct durations as [|d durations'] eqn:Hd.
  { exists 30.0%Q. split; [reflexivity|]. split; [reflexivity|].
    intros H. contradiction H. reflexivity. }
  rewrite truediv_pos by (cbn [length]; lia). res_step.
  change (Py.truediv avg_file_size_mb 5.0) with (Py.Ok (avg_file_size_mb / 5.0)%Q).
  res_step. eexists. split; [reflexivity|]. split; [discriminate|].
  intros _. eexists. split; [reflexivity|].
  destruct (py_min_le 2.0 (Py.max 0.5 (avg_file_size_mb / 5.0))) as [Hmin1 Hmin2].
  destruct (py_max_ge 0.5 (avg_file_size_mb / 5.0)) as [Hmax1 Hmax2].
  assert (Hratio : (avg_file_size_mb / 5.0 == avg_file_size_mb / 5)%Q) by (field).
  split.
  - split; [|lra].
    unfold Py.min, Py.Qltb in *.
    destruct (Qle_bool 2.0 (Py.max 0.5 (avg_file_size_mb / 5.0))) eqn:E;
      cbn [negb] in *; Qle_bool_props; lra.
  - clear Hmin1 Hmin2 Hmax1 Hmax2.
    unfold Py.min, Py.max, Py.Qgtb, Py.Qltb.
    repeat split; intros Hcase;
      destruct (Qle_bool (avg_file_size_mb / 5.0) 0.5) eqn:E1; cbn [negb];
      destruct (Qle_bool 2.0 _) eqn:E2; cbn [negb]; Qle_bool_props; lra.
Qed.

Section UntrimmedStatistics.
Import MockLearningModule Histories.

Lemma mock_update_statistics_step (metric m : string) (v : value) (s : self)
    (e : Env.env self) :
  default [] (statistics (update_statistics m v (s, e)).1 !! metric)
  = default [] (statistics s !! metric)
    ++ (if String.eqb m metric then [v] else []).
Proof.
  unfold update_statistics, _save_data. cbn [fst statistics].
  destruct (String.eqb_spec m metric) as [->|Hne].
  - rewrite lookup_insert_eq. reflexivity.
  - rewrite lookup_insert_ne by exact Hne. rewrite app_nil_r. reflexivity.
Qed.

End UntrimmedStatistics.

(** X15. The learning module the agent instantiates (the one of
    [neuro_ai_mock.py]) never trims its statistics: after any sequence of
    [update_statistics] calls the list of a metric is the list it had
    followed by every value recorded for it, oldest first, so it grows by
    one with each call and is not held at 1000 entries. *)
Theorem mock_statistics_never_trimmed (calls : list (string * value))
    (st : MockLearningModule.state) (metric : string) :
  default [] (MockLearningModule.statistics
                (Histories.mock_run_updates calls st).1 !! metric)
  = default [] (MockLearningModule.statistics st.1 !! metric)
    ++ Histories.mock_appended metric calls
  /\ length (default [] (MockLearningModule.statistics
                           (Histories.mock_run_updates calls st).1 !! metric))
     = (length (default [] (MockLearningModule.statistics st.1 !! metric))
        + length (filter (fun c => c.1 = metric) calls))%nat.
Proof.
  assert (Hlist : forall calls st,
            default [] (MockLearningModule.statistics
                          (Histories.mock_run_updates calls st).1 !! metric)
            = default [] (MockLearningModule.statistics st.1 !! metric)
              ++ Histories.mock_appended metric calls).
  { clear. intros calls. induction calls as [|[m v] calls IH]; intros [s e].
    - cbn. rewrite app_nil_r. reflexivity.
    - unfold Histories.mock_run_updates in *. cbn [fold_left fst snd].
      destruct (MockLearningModule.update_statistics m v (s, e)) as [s1 e1] eqn:Hst.
      rewrite (IH (s1, e1)). cbn [fst].
      pose proof (mock_update_statistics_step metric m v s e) as Hstep.
      rewrite Hst in Hstep. cbn [fst] in Hstep. rewrite Hstep, <- app_assoc.
      f_equal. unfold Histories.mock_appended. cbn [omap list_omap fst snd].
      destruct (String.eqb m metric); reflexivity. }
  split; [apply Hlist|]. rewrite Hlist, length_app. f_equal.
  clear. induction calls as [|[m v] calls IH]; [reflexivity|].
  unfold Histories.mock_appended in *. cbn [omap list_omap fst snd].
  rewrite filter_cons. cbn [fst].
  destruct (String.eqb_spec m metric) as [->|Hne].
  - rewrite decide_True by reflexivity. cbn [length]. rewrite IH. reflexivity.
  - rewrite decide_False by exact Hne. exact IH.
Qed.

(** * Further properties of the processors *)

Section OneSidedPages.
Import TextComparator Pages.

Lemma text_map_dom_from (pages : list page) (m : gmap Z string) :
  dom (fold_left (fun m p => <[page_num p := page_text p]> m) pages m)
  = dom m ∪ list_to_set (page_num <$> pages).
Proof.
  revert m. induction pages as [|p pages IH]; intros m.
  - cbn. rewrite (right_id_L ∅ (∪)). reflexivity.
  - cbn [fold_left]. rewrite IH, dom_insert_L, fmap_cons. cbn [list_to_set].
    rewrite (comm_L (∪) {[page_num p]} (dom m)), <- (assoc_L (∪)). reflexivity.
Qed.

Lemma text_map_dom (pages : list page) :
  dom (text_map pages) = list_to_set (page_num <$> pages).
Proof.
  unfold text_map. rewrite text_map_dom_from, dom_empty_L, (left_id_L ∅ (∪)).
  reflexivity.
Qed.

Lemma foldM_notices {X R} (body : list R -> X -> Py.res (list R)) (r : X -> R)
    (xs : list X) (acc : list R) :
  (forall acc x, x ∈ xs -> body acc x = Py.Ok (acc ++ [r x])) ->
  Py.foldM body xs acc = Py.Ok (acc ++ (r <$> xs)).
Proof.
  revert acc. induction xs as [|x xs IH]; intros acc Hbody; cbn [Py.foldM].
  - rewrite app_nil_r. reflexivity.
  - rewrite Hbody by constructor. cbn [Py.bind]. rewrite IH.
    + rewrite fmap_cons, <- app_assoc. reflexivity.
    + intros acc' x' Hin. apply Hbody. constructor. exact Hin.
Qed.

End OneSidedPages.

(** X16. When the two documents share no page number, [compare] returns
    one line per page number of either document, in ascending order of
    the page numbers whatever the order of the pages in the lists: "a
    page was removed" for a page of the reference document, "a new page
    was added" for a page of the new one. *)
Theorem pages_on_one_side (doc1_pages doc2_pages : list page)
    (config : Settings.text_config) :
  (forall n, n ∈ page_num <$> doc1_pages -> n ∉ page_num <$> doc2_pages) ->
  exists numbers : list Z,
    Sorted Z.le numbers /\ NoDup numbers
    /\ (forall n, n ∈ numbers
                  <-> n ∈ page_num <$> doc1_pages \/ n ∈ page_num <$> doc2_pages)
    /\ TextComparator.compare doc1_pages doc2_pages config
       = Py.Ok (Pages.page_notice doc1_pages <$> numbers).
Proof.
  intros Hdisjoint.
  set (numbers :=
         merge_sort Z.le
           (elements (dom (TextComparator.text_map doc1_pages)
                      ∪ dom (TextComparator.text_map doc2_pages)))).
  assert (Hmem : forall n, n ∈ numbers
                   <-> n ∈ page_num <$> doc1_pages \/ n ∈ page_num <$> doc2_pages).
  { intros n. unfold numbers. rewrite merge_sort_Permutation, elem_of_elements.
    rewrite !text_map_dom, elem_of_union, !elem_of_list_to_set. reflexivity. }
  exists numbers. split; [apply (Sorted_merge_sort Z.le)|]. split.
  { unfold numbers. rewrite merge_sort_Permutation. apply NoDup_elements. }
  split; [exact Hmem|].
  unfold TextComparator.compare. fold numbers.
  apply (foldM_notices _ (Pages.page_notice doc1_pages) numbers []).
  intros acc n Hn. apply Hmem in Hn. unfold Pages.page_notice.
  destruct (decide (n ∈ page_num <$> doc1_pages)) as [H1|H1].
  - rewrite bool_decide_eq_true_2 by exact H1.
    assert (Hd1 : n ∈ dom (TextComparator.text_map doc1_pages))
      by (rewrite text_map_dom; apply elem_of_list_to_set, H1).
    assert (Hd2 : n ∉ dom (TextComparator.text_map doc2_pages))
      by (rewrite text_map_dom, elem_of_list_to_set; apply Hdisjoint, H1).
    apply elem_of_dom in Hd1 as [t ->]. apply not_elem_of_dom in Hd2 as ->.
    reflexivity.
  - rewrite bool_decide_eq_false_2 by exact H1.
    assert (Hd1 : n ∉ dom (TextComparator.text_map doc1_pages))
      by (rewrite text_map_dom, elem_of_list_to_set; exact H1).
    apply not_elem_of_dom in Hd1 as ->. reflexivity.
Qed.

Lemma pages_on_one_side_witness :
  exists numbers : list Z,
    Sorted Z.le numbers /\ NoDup numbers
    /\ (forall n, n ∈ numbers
                  <-> n ∈ page_num <$> Pages.front_matter
                      \/ n ∈ page_num <$> Pages.appendix)
    /\ TextComparator.compare Pages.front_matter Pages.appendix
         (Settings.text Settings.medium)
       = Py.Ok (Pages.page_notice Pages.front_matter <$> numbers).
Proof.
  apply (pages_on_one_side Pages.front_matter Pages.appendix
           (Settings.text Settings.medium)).
  intros n Hn. cbn in Hn.
  apply elem_of_cons in Hn as [->|Hn];
    [|apply elem_of_cons in Hn as [->|Hn]; [|inversion Hn]];
    cbn; intros Hin;
    apply elem_of_cons in Hin as [Hin|Hin]; try discriminate Hin;
    apply elem_of_cons in Hin as [Hin|Hin]; try discriminate Hin;
    inversion Hin.
Defined.

Section FontNames.
Import FontAnalyzer Fonts.

Lemma font_dict_keys_from (fonts : list font) (acc d : Py.odict font) :
  Py.foldM
    (fun d f => n ← Py.getitem "name" (f_name f); Py.Ok (Py.od_set n f d))
    fonts acc = Py.Ok d ->
  forall k, k ∈ d.*1 <-> k ∈ acc.*1 \/ k ∈ names fonts.
Proof.
  revert acc. induction fonts as [|f fonts IH]; intros acc Hrun k.
  - cbn in Hrun. injection Hrun as <-. unfold names. cbn.
    split; [left; assumption | intros [H|H]; [exact H | inversion H]].
  - cbn [Py.foldM] in Hrun. unfold names. cbn [omap list_omap].
    destruct (f_name f) as [n|]; [|discriminate Hrun].
    cbn [Py.getitem] in Hrun. res_step. cbn [Py.bind] in Hrun.
    rewrite (IH _ Hrun k). fold (names fonts).
    destruct (od_set_keys acc n f) as [[Hin ->]|[Hnin ->]].
    + rewrite elem_of_cons. split; [tauto|]. intros [H|[->|H]]; tauto.
    + rewrite elem_of_app, list_elem_of_singleton, elem_of_cons. tauto.
Qed.

Lemma font_dict_keys (fonts : list font) (d : Py.odict font) :
  font_dict fonts = Py.Ok d -> forall k, k ∈ d.*1 <-> k ∈ names fonts.
Proof.
  intros Hrun k. rewrite (font_dict_keys_from fonts [] d Hrun k). cbn.
  split; [intros [H|H]; [inversion H | exact H] | right; assumption].
Qed.

Lemma font_dict_nameless (fonts : list font) (acc : Py.odict font) :
  (exists f, f ∈ fonts /\ f_name f = None) ->
  Py.foldM
    (fun d f => n ← Py.getitem "name" (f_name f); Py.Ok (Py.od_set n f d))
    fonts acc = Py.Err (Py.KeyError "name").
Proof.
  revert acc. induction fonts as [|f fonts IH]; intros acc (f0 & Hin & Hnone).
  - inversion Hin.
  - cbn [Py.foldM]. destruct (f_name f) as [n|] eqn:Hn; [|reflexivity].
    cbn [Py.getitem]. res_step. cbn [Py.bind]. apply IH.
    apply elem_of_cons in Hin as [->|Hin]; [congruence|].
    exists f0. split; assumption.
Qed.

Lemma font_dict_outcome (fonts : list font) :
  (exists d, font_dict fonts = Py.Ok d)
  \/ font_dict fonts = Py.Err (Py.KeyError "name").
Proof.
  unfold font_dict. generalize (@nil (string * font)).
  induction fonts as [|f fonts IH]; intros acc; cbn [Py.foldM].
  - left. eexists. reflexivity.
  - destruct (f_name f) as [n|]; [|right; reflexivity].
    cbn [Py.getitem]. res_step. cbn [Py.bind]. apply IH.
Qed.

Lemma elem_of_flat_map {X R} (r : X -> list R) (xs : list X) (y : R) :
  y ∈ flat_map r xs <-> exists x, y ∈ r x /\ x ∈ xs.
Proof.
  rewrite list_elem_of_In, in_flat_map. split.
  - intros (x & Hx & Hy). exists x. rewrite !list_elem_of_In. tauto.
  - intros (x & Hy & Hx). exists x. rewrite <- !list_elem_of_In. tauto.
Qed.

Lemma od_get_None_key {V} (d : Py.odict V) (k : string) :
  Py.od_get k d = None -> k ∉ d.*1.
Proof.
  intros Hget Hin. destruct (od_get_key d k Hin) as [v Hv]. congruence.
Qed.

Lemma font_dict_raises (fonts : list font) :
  (exists f, f ∈ fonts /\ f_name f = None) ->
  font_dict fonts = Py.Err (Py.KeyError "name").
Proof. apply font_dict_nameless. Qed.

Lemma font_dict_named (fonts : list font) :
  (forall f, f ∈ fonts -> is_Some (f_name f)) ->
  exists d, font_dict fonts = Py.Ok d.
Proof.
  intros Hnamed. destruct (font_dict_outcome fonts) as [Hd|Hd]; [exact Hd|].
  exfalso. revert Hd. unfold font_dict. generalize (@nil (string * font)).
  induction fonts as [|f fonts IH]; intros acc; cbn [Py.foldM]; [discriminate|].
  destruct (Hnamed f) as [n ->]; [constructor|]. cbn [Py.getitem]. res_step.
  cbn [Py.bind]. apply IH. intros f0 Hf0. apply Hnamed. constructor. exact Hf0.
Qed.

Lemma od_set_elem {V} (d : Py.odict V) (n k : string) (v x : V) :
  (k, x) ∈ Py.od_set n v d -> (k, x) ∈ d \/ (k, x) = (n, v).
Proof.
  induction d as [|[k' v'] d IH]; cbn [Py.od_set].
  - intros H. apply list_elem_of_singleton in H. right. exact H.
  - destruct (String.eqb n k').
    + intros H. apply elem_of_cons in H as [H|H]; [right; exact H|].
      left. constructor. exact H.
    + intros H. apply elem_of_cons in H as [H|H].
      * left. rewrite H. constructor.
      * destruct (IH H) as [Hd|Hd]; [left; constructor; exact Hd | right; exact Hd].
Qed.

Lemma font_dict_values_from (fonts : list font) (acc d : Py.odict font) :
  Py.foldM
    (fun d f => n ← Py.getitem "name" (f_name f); Py.Ok (Py.od_set n f d))
    fonts acc = Py.Ok d ->
  forall k f, (k, f) ∈ d -> (k, f) ∈ acc \/ (f ∈ fonts /\ f_name f = Some k).
Proof.
  revert acc. induction fonts as [|f0 fonts IH]; intros acc Hrun k f Hin.
  - cbn in Hrun. injection Hrun as <-. left. exact Hin.
  - cbn [Py.foldM] in Hrun. destruct (f_name f0) as [n|] eqn:Hn; [|discriminate Hrun].
    cbn [Py.getitem] in Hrun. res_step. cbn [Py.bind] in Hrun.
    destruct (IH _ Hrun k f Hin) as [Hset|[Hf Hname]].
    + apply od_set_elem in Hset as [Hacc|[= -> ->]]; [left; exact Hacc|].
      right. split; [constructor | exact Hn].
    + right. split; [constructor; exact Hf | exact Hname].
Qed.

Lemma font_dict_values (fonts : list font) (d : Py.odict font) :
  font_dict fonts = Py.Ok d ->
  forall k f, (k, f) ∈ d -> f ∈ fonts /\ f_name f = Some k.
Proof.
  intros Hrun k f Hin.
  destruct (font_dict_values_from fonts [] d Hrun k f Hin) as [H|H]; [inversion H|exact H].
Qed.

End FontNames.

(** X17. For extracted fonts, [FontAnalyzer.compare] reports a font as
    added exactly when its name occurs in the new list and not in the
    reference list, and as removed exactly when its name occurs in the
    reference list and not in the new one; such a name gets no other
    record. *)
Theorem fonts_added_and_removed (set_iter : gset string -> list string)
    (fonts1 fonts2 : list font) (config : Settings.font_config) :
  set_order set_iter ->
  Forall extracted_font fonts1 -> Forall extracted_font fonts2 ->
  exists out,
    FontAnalyzer.compare set_iter fonts1 fonts2 config = Py.Ok out
    /\ (forall name,
          FontAnalyzer.Added name ∈ out
          <-> name ∈ Fonts.names fonts2 /\ name ∉ Fonts.names fonts1)
    /\ (forall name,
          FontAnalyzer.Removed name ∈ out
          <-> name ∈ Fonts.names fonts1 /\ name ∉ Fonts.names fonts2).
Proof.
  intros Hiter Hf1 Hf2.
  destruct (font_dict_extracted fonts1 Hf1) as (d1 & Hd1 & Hex1).
  destruct (font_dict_extracted fonts2 Hf2) as (d2 & Hd2 & Hex2).
  pose proof (font_dict_keys fonts1 d1 Hd1) as Hk1.
  pose proof (font_dict_keys fonts2 d2 Hd2) as Hk2.
  unfold FontAnalyzer.compare. rewrite Hd1, Hd2. res_step.
  set (tol := default 0.5%float (Settings.size_tolerance config)).
  set (names := list_to_set d1.*1 ∪ list_to_set d2.*1 : gset string).
  set (r := fun k => match FontAnalyzer.compare_name tol d1 d2 k with
                     | Py.Ok records => records
                     | Py.Err _ => []
                     end).
  rewrite (foldM_collect (FontAnalyzer.compare_name tol d1 d2) r).
  2:{ intros k _. subst r. cbn beta.
      destruct (compare_name_total tol d1 d2 k Hex1 Hex2) as (records & -> & _).
      reflexivity. }
  eexists. split; [reflexivity|]. cbn [app].
  assert (Hnames : forall k, k ∈ set_iter names
                     <-> k ∈ Fonts.names fonts1 \/ k ∈ Fonts.names fonts2).
  { intros k. rewrite (Hiter names), elem_of_elements. subst names.
    rewrite elem_of_union, !elem_of_list_to_set, Hk1, Hk2. reflexivity. }
  assert (Hr : forall k,
            (Py.od_get k d1 = None /\ r k = [FontAnalyzer.Added k])
            \/ (is_Some (Py.od_get k d1) /\ Py.od_get k d2 = None
                /\ r k = [FontAnalyzer.Removed k])
            \/ (is_Some (Py.od_get k d1) /\ is_Some (Py.od_get k d2)
                /\ forall n, (FontAnalyzer.Added n ∉ r k)
                             /\ (FontAnalyzer.Removed n ∉ r k))).
  { intros k. subst r. cbn beta. unfold FontAnalyzer.compare_name.
    destruct (Py.od_get k d1) as [f1|] eqn:H1; [|left; split; reflexivity].
    destruct (Py.od_get k d2) as [f2|] eqn:H2.
    2:{ right. left. split; [eexists; reflexivity|]. split; reflexivity. }
    right. right. split; [eexists; reflexivity|]. split; [eexists; reflexivity|].
    apply od_get_Some_elem in H1, H2. rewrite Forall_forall in Hex1, Hex2.
    destruct (Hex1 _ H1) as [_ [s1 Hs1]]. destruct (Hex2 _ H2) as [_ [s2 Hs2]].
    cbn [snd] in Hs1, Hs2. rewrite Hs1, Hs2. cbn [Py.getitem]. res_step.
    intros n.
    destruct (Py.fgtb _ _), (bool_decide (f_flags f1 <> f_flags f2)),
      (bool_decide (f_color f1 <> f_color f2)); cbn [app];
      split; intros Hin;
      repeat (apply elem_of_cons in Hin as [Hin|Hin]; [discriminate Hin|]);
      inversion Hin. }
  split.
  - intros name. rewrite elem_of_flat_map. split.
    + intros (k & Hin & Hk). apply Hnames in Hk.
      destruct (Hr k) as [[H1 Hrk]|[(H1 & H2 & Hrk)|(H1 & H2 & Hrk)]].
      * rewrite Hrk in Hin. apply list_elem_of_singleton in Hin. injection Hin as ->.
        apply od_get_None_key in H1. rewrite Hk1 in H1. tauto.
      * rewrite Hrk in Hin. apply list_elem_of_singleton in Hin. discriminate Hin.
      * destruct (Hrk name) as [Hno _]. contradiction.
    + intros [H2 H1]. exists name. split; [|apply Hnames; tauto].
      destruct (Hr name) as [[_ ->]|[(Hs & _)|(Hs & _)]]; [constructor| |].
      * exfalso. apply H1, Hk1. destruct Hs as [f Hf].
        apply od_get_Some_elem in Hf. apply list_elem_of_fmap.
        exists (name, f). split; [reflexivity|exact Hf].
      * exfalso. apply H1, Hk1. destruct Hs as [f Hf].
        apply od_get_Some_elem in Hf. apply list_elem_of_fmap.
        exists (name, f). split; [reflexivity|exact Hf].
  - intros name. rewrite elem_of_flat_map. split.
    + intros (k & Hin & Hk). apply Hnames in Hk.
      destruct (Hr k) as [[H1 Hrk]|[(H1 & H2 & Hrk)|(H1 & H2 & Hrk)]].
      * rewrite Hrk in Hin. apply list_elem_of_singleton in Hin. discriminate Hin.
      * rewrite Hrk in Hin. apply list_elem_of_singleton in Hin. injection Hin as ->.
        apply od_get_None_key in H2. rewrite Hk2 in H2.
        destruct H1 as [f Hf]. apply od_get_Some_elem in Hf. split; [|exact H2].
        apply Hk1. apply list_elem_of_fmap. exists (k, f). split; [reflexivity|exact Hf].
      * destruct (Hrk name) as [_ Hno]. contradiction.
    + intros [H1 H2]. exists name. split; [|apply Hnames; tauto].
      apply Hk1 in H1. rewrite <- Hk2 in H2.
      destruct (Hr name) as [[Hnone _]|[(_ & _ & ->)|(_ & Hs & _)]]; [| constructor |].
      * exfalso. apply od_get_None_key in Hnone. contradiction.
      * exfalso. apply H2. destruct Hs as [f Hf].
        apply od_get_Some_elem in Hf. apply list_elem_of_fmap.
        exists (name, f). split; [reflexivity|exact Hf].
Qed.

Lemma fonts_added_and_removed_witness :
  exists out,
    FontAnalyzer.compare elements [Sample.arial 10] [Sample.arial 10; Fonts.courier]
      (Sample.tolerance 0.5) = Py.Ok out
    /\ (forall name,
          FontAnalyzer.Added name ∈ out
          <-> name ∈ Fonts.names [Sample.arial 10; Fonts.courier]
              /\ name ∉ Fonts.names [Sample.arial 10])
    /\ (forall name,
          FontAnalyzer.Removed name ∈ out
          <-> name ∈ Fonts.names [Sample.arial 10]
              /\ name ∉ Fonts.names [Sample.arial 10; Fonts.courier]).
Proof.
  apply (fonts_added_and_removed elements [Sample.arial 10]
           [Sample.arial 10; Fonts.courier] (Sample.tolerance 0.5)).
  - intros s. reflexivity.
  - repeat constructor; eexists; reflexivity.
  - repeat constructor; eexists; reflexivity.
Defined.

(** X18. A font dict without a ["name"] key in either list makes
    [FontAnalyzer.compare] raise [KeyError: 'name'], whatever else the
    lists hold; with every name present, the only other failure is a
    [KeyError: 'size'], and it needs a font without ["size"] whose name
    occurs in both lists. *)
Theorem font_without_name_raises (set_iter : gset string -> list string)
    (fonts1 fonts2 : list font) (config : Settings.font_config) :
  ((exists f, f ∈ fonts1 ++ fonts2 /\ f_name f = None) ->
   FontAnalyzer.compare set_iter fonts1 fonts2 config = Py.Err (Py.KeyError "name"))
  /\ ((forall f, f ∈ fonts1 ++ fonts2 -> is_Some (f_name f)) ->
      (exists out, FontAnalyzer.compare set_iter fonts1 fonts2 config = Py.Ok out)
      \/ (FontAnalyzer.compare set_iter fonts1 fonts2 config
            = Py.Err (Py.KeyError "size")
          /\ exists f name,
               f ∈ fonts1 ++ fonts2 /\ f_size f = None /\ f_name f = Some name
               /\ name ∈ Fonts.names fonts1 /\ name ∈ Fonts.names fonts2)).
Proof.
  split.
  - intros (f & Hin & Hnone). unfold FontAnalyzer.compare.
    apply elem_of_app in Hin as [Hin|Hin].
    + rewrite (font_dict_raises fonts1) by (exists f; split; assumption).
      reflexivity.
    + destruct (font_dict_outcome fonts1) as [[d1 ->]| ->]; [|reflexivity].
      res_step.
      rewrite (font_dict_raises fonts2) by (exists f; split; assumption).
      reflexivity.
  - intros Hnamed. unfold FontAnalyzer.compare.
    destruct (font_dict_named fonts1) as [d1 Hd1].
    { intros f Hf. apply Hnamed, elem_of_app. left. exact Hf. }
    destruct (font_dict_named fonts2) as [d2 Hd2].
    { intros f Hf. apply Hnamed, elem_of_app. right. exact Hf. }
    rewrite Hd1, Hd2. res_step.
    pose proof (font_dict_keys fonts1 d1 Hd1) as Hk1.
    pose proof (font_dict_keys fonts2 d2 Hd2) as Hk2.
    pose proof (font_dict_values fonts1 d1 Hd1) as Hvals1.
    pose proof (font_dict_values fonts2 d2 Hd2) as Hvals2.
    assert (Hname : forall name,
              (exists r, FontAnalyzer.compare_name
                           (default 0.5%float (Settings.size_tolerance config)) d1 d2 name
                         = Py.Ok r)
              \/ (FontAnalyzer.compare_name
                    (default 0.5%float (Settings.size_tolerance config)) d1 d2 name
                  = Py.Err (Py.KeyError "size")
                  /\ exists f name,
                       f ∈ fonts1 ++ fonts2 /\ f_size f = None /\ f_name f = Some name
                       /\ name ∈ Fonts.names fonts1 /\ name ∈ Fonts.names fonts2)).
    { intros name. unfold FontAnalyzer.compare_name.
      destruct (Py.od_get name d1) as [f1|] eqn:H1; [|left; eexists; reflexivity].
      destruct (Py.od_get name d2) as [f2|] eqn:H2; [|left; eexists; reflexivity].
      apply od_get_Some_elem in H1, H2.
      destruct (Hvals1 _ _ H1) as [Hin1 Hn1]. destruct (Hvals2 _ _ H2) as [Hin2 Hn2].
      assert (Hname1 : name ∈ Fonts.names fonts1).
      { apply Hk1. apply list_elem_of_fmap. exists (name, f1). split; [reflexivity|exact H1]. }
      assert (Hname2 : name ∈ Fonts.names fonts2).
      { apply Hk2. apply list_elem_of_fmap. exists (name, f2). split; [reflexivity|exact H2]. }
      destruct (f_size f1) as [s1|] eqn:Hs1.
      2:{ right. split; [reflexivity|]. exists f1, name.
          split; [apply elem_of_app; left; exact Hin1|]. auto. }
      destruct (f_size f2) as [s2|] eqn:Hs2.
      2:{ right. split; [reflexivity|]. exists f2, name.
          split; [apply elem_of_app; right; exact Hin2|]. auto. }
      left. eexists. reflexivity. }
    generalize (set_iter (list_to_set d1.*1 ∪ list_to_set d2.*1)).
    generalize (@nil FontAnalyzer.font_diff).
    intros acc names. revert acc.
    induction names as [|name names IH]; intros acc; cbn [Py.foldM].
    + left. eexists. reflexivity.
    + destruct (Hname name) as [[r ->]|[-> Hw]]; res_step; cbn [Py.bind].
      * apply IH.
      * right. split; [reflexivity | exact Hw].
Qed.

Section UnpairedImages.
Import ImageComparator.

Lemma compare_pairs_left_extra (hash_func : list Byte.byte -> string)
    (images1 images2 extra : list (option image)) (idx : nat)
    (diffs : list image_diff) :
  length images1 = length images2 ->
  compare_pairs hash_func idx (images1 ++ extra) images2 diffs
  = compare_pairs hash_func idx images1 images2 diffs.
Proof.
  revert images2 idx diffs.
  induction images1 as [|img1 images1 IH]; intros [|img2 images2] idx diffs Hlen;
    try discriminate Hlen.
  - destruct extra; reflexivity.
  - cbn [app compare_pairs]. injection Hlen as Hlen.
    destruct (digest hash_func img1) as [hash1|e1]; [|reflexivity]. res_step.
    destruct (digest hash_func img2) as [hash2|e2]; [|reflexivity]. res_step.
    destruct (bool_decide (hash1 = hash2)); [apply IH, Hlen|].
    destruct (data_size img1) as [size1|e1]; [|reflexivity]. res_step.
    destruct (data_size img2) as [size2|e2]; [|reflexivity]. res_step.
    apply IH, Hlen.
Qed.

Lemma compare_pairs_right_extra (hash_func : list Byte.byte -> string)
    (images1 images2 extra : list (option image)) (idx : nat)
    (diffs : list image_diff) :
  length images1 = length images2 ->
  compare_pairs hash_func idx images1 (images2 ++ extra) diffs
  = compare_pairs hash_func idx images1 images2 diffs.
Proof.
  revert images2 idx diffs.
  induction images1 as [|img1 images1 IH]; intros [|img2 images2] idx diffs Hlen;
    try discriminate Hlen.
  - reflexivity.
  - cbn [app compare_pairs]. injection Hlen as Hlen.
    destruct (digest hash_func img1) as [hash1|e1]; [|reflexivity]. res_step.
    destruct (digest hash_func img2) as [hash2|e2]; [|reflexivity]. res_step.
    destruct (bool_decide (hash1 = hash2)); [apply IH, Hlen|].
    destruct (data_size img1) as [size1|e1]; [|reflexivity]. res_step.
    destruct (data_size img2) as [size2|e2]; [|reflexivity]. res_step.
    apply IH, Hlen.
Qed.

End UnpairedImages.

(** X19. [ImageComparator.compare] pairs the images by position and never
    looks at the images one list has beyond the length of the other:
    with further images appended to either list, the result is that of
    the paired images followed by one count record carrying the two list
    lengths, even when an appended image has no ["data"]. *)
Theorem unpaired_images_only_counted (sha256 md5 : list Byte.byte -> string)
    (images1 images2 extra : list (option image)) (config : Settings.image_config) :
  length images1 = length images2 ->
  extra <> [] ->
  ImageComparator.compare sha256 md5 (images1 ++ extra) images2 config
  = (diffs ← ImageComparator.compare sha256 md5 images1 images2 config;
     Py.Ok (diffs ++ [ImageComparator.CountMismatch
                        (length images1 + length extra) (length images2)]))
  /\ ImageComparator.compare sha256 md5 images1 (images2 ++ extra) config
     = (diffs ← ImageComparator.compare sha256 md5 images1 images2 config;
        Py.Ok (diffs ++ [ImageComparator.CountMismatch
                           (length images1) (length images2 + length extra)])).
Proof.
  intros Hlen Hextra. unfold ImageComparator.compare.
  assert (Hpos : (0 < length extra)%nat) by (destruct extra; [contradiction|cbn; lia]).
  rewrite compare_pairs_left_extra, compare_pairs_right_extra by exact Hlen.
  rewrite !length_app.
  destruct (ImageComparator.compare_pairs _ 0 images1 images2 []) as [diffs|e];
    [|split; reflexivity].
  res_step.
  rewrite (bool_decide_eq_false_2 (length images1 <> length images2))
    by (intros Hne; apply Hne, Hlen).
  rewrite !bool_decide_eq_true_2 by lia.
  split; reflexivity.
Qed.

Lemma unpaired_images_only_counted_witness :
  ImageComparator.compare Sample.toy_digest Sample.toy_digest
    ([Images.png] ++ [Images.stripped]) [Images.png] (Settings.image Settings.medium)
  = (diffs ← ImageComparator.compare Sample.toy_digest Sample.toy_digest
               [Images.png] [Images.png] (Settings.image Settings.medium);
     Py.Ok (diffs ++ [ImageComparator.CountMismatch
                        (length [Images.png] + length [Images.stripped])
                        (length [Images.png])]))
  /\ ImageComparator.compare Sample.toy_digest Sample.toy_digest
       [Images.png] ([Images.png] ++ [Images.stripped]) (Settings.image Settings.medium)
     = (diffs ← ImageComparator.compare Sample.toy_digest Sample.toy_digest
                  [Images.png] [Images.png] (Settings.image Settings.medium);
        Py.Ok (diffs ++ [ImageComparator.CountMismatch
                           (length [Images.png])
                           (length [Images.png] + length [Images.stripped])])).
Proof.
  apply (unpaired_images_only_counted Sample.toy_digest Sample.toy_digest
           [Images.png] [Images.png] [Images.stripped]
           (Settings.image Settings.medium)).
  - reflexivity.
  - discriminate.
Defined.

(** * Further properties of the comparison engine *)

Section Categories.
Import EngineReports.

Lemma known_severity_cases (d : difference) :
  known_severity d ->
  default "minor" (d_severity d) = "critical"
  \/ default "minor" (d_severity d) = "major"
  \/ default "minor" (d_severity d) = "minor".
Proof.
  unfold known_severity. intros H.
  apply elem_of_cons in H as [H|H]; [auto|].
  apply elem_of_cons in H as [H|H]; [auto|].
  apply elem_of_cons in H as [H|H]; [auto|]. inversion H.
Qed.

Lemma with_severity_snoc (severity : string) (ds : list difference) (d : difference) :
  with_severity severity (ds ++ [d])
  = with_severity severity ds
    ++ (if decide (default "minor" (d_severity d) = severity) then [d] else []).
Proof.
  unfold with_severity. rewrite filter_app, filter_cons, filter_nil. reflexivity.
Qed.

Lemma with_type_snoc (change_type : string) (ds : list difference) (d : difference) :
  with_type change_type (ds ++ [d])
  = with_type change_type ds
    ++ (if decide (default "text" (d_type d) = change_type) then [d] else []).
Proof.
  unfold with_type. rewrite filter_app, filter_cons, filter_nil. reflexivity.
Qed.

Lemma count_type_step (seen : list difference) (d : difference) (t : type_counts) :
  count_text t = Z.of_nat (length (with_type "text" seen)) ->
  count_image t = Z.of_nat (length (with_type "image" seen)) ->
  count_font t = Z.of_nat (length (with_type "font" seen)) ->
  count_layout t = Z.of_nat (length (with_type "layout" seen)) ->
  let t' := count_type (default "text" (d_type d)) t in
  count_text t' = Z.of_nat (length (with_type "text" (seen ++ [d])))
  /\ count_image t' = Z.of_nat (length (with_type "image" (seen ++ [d])))
  /\ count_font t' = Z.of_nat (length (with_type "font" (seen ++ [d])))
  /\ count_layout t' = Z.of_nat (length (with_type "layout" (seen ++ [d]))).
Proof.
  intros Ht Hi Hf Hl. cbn zeta. rewrite !with_type_snoc, !length_app.
  unfold count_type. generalize (default "text" (d_type d)). intros ty.
  destruct (String.eqb_spec ty "text") as [->|H1].
  { repeat first [rewrite decide_True by reflexivity | rewrite decide_False by discriminate].
    cbn [length count_text count_image count_font count_layout]. repeat split; lia. }
  destruct (String.eqb_spec ty "image") as [->|H2].
  { repeat first [rewrite decide_True by reflexivity | rewrite decide_False by discriminate].
    cbn [length count_text count_image count_font count_layout]. repeat split; lia. }
  destruct (String.eqb_spec ty "font") as [->|H3].
  { repeat first [rewrite decide_True by reflexivity | rewrite decide_False by discriminate].
    cbn [length count_text count_image count_font count_layout]. repeat split; lia. }
  destruct (String.eqb_spec ty "layout") as [->|H4].
  { repeat first [rewrite decide_True by reflexivity | rewrite decide_False by discriminate].
    cbn [length count_text count_image count_font count_layout]. repeat split; lia. }
  rewrite !decide_False by assumption. cbn [length]. repeat split; lia.
Qed.

Lemma categorize_one_step (seen : list difference) (d : difference)
    (st : categories * type_counts) :
  categorized seen st -> known_severity d ->
  exists st', categorize_one st d = Py.Ok st' /\ categorized (seen ++ [d]) st'.
Proof.
  intros (Hc & Hma & Hmi & Ht & Hi & Hf & Hl) Hknown.
  destruct (count_type_step seen d st.2 Ht Hi Hf Hl) as (Ht' & Hi' & Hf' & Hl').
  unfold categorize_one, file_under.
  destruct (known_severity_cases d Hknown) as [Hs|[Hs|Hs]]; rewrite Hs;
    cbn [String.eqb Ascii.eqb Bool.eqb]; res_step;
    (eexists; split; [reflexivity|]);
    unfold categorized; cbn [fst snd critical major minor];
    rewrite !with_severity_snoc, Hs, Hc, Hma, Hmi;
    cbn; rewrite ?app_nil_r; auto 10.
Qed.

Lemma categorize_from (differences seen : list difference)
    (st : categories * type_counts) :
  categorized seen st -> Forall known_severity differences ->
  exists st',
    Py.foldM categorize_one differences st = Py.Ok st'
    /\ categorized (seen ++ differences) st'.
Proof.
  revert seen st. induction differences as [|d differences IH]; intros seen st Hst Hknown.
  - exists st. rewrite app_nil_r. split; [reflexivity|exact Hst].
  - apply Forall_cons in Hknown as [Hd Hknown]. cbn [Py.foldM].
    destruct (categorize_one_step seen d st Hst Hd) as (st1 & -> & Hst1).
    cbn [Py.bind]. destruct (IH (seen ++ [d]) st1 Hst1 Hknown) as (st' & Hrun & Hst').
    exists st'. split; [exact Hrun|]. rewrite <- app_assoc in Hst'. exact Hst'.
Qed.

Lemma categorized_nil :
  categorized []
    ({| critical := []; major := []; minor := [] |},
     {| count_text := 0; count_image := 0; count_font := 0; count_layout := 0 |}).
Proof. repeat split. Qed.

Lemma severity_partition (differences : list difference) :
  Forall known_severity differences ->
  (length (with_severity "critical" differences)
   + length (with_severity "major" differences)
   + length (with_severity "minor" differences))%nat = length differences.
Proof.
  induction 1 as [|d ds Hd _ IH]; [reflexivity|].
  unfold with_severity in *. rewrite !filter_cons. cbn [length].
  destruct (known_severity_cases d Hd) as [Hs|[Hs|Hs]]; rewrite Hs;
    repeat first [rewrite decide_True by reflexivity | rewrite decide_False by discriminate];
    cbn [length]; lia.
Qed.

End Categories.

(** X20. When every record has one of the severities critical, major and
    minor (a record without the key counts as minor),
    [categorize_changes] returns: the three severity lists are the
    records of that severity in their order, so each record is in
    exactly one list and the lists' lengths add up to [total_changes],
    the number of records; and each of the four type counters is the
    number of records of that type, a missing type counting as text. *)
Theorem categorize_changes_partition (differences : list difference) :
  Forall EngineReports.known_severity differences ->
  exists r,
    EngineReports.categorize_changes differences = Py.Ok r
    /\ EngineReports.critical (EngineReports.by_severity r)
       = EngineReports.with_severity "critical" differences
    /\ EngineReports.major (EngineReports.by_severity r)
       = EngineReports.with_severity "major" differences
    /\ EngineReports.minor (EngineReports.by_severity r)
       = EngineReports.with_severity "minor" differences
    /\ EngineReports.total_changes r = Z.of_nat (length differences)
    /\ Z.of_nat (length (EngineReports.critical (EngineReports.by_severity r))
                 + length (EngineReports.major (EngineReports.by_severity r))
                 + length (EngineReports.minor (EngineReports.by_severity r)))
       = EngineReports.total_changes r
    /\ EngineReports.count_text (EngineReports.by_type r)
       = Z.of_nat (length (EngineReports.with_type "text" differences))
    /\ EngineReports.count_image (EngineReports.by_type r)
       = Z.of_nat (length (EngineReports.with_type "image" differences))
    /\ EngineReports.count_font (EngineReports.by_type r)
       = Z.of_nat (length (EngineReports.with_type "font" differences))
    /\ EngineReports.count_layout (EngineReports.by_type r)
       = Z.of_nat (length (EngineReports.with_type "layout" differences)).
Proof.
  intros Hknown. unfold EngineReports.categorize_changes.
  destruct (categorize_from differences [] _ categorized_nil Hknown)
    as (st & -> & Hc & Hma & Hmi & Ht & Hi & Hf & Hl).
  res_step. cbn [app] in *. eexists. split; [reflexivity|].
  cbn [EngineReports.by_severity EngineReports.by_type EngineReports.total_changes].
  rewrite Hc, Hma, Hmi, (severity_partition differences Hknown). auto 12.
Qed.

Lemma categorize_changes_partition_witness :
  exists r,
    EngineReports.categorize_changes
      [ {| d_type := Some "font"; d_severity := None; d_operation := None |};
        {| d_type := Some "layout"; d_severity := Some "major"; d_operation := None |};
        {| d_type := Some "table"; d_severity := Some "critical"; d_operation := None |} ]
    = Py.Ok r
    /\ EngineReports.critical (EngineReports.by_severity r)
       = EngineReports.with_severity "critical"
           [ {| d_type := Some "font"; d_severity := None; d_operation := None |};
             {| d_type := Some "layout"; d_severity := Some "major"; d_operation := None |};
             {| d_type := Some "table"; d_severity := Some "critical"; d_operation := None |} ]
    /\ EngineReports.major (EngineReports.by_severity r)
       = EngineReports.with_severity "major"
           [ {| d_type := Some "font"; d_severity := None; d_operation := None |};
             {| d_type := Some "layout"; d_severity := Some "major"; d_operation := None |};
             {| d_type := Some "table"; d_severity := Some "critical"; d_operation := None |} ]
    /\ EngineReports.minor (EngineReports.by_severity r)
       = EngineReports.with_severity "minor"
           [ {| d_type := Some "font"; d_severity := None; d_operation := None |};
             {| d_type := Some "layout"; d_severity := Some "major"; d_operation := None |};
             {| d_type := Some "table"; d_severity := Some "critical"; d_operation := None |} ]
    /\ EngineReports.total_changes r = Z.of_nat 3
    /\ Z.of_nat (length (EngineReports.critical (EngineReports.by_severity r))
                 + length (EngineReports.major (EngineReports.by_severity r))
                 + length (EngineReports.minor (EngineReports.by_severity r)))
       = EngineReports.total_changes r
    /\ EngineReports.count_text (EngineReports.by_type r) = Z.of_nat 0
    /\ EngineReports.count_image (EngineReports.by_type r) = Z.of_nat 0
    /\ EngineReports.count_font (EngineReports.by_type r) = Z.of_nat 1
    /\ EngineReports.count_layout (EngineReports.by_type r) = Z.of_nat 1.
Proof.
  apply (categorize_changes_partition
           [ {| d_type := Some "font"; d_severity := None; d_operation := None |};
             {| d_type := Some "layout"; d_severity := Some "major"; d_operation := None |};
             {| d_type := Some "table"; d_severity := Some "critical"; d_operation := None |} ]).
  repeat (apply Forall_cons_2; [apply (bool_decide_unpack _); vm_compute; exact I|]).
  apply Forall_nil_2.
Defined.

(** X21. The first record of [differences] whose severity is none of
    critical, major and minor makes [categorize_changes] raise
    [KeyError] with that severity.  The records of
    [compare_fonts_detailed] for a family, a style or a size change of
    more than 1.0pt carry the severity medium, so categorising them
    raises [KeyError: 'medium']. *)
Theorem categorize_changes_unknown_severity (before after : list difference)
    (d : difference) :
  Forall EngineReports.known_severity before ->
  ~ EngineReports.known_severity d ->
  EngineReports.categorize_changes (before ++ d :: after)
  = Py.Err (Py.KeyError (default "minor" (d_severity d))).
Proof.
  intros Hbefore Hd. unfold EngineReports.categorize_changes.
  rewrite foldM_app.
  destruct (categorize_from before [] _ categorized_nil Hbefore) as (st & -> & _).
  cbn [Py.bind Py.foldM]. unfold EngineReports.categorize_one at 1.
  unfold EngineReports.file_under.
  unfold EngineReports.known_severity in Hd.
  destruct (String.eqb_spec (default "minor" (d_severity d)) "critical") as [E|_].
  { exfalso. apply Hd. rewrite E. repeat constructor. }
  destruct (String.eqb_spec (default "minor" (d_severity d)) "major") as [E|_].
  { exfalso. apply Hd. rewrite E. repeat constructor. }
  destruct (String.eqb_spec (default "minor" (d_severity d)) "minor") as [E|_].
  { exfalso. apply Hd. rewrite E. repeat constructor. }
  reflexivity.
Qed.

Lemma categorize_changes_unknown_severity_witness :
  EngineReports.categorize_changes
    (EngineReports.as_difference
       <$> ComparisonEngine.compare_fonts_detailed elements [Sample.arial 10]
             [Sample.arial 12] (Sample.tolerance 0.5))
  = Py.Err (Py.KeyError "medium").
Proof.
  assert (E : EngineReports.as_difference
                <$> ComparisonEngine.compare_fonts_detailed elements [Sample.arial 10]
                      [Sample.arial 12] (Sample.tolerance 0.5)
              = [] ++ {| d_type := Some "font"; d_severity := Some "medium";
                         d_operation := None |} :: [])
    by (vm_compute; reflexivity).
  rewrite E.
  apply (categorize_changes_unknown_severity [] []
           {| d_type := Some "font"; d_severity := Some "medium"; d_operation := None |}).
  - apply Forall_nil_2.
  - apply (bool_decide_unpack _). vm_compute. exact I.
Defined.

Section Layout.
Import EngineReports.

Lemma exceeds_swap (a b tol : Q) :
  Py.Qgtb (Qabs (b - a)) tol = Py.Qgtb (Qabs (a - b)) tol.
Proof. rewrite (Qabs_Qminus b a). reflexivity. Qed.

Lemma exceeds_same (a tol : Q) : (0 <= tol)%Q -> Py.Qgtb (Qabs (a - a)) tol = false.
Proof. apply Qgtb_abs_same. Qed.

End Layout.

(** X22. [compare_layout_elements] treats the two layouts alike:
    exchanging them yields the same records with reference and new
    values exchanged.  It returns at most six records, reports page
    dimensions only when both layouts have a page size, and, with
    tolerances that are not negative, reports nothing for a layout
    compared with itself. *)
Theorem compare_layout_elements_symmetric
    (layout1 layout2 : EngineReports.layout_elements)
    (config : Settings.layout_config) :
  EngineReports.compare_layout_elements layout2 layout1 config
  = EngineReports.swapped <$> EngineReports.compare_layout_elements layout1 layout2 config
  /\ (length (EngineReports.compare_layout_elements layout1 layout2 config) <= 6)%nat
  /\ (EngineReports.l_page_size layout1 = None ->
      forall d, d ∈ EngineReports.compare_layout_elements layout1 layout2 config ->
                EngineReports.layout_severity d = "minor")
  /\ ((0 <= default 5 (Settings.position_tolerance config))%Q ->
      (0 <= default 5 (Settings.layout_size_tolerance config))%Q ->
      EngineReports.compare_layout_elements layout1 layout1 config = []).
Proof.
  unfold EngineReports.compare_layout_elements.
  set (ptol := default 5%Q (Settings.position_tolerance config)).
  set (stol := default 5%Q (Settings.layout_size_tolerance config)).
  set (m1 := default ∅ (EngineReports.l_margins layout1)).
  set (m2 := default ∅ (EngineReports.l_margins layout2)).
  split; [|split; [|split]].
  - assert (Hpage :
      match EngineReports.l_page_size layout2, EngineReports.l_page_size layout1 with
      | Some page1, Some page2 =>
          (if Py.Qgtb (Qabs (default 0%Q (EngineReports.width page1)
                             - default 0%Q (EngineReports.width page2))) stol
           then [EngineReports.PageWidth (default 0%Q (EngineReports.width page1))
                   (default 0%Q (EngineReports.width page2))]
           else [])
          ++ (if Py.Qgtb (Qabs (default 0%Q (EngineReports.height page1)
                                - default 0%Q (EngineReports.height page2))) stol
              then [EngineReports.PageHeight (default 0%Q (EngineReports.height page1))
                      (default 0%Q (EngineReports.height page2))]
              else [])
      | _, _ => []
      end
      = EngineReports.swapped <$>
        match EngineReports.l_page_size layout1, EngineReports.l_page_size layout2 with
        | Some page1, Some page2 =>
            (if Py.Qgtb (Qabs (default 0%Q (EngineReports.width page1)
                               - default 0%Q (EngineReports.width page2))) stol
             then [EngineReports.PageWidth (default 0%Q (EngineReports.width page1))
                     (default 0%Q (EngineReports.width page2))]
             else [])
            ++ (if Py.Qgtb (Qabs (default 0%Q (EngineReports.height page1)
                                  - default 0%Q (EngineReports.height page2))) stol
                then [EngineReports.PageHeight (default 0%Q (EngineReports.height page1))
                        (default 0%Q (EngineReports.height page2))]
                else [])
        | _, _ => []
        end).
    { destruct (EngineReports.l_page_size layout1) as [p1|],
        (EngineReports.l_page_size layout2) as [p2|]; try reflexivity.
      rewrite (exceeds_swap (default 0%Q (EngineReports.width p1))),
        (exceeds_swap (default 0%Q (EngineReports.height p1))).
      destruct (Py.Qgtb _ stol), (Py.Qgtb _ stol); reflexivity. }
    destruct (default false (Settings.margin_check config)); [|exact Hpage].
    rewrite fmap_app, Hpage. f_equal.
    cbn [flat_map]. rewrite !app_nil_r, !fmap_app.
    rewrite !(exceeds_swap (default 0%Q (m1 !! _))).
    repeat (f_equal; [destruct (Py.Qgtb _ ptol); reflexivity|]).
    destruct (Py.Qgtb _ ptol); reflexivity.
  - destruct (default false (Settings.margin_check config)).
    + rewrite length_app. cbn [flat_map]. rewrite !length_app.
      destruct (EngineReports.l_page_size layout1), (EngineReports.l_page_size layout2);
        rewrite ?length_app;
        repeat match goal with
               | |- context [if ?c then _ else _] => destruct c
               end; cbn [length]; lia.
    + destruct (EngineReports.l_page_size layout1), (EngineReports.l_page_size layout2);
        rewrite ?length_app;
        repeat match goal with
               | |- context [if ?c then _ else _] => destruct c
               end; cbn [length]; lia.
  - intros Hnone d. rewrite Hnone.
    destruct (default false (Settings.margin_check config)); [|intros H; inversion H].
    cbn [app]. intros Hin. apply elem_of_flat_map in Hin as (t & Hd & _).
    destruct (Py.Qgtb _ ptol); [|inversion Hd].
    apply list_elem_of_singleton in Hd. subst d. reflexivity.
  - intros Hp Hs. subst m2.
    assert (Hpage :
      match EngineReports.l_page_size layout1, EngineReports.l_page_size layout1 with
      | Some page1, Some page2 =>
          (if Py.Qgtb (Qabs (default 0%Q (EngineReports.width page1)
                             - default 0%Q (EngineReports.width page2))) stol
           then [EngineReports.PageWidth (default 0%Q (EngineReports.width page1))
                   (default 0%Q (EngineReports.width page2))]
           else [])
          ++ (if Py.Qgtb (Qabs (default 0%Q (EngineReports.height page1)
                                - default 0%Q (EngineReports.height page2))) stol
              then [EngineReports.PageHeight (default 0%Q (EngineReports.height page1))
                      (default 0%Q (EngineReports.height page2))]
              else [])
      | _, _ => []
      end = []).
    { destruct (EngineReports.l_page_size layout1) as [p1|]; [|reflexivity].
      rewrite !exceeds_same by exact Hs. reflexivity. }
    rewrite Hpage.
    destruct (default false (Settings.margin_check config)); [|reflexivity].
    cbn [flat_map app]. rewrite !exceeds_same by exact Hp. reflexivity.
Qed.

(** * The matching blocks are matches *)

Section MatcherSound.
Import Difflib MatcherInvariants MatcherSoundness.
Local Open Scope nat_scope.
Context {A : Type} `{EqDecision A}.
Implicit Types (a b : list A) (best : Match) (j2len : gmap nat nat).

Lemma index_Ok (l : list A) (i : nat) (x : A) :
  Py.index l i = Py.Ok x -> l !! i = Some x.
Proof. unfold Py.index. destruct (l !! i); [intros [= ->]; reflexivity | discriminate]. Qed.

Lemma b2j_elem b (x : A) : Forall (fun j => b !! j = Some x) (b2j b x).
Proof.
  unfold b2j. destruct (popular b x); [constructor|].
  eapply Forall_impl; [apply (indices_from_Forall 0 b x)|].
  intros j [_ Hj]. rewrite Nat.sub_0_r in Hj. exact Hj.
Qed.

Lemma matches_empty a b (i j : nat) : matches a b (i, j, 0).
Proof. intros t Ht. cbn in Ht. lia. Qed.

Lemma matches_extend a b (i j k : nat) (x : A) :
  matches a b (i, j, k) -> a !! (i + k) = Some x -> b !! (j + k) = Some x ->
  matches a b (i, j, S k).
Proof.
  intros Hm Ha Hb t Ht. cbn [fst snd] in *.
  destruct (decide (t = k)) as [->|Hne]; [exists x; split; assumption|].
  apply Hm. cbn. lia.
Qed.

Lemma matches_extend_left a b (i j k : nat) (x : A) :
  matches a b (S i, S j, k) -> a !! i = Some x -> b !! j = Some x ->
  matches a b (i, j, S k).
Proof.
  intros Hm Ha Hb t Ht. cbn [fst snd] in *.
  destruct t as [|t].
  - rewrite !Nat.add_0_r. exists x. split; assumption.
  - destruct (Hm t) as (y & Hy1 & Hy2); [cbn; lia|]. cbn [fst snd] in Hy1, Hy2.
    exists y. replace (i + S t) with (S i + t) by lia.
    replace (j + S t) with (S j + t) by lia. split; assumption.
Qed.

Lemma matches_join a b (i j k1 k2 : nat) :
  matches a b (i, j, k1) -> matches a b (i + k1, j + k1, k2) ->
  matches a b (i, j, k1 + k2).
Proof.
  intros H1 H2 t Ht. cbn [fst snd] in *.
  destruct (Nat.lt_ge_cases t k1) as [Hlt|Hge]; [apply H1; exact Hlt|].
  destruct (H2 (t - k1)) as (y & Hy1 & Hy2); [cbn; lia|]. cbn [fst snd] in Hy1, Hy2.
  exists y. replace (i + t) with (i + k1 + (t - k1)) by lia.
  replace (j + t) with (j + k1 + (t - k1)) by lia. split; assumption.
Qed.

Lemma scan_row_matches a b (blo bhi i : nat) (x : A) (js : list nat)
    j2len newj2len best :
  a !! i = Some x ->
  Forall (fun j => b !! j = Some x) js ->
  row_matches a b i j2len ->
  row_matches a b (S i) newj2len ->
  matches a b best ->
  row_matches a b (S i) (scan_row blo bhi i js j2len newj2len best).1
  /\ matches a b (scan_row blo bhi i js j2len newj2len best).2.
Proof.
  intros Hai Hjs Hrow. revert newj2len best.
  induction Hjs as [|j js Hbj _ IH]; intros newj2len best Hnew Hbest; cbn [scan_row].
  - split; assumption.
  - destruct (j <? blo); [apply IH; assumption|].
    destruct (bhi <=? j); [split; assumption|].
    set (prev := match j with 0 => 0 | S j' => default 0 (j2len !! j') end).
    assert (Hprev : prev <= i /\ prev <= j /\ matches a b (i - prev, j - prev, prev)).
    { subst prev. destruct j as [|j'].
      - split; [lia|]. split; [lia|]. apply matches_empty.
      - destruct (j2len !! j') as [v|] eqn:Hv; cbn [default from_option id].
        + destruct (Hrow j' v Hv) as (H1 & H2 & H3). split; [exact H1|].
          split; [exact H2|]. exact H3.
        + split; [lia|]. split; [lia|]. apply matches_empty. }
    destruct Hprev as (Hpi & Hpj & Hpm).
    assert (Hblock : matches a b (i - prev, j - prev, prev + 1)).
    { rewrite Nat.add_1_r. apply (matches_extend a b _ _ _ x Hpm).
      - replace (i - prev + prev) with i by lia. exact Hai.
      - replace (j - prev + prev) with j by lia. exact Hbj. }
    apply IH.
    + intros j0 v Hv. destruct (decide (j0 = j)) as [->|Hne].
      * rewrite lookup_insert_eq in Hv. injection Hv as <-.
        split; [lia|]. split; [lia|].
        replace (S i - (prev + 1)) with (i - prev) by lia.
        replace (S j - (prev + 1)) with (j - prev) by lia. exact Hblock.
      * rewrite lookup_insert_ne in Hv by congruence. apply Hnew. exact Hv.
    + destruct (best.2 <? prev + 1); [|exact Hbest].
      replace (i + 1 - (prev + 1)) with (i - prev) by lia.
      replace (j + 1 - (prev + 1)) with (j - prev) by lia. exact Hblock.
Qed.

Lemma row_matches_empty a b (i : nat) : row_matches a b i ∅.
Proof. intros j v Hv. rewrite lookup_empty in Hv. discriminate Hv. Qed.

Lemma scan_rows_matches a b (blo bhi m i : nat) j2len best best' :
  scan_rows a b blo bhi (seq i m) j2len best = Py.Ok best' ->
  row_matches a b i j2len ->
  matches a b best ->
  matches a b best'.
Proof.
  revert i j2len best. induction m as [|m IH]; intros i j2len best Hrun Hrow Hbest.
  - cbn in Hrun. injection Hrun as <-. exact Hbest.
  - cbn [seq scan_rows] in Hrun.
    destruct (Py.index a i) as [x|e] eqn:Hx; [|discriminate Hrun].
    apply index_Ok in Hx. cbn [mbind res_bind Py.bind] in Hrun.
    pose proof (scan_row_matches a b blo bhi i x (b2j b x) j2len ∅ best Hx
                  (b2j_elem b x) Hrow (row_matches_empty a b (S i)) Hbest) as [Hr Hb].
    destruct (scan_row blo bhi i (b2j b x) j2len ∅ best) as [newj2len best1].
    apply (IH (S i) newj2len best1 Hrun Hr Hb).
Qed.

Lemma extend_left_matches (test : A -> bool) a b (alo blo fuel : nat) best best' :
  extend_left test a b alo blo fuel best = Py.Ok best' ->
  matches a b best -> matches a b best'.
Proof.
  revert best. induction fuel as [|fuel IH]; intros [[bi bj] bs] Hrun Hm;
    cbn [extend_left] in Hrun.
  - destruct ((alo <? bi) && (blo <? bj)); [|injection Hrun as <-; exact Hm].
    destruct (Py.index b (bj - 1)) as [y|]; [|discriminate Hrun].
    cbn [mbind res_bind Py.bind] in Hrun.
    destruct (test y); [|injection Hrun as <-; exact Hm].
    destruct (Py.index a (bi - 1)) as [x|]; [|discriminate Hrun].
    cbn [mbind res_bind Py.bind] in Hrun.
    destruct (decide (x = y)); [discriminate Hrun|injection Hrun as <-; exact Hm].
  - destruct ((alo <? bi) && (blo <? bj)) eqn:Hlo; [|injection Hrun as <-; exact Hm].
    apply andb_true_iff in Hlo as [H1 H2].
    apply Nat.ltb_lt in H1, H2.
    destruct (Py.index b (bj - 1)) as [y|] eqn:Hy; [|discriminate Hrun].
    cbn [mbind res_bind Py.bind] in Hrun.
    destruct (test y); [|injection Hrun as <-; exact Hm].
    destruct (Py.index a (bi - 1)) as [x|] eqn:Hx; [|discriminate Hrun].
    cbn [mbind res_bind Py.bind] in Hrun.
    destruct (decide (x = y)) as [->|]; [|injection Hrun as <-; exact Hm].
    apply (IH _ Hrun). apply index_Ok in Hx, Hy.
    rewrite Nat.add_1_r. apply (matches_extend_left a b _ _ _ y); [|exact Hx|exact Hy].
    replace (S (bi - 1)) with bi by lia. replace (S (bj - 1)) with bj by lia. exact Hm.
Qed.

Lemma extend_right_matches (test : A -> bool) a b (ahi bhi fuel : nat) best best' :
  extend_right test a b ahi bhi fuel best = Py.Ok best' ->
  matches a b best -> matches a b best'.
Proof.
  revert best. induction fuel as [|fuel IH]; intros [[bi bj] bs] Hrun Hm;
    cbn [extend_right] in Hrun.
  - destruct ((bi + bs <? ahi) && (bj + bs <? bhi)); [|injection Hrun as <-; exact Hm].
    destruct (Py.index b (bj + bs)) as [y|]; [|discriminate Hrun].
    cbn [mbind res_bind Py.bind] in Hrun.
    destruct (test y); [|injection Hrun as <-; exact Hm].
    destruct (Py.index a (bi + bs)) as [x|]; [|discriminate Hrun].
    cbn [mbind res_bind Py.bind] in Hrun.
    destruct (decide (x = y)); [discriminate Hrun|injection Hrun as <-; exact Hm].
  - destruct ((bi + bs <? ahi) && (bj + bs <? bhi)); [|injection Hrun as <-; exact Hm].
    destruct (Py.index b (bj + bs)) as [y|] eqn:Hy; [|discriminate Hrun].
    cbn [mbind res_bind Py.bind] in Hrun.
    destruct (test y); [|injection Hrun as <-; exact Hm].
    destruct (Py.index a (bi + bs)) as [x|] eqn:Hx; [|discriminate Hrun].
    cbn [mbind res_bind Py.bind] in Hrun.
    destruct (decide (x = y)) as [->|]; [|injection Hrun as <-; exact Hm].
    apply (IH _ Hrun). apply index_Ok in Hx, Hy.
    rewrite Nat.add_1_r. apply (matches_extend a b _ _ _ y Hm Hx Hy).
Qed.

(** The block [find_longest_match] returns is a match. *)
Lemma find_longest_match_matches a b (alo ahi blo bhi : nat) best :
  find_longest_match a b alo ahi blo bhi = Py.Ok best -> matches a b best.
Proof.
  unfold find_longest_match. intros Hrun.
  destruct (scan_rows a b blo bhi (seq alo (ahi - alo)) ∅ (alo, blo, 0))
    as [best0|] eqn:H0; [|discriminate Hrun].
  cbn [mbind res_bind Py.bind] in Hrun.
  pose proof (scan_rows_matches a b blo bhi _ _ _ _ _ H0 (row_matches_empty a b alo)
                (matches_empty a b alo blo)) as Hm0.
  destruct (extend_left _ a b alo blo best0.1.1 best0) as [best1|] eqn:H1;
    [|discriminate Hrun].
  cbn [mbind res_bind Py.bind] in Hrun.
  pose proof (extend_left_matches _ a b _ _ _ _ _ H1 Hm0) as Hm1.
  destruct (extend_right _ a b ahi bhi _ best1) as [best2|] eqn:H2;
    [|discriminate Hrun].
  cbn [mbind res_bind Py.bind] in Hrun.
  pose proof (extend_right_matches _ a b _ _ _ _ _ H2 Hm1) as Hm2.
  destruct (extend_left isbjunk a b alo blo best2.1.1 best2) as [best3|] eqn:H3;
    [|discriminate Hrun].
  cbn [mbind res_bind Py.bind] in Hrun.
  pose proof (extend_left_matches _ a b _ _ _ _ _ H3 Hm2) as Hm3.
  apply (extend_right_matches _ a b _ _ _ _ _ Hrun Hm3).
Qed.

End MatcherSound.

Section MatcherOrder.
Import Difflib MatcherInvariants MatcherSoundness.
Local Open Scope nat_scope.
Context {A : Type} `{EqDecision A}.
Implicit Types (a b : list A) (blocks : list Match) (queue : list region).

(** Solves the inequalities between the bounds of regions. *)
Ltac bounds := unfold block_region in *; cbn [fst snd] in *; lia.

Lemma apart_sym (r s : region) : apart r s -> apart s r.
Proof. unfold apart. tauto. Qed.

(** A region inside [r] lies apart from what [r] lies apart from. *)
Lemma apart_inside (r r' s : region) :
  r.1.1.1 <= r'.1.1.1 -> r'.1.1.2 <= r.1.1.2 ->
  r.1.2 <= r'.1.2 -> r'.2 <= r.2 ->
  apart r s -> apart r' s.
Proof. unfold apart. intros H1 H2 H3 H4 [[Ha Hb]|[Ha Hb]]; [left|right]; lia. Qed.

Lemma match_queue_found a b (fuel : nat) queue blocks found :
  match_queue a b fuel queue blocks = Py.Ok found ->
  Forall (range_ok a b) queue ->
  found_ok a b blocks ->
  pending_ok queue blocks ->
  found_ok a b found.
Proof.
  revert queue blocks.
  induction fuel as [|fuel IH]; intros queue blocks Hrun Hq Hfound Hpending.
  - destruct queue as [|[[[alo ahi] blo] bhi] queue]; cbn in Hrun; [|discriminate Hrun].
    injection Hrun as <-. exact Hfound.
  - destruct queue as [|[[[alo ahi] blo] bhi] queue]; cbn [match_queue] in Hrun.
    { injection Hrun as <-. exact Hfound. }
    apply Forall_cons in Hq as [(Ha1 & Ha2 & Hb1 & Hb2) Hq].
    cbn [fst snd] in Ha1, Ha2, Hb1, Hb2.
    destruct (find_longest_match_bounds a b alo ahi blo bhi Ha1 Ha2 Hb1 Hb2)
      as ([[i j] k] & Hfind & (_ & _ & Hi & Hik & Hj & Hjk)).
    cbn [fst snd] in Hi, Hik, Hj, Hjk.
    pose proof (find_longest_match_matches a b alo ahi blo bhi _ Hfind) as Hm.
    rewrite Hfind in Hrun. cbn [mbind res_bind Py.bind] in Hrun.
    destruct Hpending as [[Hhead Hrest] Hcross].
    assert (Hcross_rest : forall r x, r ∈ queue -> x ∈ blocks -> apart r (block_region x)).
    { intros r x Hr Hx. apply Hcross; [right; exact Hr | exact Hx]. }
    destruct (k =? 0) eqn:Hk0.
    { apply (IH queue blocks Hrun Hq Hfound). split; assumption. }
    assert (Hk : k <> 0) by (apply Nat.eqb_neq; exact Hk0).
    destruct Hfound as (Hgood & Hnodup & Hpairs).
    assert (Hnew : forall x, x ∈ blocks ->
              apart (block_region (i, j, k)) (block_region x)).
    { intros x Hx.
      apply (apart_inside (alo, ahi, blo, bhi)); [bounds|bounds|bounds|bounds|].
      apply Hcross; [left | exact Hx]. }
    assert (Hfresh : (i, j, k) ∉ blocks).
    { intros Hin. destruct (Hnew _ Hin) as [[H1 _]|[H1 _]]; bounds. }
    assert (Hfound' : found_ok a b (blocks ++ [(i, j, k)])).
    { split; [|split].
      - apply Forall_app. split; [exact Hgood|]. apply Forall_singleton.
        cbn [fst snd]. split; [lia|]. split; [exact Hm|]. cbn [fst snd]. lia.
      - apply NoDup_app. split; [exact Hnodup|]. split; [|apply NoDup_singleton].
        intros x Hx Hx'. apply list_elem_of_singleton in Hx'. subst x. contradiction.
      - intros x y Hx Hy Hne.
        apply elem_of_app in Hx as [Hx|Hx]; apply elem_of_app in Hy as [Hy|Hy].
        + apply Hpairs; assumption.
        + apply list_elem_of_singleton in Hy. subst y. apply apart_sym, Hnew, Hx.
        + apply list_elem_of_singleton in Hx. subst x. apply Hnew, Hy.
        + apply list_elem_of_singleton in Hx, Hy. congruence. }
    assert (Hleft_in : forall s, apart (alo, ahi, blo, bhi) s -> apart (alo, i, blo, j) s).
    { intros s. apply apart_inside; bounds. }
    assert (Hright_in : forall s, apart (alo, ahi, blo, bhi) s ->
              apart (i + k, ahi, j + k, bhi) s).
    { intros s. apply apart_inside; bounds. }
    assert (Hleft_block : apart (alo, i, blo, j) (block_region (i, j, k)))
      by (left; bounds).
    assert (Hright_block : apart (i + k, ahi, j + k, bhi) (block_region (i, j, k)))
      by (right; bounds).
    assert (Hleft_right : apart (i + k, ahi, j + k, bhi) (alo, i, blo, j))
      by (right; bounds).
    assert (Hrest_block : forall r, r ∈ queue -> apart r (block_region (i, j, k))).
    { intros r Hr. apply apart_sym.
      apply (apart_inside (alo, ahi, blo, bhi)); [bounds|bounds|bounds|bounds|].
      rewrite Forall_forall in Hhead. apply Hhead, Hr. }
    assert (Hcross' : forall r x,
              r ∈ (i + k, ahi, j + k, bhi) :: (alo, i, blo, j) :: queue ->
              x ∈ blocks ++ [(i, j, k)] -> apart r (block_region x)).
    { intros r x Hr Hx.
      apply elem_of_app in Hx as [Hx|Hx].
      - apply elem_of_cons in Hr as [->|Hr];
          [apply Hright_in, Hcross; [left|exact Hx]|].
        apply elem_of_cons in Hr as [->|Hr];
          [apply Hleft_in, Hcross; [left|exact Hx]|].
        apply Hcross_rest; assumption.
      - apply list_elem_of_singleton in Hx. subst x.
        apply elem_of_cons in Hr as [->|Hr]; [exact Hright_block|].
        apply elem_of_cons in Hr as [->|Hr]; [exact Hleft_block|].
        apply Hrest_block, Hr. }
    assert (Hall' : all_apart ((i + k, ahi, j + k, bhi) :: (alo, i, blo, j) :: queue)).
    { cbn [all_apart]. split; [|split; [|exact Hrest]].
      - apply Forall_cons_2; [exact Hleft_right|].
        eapply Forall_impl; [exact Hhead|]. intros s. apply Hright_in.
      - eapply Forall_impl; [exact Hhead|]. intros s. apply Hleft_in. }
    assert (Hsub : forall queue',
              match_queue a b fuel queue' (blocks ++ [(i, j, k)]) = Py.Ok found ->
              queue' ⊆ (i + k, ahi, j + k, bhi) :: (alo, i, blo, j) :: queue ->
              all_apart queue' ->
              Forall (range_ok a b) queue' ->
              found_ok a b found).
    { intros queue' Hrun' Hincl Hap Hok. apply (IH queue' _ Hrun' Hok Hfound').
      split; [exact Hap|]. intros r x Hr Hx. apply Hcross'; [apply Hincl, Hr|exact Hx]. }
    destruct Hall' as (Hr1 & Hl1 & _). apply Forall_cons in Hr1 as [_ Hr1].
    destruct ((alo <? i) && (blo <? j)) eqn:Hlo;
      destruct ((i + k <? ahi) && (j + k <? bhi)) eqn:Hhi;
      apply (Hsub _ Hrun).
    + intros r Hr. exact Hr.
    + cbn [all_apart]. split; [apply Forall_cons_2; [exact Hleft_right|exact Hr1]|].
      split; [exact Hl1|exact Hrest].
    + repeat (apply Forall_cons_2; [unfold range_ok; cbn [fst snd]; lia|]). exact Hq.
    + intros r Hr. right. exact Hr.
    + cbn [all_apart]. split; [exact Hl1|exact Hrest].
    + repeat (apply Forall_cons_2; [unfold range_ok; cbn [fst snd]; lia|]). exact Hq.
    + intros r Hr. apply elem_of_cons in Hr as [->|Hr]; [left | right; right; exact Hr].
    + cbn [all_apart]. split; [exact Hr1|exact Hrest].
    + repeat (apply Forall_cons_2; [unfold range_ok; cbn [fst snd]; lia|]). exact Hq.
    + intros r Hr. right. right. exact Hr.
    + exact Hrest.
    + exact Hq.
Qed.

End MatcherOrder.

Section MatcherChain.
Import Difflib MatcherInvariants MatcherSoundness.
Local Open Scope nat_scope.
Context {A : Type} `{EqDecision A}.
Implicit Types (a b : list A) (blocks : list Match).

Lemma Match_le_trans (x y z : Match) : Match_le x y -> Match_le y z -> Match_le x z.
Proof.
  destruct x as [[i1 j1] k1], y as [[i2 j2] k2], z as [[i3 j3] k3].
  unfold Match_le. lia.
Qed.

Lemma Match_le_total (x y : Match) : Match_le x y \/ Match_le y x.
Proof.
  destruct x as [[i1 j1] k1], y as [[i2 j2] k2]. unfold Match_le. lia.
Qed.

Lemma sorted_blocks_before a b blocks :
  found_ok a b blocks ->
  StronglySorted Match_le blocks ->
  StronglySorted before blocks.
Proof.
  intros (Hgood & Hnodup & Hpairs) Hsorted.
  induction Hsorted as [|x blocks Hsorted IH Hx]; [constructor|].
  apply NoDup_cons in Hnodup as [Hnotin Hnodup].
  apply Forall_cons in Hgood as [[Hkx _] Hgood].
  constructor.
  - apply IH; [exact Hgood|exact Hnodup|].
    intros y z Hy Hz. apply Hpairs; right; assumption.
  - rewrite Forall_forall in Hx, Hgood. apply Forall_forall. intros y Hy.
    assert (Hne : x <> y) by (intros ->; contradiction).
    specialize (Hpairs x y ltac:(left) ltac:(right; exact Hy) Hne).
    specialize (Hx y Hy). destruct (Hgood y Hy) as [Hky _].
    destruct x as [[i1 j1] k1], y as [[i2 j2] k2].
    unfold before, apart, block_region, Match_le in *. cbn [fst snd] in *. lia.
Qed.

Lemma before_same_start (x : Match) (i j k k' : nat) :
  before x (i, j, k) -> before x (i, j, k').
Proof. unfold before. cbn [fst snd]. tauto. Qed.

(** The collapsing loop keeps the blocks in order and sound. *)
Lemma collapse_sound a b blocks (cur : Match) (non_adjacent : list Match) :
  StronglySorted before (non_adjacent ++ cur :: blocks) ->
  Forall (sound a b) (non_adjacent ++ cur :: blocks) ->
  StronglySorted before (collapse blocks cur non_adjacent)
  /\ Forall (sound a b) (collapse blocks cur non_adjacent).
Proof.
  revert cur non_adjacent.
  induction blocks as [|[[i2 j2] k2] blocks IH];
    intros [[i1 j1] k1] acc Hsorted Hsound; cbn [collapse].
  - destruct (k1 =? 0).
    + split; [apply (StronglySorted_app_1_l _ _ _ Hsorted)|].
      apply Forall_app in Hsound as [Hacc _]. exact Hacc.
    + split; assumption.
  - apply StronglySorted_app in Hsorted as (Hcross & Hacc & Htail).
    apply StronglySorted_inv in Htail as [Htail Hcur].
    apply StronglySorted_inv in Htail as [Hrest H2].
    apply Forall_cons in Hcur as [H12 Hcur].
    apply Forall_app in Hsound as [Sacc Stail].
    apply Forall_cons in Stail as [S1 Stail].
    apply Forall_cons in Stail as [S2 Srest].
    destruct ((i1 + k1 =? i2) && (j1 + k1 =? j2)) eqn:Hadj.
    + apply andb_true_iff in Hadj as [Ei Ej].
      apply Nat.eqb_eq in Ei, Ej. subst i2 j2.
      apply IH.
      * apply StronglySorted_app. split; [|split; [exact Hacc|]].
        -- intros x y Hx Hy. apply elem_of_cons in Hy as [->|Hy].
           ++ apply (before_same_start x i1 j1 k1).
              apply Hcross; [exact Hx|left].
           ++ apply Hcross; [exact Hx|right; right; exact Hy].
        -- constructor; [exact Hrest|].
           eapply Forall_impl; [exact H2|]. intros y Hy.
           unfold before in *. cbn [fst snd] in *. lia.
      * apply Forall_app. split; [exact Sacc|]. apply Forall_cons_2; [|exact Srest].
        destruct S1 as (M1 & B1a & B1b), S2 as (M2 & B2a & B2b).
        cbn [fst snd] in *. split; [apply matches_join; assumption|].
        cbn [fst snd]. lia.
    + apply IH.
      * destruct (k1 =? 0).
        -- apply StronglySorted_app. split; [|split; [exact Hacc|]].
           ++ intros x y Hx Hy. apply Hcross; [exact Hx|right; exact Hy].
           ++ constructor; assumption.
        -- rewrite <- app_assoc. cbn [app].
           apply StronglySorted_app. split; [exact Hcross|]. split; [exact Hacc|].
           constructor; [constructor; assumption|].
           apply Forall_cons_2; assumption.
      * destruct (k1 =? 0).
        -- apply Forall_app. split; [exact Sacc|]. apply Forall_cons_2; assumption.
        -- rewrite <- app_assoc. cbn [app]. apply Forall_app. split; [exact Sacc|].
           repeat (apply Forall_cons_2; [assumption|]). exact Srest.
Qed.

Lemma sorted_ordered_from (i j : nat) blocks :
  Forall (fun m => i <= m.1.1 /\ j <= m.1.2) blocks ->
  StronglySorted before blocks ->
  ordered_from i j blocks.
Proof.
  intros Hlow Hsorted. revert i j Hlow.
  induction Hsorted as [|[[ai bj] size] blocks Hsorted IH Hx]; intros i j Hlow;
    cbn [ordered_from]; [exact I|].
  apply Forall_cons in Hlow as [[Hi Hj] _]. cbn [fst snd] in Hi, Hj.
  split; [exact Hi|]. split; [exact Hj|]. apply IH.
  eapply Forall_impl; [exact Hx|]. intros m Hm. unfold before in Hm.
  cbn [fst snd] in Hm. exact Hm.
Qed.

(** The matching blocks [get_matching_blocks] returns are matches, come
    one after the other in both sequences, and end with the sentinel. *)
Lemma get_matching_blocks_sound a b blocks :
  get_matching_blocks a b = Py.Ok blocks ->
  Forall (matches a b) blocks
  /\ ordered_from 0 0 blocks
  /\ last blocks = Some (length a, length b, 0).
Proof.
  unfold get_matching_blocks. intros Hrun.
  destruct (match_queue a b (2 * length a + 1) [(0, length a, 0, length b)] [])
    as [found|] eqn:Hq; [|discriminate Hrun].
  cbn [mbind res_bind Py.bind] in Hrun. injection Hrun as <-.
  assert (Hfound : found_ok a b found).
  { apply (match_queue_found a b _ _ _ _ Hq).
    - apply Forall_singleton. unfold range_ok. cbn [fst snd]. lia.
    - split; [constructor|]. split; [constructor|]. intros x y Hx. inversion Hx.
    - split; [cbn; auto|]. intros r x _ Hx. inversion Hx. }
  assert (Hfound' : found_ok a b (merge_sort Match_le found)).
  { destruct Hfound as (Hgood & Hnodup & Hpairs).
    split; [rewrite merge_sort_Permutation; exact Hgood|].
    split; [rewrite merge_sort_Permutation; exact Hnodup|].
    intros x y Hx Hy. rewrite merge_sort_Permutation in Hx, Hy.
    apply Hpairs; assumption. }
  assert (Hsorted : StronglySorted before (merge_sort Match_le found)).
  { apply (sorted_blocks_before a b _ Hfound').
    assert (Htrans : Transitive Match_le) by (intros x y z; apply Match_le_trans).
    assert (Htotal : Total Match_le) by (intros x y; apply Match_le_total).
    apply (StronglySorted_merge_sort Match_le). }
  destruct (collapse_sound a b (merge_sort Match_le found) (0, 0, 0) []) as [Hcs Hcg].
  { cbn [app]. constructor; [exact Hsorted|].
    apply Forall_forall. intros [[i j] k] _. unfold before. cbn [fst snd]. lia. }
  { cbn [app]. apply Forall_cons_2.
    - split; [apply matches_empty|]. cbn [fst snd]. lia.
    - destruct Hfound' as (Hgood & _). eapply Forall_impl; [exact Hgood|].
      intros m [_ Hm]. exact Hm. }
  split; [|split].
  - apply Forall_app. split.
    + eapply Forall_impl; [exact Hcg|]. intros m [Hm _]. exact Hm.
    + apply Forall_singleton, matches_empty.
  - apply sorted_ordered_from.
    + apply Forall_forall. intros m _. lia.
    + apply StronglySorted_app. split; [|split; [exact Hcs|]].
      * intros x y Hx Hy. apply list_elem_of_singleton in Hy. subst y.
        rewrite Forall_forall in Hcg. destruct (Hcg x Hx) as (_ & Hxa & Hxb).
        unfold before. cbn [fst snd]. lia.
      * repeat constructor.
  - apply last_snoc.
Qed.

Lemma opcodes_from_prefix blocks (i j : nat) (answer : list opcode) :
  exists suffix, opcodes_from blocks i j answer = answer ++ suffix.
Proof.
  revert i j answer. induction blocks as [|[[ai bj] size] blocks IH];
    intros i j answer; cbn [opcodes_from].
  - exists []. rewrite app_nil_r. reflexivity.
  - match goal with
    | |- exists s, opcodes_from _ _ _ ?ans = _ =>
        destruct (IH (ai + size) (bj + size) ans) as [suffix ->];
        assert (Hans : exists mid, ans = answer ++ mid)
    end.
    { destruct ((i <? ai) && (j <? bj)), (i <? ai), (j <? bj), (size =? 0);
        rewrite <- ?app_assoc; eexists; try reflexivity;
        symmetry; apply app_nil_r. }
    destruct Hans as [mid ->]. rewrite <- app_assoc. eexists. reflexivity.
Qed.

Lemma opcodes_from_shape blocks (i j : nat) (answer : list opcode) :
  Forall opcode_shape answer ->
  Forall opcode_shape (opcodes_from blocks i j answer).
Proof.
  revert i j answer. induction blocks as [|[[ai bj] size] blocks IH];
    intros i j answer Hans; cbn [opcodes_from]; [exact Hans|].
  apply IH.
  assert (Hequal : forall ans, Forall opcode_shape ans ->
            Forall opcode_shape
              (if size =? 0 then ans else ans ++ [(Equal, ai, ai + size, bj, bj + size)])).
  { intros ans Ha. destruct (size =? 0); [exact Ha|].
    apply Forall_app. split; [exact Ha|]. apply Forall_singleton. exact I. }
  apply Hequal.
  destruct (Nat.ltb_spec i ai) as [Hi|Hi], (Nat.ltb_spec j bj) as [Hj|Hj];
    cbn [andb]; try exact Hans;
    (apply Forall_app; split; [exact Hans|]); apply Forall_singleton;
    unfold opcode_shape, tag_of; cbn [fst snd]; auto.
Qed.

(** With no opcode other than [equal], every block starts where the one
    before it ended. *)
Lemma opcodes_all_equal blocks (i j : nat) (answer : list opcode) :
  ordered_from i j blocks ->
  Forall (fun op => tag_of op = Equal) (opcodes_from blocks i j answer) ->
  chained i j blocks.
Proof.
  revert i j answer. induction blocks as [|[[ai bj] size] blocks IH];
    intros i j answer Hord Hall; cbn [chained]; [exact I|].
  cbn [ordered_from] in Hord. destruct Hord as (Hi & Hj & Hord).
  cbn [opcodes_from] in Hall.
  match type of Hall with
  | Forall _ (opcodes_from _ _ _ ?ans) =>
      destruct (opcodes_from_prefix blocks (ai + size) (bj + size) ans) as [suffix Hs];
      pose proof (IH _ _ _ Hord Hall) as Hrest;
      rewrite Hs in Hall; apply Forall_app in Hall as [Hans _]
  end.
  assert (Hstart : i = ai /\ j = bj).
  { destruct (Nat.ltb_spec i ai) as [Hlt|Hge], (Nat.ltb_spec j bj) as [Hlt'|Hge'];
      cbn [andb] in Hans; [| | |lia];
      exfalso;
      (destruct (size =? 0);
         [|apply Forall_app in Hans as [Hans _]]);
      apply Forall_app in Hans as [_ Hans];
      rewrite Forall_singleton in Hans; unfold tag_of in Hans; cbn [fst] in Hans;
      discriminate Hans. }
  destruct Hstart as [-> ->]. auto.
Qed.

(** Blocks chained from the start of both sequences to their ends say
    that the sequences are equal. *)
Lemma chained_equal a b blocks (i : nat) :
  chained i i blocks ->
  Forall (matches a b) blocks ->
  last blocks = Some (length a, length b, 0) ->
  length a = length b /\ forall p, i <= p -> a !! p = b !! p.
Proof.
  revert i. induction blocks as [|[[ai bj] size] blocks IH]; intros i Hch Hm Hlast;
    [discriminate Hlast|].
  cbn [chained] in Hch. destruct Hch as (<- & <- & Hch).
  apply Forall_cons in Hm as [Hhead Hm].
  destruct blocks as [|next blocks].
  - cbn in Hlast. injection Hlast as -> Hb _. split; [exact Hb|].
    intros p Hp. rewrite !lookup_ge_None_2 by lia. reflexivity.
  - destruct (IH (i + size) Hch Hm Hlast) as [Hlen Hrest].
    split; [exact Hlen|]. intros p Hp.
    destruct (Nat.lt_ge_cases p (i + size)) as [Hlt|Hge]; [|apply Hrest, Hge].
    destruct (Hhead (p - i)) as (x & Hx1 & Hx2); [cbn; lia|].
    cbn [fst snd] in Hx1, Hx2. replace (i + (p - i)) with p in Hx1, Hx2 by lia.
    congruence.
Qed.

(** Opcodes that are all [equal] mean equal sequences. *)
Lemma get_opcodes_all_equal a b ops :
  get_opcodes a b = Py.Ok ops ->
  Forall (fun op => tag_of op = Equal) ops ->
  a = b.
Proof.
  unfold get_opcodes. intros Hrun Hall.
  destruct (get_matching_blocks a b) as [blocks|] eqn:Hb; [|discriminate Hrun].
  cbn [mbind res_bind Py.bind] in Hrun. injection Hrun as <-.
  destruct (get_matching_blocks_sound a b blocks Hb) as (Hm & Hord & Hlast).
  pose proof (opcodes_all_equal blocks 0 0 [] Hord Hall) as Hch.
  destruct (chained_equal a b blocks 0 Hch Hm Hlast) as [Hlen Heq].
  apply list_eq. intros p. apply Heq. lia.
Qed.

Lemma get_opcodes_shape a b ops :
  get_opcodes a b = Py.Ok ops -> Forall opcode_shape ops.
Proof.
  unfold get_opcodes. intros Hrun.
  destruct (get_matching_blocks a b) as [blocks|]; [|discriminate Hrun].
  cbn [mbind res_bind Py.bind] in Hrun. injection Hrun as <-.
  apply opcodes_from_shape. constructor.
Qed.

End MatcherChain.

(** * The text comparator misses no change *)

Section TextSound.
Import TextComparator MatcherInvariants MatcherSoundness.

Lemma foldM_grows {X R} (body : list R -> X -> Py.res (list R)) (xs : list X)
    (s s' : list R) :
  (forall s x s', body s x = Py.Ok s' -> (length s <= length s')%nat) ->
  Py.foldM body xs s = Py.Ok s' -> (length s <= length s')%nat.
Proof.
  intros Hbody. revert s. induction xs as [|x xs IH]; intros s Hrun; cbn [Py.foldM] in Hrun.
  - injection Hrun as <-. lia.
  - destruct (body s x) as [s1|] eqn:H1; [|discriminate Hrun]. cbn [Py.bind] in Hrun.
    pose proof (Hbody _ _ _ H1). pose proof (IH _ Hrun). lia.
Qed.

Lemma foldM_grows_first {X R} (body : list R -> X -> Py.res (list R)) (x : X)
    (xs : list X) (s s' : list R) :
  (forall s x s', body s x = Py.Ok s' -> (length s <= length s')%nat) ->
  (forall s1, body s x = Py.Ok s1 -> (length s < length s1)%nat) ->
  Py.foldM body (x :: xs) s = Py.Ok s' -> (length s < length s')%nat.
Proof.
  intros Hbody Hfirst Hrun. cbn [Py.foldM] in Hrun.
  destruct (body s x) as [s1|] eqn:H1; [|discriminate Hrun]. cbn [Py.bind] in Hrun.
  pose proof (Hfirst _ eq_refl). pose proof (foldM_grows body xs s1 s' Hbody Hrun). lia.
Qed.

Lemma seq_first (start len : nat) :
  (0 < len)%nat -> seq start len = start :: seq (S start) (len - 1).
Proof. intros Hlen. destruct len as [|len]; [lia|]. cbn. rewrite Nat.sub_0_r. reflexivity. Qed.

Lemma replace_step_grows (ref_lines new_lines : list string) (page_num : Z)
    (i i1 j1 j : nat) (s s' : list string) :
  (if ((i =? i1) && (j =? j1))%nat then
     old ← Py.index ref_lines i;
     new ← Py.index new_lines j;
     Py.Ok (s ++ [changed_message page_num (i + 1) old new])
   else Py.Ok s) = Py.Ok s' ->
  (length s <= length s')%nat
  /\ (i = i1 -> j = j1 -> (length s < length s')%nat).
Proof.
  destruct (Nat.eqb_spec i i1) as [->|Hi], (Nat.eqb_spec j j1) as [->|Hj]; cbn [andb];
    try (intros [= <-]; split; [lia|intros; congruence]).
  destruct (Py.index ref_lines i1) as [old|]; [|discriminate].
  cbn [mbind res_bind Py.bind].
  destruct (Py.index new_lines j1) as [new|]; [|discriminate].
  cbn [mbind res_bind Py.bind]. intros [= <-]. rewrite length_app. cbn [length].
  split; [lia|intros; lia].
Qed.

(** An opcode never removes a line of the report, and one that is not
    [equal] adds at least one. *)
Lemma report_opcode_grows (ref_lines new_lines : list string) (page_num : Z)
    (differences differences' : list string) (op : Difflib.opcode) :
  report_opcode ref_lines new_lines page_num differences op = Py.Ok differences' ->
  (length differences <= length differences')%nat
  /\ (tag_of op <> Difflib.Equal -> opcode_shape op ->
      (length differences < length differences')%nat).
Proof.
  destruct op as [[[[tag i1] i2] j1] j2]. unfold report_opcode, opcode_shape, tag_of.
  cbn [fst snd]. intros Hrun. destruct tag.
  - assert (Hinner : forall s i s',
              Py.foldM
                (fun differences j =>
                   if ((i =? i1) && (j =? j1))%nat then
                     old ← Py.index ref_lines i;
                     new ← Py.index new_lines j;
                     Py.Ok (differences ++ [changed_message page_num (i + 1) old new])
                   else Py.Ok differences)
                (seq j1 (j2 - j1)) s = Py.Ok s' ->
              (length s <= length s')%nat).
    { intros s i s'. apply foldM_grows. intros s0 j s1 Hstep.
      apply (replace_step_grows _ _ _ _ _ _ _ _ _ Hstep). }
    split; [apply (foldM_grows _ _ _ _ Hinner Hrun)|].
    intros _ [Hi Hj]. rewrite (seq_first i1) in Hrun by lia.
    apply (foldM_grows_first _ _ _ _ _ Hinner) in Hrun; [exact Hrun|].
    intros s1. rewrite (seq_first j1) by lia.
    apply foldM_grows_first.
    + intros s0 j s2 Hstep. apply (replace_step_grows _ _ _ _ _ _ _ _ _ Hstep).
    + intros s2 Hstep.
      apply (replace_step_grows _ _ _ _ _ _ _ _ _ Hstep); reflexivity.
  - assert (Hstep : forall s i s',
              (old ← Py.index ref_lines i;
               Py.Ok (s ++ [removed_message page_num (i + 1) old])) = Py.Ok s' ->
              (length s < length s')%nat).
    { intros s i s'. destruct (Py.index ref_lines i) as [old|]; [|discriminate].
      cbn [mbind res_bind Py.bind]. intros [= <-]. rewrite length_app. cbn. lia. }
    split.
    + apply (foldM_grows _ _ _ _ (fun s i s' H => Nat.lt_le_incl _ _ (Hstep s i s' H)) Hrun).
    + intros _ Hi. rewrite (seq_first i1) in Hrun by lia.
      apply (foldM_grows_first _ _ _ _ _
               (fun s i s' H => Nat.lt_le_incl _ _ (Hstep s i s' H))
               (fun s1 H => Hstep _ _ _ H) Hrun).
  - assert (Hstep : forall s j s',
              (new ← Py.index new_lines j;
               Py.Ok (s ++ [added_message page_num (j + 1) new])) = Py.Ok s' ->
              (length s < length s')%nat).
    { intros s j s'. destruct (Py.index new_lines j) as [new|]; [|discriminate].
      cbn [mbind res_bind Py.bind]. intros [= <-]. rewrite length_app. cbn. lia. }
    split.
    + apply (foldM_grows _ _ _ _ (fun s j s' H => Nat.lt_le_incl _ _ (Hstep s j s' H)) Hrun).
    + intros _ Hj. rewrite (seq_first j1) in Hrun by lia.
      apply (foldM_grows_first _ _ _ _ _
               (fun s j s' H => Nat.lt_le_incl _ _ (Hstep s j s' H))
               (fun s1 H => Hstep _ _ _ H) Hrun).
  - injection Hrun as <-. split; [lia|]. intros Hne. contradiction Hne. reflexivity.
Qed.

Lemma report_nothing_all_equal (ref_lines new_lines : list string) (page_num : Z)
    (ops : list Difflib.opcode) (differences : list string) :
  Forall opcode_shape ops ->
  Py.foldM (report_opcode ref_lines new_lines page_num) ops differences
    = Py.Ok differences ->
  Forall (fun op => tag_of op = Difflib.Equal) ops.
Proof.
  intros Hshape. revert differences.
  induction Hshape as [|op ops Hop _ IH]; intros differences Hrun; [constructor|].
  cbn [Py.foldM] in Hrun.
  destruct (report_opcode ref_lines new_lines page_num differences op) as [d1|] eqn:H1;
    [|discriminate Hrun].
  cbn [Py.bind] in Hrun.
  destruct (report_opcode_grows _ _ _ _ _ _ H1) as [Hle Hlt].
  pose proof (foldM_grows _ _ _ _
                (fun s x s' H => proj1 (report_opcode_grows _ _ _ s s' x H)) Hrun) as Hrest.
  assert (Htag : tag_of op = Difflib.Equal).
  { destruct (tag_of op) eqn:Ht; try reflexivity;
      (assert (Hne : tag_of op <> Difflib.Equal) by (rewrite Ht; discriminate));
      rewrite <- Ht in Hlt; specialize (Hlt Hne Hop); lia. }
  constructor; [exact Htag|].
  assert (Hd1 : d1 = differences).
  { destruct op as [[[[tag i1] i2] j1] j2]. unfold tag_of in Htag. cbn [fst] in Htag.
    subst tag. cbn in H1. congruence. }
  subst d1. apply (IH _ Hrun).
Qed.

(** A page on which nothing is reported has the same lines in both
    documents. *)
Lemma compare_page_text_nothing (ref_text new_text : string) (page_num : Z) :
  _compare_page_text ref_text new_text page_num = Py.Ok [] ->
  splitlines ref_text = splitlines new_text.
Proof.
  unfold _compare_page_text. intros Hrun.
  destruct (Difflib.get_opcodes (splitlines ref_text) (splitlines new_text))
    as [ops|] eqn:Hops; [|discriminate Hrun].
  cbn [mbind res_bind Py.bind] in Hrun.
  apply (get_opcodes_all_equal _ _ ops Hops).
  apply (report_nothing_all_equal (splitlines ref_text) (splitlines new_text)
           page_num ops []); [|exact Hrun].
  apply (get_opcodes_shape _ _ _ Hops).
Qed.

Lemma compare_page_text_same_lines (ref_text new_text : string) (page_num : Z) :
  splitlines ref_text = splitlines new_text ->
  _compare_page_text ref_text new_text page_num = Py.Ok [].
Proof.
  intros Hlines. unfold _compare_page_text. rewrite Hlines, get_opcodes_diag.
  res_step. destruct (length (splitlines new_text) =? 0)%nat; reflexivity.
Qed.

End TextSound.

(** X23. [_compare_page_text] reports nothing exactly when the two texts
    split into the same lines: a page whose lines differ in content,
    number or order always yields at least one line of report, and texts
    that differ only in how their lines are terminated yield none. *)
Theorem page_report_empty_iff_same_lines (ref_text new_text : string) (page_num : Z) :
  TextComparator._compare_page_text ref_text new_text page_num = Py.Ok []
  <-> TextComparator.splitlines ref_text = TextComparator.splitlines new_text.
Proof.
  split; [apply compare_page_text_nothing | apply compare_page_text_same_lines].
Qed.

Section DocumentSound.
Import TextComparator.

Lemma foldM_nothing {X R} (body : list R -> X -> Py.res (list R)) (xs : list X) :
  (forall s x s', body s x = Py.Ok s' -> (length s <= length s')%nat) ->
  Py.foldM body xs [] = Py.Ok [] ->
  forall x, x ∈ xs -> body [] x = Py.Ok [].
Proof.
  intros Hbody. induction xs as [|x0 xs IH]; intros Hrun x Hin; [inversion Hin|].
  cbn [Py.foldM] in Hrun.
  destruct (body [] x0) as [s1|] eqn:H1; [|discriminate Hrun]. cbn [Py.bind] in Hrun.
  pose proof (foldM_grows body xs s1 [] Hbody Hrun) as Hlen.
  destruct s1 as [|y s1]; [|cbn in Hlen; lia].
  apply elem_of_cons in Hin as [->|Hin]; [exact H1|]. apply (IH Hrun x Hin).
Qed.

Lemma compare_body_grows (m1 m2 : gmap Z string) (s s' : list string) (n : Z) :
  match m1 !! n, m2 !! n with
  | None, _ =>
      Py.Ok (s ++ ["On page " +:+ pretty n +:+ ", a new page was added."])
  | Some _, None =>
      Py.Ok (s ++ ["On page " +:+ pretty n +:+ ", a page was removed."])
  | Some ref_text, Some new_text =>
      page_diffs ← _compare_page_text ref_text new_text n;
      Py.Ok (s ++ page_diffs)
  end = Py.Ok s' ->
  (length s <= length s')%nat.
Proof.
  destruct (m1 !! n) as [r|]; [destruct (m2 !! n) as [t|]|].
  - destruct (_compare_page_text r t n) as [d|]; [|discriminate].
    cbn [mbind res_bind Py.bind]. intros [= <-]. rewrite length_app. lia.
  - intros [= <-]. rewrite length_app. lia.
  - intros [= <-]. rewrite length_app. lia.
Qed.

End DocumentSound.

(** X24. [TextComparator.compare] returns the empty report exactly when
    the two documents have the same page numbers and every page has the
    same lines in both (a page number listed twice counts with its last
    text): no added, removed or changed page goes unreported. *)
Theorem report_empty_iff_same_pages (doc1_pages doc2_pages : list page)
    (config : Settings.text_config) :
  TextComparator.compare doc1_pages doc2_pages config = Py.Ok []
  <-> forall n : Z,
        TextComparator.splitlines <$> TextComparator.text_map doc1_pages !! n
        = TextComparator.splitlines <$> TextComparator.text_map doc2_pages !! n.
Proof.
  unfold TextComparator.compare.
  set (m1 := TextComparator.text_map doc1_pages).
  set (m2 := TextComparator.text_map doc2_pages).
  set (numbers := merge_sort Z.le (elements (dom m1 ∪ dom m2))).
  assert (Hnumbers : forall n, n ∈ numbers <-> is_Some (m1 !! n) \/ is_Some (m2 !! n)).
  { intros n. unfold numbers.
    rewrite merge_sort_Permutation, elem_of_elements, elem_of_union, !elem_of_dom.
    reflexivity. }
  split.
  - intros Hrun n.
    destruct (decide (n ∈ numbers)) as [Hin|Hout].
    + pose proof (foldM_nothing _ numbers
                    (fun s x s' => compare_body_grows m1 m2 s s' x) Hrun n Hin) as Hn.
      cbn beta in Hn.
      destruct (m1 !! n) as [r|]; [destruct (m2 !! n) as [t|]|].
      * cbn [fmap option_fmap option_map]. f_equal.
        apply (compare_page_text_nothing r t n).
        destruct (TextComparator._compare_page_text r t n) as [d|]; [|discriminate Hn].
        cbn [mbind res_bind Py.bind app] in Hn. exact Hn.
      * discriminate Hn.
      * discriminate Hn.
    + rewrite Hnumbers in Hout.
      destruct (m1 !! n) as [r|]; [exfalso; apply Hout; left; eexists; reflexivity|].
      destruct (m2 !! n) as [t|]; [exfalso; apply Hout; right; eexists; reflexivity|].
      reflexivity.
  - intros Hsame. apply foldM_unchanged. intros n Hin.
    specialize (Hsame n). apply Hnumbers in Hin.
    destruct (m1 !! n) as [r|], (m2 !! n) as [t|]; cbn in Hsame; try discriminate Hsame.
    + injection Hsame as Hlines.
      rewrite (compare_page_text_same_lines r t n Hlines). reflexivity.
    + destruct Hin as [[? [=]]|[? [=]]].
Qed.

Section EngineTextSound.
Import Difflib MatcherInvariants MatcherSoundness EngineText.

Lemma get_matching_blocks_diag {A} `{EqDecision A} (l : list A) :
  get_matching_blocks l l
  = Py.Ok ((if (length l =? 0)%nat then [] else [(0, 0, length l)])
           ++ [(length l, length l, 0)])%nat.
Proof.
  unfold get_matching_blocks.
  replace (2 * length l + 1)%nat with (S (2 * length l)) by lia.
  rewrite match_queue_diag. res_step.
  destruct (Nat.eqb_spec (length l) 0) as [Hz|Hnz].
  - reflexivity.
  - change (merge_sort Match_le [(0, 0, length l)]%nat) with [(0, 0, length l)]%nat.
    rewrite (collapse_single _ Hnz). reflexivity.
Qed.

Lemma ratio_same (l : list ascii) : exists q, ratio l l = Py.Ok q /\ (q == 1)%Q.
Proof.
  unfold ratio. rewrite get_matching_blocks_diag. res_step.
  eexists. split; [reflexivity|].
  destruct (Nat.eqb_spec (length l) 0) as [Hz|Hnz].
  - rewrite Hz. cbn. reflexivity.
  - assert (Hsum : sum_list ((fun m : Match => m.2)
                               <$> ([(0, 0, length l)] ++ [(length l, length l, 0)]))%nat
                   = length l) by (cbn; unfold id; lia).
    rewrite Hsum. unfold calculate_ratio.
    destruct (length l + length l)%nat as [|n] eqn:Hn; [lia|]. rewrite <- Hn.
    rewrite Nat2Z.inj_add, inject_Z_plus.
    assert (Hpos : ~ (inject_Z (Z.of_nat (length l)) == 0)%Q).
    { intros E. unfold Qeq in E. cbn in E. lia. }
    field. intros E. apply Hpos. lra.
Qed.

Lemma ratio_total (a b : list ascii) : exists q, ratio a b = Py.Ok q.
Proof.
  unfold ratio. destruct (get_matching_blocks_total a b) as (blocks & -> & _).
  res_step. eexists. reflexivity.
Qed.

Lemma text_record_nil (text1 text2 : string) (op : opcode) :
  text_record text1 text2 op = [] <-> tag_of op = Equal.
Proof.
  destruct op as [[[[tag i1] i2] j1] j2]. unfold tag_of. cbn [fst text_record].
  destruct tag; split; (reflexivity || discriminate).
Qed.

Lemma flat_map_nil {X R} (r : X -> list R) (xs : list X) :
  flat_map r xs = [] <-> Forall (fun x => r x = []) xs.
Proof.
  induction xs as [|x xs IH]; cbn [flat_map].
  - split; [constructor|reflexivity].
  - split.
    + intros H. apply app_eq_nil in H as [Hx Hxs]. constructor; [exact Hx|].
      apply IH, Hxs.
    + intros H. apply Forall_cons in H as [Hx Hxs]. rewrite Hx. apply IH, Hxs.
Qed.

Lemma list_ascii_inj (s t : string) :
  String.list_ascii_of_string s = String.list_ascii_of_string t -> s = t.
Proof.
  intros H. rewrite <- (String.string_of_list_ascii_of_string s),
    <- (String.string_of_list_ascii_of_string t), H. reflexivity.
Qed.

End EngineTextSound.

(** X25. [compare_text_exact] never raises.  In strict mode (the
    default) it returns no record exactly when the two texts are equal,
    so no change of any character goes unreported; in fuzzy mode equal
    texts have similarity 1 and yield no record either. *)
Theorem compare_text_exact_sound (text1 text2 : string)
    (config : Settings.text_config) :
  exists records,
    EngineText.compare_text_exact text1 text2 config = Py.Ok records
    /\ (default true (Settings.strict config) = true ->
        (records = [] <-> text1 = text2))
    /\ (text1 = text2 -> records = []).
Proof.
  unfold EngineText.compare_text_exact.
  destruct (default true (Settings.strict config)).
  - destruct (get_opcodes_total (String.list_ascii_of_string text1)
                (String.list_ascii_of_string text2)) as (ops & Hops & _).
    rewrite Hops. res_step. eexists. split; [reflexivity|].
    assert (Hiff : flat_map (EngineText.text_record text1 text2) ops = []
                   <-> text1 = text2).
    { rewrite flat_map_nil. split.
      - intros Hall. apply list_ascii_inj.
        apply (get_opcodes_all_equal _ _ ops Hops).
        eapply Forall_impl; [exact Hall|]. intros op. apply text_record_nil.
      - intros ->. rewrite get_opcodes_diag in Hops. injection Hops as <-.
        destruct (length (String.list_ascii_of_string text2) =? 0)%nat; repeat constructor. }
    split; [intros _; exact Hiff | apply Hiff].
  - destruct (ratio_total (String.list_ascii_of_string text1) (String.list_ascii_of_string text2))
      as [q Hq].
    rewrite Hq. res_step.
    destruct (Py.Qltb q 0.95) eqn:Hlt; (eexists; split; [reflexivity|]);
      (split; [discriminate|]); [|reflexivity].
    intros ->. exfalso.
    destruct (ratio_same (String.list_ascii_of_string text2)) as (q' & Hq' & Hone).
    rewrite Hq in Hq'. injection Hq' as <-.
    apply Qltb_lt in Hlt. rewrite Hone in Hlt. lra.
Qed.

(** * Validation, parsing and comparison in a row *)

Section PipelineSteps.
Import NeuroAgent Pipeline Summary.
Variable validate_pdf : string -> bool.
Variable parse_pdf : string -> document.

Lemma validate_entries (file_mapping : Py.odict paths) (seen : list string)
    (acc : Py.odict paths * list validation_error) :
  NoDup (seen ++ file_mapping.*1) ->
  (forall k, k ∈ acc.1.*1 -> k ∈ seen) ->
  NoDup acc.1.*1 ->
  Forall (fun item => complete item.2) acc.1 ->
  (length acc.1 + length acc.2 = length seen)%nat ->
  NoDup (fold_left (validate_entry validate_pdf) file_mapping acc).1.*1
  /\ Forall (fun item => complete item.2)
       (fold_left (validate_entry validate_pdf) file_mapping acc).1
  /\ (length (fold_left (validate_entry validate_pdf) file_mapping acc).1
      + length (fold_left (validate_entry validate_pdf) file_mapping acc).2
      = length seen + length file_mapping)%nat.
Proof.
  unfold Py.odict in *. revert seen acc.
  induction file_mapping as [|[k ps] fm IH];
    intros seen [vf errs] Hnd Hkeys Hvf Hcomplete Hlen; cbn [fold_left fst snd] in *.
  - split; [exact Hvf|]. split; [exact Hcomplete|]. cbn [length]. lia.
  - rewrite fmap_cons in Hnd. cbn [fst] in Hnd.
    assert (Hnd' : NoDup ((seen ++ [k]) ++ fm.*1)).
    { rewrite <- app_assoc. exact Hnd. }
    assert (Hk : k ∉ seen).
    { apply NoDup_app in Hnd as (_ & Hdisj & _). intros Hin.
      apply (Hdisj k Hin). left. }
    assert (Hkeep : forall errs',
              (length vf + length errs' = length (seen ++ [k]))%nat ->
              NoDup (fold_left (validate_entry validate_pdf) fm (vf, errs')).1.*1
              /\ Forall (fun item => complete item.2)
                   (fold_left (validate_entry validate_pdf) fm (vf, errs')).1
              /\ (length (fold_left (validate_entry validate_pdf) fm (vf, errs')).1
                  + length (fold_left (validate_entry validate_pdf) fm (vf, errs')).2
                  = length (seen ++ [k]) + length fm)%nat).
    { intros errs' Hlen'. apply (IH (seen ++ [k]) (vf, errs') Hnd'); cbn [fst snd].
      - intros k0 Hk0. apply elem_of_app. left. apply Hkeys, Hk0.
      - exact Hvf.
      - exact Hcomplete.
      - exact Hlen'. }
    assert (Hgoal : forall st : list (string * paths) * list validation_error,
              NoDup st.1.*1 /\ Forall (fun item => complete item.2) st.1
              /\ (length st.1 + length st.2 = length (seen ++ [k]) + length fm)%nat ->
              NoDup st.1.*1 /\ Forall (fun item => complete item.2) st.1
              /\ (length st.1 + length st.2 = length seen + length ((k, ps) :: fm))%nat).
    { intros st (H1 & H2 & H3). rewrite length_app in H3. cbn [length] in *.
      split; [exact H1|]. split; [exact H2|]. lia. }
    apply Hgoal. unfold validate_entry at 2 4 6 8. cbn [fst snd].
    destruct (reference ps) as [r|] eqn:Hr; cbn [Py.getitem].
    2:{ apply Hkeep. rewrite !length_app. cbn [length fst snd]. lia. }
    destruct (new ps) as [n|] eqn:Hn; cbn [Py.getitem].
    2:{ apply Hkeep. rewrite !length_app. cbn [length fst snd]. lia. }
    destruct (validate_pdf r && validate_pdf n).
    2:{ apply Hkeep. rewrite !length_app. cbn [length fst snd]. lia. }
    assert (Hfresh : k ∉ vf.*1) by (intros Hin; apply Hk, Hkeys, Hin).
    rewrite (od_set_fresh vf k ps Hfresh).
    apply (IH (seen ++ [k]) (vf ++ [(k, ps)], errs) Hnd'); cbn [fst snd].
    + intros k0 Hk0. rewrite fmap_app in Hk0. apply elem_of_app in Hk0 as [Hk0|Hk0].
      * apply elem_of_app. left. apply Hkeys, Hk0.
      * apply elem_of_app. right. exact Hk0.
    + rewrite fmap_app. apply NoDup_app. split; [exact Hvf|].
      split; [|apply NoDup_singleton].
      intros x Hx Hx'. apply list_elem_of_singleton in Hx'. subst x. contradiction.
    + apply Forall_app. split; [exact Hcomplete|]. apply Forall_singleton.
      cbn [snd]. unfold complete. rewrite Hr, Hn. split; eexists; reflexivity.
    + rewrite !length_app. cbn [length]. lia.
Qed.

Lemma parse_entries (validated : Py.odict paths) (parsed_acc : Py.odict content) :
  NoDup (parsed_acc.*1 ++ validated.*1) ->
  Forall (fun item => complete item.2) validated ->
  fold_left (parse_entry parse_pdf) validated parsed_acc
  = parsed_acc ++ (parsed_entry parse_pdf <$> validated).
Proof.
  unfold Py.odict in *. revert parsed_acc.
  induction validated as [|[k ps] vf IH]; intros pacc Hnd Hcomplete; cbn [fold_left].
  - rewrite app_nil_r. reflexivity.
  - apply Forall_cons in Hcomplete as [[[r Hr] [n Hn]] Hcomplete]. cbn [snd] in Hr, Hn.
    rewrite fmap_cons in Hnd. cbn [fst] in Hnd.
    assert (Hk : k ∉ pacc.*1).
    { apply NoDup_app in Hnd as (_ & Hdisj & _). intros Hin.
      apply (Hdisj k Hin). left. }
    assert (Hstep : parse_entry parse_pdf pacc (k, ps)
                    = pacc ++ [parsed_entry parse_pdf (k, ps)]).
    { unfold parse_entry, parsed_entry. cbn [fst snd]. rewrite Hr, Hn.
      cbn [Py.getitem fmap option_fmap option_map]. apply od_set_fresh, Hk. }
    rewrite Hstep, IH.
    + rewrite <- app_assoc. reflexivity.
    + rewrite fmap_app, <- app_assoc. exact Hnd.
    + exact Hcomplete.
Qed.

Lemma parse_files (validated : Py.odict paths) (parsed_acc : Py.odict content) :
  NoDup (parsed_acc.*1 ++ validated.*1) ->
  fold_left (parse_entry parse_pdf) validated parsed_acc
  = parsed_acc ++ ((fun item => (item.1, parsed_file parse_pdf item.2)) <$> validated).
Proof.
  unfold Py.odict in *. revert parsed_acc.
  induction validated as [|[k ps] vf IH]; intros pacc Hnd; cbn [fold_left].
  - rewrite app_nil_r. reflexivity.
  - rewrite fmap_cons in Hnd. cbn [fst] in Hnd.
    assert (Hk : k ∉ pacc.*1).
    { apply NoDup_app in Hnd as (_ & Hdisj & _). intros Hin.
      apply (Hdisj k Hin). left. }
    assert (Hstep : parse_entry parse_pdf pacc (k, ps)
                    = pacc ++ [(k, parsed_file parse_pdf ps)]).
    { unfold parse_entry, parsed_file.
      destruct (reference ps) as [r|]; cbn [Py.getitem Py.str_exn];
        [destruct (new ps) as [n|]; cbn [Py.getitem Py.str_exn]|];
        apply od_set_fresh, Hk. }
    rewrite Hstep, IH.
    + rewrite fmap_cons, <- app_assoc. reflexivity.
    + rewrite fmap_app, <- app_assoc. exact Hnd.
Qed.

Lemma file_entry_complete (sens : Settings.sensitivity) (c : content) :
  c_error c = None -> is_Some (c_reference c) -> is_Some (c_new c) ->
  match Entries.file_entry sens c with
  | Some fd => has_error fd = false
  | None => True
  end.
Proof.
  intros Herr [reference Href] [new Hnew]. unfold Entries.file_entry, compare_file.
  rewrite Herr, Href, Hnew. cbn [Py.getitem]. res_step.
  destruct (compare_total (doc_text reference) (doc_text new) (Settings.text sens))
    as [text_diff ->].
  res_step.
  repeat match goal with |- context [if ?c then _ else _] => destruct c end; auto.
Qed.

End PipelineSteps.

(** X26. Validation, parsing and comparison in a row, for any file
    mapping with distinct names and whatever the validator and the
    parser answer: every file is either validated or gets one validation
    error; only files with both paths are validated, so every validated
    file is parsed and compared ([success_count], [total_files] and
    [valid_count] agree); and no entry of the comparison is an error
    payload, also when the parser failed on a file: such a file is
    compared as the document the parser returned. *)
Theorem pipeline_reports_no_error (validate_pdf : string -> bool)
    (parse_pdf : string -> document) (file_mapping : Py.odict Pipeline.paths)
    (sensitivity_config : Settings.sensitivity) :
  NoDup file_mapping.*1 ->
  let v := Pipeline.validate_files validate_pdf file_mapping in
  let p := Pipeline.parse_pdfs parse_pdf (Pipeline.validated_files v) in
  exists result,
    NeuroAgent.compare_content (Pipeline.parsed_content p) sensitivity_config
      = Py.Ok result
    /\ Pipeline.valid_count v + Z.of_nat (length (Pipeline.validation_errors v))
       = Z.of_nat (length file_mapping)
    /\ Pipeline.success_count p = Pipeline.valid_count v
    /\ NeuroAgent.total_files (NeuroAgent.summary result) = Pipeline.valid_count v
    /\ Forall (fun fd => Summary.has_error fd = false)
         (NeuroAgent.differences result).*2.
Proof.
  intros Hnd v p.
  destruct (validate_entries validate_pdf file_mapping [] ([], []))
    as (Hvnd & Hvcomplete & Hvlen).
  { exact Hnd. }
  { intros k Hk. inversion Hk. }
  { constructor. }
  { constructor. }
  { reflexivity. }
  fold (Pipeline.validated_files v) in Hvnd, Hvcomplete.
  assert (Hparsed : Pipeline.parsed_content p
                    = Pipeline.parsed_entry parse_pdf <$> Pipeline.validated_files v).
  { subst p. unfold Pipeline.parse_pdfs. cbn [Pipeline.parsed_content].
    rewrite (parse_entries parse_pdf _ []); [reflexivity| |exact Hvcomplete].
    exact Hvnd. }
  assert (Hkeys : (Pipeline.parsed_content p).*1 = (Pipeline.validated_files v).*1).
  { rewrite Hparsed, <- list_fmap_compose. reflexivity. }
  assert (Hall : forall item : string * NeuroAgent.content,
            item ∈ Pipeline.parsed_content p ->
            NeuroAgent.c_error item.2 = None
            /\ is_Some (NeuroAgent.c_reference item.2)
            /\ is_Some (NeuroAgent.c_new item.2)).
  { intros item Hin. rewrite Hparsed in Hin.
    apply list_elem_of_fmap in Hin as ([k ps] & -> & Hin).
    rewrite Forall_forall in Hvcomplete.
    destruct (Hvcomplete _ Hin) as [[r Hr] [n Hn]]. cbn [snd] in Hr, Hn.
    unfold Pipeline.parsed_entry. cbn [fst snd NeuroAgent.c_error
      NeuroAgent.c_reference NeuroAgent.c_new].
    rewrite Hr, Hn. split; [reflexivity|]. split; eexists; reflexivity. }
  assert (Hfilter : filter (fun item : string * NeuroAgent.content =>
                              NeuroAgent.c_error item.2 = None)
                      (Pipeline.parsed_content p)
                    = Pipeline.parsed_content p).
  { clear -Hall. unfold Py.odict in *.
    induction (Pipeline.parsed_content p) as [|item pc IH]; [reflexivity|].
    rewrite filter_cons.
    rewrite decide_True by (apply Hall; left).
    rewrite IH; [reflexivity|]. intros x Hx. apply Hall. right. exact Hx. }
  destruct (compare_content_summary (Pipeline.parsed_content p) sensitivity_config)
    as (result & Hrun & Hd & Htf & _).
  { rewrite Hkeys. exact Hvnd. }
  exists result. split; [exact Hrun|].
  assert (Hcount : Pipeline.valid_count v
                   = Z.of_nat (length (Pipeline.parsed_content p))).
  { rewrite Hparsed, length_fmap. reflexivity. }
  split; [|split; [|split]].
  - subst v. unfold Pipeline.validate_files in *.
    cbn [Pipeline.valid_count Pipeline.validation_errors] in *.
    cbn [length] in Hvlen. lia.
  - assert (Hsc : Pipeline.success_count p
                  = Z.of_nat (length (filter (fun item : string * NeuroAgent.content =>
                                                NeuroAgent.c_error item.2 = None)
                                        (Pipeline.parsed_content p)))) by reflexivity.
    rewrite Hsc, Hcount. unfold Py.odict in *. rewrite Hfilter. reflexivity.
  - rewrite Htf, Hcount. unfold Py.odict in *. rewrite Hfilter. reflexivity.
  - rewrite Hd. unfold Summary.entries. clear -Hall. unfold Py.odict in *.
    induction (Pipeline.parsed_content p) as [|[k c] pc IH]; [constructor|].
    cbn [omap list_omap fst snd].
    assert (Hrest : Forall (fun fd => Summary.has_error fd = false)
              (omap (fun item : string * NeuroAgent.content =>
                       (fun e => (item.1, e))
                         <$> Entries.file_entry sensitivity_config item.2) pc).*2).
    { apply IH. intros x Hx. apply Hall. right. exact Hx. }
    destruct (Hall (k, c)) as (Herr & Href & Hnew); [left|]. cbn [snd] in *.
    pose proof (file_entry_complete sensitivity_config c Herr Href Hnew) as Hentry.
    destruct (Entries.file_entry sensitivity_config c) as [fd|];
      cbn [fmap option_fmap option_map]; [|exact Hrest].
    rewrite fmap_cons. cbn [snd]. constructor; [exact Hentry|exact Hrest].
Qed.

Lemma pipeline_reports_no_error_witness :
  let v := Pipeline.validate_files (fun _ => true) Pipeline.two_files in
  let p := Pipeline.parse_pdfs Pipeline.failing_parser (Pipeline.validated_files v) in
  exists result,
    NeuroAgent.compare_content (Pipeline.parsed_content p) Settings.medium
      = Py.Ok result
    /\ Pipeline.valid_count v + Z.of_nat (length (Pipeline.validation_errors v))
       = Z.of_nat (length Pipeline.two_files)
    /\ Pipeline.success_count p = Pipeline.valid_count v
    /\ NeuroAgent.total_files (NeuroAgent.summary result) = Pipeline.valid_count v
    /\ Forall (fun fd => Summary.has_error fd = false)
         (NeuroAgent.differences result).*2.
Proof.
  apply (pipeline_reports_no_error (fun _ => true) Pipeline.failing_parser
           Pipeline.two_files Settings.medium).
  apply (bool_decide_unpack _). vm_compute. exact I.
Defined.

(** C7. [parse_pdfs] followed by [compare_content], on files with
    distinct names and whatever the parser returns: the run returns, and
    each file has the following entry in the per-file results.  When one
    of its paths is missing, the [except] branch of [parse_pdfs] stores an
    ["error"] payload for it and its entry is that payload alone.  When
    both paths are there, the file is compared as the two documents the
    parser returned, whether or not one of them records a parse failure
    under its own ["error"] key: its entry holds the lines of the text
    comparator and the notices on the image and font counts when there is
    any, and the file has no entry otherwise.  So the entry of a file
    whose parse failed is never an error payload; it holds difference
    records if it exists. *)
Theorem parse_failure_is_compared (parse_pdf : string -> document)
    (validated : Py.odict Pipeline.paths)
    (sensitivity_config : Settings.sensitivity) :
  NoDup validated.*1 ->
  let p := Pipeline.parse_pdfs parse_pdf validated in
  exists result,
    NeuroAgent.compare_content (Pipeline.parsed_content p) sensitivity_config
      = Py.Ok result
    /\ (forall (filename : string) (ps : Pipeline.paths),
          (filename, ps) ∈ validated ->
          match Pipeline.reference ps, Pipeline.new ps with
          | Some r, Some n =>
              let reference := parse_pdf r in
              let new := parse_pdf n in
              exists text_diff,
                TextComparator.compare (doc_text reference) (doc_text new)
                  (Settings.text sensitivity_config) = Py.Ok text_diff
                /\ let image_diff_count :=
                     Z.abs (Z.of_nat (length (doc_images reference))
                            - Z.of_nat (length (doc_images new))) in
                   let image_diff :=
                     if 0 <? image_diff_count
                     then [pretty image_diff_count +:+ " image(s) changed."]
                     else [] in
                   let font_diff_count :=
                     Z.abs (Z.of_nat (length (doc_fonts reference))
                            - Z.of_nat (length (doc_fonts new))) in
                   let font_diff :=
                     if 0 <? font_diff_count
                     then [pretty font_diff_count +:+ " font(s) changed."]
                     else [] in
                   Py.od_get filename (NeuroAgent.differences result)
                   = if 0 <? Z.of_nat (length text_diff + length image_diff
                                       + length font_diff)
                     then Some (NeuroAgent.Differences text_diff image_diff font_diff)
                     else None
          | None, _ =>
              Py.od_get filename (NeuroAgent.differences result)
              = Some (NeuroAgent.ErrorPayload "'reference'")
          | Some _, None =>
              Py.od_get filename (NeuroAgent.differences result)
              = Some (NeuroAgent.ErrorPayload "'new'")
          end)
    /\ (forall (filename : string) (ps : Pipeline.paths) (r n err : string),
          (filename, ps) ∈ validated ->
          Pipeline.reference ps = Some r -> Pipeline.new ps = Some n ->
          doc_error (parse_pdf r) = Some err \/ doc_error (parse_pdf n) = Some err ->
          forall payload,
            Py.od_get filename (NeuroAgent.differences result)
            <> Some (NeuroAgent.ErrorPayload payload)).
Proof.
  intros Hnd p.
  assert (Hparsed : Pipeline.parsed_content p
                    = (fun item => (item.1, Pipeline.parsed_file parse_pdf item.2))
                        <$> validated).
  { subst p. unfold Pipeline.parse_pdfs. cbn [Pipeline.parsed_content].
    rewrite (parse_files parse_pdf validated []); [reflexivity|exact Hnd]. }
  assert (Hkeys : (Pipeline.parsed_content p).*1 = validated.*1).
  { rewrite Hparsed, <- list_fmap_compose. reflexivity. }
  destruct (compare_content_entries sensitivity_config (Pipeline.parsed_content p))
    as (result & Hrun & Hentries).
  { rewrite Hkeys. exact Hnd. }
  assert (Hentry : forall filename ps, (filename, ps) ∈ validated ->
            Py.od_get filename (NeuroAgent.differences result)
            = Entries.file_entry sensitivity_config
                (Pipeline.parsed_file parse_pdf ps)).
  { intros filename ps Hin. apply Hentries. rewrite Hparsed.
    apply list_elem_of_fmap. exists (filename, ps). split; [reflexivity | exact Hin]. }
  assert (Hboth : forall ps r n,
            Pipeline.reference ps = Some r -> Pipeline.new ps = Some n ->
            exists text_diff,
              TextComparator.compare (doc_text (parse_pdf r)) (doc_text (parse_pdf n))
                (Settings.text sensitivity_config) = Py.Ok text_diff
              /\ Entries.file_entry sensitivity_config
                   (Pipeline.parsed_file parse_pdf ps)
                 = let image_diff_count :=
                     Z.abs (Z.of_nat (length (doc_images (parse_pdf r)))
                            - Z.of_nat (length (doc_images (parse_pdf n)))) in
                   let image_diff :=
                     if 0 <? image_diff_count
                     then [pretty image_diff_count +:+ " image(s) changed."]
                     else [] in
                   let font_diff_count :=
                     Z.abs (Z.of_nat (length (doc_fonts (parse_pdf r)))
                            - Z.of_nat (length (doc_fonts (parse_pdf n)))) in
                   let font_diff :=
                     if 0 <? font_diff_count
                     then [pretty font_diff_count +:+ " font(s) changed."]
                     else [] in
                   if 0 <? Z.of_nat (length text_diff + length image_diff
                                     + length font_diff)
                   then Some (NeuroAgent.Differences text_diff image_diff font_diff)
                   else None).
  { intros ps r n Hr Hn.
    destruct (compare_total (doc_text (parse_pdf r)) (doc_text (parse_pdf n))
                (Settings.text sensitivity_config)) as [text_diff Htext].
    exists text_diff. split; [exact Htext|].
    unfold Entries.file_entry, Pipeline.parsed_file, NeuroAgent.compare_file.
    rewrite Hr, Hn. cbn [NeuroAgent.c_error NeuroAgent.c_reference NeuroAgent.c_new
                         Py.getitem].
    res_step. rewrite Htext. res_step. reflexivity. }
  exists result. split; [exact Hrun|]. split.
  - intros filename ps Hin. rewrite (Hentry filename ps Hin).
    destruct (Pipeline.reference ps) as [r|] eqn:Hr.
    + destruct (Pipeline.new ps) as [n|] eqn:Hn.
      * destruct (Hboth ps r n Hr Hn) as (text_diff & Htext & Hfile).
        exists text_diff. split; [exact Htext | exact Hfile].
      * unfold Entries.file_entry, Pipeline.parsed_file. rewrite Hr, Hn. reflexivity.
    + unfold Entries.file_entry, Pipeline.parsed_file. rewrite Hr. reflexivity.
  - intros filename ps r n err Hin Hr Hn _ payload.
    rewrite (Hentry filename ps Hin).
    destruct (Hboth ps r n Hr Hn) as (text_diff & _ & ->). cbv zeta.
    match goal with |- (if ?c then _ else _) <> _ => destruct c end; discriminate.
Qed.

Lemma parse_failure_is_compared_witness :
  doc_error (Pipeline.half_failing_parser "ref/report.pdf")
    = Some "cannot open broken file"
  /\ (let p := Pipeline.parse_pdfs Pipeline.half_failing_parser Pipeline.one_file in
      exists result,
        NeuroAgent.compare_content (Pipeline.parsed_content p) Settings.medium
          = Py.Ok result
        /\ Py.od_get "report.pdf" (NeuroAgent.differences result)
           = Some (NeuroAgent.Differences
                     [ "On page 1, a new page was added.";
                       "On page 2, a new page was added." ]
                     [] [ "1 font(s) changed." ])
        /\ NeuroAgent.summary result
           = {| NeuroAgent.total_files := 1; NeuroAgent.files_with_changes := 1;
                NeuroAgent.total_changes := 3 |}).
Proof.
  split; [reflexivity|]. intros p.
  destruct (parse_failure_is_compared Pipeline.half_failing_parser
              Pipeline.one_file Settings.medium) as (result & Hrun & _ & _).
  { vm_compute. repeat constructor; intros Hin; inversion Hin. }
  exists result. split; [exact Hrun|].
  assert (Hvalue : NeuroAgent.compare_content (Pipeline.parsed_content p)
                     Settings.medium
                   = Py.Ok {| NeuroAgent.differences :=
                                [ ("report.pdf",
                                   NeuroAgent.Differences
                                     [ "On page 1, a new page was added.";
                                       "On page 2, a new page was added." ]
                                     [] [ "1 font(s) changed." ]) ];
                              NeuroAgent.summary :=
                                {| NeuroAgent.total_files := 1;
                                   NeuroAgent.files_with_changes := 1;
                                   NeuroAgent.total_changes := 3 |} |})
    by (vm_compute; reflexivity).
  fold p in Hrun. rewrite Hrun in Hvalue. injection Hvalue as ->.
  split; reflexivity.
Defined.

(** * What an opcode adds to the report *)

Section OpcodeReport.
Import TextComparator Report.

Lemma index_line (lines : list string) (i : nat) :
  (i < length lines)%nat -> Py.index lines i = Py.Ok (line lines i).
Proof.
  intros Hi. destruct (lookup_lt_is_Some_2 lines i Hi) as [x Hx].
  unfold Py.index, line. rewrite Hx. reflexivity.
Qed.

Lemma bind_Ok {X} (m : Py.res X) : Py.bind m Py.Ok = m.
Proof. destruct m; reflexivity. Qed.

Lemma foldM_first_only {X S} (body : S -> X -> Py.res S)
    (x : X) (xs : list X) (s : S) :
  (forall s y, y ∈ xs -> body s y = Py.Ok s) ->
  Py.foldM body (x :: xs) s = body s x.
Proof.
  intros Hrest. cbn [Py.foldM]. rewrite <- (bind_Ok (body s x)) at 2.
  destruct (body s x) as [s1|]; [|reflexivity]. cbn [Py.bind].
  apply foldM_unchanged. intros y Hy. apply Hrest, Hy.
Qed.

Lemma foldM_seq_first_only {S} (body : S -> nat -> Py.res S) (start len : nat) (s : S) :
  (forall s y, y <> start -> body s y = Py.Ok s) ->
  Py.foldM body (seq start len) s = if (0 <? len)%nat then body s start else Py.Ok s.
Proof.
  intros Hrest. destruct len as [|len]; [reflexivity|]. cbn [seq Nat.ltb Nat.leb].
  apply foldM_first_only. intros s0 y Hy. apply Hrest.
  apply elem_of_seq in Hy. lia.
Qed.

End OpcodeReport.

(** X27. What [compare] writes for one opcode whose ranges lie inside the
    two lists of lines: nothing for [equal]; for [replace] a single
    line, naming the first reference line and the first new line of the
    block however many lines it spans; for [delete] and [insert] one
    line for each removed or added line, in order. *)
Theorem report_opcode_lines (ref_lines new_lines : list string) (page_num : Z)
    (differences : list string) (op : Difflib.opcode) :
  (op.1.1.2 <= length ref_lines)%nat ->
  (op.2 <= length new_lines)%nat ->
  TextComparator.report_opcode ref_lines new_lines page_num differences op
  = Py.Ok (differences ++ Report.opcode_lines ref_lines new_lines page_num op).
Proof.
  destruct op as [[[[tag i1] i2] j1] j2]. cbn [fst snd]. intros Hi Hj.
  unfold TextComparator.report_opcode, Report.opcode_lines. destruct tag.
  - rewrite foldM_seq_first_only.
    2:{ intros s i Hne. apply foldM_unchanged. intros j _.
        destruct (Nat.eqb_spec i i1) as [->|_]; [contradiction|reflexivity]. }
    destruct (Nat.ltb_spec 0 (i2 - i1)) as [Hlen|Hlen].
    2:{ destruct (Nat.ltb_spec i1 i2); [lia|]. rewrite app_nil_r. reflexivity. }
    destruct (Nat.ltb_spec i1 i2) as [Hlt|]; [|lia]. cbn [andb].
    rewrite foldM_seq_first_only.
    2:{ intros s j Hne. rewrite Nat.eqb_refl. cbn [andb].
        destruct (Nat.eqb_spec j j1) as [->|_]; [contradiction|reflexivity]. }
    destruct (Nat.ltb_spec 0 (j2 - j1)) as [Hlen'|Hlen'].
    2:{ destruct (Nat.ltb_spec j1 j2); [lia|]. rewrite app_nil_r. reflexivity. }
    destruct (Nat.ltb_spec j1 j2) as [Hlt'|]; [|lia].
    rewrite !Nat.eqb_refl. cbn [andb].
    rewrite (index_line ref_lines i1) by lia. res_step.
    rewrite (index_line new_lines j1) by lia. res_step. reflexivity.
  - apply (foldM_notices _
             (fun i => TextComparator.removed_message page_num (i + 1)
                         (Report.line ref_lines i))).
    intros acc i Hin. apply elem_of_seq in Hin.
    rewrite (index_line ref_lines i) by lia. reflexivity.
  - apply (foldM_notices _
             (fun j => TextComparator.added_message page_num (j + 1)
                         (Report.line new_lines j))).
    intros acc j Hin. apply elem_of_seq in Hin.
    rewrite (index_line new_lines j) by lia. reflexivity.
  - rewrite app_nil_r. reflexivity.
Qed.

Lemma report_opcode_lines_witness :
  TextComparator.report_opcode ["a"; "b"; "c"] ["a"; "x"; "y"; "z"] 1 []
    (Difflib.Replace, 1, 3, 1, 4)%nat
  = Py.Ok ([] ++ Report.opcode_lines ["a"; "b"; "c"] ["a"; "x"; "y"; "z"] 1
                   (Difflib.Replace, 1, 3, 1, 4)%nat).
Proof.
  apply (report_opcode_lines ["a"; "b"; "c"] ["a"; "x"; "y"; "z"] 1 []
           (Difflib.Replace, 1, 3, 1, 4)%nat).
  - cbn. lia.
  - cbn. lia.
Defined.

Section EngineFontRecords.
Import ComparisonEngine EngineFonts.

Lemma od_comprehension_keys {X V} (key : X -> string) (val : X -> V) (xs : list X)
    (k : string) :
  k ∈ (Py.od_comprehension key val xs).*1 <-> k ∈ key <$> xs.
Proof.
  unfold Py.od_comprehension.
  assert (Hgen : forall acc : Py.odict V,
            k ∈ (fold_left (fun acc x => Py.od_set (key x) (val x) acc) xs acc).*1
            <-> k ∈ acc.*1 \/ k ∈ key <$> xs).
  { induction xs as [|x xs IH]; intros acc; cbn [fold_left].
    - cbn. split; [left; assumption | intros [H|H]; [exact H | inversion H]].
    - rewrite IH, fmap_cons, elem_of_cons.
      destruct (od_set_keys acc (key x) (val x)) as [[Hin ->]|[Hnin ->]].
      + split; [tauto|]. intros [H|[->|H]]; tauto.
      + rewrite elem_of_app, list_elem_of_singleton. tauto. }
  rewrite Hgen. cbn. split; [intros [H|H]; [inversion H | exact H] | right; assumption].
Qed.

Lemma od_elem_key {V} (d : Py.odict V) (k : string) (v : V) : (k, v) ∈ d -> k ∈ d.*1.
Proof. intros H. apply list_elem_of_fmap. exists (k, v). split; [reflexivity|exact H]. Qed.

Lemma od_get_Some_key {V} (d : Py.odict V) (k : string) (v : V) :
  Py.od_get k d = Some v -> k ∈ d.*1.
Proof. intros H. apply (od_elem_key d k v), od_get_Some_elem, H. Qed.

Lemma named_records (f : string * font -> list font_difference)
    (font_dict1 font_dict2 : Py.odict font) (fonts1 fonts2 : list font)
    (d : font_difference) :
  (forall k, k ∈ font_dict1.*1 -> k ∈ names fonts1) ->
  (forall k, k ∈ font_dict2.*1 -> k ∈ names fonts2) ->
  (forall kv, d ∈ f kv ->
     is_Some (Py.od_get kv.1 font_dict2)
     /\ (kv.1 ∈ names fonts1 -> kv.1 ∈ names fonts2 -> grounded fonts1 fonts2 d)) ->
  d ∈ flat_map f font_dict1 -> grounded fonts1 fonts2 d.
Proof.
  intros H1 H2 Hf Hin. apply elem_of_flat_map in Hin as ([k v] & Hd & Hkv).
  destruct (Hf _ Hd) as [[v2 Hget] Hg]. cbn [fst] in *. apply Hg.
  - apply H1, (od_elem_key _ _ _ Hkv).
  - apply H2, (od_get_Some_key _ _ _ Hget).
Qed.

End EngineFontRecords.

(** X28. Every record of [compare_fonts_detailed] is grounded in the two
    lists: a size, style or colour record names a font whose name
    occurs in both lists, so a font that only one list holds is never
    reported by name; and a family is reported as added (removed)
    exactly when a font of the new (reference) list has it and no font
    of the other list does, family checking being on. *)
Theorem engine_font_records (set_iter : gset string -> list string)
    (fonts1 fonts2 : list font) (config : Settings.font_config) :
  set_order set_iter ->
  (forall d,
     d ∈ ComparisonEngine.compare_fonts_detailed set_iter fonts1 fonts2 config ->
     EngineFonts.grounded fonts1 fonts2 d)
  /\ (default true (Settings.family_check config) = true ->
      forall family,
        (ComparisonEngine.AddedFamily family
           ∈ ComparisonEngine.compare_fonts_detailed set_iter fonts1 fonts2 config
         <-> family ∈ EngineFonts.families fonts2
             /\ family ∉ EngineFonts.families fonts1)
        /\ (ComparisonEngine.RemovedFamily family
              ∈ ComparisonEngine.compare_fonts_detailed set_iter fonts1 fonts2 config
            <-> family ∈ EngineFonts.families fonts1
                /\ family ∉ EngineFonts.families fonts2)).
Proof.
  intros Hiter.
  unfold ComparisonEngine.compare_fonts_detailed.
  set (tol := default 0.5%float (Settings.size_tolerance config)).
  set (d1 := Py.od_comprehension (fun f => default "" (f_name f)) id fonts1).
  set (d2 := Py.od_comprehension (fun f => default "" (f_name f)) id fonts2).
  set (fam1 := list_to_set ((fun f => default "" (f_family f)) <$> fonts1) : gset string).
  set (fam2 := list_to_set ((fun f => default "" (f_family f)) <$> fonts2) : gset string).
  assert (Hk1 : forall k, k ∈ d1.*1 -> k ∈ EngineFonts.names fonts1)
    by (intros k; apply od_comprehension_keys).
  assert (Hk2 : forall k, k ∈ d2.*1 -> k ∈ EngineFonts.names fonts2)
    by (intros k; apply od_comprehension_keys).
  assert (Hadded : forall family,
            family ∈ set_iter (fam2 ∖ fam1)
            <-> family ∈ EngineFonts.families fonts2
                /\ family ∉ EngineFonts.families fonts1).
  { intros family. rewrite (Hiter _), elem_of_elements, elem_of_difference.
    unfold fam1, fam2. rewrite !elem_of_list_to_set. reflexivity. }
  assert (Hremoved : forall family,
            family ∈ set_iter (fam1 ∖ fam2)
            <-> family ∈ EngineFonts.families fonts1
                /\ family ∉ EngineFonts.families fonts2).
  { intros family. rewrite (Hiter _), elem_of_elements, elem_of_difference.
    unfold fam1, fam2. rewrite !elem_of_list_to_set. reflexivity. }
  assert (Hsize : forall d, d ∈ ComparisonEngine.size_differences tol d1 d2 ->
            EngineFonts.grounded fonts1 fonts2 d).
  { intros d. apply (named_records _ d1 d2 fonts1 fonts2 d Hk1 Hk2).
    intros [k f1] Hd. cbn [fst snd] in *.
    destruct (Py.od_get k d2) as [f2|]; [|inversion Hd].
    split; [eexists; reflexivity|].
    destruct (Py.fgtb _ tol); [|inversion Hd].
    apply list_elem_of_singleton in Hd. subst d. cbn. auto. }
  assert (Hstyle : forall d, d ∈ ComparisonEngine.style_differences d1 d2 ->
            EngineFonts.grounded fonts1 fonts2 d).
  { intros d. apply (named_records _ d1 d2 fonts1 fonts2 d Hk1 Hk2).
    intros [k f1] Hd. cbn [fst snd] in *.
    destruct (Py.od_get k d2) as [f2|]; [|inversion Hd].
    split; [eexists; reflexivity|].
    destruct (bool_decide _); [|inversion Hd].
    apply list_elem_of_singleton in Hd. subst d. cbn. auto. }
  assert (Hcolor : forall d, d ∈ ComparisonEngine.color_differences d1 d2 ->
            EngineFonts.grounded fonts1 fonts2 d).
  { intros d. apply (named_records _ d1 d2 fonts1 fonts2 d Hk1 Hk2).
    intros [k f1] Hd. cbn [fst snd] in *.
    destruct (Py.od_get k d2) as [f2|]; [|inversion Hd].
    split; [eexists; reflexivity|].
    destruct (bool_decide _); [|inversion Hd].
    apply list_elem_of_singleton in Hd. subst d. cbn. auto. }
  assert (Hfamily : forall d,
            d ∈ (ComparisonEngine.AddedFamily <$> set_iter (fam2 ∖ fam1))
                ++ (ComparisonEngine.RemovedFamily <$> set_iter (fam1 ∖ fam2)) ->
            EngineFonts.grounded fonts1 fonts2 d).
  { intros d Hd. apply elem_of_app in Hd as [Hd|Hd];
      apply list_elem_of_fmap in Hd as (family & -> & Hin); cbn.
    - apply Hadded, Hin.
    - apply Hremoved, Hin. }
  assert (Hnamed : forall family d,
            d ∈ ComparisonEngine.size_differences tol d1 d2
            \/ d ∈ ComparisonEngine.style_differences d1 d2
            \/ d ∈ ComparisonEngine.color_differences d1 d2 ->
            d <> ComparisonEngine.AddedFamily family
            /\ d <> ComparisonEngine.RemovedFamily family).
  { intros family d Hd.
    assert (Hflat : forall (f : string * font -> list ComparisonEngine.font_difference),
              (forall kv x, x ∈ f kv ->
                 x <> ComparisonEngine.AddedFamily family
                 /\ x <> ComparisonEngine.RemovedFamily family) ->
              d ∈ flat_map f d1 ->
              d <> ComparisonEngine.AddedFamily family
              /\ d <> ComparisonEngine.RemovedFamily family).
    { intros f Hf Hin. apply elem_of_flat_map in Hin as (kv & Hx & _).
      apply (Hf kv d Hx). }
    destruct Hd as [Hd|[Hd|Hd]]; revert Hd; apply Hflat; intros [k f1] x Hx;
      cbn [fst snd] in Hx;
      (destruct (Py.od_get k d2) as [f2|]; [|inversion Hx]);
      match type of Hx with
      | _ ∈ (if ?c then _ else _) => destruct c; [|inversion Hx]
      end;
      apply list_elem_of_singleton in Hx; subst x; split; discriminate. }
  split.
  - intros d Hd.
    destruct (default true (Settings.family_check config)),
      (default true (Settings.style_check config)),
      (default false (Settings.color_check config));
      repeat (apply elem_of_app in Hd as [Hd|Hd]);
      first [ apply Hsize, Hd | apply Hstyle, Hd | apply Hcolor, Hd
            | apply Hfamily, elem_of_app; left; exact Hd
            | apply Hfamily, elem_of_app; right; exact Hd
            | inversion Hd ].
  - intros Hcheck family. rewrite Hcheck.
    set (named := ComparisonEngine.size_differences tol d1 d2
                  ++ (if default true (Settings.style_check config)
                      then ComparisonEngine.style_differences d1 d2 else [])
                  ++ (if default false (Settings.color_check config)
                      then ComparisonEngine.color_differences d1 d2 else [])).
    assert (Hshape :
      (if default false (Settings.color_check config)
       then (if default true (Settings.style_check config)
             then (((ComparisonEngine.AddedFamily <$> set_iter (fam2 ∖ fam1))
                    ++ (ComparisonEngine.RemovedFamily <$> set_iter (fam1 ∖ fam2)))
                   ++ ComparisonEngine.size_differences tol d1 d2)
                  ++ ComparisonEngine.style_differences d1 d2
             else ((ComparisonEngine.AddedFamily <$> set_iter (fam2 ∖ fam1))
                   ++ (ComparisonEngine.RemovedFamily <$> set_iter (fam1 ∖ fam2)))
                  ++ ComparisonEngine.size_differences tol d1 d2)
            ++ ComparisonEngine.color_differences d1 d2
       else if default true (Settings.style_check config)
            then (((ComparisonEngine.AddedFamily <$> set_iter (fam2 ∖ fam1))
                   ++ (ComparisonEngine.RemovedFamily <$> set_iter (fam1 ∖ fam2)))
                  ++ ComparisonEngine.size_differences tol d1 d2)
                 ++ ComparisonEngine.style_differences d1 d2
            else ((ComparisonEngine.AddedFamily <$> set_iter (fam2 ∖ fam1))
                  ++ (ComparisonEngine.RemovedFamily <$> set_iter (fam1 ∖ fam2)))
                 ++ ComparisonEngine.size_differences tol d1 d2)
      = (ComparisonEngine.AddedFamily <$> set_iter (fam2 ∖ fam1))
        ++ (ComparisonEngine.RemovedFamily <$> set_iter (fam1 ∖ fam2))
        ++ named).
    { subst named.
      destruct (default true (Settings.style_check config)),
        (default false (Settings.color_check config));
        rewrite <- ?app_assoc, ?app_nil_r; reflexivity. }
    rewrite Hshape.
    assert (Hnot : forall d, d ∈ named ->
              d <> ComparisonEngine.AddedFamily family
              /\ d <> ComparisonEngine.RemovedFamily family).
    { intros d Hd. apply (Hnamed family d). subst named.
      apply elem_of_app in Hd as [Hd|Hd]; [left; exact Hd|].
      apply elem_of_app in Hd as [Hd|Hd].
      - destruct (default true (Settings.style_check config)); [|inversion Hd].
        right. left. exact Hd.
      - destruct (default false (Settings.color_check config)); [|inversion Hd].
        right. right. exact Hd. }
    split.
    + rewrite <- Hadded. split.
      * intros Hin. apply elem_of_app in Hin as [Hin|Hin].
        -- apply list_elem_of_fmap in Hin as (x & [= ->] & Hx). exact Hx.
        -- apply elem_of_app in Hin as [Hin|Hin].
           ++ apply list_elem_of_fmap in Hin as (x & [=] & _).
           ++ destruct (Hnot _ Hin) as [Hne _]. contradiction Hne. reflexivity.
      * intros Hin. apply elem_of_app. left. apply list_elem_of_fmap.
        exists family. split; [reflexivity|exact Hin].
    + rewrite <- Hremoved. split.
      * intros Hin. apply elem_of_app in Hin as [Hin|Hin].
        -- apply list_elem_of_fmap in Hin as (x & [=] & _).
        -- apply elem_of_app in Hin as [Hin|Hin].
           ++ apply list_elem_of_fmap in Hin as (x & [= ->] & Hx). exact Hx.
           ++ destruct (Hnot _ Hin) as [_ Hne]. contradiction Hne. reflexivity.
      * intros Hin. apply elem_of_app. right. apply elem_of_app. left.
        apply list_elem_of_fmap. exists family. split; [reflexivity|exact Hin].
Qed.

Lemma engine_font_records_witness :
  (forall d,
     d ∈ ComparisonEngine.compare_fonts_detailed elements [Sample.arial 10]
           [Sample.arial 12; EngineFonts.times] (Sample.tolerance 0.5) ->
     EngineFonts.grounded [Sample.arial 10] [Sample.arial 12; EngineFonts.times] d)
  /\ (default true (Settings.family_check (Sample.tolerance 0.5)) = true ->
      forall family,
        (ComparisonEngine.AddedFamily family
           ∈ ComparisonEngine.compare_fonts_detailed elements [Sample.arial 10]
               [Sample.arial 12; EngineFonts.times] (Sample.tolerance 0.5)
         <-> family ∈ EngineFonts.families [Sample.arial 12; EngineFonts.times]
             /\ family ∉ EngineFonts.families [Sample.arial 10])
        /\ (ComparisonEngine.RemovedFamily family
              ∈ ComparisonEngine.compare_fonts_detailed elements [Sample.arial 10]
                  [Sample.arial 12; EngineFonts.times] (Sample.tolerance 0.5)
            <-> family ∈ EngineFonts.families [Sample.arial 10]
                /\ family ∉ EngineFonts.families [Sample.arial 12; EngineFonts.times])).
Proof.
  apply (engine_font_records elements [Sample.arial 10]
           [Sample.arial 12; EngineFonts.times] (Sample.tolerance 0.5)).
  intros s. reflexivity.
Defined.
